(** * bffnt.py: a BFFNT font container reader/writer, embedded in Rocq

    The development follows the layout of [src/bffnt.py]:
    - [Py]: the few Python built-ins the program relies on (exceptions,
      slices, indexing, [struct], [int(float)]);
    - the [Format] enum and the pixel codec ([_get_pixel_data],
      [_get_tglp_pixel_data]);
    - the tile traversal [visit_pixels] and the two sheet converters;
    - the ETC1 block decoder;
    - the container reader [read] with its section parsers, run against a
      store that holds the class-level attributes of [Bffnt];
    - the CWDH/CMAP part of the writer [save].

    Integers are Python integers (unbounded), hence [Z]; [bytes] objects are
    lists of [byte]; Python lists of integers are lists of [Z]. *)

From Stdlib Require Import ZArith List Lia Bool Strings.Byte Floats Uint63.
From stdpp Require Import base option list numbers list_numbers sorting gmap.

Local Open Scope Z_scope.

(** ** Python built-ins *)

Module Py.

(** The exceptions the modelled code can raise. *)
Inductive exn : Set :=
| StructError      (* struct.error: buffer of the wrong size, value out of range *)
| ValueError       (* Format(n) on an unknown tag, math domain error *)
| IndexError       (* list index out of range *)
| KeyError         (* missing dict key *)
| AssertionError.  (* assert_never *)

(** Outcome of a call: a value, a raised exception, or a loop that was
    still running when the fuel given to it ran out. *)
Inductive res (A : Type) : Type :=
| Ok (a : A)
| Raise (e : exn)
| OutOfFuel.
Arguments Ok {A} a.
Arguments Raise {A} e.
Arguments OutOfFuel {A}.

#[global] Instance res_ret : MRet res := @Ok.
#[global] Instance res_bind : MBind res := λ A B f m,
  match m with
  | Ok a => f a
  | Raise e => Raise e
  | OutOfFuel => OutOfFuel
  end.

#[global] Instance exn_eq_dec : EqDecision exn.
Proof. solve_decision. Defined.

#[global] Instance res_eq_dec {A} `{EqDecision A} : EqDecision (res A).
Proof. solve_decision. Defined.

Definition of_option {A} (e : exn) (o : option A) : res A :=
  match o with Some a => Ok a | None => Raise e end.

(** [len(l)] *)
Definition len {A} (l : list A) : Z := Z.of_nat (length l).

(** A slice bound as Python normalises it: negative bounds count from the
    end, and everything is clamped to [0, len]. *)
Definition slice_bound (n i : Z) : Z :=
  if bool_decide (i < 0) then Z.max 0 (i + n) else Z.min i n.

(** [l[lo:hi]] *)
Definition slice {A} (l : list A) (lo hi : Z) : list A :=
  let a := slice_bound (len l) lo in
  let b := slice_bound (len l) hi in
  take (Z.to_nat (b - a)) (drop (Z.to_nat a) l).

(** [l[lo:hi] = v] on a list: the slice is replaced by [v], whatever the
    two lengths. *)
Definition slice_assign {A} (l : list A) (lo hi : Z) (v : list A) : list A :=
  let a := slice_bound (len l) lo in
  let b := slice_bound (len l) hi in
  take (Z.to_nat a) l ++ v ++ drop (Z.to_nat (Z.max a b)) l.

(** The position [l[i]] denotes, when there is one. *)
Definition index_pos {A} (l : list A) (i : Z) : option nat :=
  let j := if bool_decide (i < 0) then i + len l else i in
  if bool_decide (0 ≤ j < len l) then Some (Z.to_nat j) else None.

(** [l[i]] *)
Definition index {A} (l : list A) (i : Z) : res A :=
  of_option IndexError (index_pos l i ≫= λ j, l !! j).

(** [l[i] = x] *)
Definition index_assign {A} (l : list A) (i : Z) (x : A) : res (list A) :=
  of_option IndexError ((λ j, <[j:=x]> l) <$> index_pos l i).

(** [range(n)] *)
Definition range (n : Z) : list Z := seqZ 0 n.

(** [for x in xs: s = body(x, s)], stopping at the first exception. *)
Fixpoint for_each {A S} (xs : list A) (body : A → S → res S) (s : S) : res S :=
  match xs with
  | [] => Ok s
  | x :: xs' => s' ← body x s; for_each xs' body s'
  end.

(** *** Floats: [int * float], [float + float] and [int(float)] *)

(** An [int] operand of a float operation is converted first; the
    conversion is exact below 2^53, which covers every pixel channel. *)
Definition float_of_int (z : Z) : float :=
  if z <? 0 then PrimFloat.opp (PrimFloat.of_uint63 (Uint63.of_Z (- z)))
  else PrimFloat.of_uint63 (Uint63.of_Z z).

(** [int(f)]: truncation towards zero; NaN and infinities raise. *)
Definition int_of_float (f : float) : res Z :=
  match Prim2SF f with
  | S754_zero _ => Ok 0
  | S754_finite s m e =>
      let mag := if 0 <=? e then Z.pos m * 2 ^ e else Z.pos m / 2 ^ (- e) in
      Ok (if s then - mag else mag)
  | _ => Raise ValueError
  end.

End Py.
Import Py.

(** ** [struct]: fixed-width fields in a chosen byte order *)

Module Struct.

(** The two orders [Bffnt.order] can hold: ['<'] and ['>']. *)
Inductive byte_order : Set := Little | Big.

#[global] Instance byte_eq_dec : EqDecision byte := Byte.byte_eq_dec.

Definition u8 (b : byte) : Z := Z.of_N (Byte.to_N b).

(** Format ['b']: one signed byte. *)
Definition s8 (b : byte) : Z := if u8 b <? 128 then u8 b else u8 b - 256.

Definition le_uint (bs : list byte) : Z := foldr (λ b acc, u8 b + 256 * acc) 0 bs.

Definition uint (o : byte_order) (bs : list byte) : Z :=
  match o with
  | Little => le_uint bs
  | Big => le_uint (reverse bs)
  end.

(** A reader of one or more fields from the front of a buffer. *)
Definition unpacker (A : Type) : Type := list byte → option (A * list byte).

#[global] Instance unpacker_ret : MRet unpacker := λ A a bs, Some (a, bs).
#[global] Instance unpacker_bind : MBind unpacker := λ A B f m bs,
  match m bs with
  | Some (a, rest) => f a rest
  | None => None
  end.

(** [n] raw bytes (format ['4s'] for [n = 4]). *)
Definition raw (n : nat) : unpacker (list byte) := λ bs,
  if decide (n ≤ length bs)%nat then Some (take n bs, drop n bs) else None.

Definition fB : unpacker Z := b ← raw 1; mret (le_uint b).
Definition fb : unpacker Z :=
  b ← raw 1; mret (match b with [x] => s8 x | _ => 0 end).
Definition fH (o : byte_order) : unpacker Z := b ← raw 2; mret (uint o b).
Definition fI (o : byte_order) : unpacker Z := b ← raw 4; mret (uint o b).
Definition fQ (o : byte_order) : unpacker Z := b ← raw 8; mret (uint o b).

(** [struct.unpack(fmt, data)]: the buffer must hold exactly the fields of
    the format, otherwise [struct.error]. *)
Definition unpack {A} (p : unpacker A) (data : list byte) : res A :=
  match p data with
  | Some (a, []) => Ok a
  | _ => Raise StructError
  end.

(** [struct.unpack_from(fmt, data, offset)]: the buffer may be longer. *)
Definition unpack_from {A} (p : unpacker A) (data : list byte) (offset : Z) : res A :=
  match index_pos data offset with
  | Some j => match p (drop j data) with
              | Some (a, _) => Ok a
              | None => Raise StructError
              end
  | None => Raise StructError
  end.

(** Packing: a value that does not fit its field raises [struct.error]. *)
Definition byte_of (z : Z) : option byte :=
  if bool_decide (0 ≤ z < 256) then Byte.of_N (Z.to_N z) else None.

Definition pack_B (z : Z) : res (list byte) :=
  of_option StructError ((λ b, [b]) <$> byte_of z).

Definition pack_b (z : Z) : res (list byte) :=
  if bool_decide (-128 ≤ z < 128)
  then of_option StructError ((λ b, [b]) <$> byte_of (z mod 256))
  else Raise StructError.

Fixpoint le_bytes (n : nat) (z : Z) : list byte :=
  match n with
  | O => []
  | S n' => default "000"%byte (byte_of (z mod 256)) :: le_bytes n' (z / 256)
  end.

Definition pack_uint (o : byte_order) (n : nat) (z : Z) : res (list byte) :=
  if bool_decide (0 ≤ z < 256 ^ Z.of_nat n)
  then Ok (match o with Little => le_bytes n z | Big => reverse (le_bytes n z) end)
  else Raise StructError.

Definition pack_H (o : byte_order) := pack_uint o 2.
Definition pack_I (o : byte_order) := pack_uint o 4.

(** [struct.pack('%dB' % len(xs), *xs)] *)
Fixpoint pack_Bs (xs : list Z) : res (list byte) :=
  match xs with
  | [] => Ok []
  | x :: xs' => b ← pack_B x; bs ← pack_Bs xs'; mret (b ++ bs)
  end.

End Struct.
Import Struct.

(** ** Pixel formats *)

Inductive Format : Set :=
| RGBA8 | RGB8 | RGBA5551 | RGB565 | RGBA4 | LA8 | HILO8
| L8 | A8 | LA4 | L4 | A4 | ETC1 | ETC1A4.

#[global] Instance Format_eq_dec : EqDecision Format.
Proof. solve_decision. Defined.

(** [Format.value] *)
Definition Format_value (f : Format) : Z :=
  match f with
  | RGBA8 => 0x00 | RGB8 => 0x01 | RGBA5551 => 0x02 | RGB565 => 0x03
  | RGBA4 => 0x04 | LA8 => 0x05 | HILO8 => 0x06 | L8 => 0x07
  | A8 => 0x08 | LA4 => 0x09 | L4 => 0x0A | A4 => 0x0B
  | ETC1 => 0x0C | ETC1A4 => 0x0D
  end.

(** [Format(n)]: [ValueError] on a tag the enum does not have. *)
Definition Format_of_value (n : Z) : res Format :=
  match n with
  | 0x00 => Ok RGBA8 | 0x01 => Ok RGB8 | 0x02 => Ok RGBA5551 | 0x03 => Ok RGB565
  | 0x04 => Ok RGBA4 | 0x05 => Ok LA8 | 0x06 => Ok HILO8 | 0x07 => Ok L8
  | 0x08 => Ok A8 | 0x09 => Ok LA4 | 0x0A => Ok L4 | 0x0B => Ok A4
  | 0x0C => Ok ETC1 | 0x0D => Ok ETC1A4
  | _ => Raise ValueError
  end.

(** Bits per pixel (per 4x4 block for the two ETC1 formats). *)
Definition format_size (f : Format) : Z :=
  match f with
  | RGBA8 => 32
  | RGB8 => 24
  | RGBA5551 => 16
  | RGB565 => 16
  | RGBA4 => 16
  | LA8 => 16
  | HILO8 => 16
  | L8 => 8
  | A8 => 8
  | LA4 => 8
  | L4 => 4
  | A4 => 4
  | ETC1 => 64
  | ETC1A4 => 128
  end.

(** An RGBA8 pixel: [(red, green, blue, alpha)]. *)
Definition pixel : Set := Z * Z * Z * Z.

(** ** Pixel codec *)

Definition unpack_2B (data : list byte) : res (Z * Z) :=
  unpack (b1 ← fB; b2 ← fB; mret (b1, b2)) data.

(** Decode the pixel stored at slot [index] of [data]. *)
Definition _get_pixel_data (format_ : Format) (data : list byte) (index : Z) : res pixel :=
  match format_ with
  | RGBA8 =>
      unpack (r ← fB; g ← fB; b ← fB; a ← fB; mret (r, g, b, a))
        (slice data (index * 4) (index * 4 + 4))
  | RGB8 =>
      '(red, green, blue) ← unpack (r ← fB; g ← fB; b ← fB; mret (r, g, b))
                               (slice data (index * 3) (index * 3 + 3));
      mret (red, green, blue, 255)
  | RGBA5551 =>
      '(b1, b2) ← unpack_2B (slice data (index * 2) (index * 2 + 2));
      let red := Z.land (Z.shiftr b1 3) 0x1F in
      let green := Z.lor (Z.land b1 0x07) (Z.land (Z.shiftr b2 6) 0x03) in
      let blue := Z.land (Z.shiftr b2 1) 0x1F in
      let alpha := Z.land b2 0x01 * 255 in
      mret (red, green, blue, alpha)
  | RGB565 =>
      '(b1, b2) ← unpack_2B (slice data (index * 2) (index * 2 + 2));
      let red := Z.land (Z.shiftr b1 3) 0x1F in
      let green := Z.lor (Z.land b1 0x7) (Z.land (Z.shiftr b2 5) 0x7) in
      let blue := Z.land b2 0x1F in
      mret (red, green, blue, 255)
  | RGBA4 =>
      '(b1, b2) ← unpack_2B (slice data (index * 2) (index * 2 + 2));
      let red := Z.land (Z.shiftr b1 4) 0x0F * 0x11 in
      let alpha := Z.land b1 0x0F * 0x11 in
      let blue := Z.land (Z.shiftr b2 4) 0x0F * 0x11 in
      let green := Z.land b2 0x0F * 0x11 in
      mret (red, green, blue, alpha)
  | LA8 =>
      '(l, alpha) ← unpack_2B (slice data (index * 2) (index * 2 + 2));
      mret (l, l, l, alpha)
  | HILO8 => mret (0, 0, 0, 0)
  | L8 =>
      l ← unpack fB (slice data index (index + 1));
      mret (l, l, l, 255)
  | A8 =>
      alpha ← unpack fB (slice data index (index + 1));
      mret (255, 255, 255, alpha)
  | LA4 =>
      la ← unpack fB (slice data index (index + 1));
      let l := Z.land (Z.shiftr la 4) 0x0F * 0x11 in
      mret (l, l, l, Z.land la 0x0F * 0x11)
  | L4 =>
      l ← Py.index data (index / 2);
      let l := u8 l in
      let l := if Z.land index 1 =? 1 then Z.shiftr l 4 else l in
      let l := Z.land l 0x0F in
      mret (l * 0x11, l * 0x11, l * 0x11, 255)
  | A4 =>
      a ← Py.index data (index / 2);
      let a := u8 a in
      let a := if Z.land index 1 =? 1 then Z.shiftr a 4 else a in
      let a := Z.land a 0x0F in
      mret (0xFF, 0xFF, 0xFF, a * 0x11)
  | ETC1 | ETC1A4 => mret (0, 0, 0, 0)
  end.

(** [int((red * 0.2126) + (green * 0.7152) + (blue * 0.0722))], in
    binary64 arithmetic.  The three literals are the doubles nearest to
    0.2126, 0.7152 and 0.0722. *)
Definition luma (red green blue : Z) : res Z :=
  int_of_float
    (float_of_int red * 0x1.b367a0f9096bcp-3
     + float_of_int green * 0x1.6e2eb1c432ca5p-1
     + float_of_int blue * 0x1.27bb2fec56d5dp-4)%float.

(** Encode pixel [index] of [bmp]: the list of byte values of its slot. *)
Definition _get_tglp_pixel_data (bmp : list pixel) (index : Z) (format_ : Format)
  : res (list Z) :=
  '(red, green, blue, alpha) ← Py.index bmp index;
  match format_ with
  | RGBA8 => mret [red; green; blue; alpha]
  | RGB8 => mret [red; green; blue]
  | RGBA5551 =>
      let r5 := Z.land (red / 8) 0x1F in
      let g5 := Z.land (green / 8) 0x1F in
      let b5 := Z.land (blue / 8) 0x1F in
      let a := if 0 <? alpha then 1 else 0 in
      let b1 := Z.lor (Z.shiftl r5 3) (Z.shiftr g5 2) in
      let b2 := Z.land (Z.lor (Z.lor (Z.shiftl g5 6) (Z.shiftl b5 1)) a) 0xFF in
      mret [b1; b2]
  | RGB565 =>
      let r5 := Z.land (red / 8) 0x1F in
      let g6 := Z.land (green / 4) 0x3F in
      let b5 := Z.land (blue / 8) 0x1F in
      let b1 := Z.lor (Z.shiftl r5 3) (Z.shiftr g6 3) in
      let b2 := Z.land (Z.lor (Z.shiftl g6 5) b5) 0xFF in
      mret [b1; b2]
  | RGBA4 =>
      let r4 := Z.land (red / 0x11) 0x0F in
      let g4 := Z.land (green / 0x11) 0x0F in
      let b4 := Z.land (blue / 0x11) 0x0F in
      let a4 := Z.land (alpha / 0x11) 0x0F in
      let b1 := Z.lor (Z.shiftl r4 4) g4 in
      let b2 := Z.lor (Z.shiftl b4 4) a4 in
      mret [b1; b2]
  | LA8 =>
      l ← luma red green blue;
      mret [l; alpha]
  | HILO8 => Raise AssertionError
  | L8 =>
      l ← luma red green blue;
      mret [l]
  | A8 => mret [alpha]
  | LA4 =>
      l ← luma red green blue;
      let l := l / 0x11 in
      let a := Z.land (alpha / 0x11) 0x0F in
      mret [Z.lor (Z.shiftl l 4) a]
  | L4 =>
      l ← luma red green blue;
      let shift := Z.land index 1 * 4 in
      mret [Z.shiftl l shift]
  | A4 =>
      let alpha := Z.land (alpha / 0x11) 0xF in
      let shift := Z.land index 1 * 4 in
      mret [Z.shiftl alpha shift]
  | ETC1 | ETC1A4 => Raise AssertionError
  end.

(** ** Tile traversal *)

(** The pairs [(bmp_pos, sheet_data_pos)] in the order the eight nested
    loops of [visit_pixels] produce them, before the two length guards. *)
Definition visit_order (width height : Z) : list (Z * Z) :=
  let tile_width := width / 8 in
  let tile_height := height / 8 in
  tile_y ← range tile_height;
  tile_x ← range tile_width;
  y ← range 2;
  x ← range 2;
  y2 ← range 2;
  x2 ← range 2;
  y3 ← range 2;
  x3 ← range 2;
  let pixel_x := x3 + x2 * 2 + x * 4 + tile_x * 8 in
  let pixel_y := y3 + y2 * 2 + y * 4 + tile_y * 8 in
  let data_x := x3 + x2 * 4 + x * 16 + tile_x * 64 in
  let data_y := y3 * 2 + y2 * 8 + y * 32 + tile_y * width * 8 in
  let sheet_data_pos := data_x + data_y in
  let bmp_pos := pixel_x + pixel_y * width in
  [(bmp_pos, sheet_data_pos)].

(** The two [continue] guards: the visitor runs unless the pixel falls
    outside the bitmap or its slot starts outside the sheet buffer. *)
Definition visit_guard (format_ : Format) (len_bmp len_sheet_data : Z)
    (bmp_pos sheet_data_pos : Z) : bool :=
  negb (len_bmp <=? bmp_pos)
  && negb (len_sheet_data <=? sheet_data_pos * format_size format_ / 8).

Definition visit_pixels {B D}
    (vistor : Format → list B → Z → list D → Z → res (list B * list D))
    (width height : Z) (format_ : Format)
    (bmp : list B) (sheet_data : list D) : res (list B * list D) :=
  for_each (visit_order width height)
    (λ '(bmp_pos, sheet_data_pos) '(bmp, sheet_data),
       if visit_guard format_ (len bmp) (len sheet_data) bmp_pos sheet_data_pos
       then vistor format_ bmp bmp_pos sheet_data sheet_data_pos
       else Ok (bmp, sheet_data))
    (bmp, sheet_data).

(** [1 << int(math.ceil(math.log(n, 2)))].  [math.log] raises on 0; on the
    16-bit sizes a texture header can hold, the quotient of logarithms is
    taken to be exact at powers of two, so the result is the least power
    of two not below [n]. *)
Definition round_up_pow2 (n : Z) : res Z :=
  if n <=? 0 then Raise ValueError else Ok (Z.shiftl 1 (Z.log2_up n)).

(** ** Sheet assembly *)

Definition _sheet_to_bitmap (sheet_width sheet_height : Z) (format_ : Format)
    (sheet_data : list byte) : res (list pixel) :=
  width ← round_up_pow2 sheet_width;
  height ← round_up_pow2 sheet_height;
  let bmp := replicate (Z.to_nat (width * height)) (0, 0, 0, 0) in
  let vistor format bmp bmp_pos sheet_data sheet_data_pos :=
    px ← _get_pixel_data format sheet_data sheet_data_pos;
    bmp' ← index_assign bmp bmp_pos px;
    mret (bmp', sheet_data) in
  r ← visit_pixels vistor width height format_ bmp sheet_data;
  mret r.1.

(** The visitor of [_bitmap_to_sheet]: fragments of several bytes are
    stored by slice assignment at [sheet_data_pos]; a one-byte fragment is
    OR-ed into its byte, which 4-bit formats share between two pixels. *)
Definition bitmap_to_sheet_vistor (format_ : Format)
    (bmp : list pixel) (bmp_pos : Z) (sheet_data : list Z) (sheet_data_pos : Z)
  : res (list pixel * list Z) :=
  bytes_ ← _get_tglp_pixel_data bmp bmp_pos format_;
  if 1 <? len bytes_ then
    mret (bmp, slice_assign sheet_data sheet_data_pos (sheet_data_pos + len bytes_) bytes_)
  else
    let sheet_data_pos :=
      if format_size format_ =? 4 then sheet_data_pos / 2 else sheet_data_pos in
    old ← Py.index sheet_data sheet_data_pos;
    b0 ← Py.index bytes_ 0;
    sheet_data' ← index_assign sheet_data sheet_data_pos (Z.lor old b0);
    mret (bmp, sheet_data').

Definition _bitmap_to_sheet (sheet_width sheet_height : Z) (format_ : Format)
    (sheet_size : Z) (bmp : list pixel) : res (list Z) :=
  width ← round_up_pow2 sheet_width;
  height ← round_up_pow2 sheet_height;
  let sheet_data := replicate (Z.to_nat sheet_size) 0 in
  r ← visit_pixels (λ _, bitmap_to_sheet_vistor format_) width height format_ bmp sheet_data;
  mret r.2.

(** ** ETC1 block decoder *)

Definition ETC_INDIV_RED1_OFFSET := 60.
Definition ETC_INDIV_GREEN1_OFFSET := 52.
Definition ETC_INDIV_BLUE1_OFFSET := 44.
Definition ETC_DIFF_RED1_OFFSET := 59.
Definition ETC_DIFF_GREEN1_OFFSET := 51.
Definition ETC_DIFF_BLUE_OFFSET := 43.
Definition ETC_RED2_OFFSET := 56.
Definition ETC_GREEN2_OFFSET := 48.
Definition ETC_BLUE2_OFFSET := 40.
Definition ETC_TABLE1_OFFSET := 37.
Definition ETC_TABLE2_OFFSET := 34.
Definition ETC_DIFFERENTIAL_BIT := 33.
Definition ETC_ORIENTATION_BIT := 32.

Definition ETC_MODIFIERS : list (Z * Z) :=
  [(2, 8); (5, 17); (9, 29); (13, 42); (18, 60); (24, 80); (33, 106); (47, 183)].

Definition _complement (input_ bits : Z) : Z :=
  if Z.shiftr input_ (bits - 1) =? 0 then input_ else input_ - Z.shiftl 1 bits.

(** The two base colours of a 64-bit colour block. *)
Definition etc1_base_colors (pixels : Z) : (Z * Z * Z) * (Z * Z * Z) :=
  let differential := Z.land (Z.shiftr pixels ETC_DIFFERENTIAL_BIT) 0x01 =? 1 in
  if differential then
    let r := Z.land (Z.shiftr pixels ETC_DIFF_RED1_OFFSET) 0x1F in
    let g := Z.land (Z.shiftr pixels ETC_DIFF_GREEN1_OFFSET) 0x1F in
    let b := Z.land (Z.shiftr pixels ETC_DIFF_BLUE_OFFSET) 0x1F in
    let color1 :=
      (Z.lor (Z.shiftl r 3) (Z.land (Z.shiftr r 2) 0x07),
       Z.lor (Z.shiftl g 3) (Z.land (Z.shiftr g 2) 0x07),
       Z.lor (Z.shiftl b 3) (Z.land (Z.shiftr b 2) 0x07)) in
    let r := r + _complement (Z.land (Z.shiftr pixels ETC_RED2_OFFSET) 0x07) 3 in
    let g := g + _complement (Z.land (Z.shiftr pixels ETC_GREEN2_OFFSET) 0x07) 3 in
    let b := b + _complement (Z.land (Z.shiftr pixels ETC_BLUE2_OFFSET) 0x07) 3 in
    let color2 :=
      (Z.lor (Z.shiftl r 3) (Z.land (Z.shiftr r 2) 0x07),
       Z.lor (Z.shiftl g 3) (Z.land (Z.shiftr g 2) 0x07),
       Z.lor (Z.shiftl b 3) (Z.land (Z.shiftr b 2) 0x07)) in
    (color1, color2)
  else
    let color1 :=
      (Z.land (Z.shiftr pixels ETC_INDIV_RED1_OFFSET) 0x0F * 0x11,
       Z.land (Z.shiftr pixels ETC_INDIV_GREEN1_OFFSET) 0x0F * 0x11,
       Z.land (Z.shiftr pixels ETC_INDIV_BLUE1_OFFSET) 0x0F * 0x11) in
    let color2 :=
      (Z.land (Z.shiftr pixels ETC_RED2_OFFSET) 0x0F * 0x11,
       Z.land (Z.shiftr pixels ETC_GREEN2_OFFSET) 0x0F * 0x11,
       Z.land (Z.shiftr pixels ETC_BLUE2_OFFSET) 0x0F * 0x11) in
    (color1, color2).

(** Pixel [(pixel_x, pixel_y)] of a 4x4 block. *)
Definition etc1_block_pixel (pixels alphas : Z) (pixel_x pixel_y : Z) : pixel :=
  let horizontal := Z.land (Z.shiftr pixels ETC_ORIENTATION_BIT) 0x01 =? 1 in
  let table1 := default (0, 0)
                  (ETC_MODIFIERS !! Z.to_nat (Z.land (Z.shiftr pixels ETC_TABLE1_OFFSET) 0x07)) in
  let table2 := default (0, 0)
                  (ETC_MODIFIERS !! Z.to_nat (Z.land (Z.shiftr pixels ETC_TABLE2_OFFSET) 0x07)) in
  let '(color1, color2) := etc1_base_colors pixels in
  let amounts := Z.land pixels 0xFFFF in
  let signs := Z.land (Z.shiftr pixels 16) 0xFFFF in
  let offset := pixel_x * 4 + pixel_y in
  let first := if horizontal then pixel_y <? 2 else pixel_x <? 2 in
  let table := if first then table1 else table2 in
  let '(c0, c1, c2) := if first then color1 else color2 in
  let amount := if Z.land (Z.shiftr amounts offset) 0x01 =? 0 then table.1 else table.2 in
  let sign := Z.land (Z.shiftr signs offset) 0x01 in
  let amount := if sign =? 1 then amount * -1 else amount in
  let red := Z.max (Z.min (c0 + amount) 0xFF) 0 in
  let green := Z.max (Z.min (c1 + amount) 0xFF) 0 in
  let blue := Z.max (Z.min (c2 + amount) 0xFF) 0 in
  let alpha := Z.land (Z.shiftr alphas (offset * 4)) 0x0F * 0x11 in
  (red, green, blue, alpha).

Definition _decompress_etc1 (order : byte_order) (width height : Z) (format_ : Format)
    (data : list byte) : res (list pixel) :=
  let with_alpha := bool_decide (format_ = ETC1A4) in
  let block_size := if with_alpha then 16 else 8 in
  let bmp := replicate (Z.to_nat (width * height)) (0, 0, 0, 0) in
  (* int(math.ceil(width / 8.0)), then rounded up to a power of two *)
  tile_width ← round_up_pow2 ((width + 7) / 8);
  tile_height ← round_up_pow2 ((height + 7) / 8);
  let blocks : list (Z * Z * Z * Z) :=
    tile_y ← range tile_height; tile_x ← range tile_width;
    block_y ← range 2; block_x ← range 2;
    [(tile_y, tile_x, block_y, block_x)] in
  r ← for_each blocks
        (λ '(tile_y, tile_x, block_y, block_x) '(pos, bmp),
           let data_pos := pos in
           let pos := pos + block_size in
           let block := slice data data_pos (data_pos + block_size) in
           '(alphas, block) ←
             (if with_alpha
              then a ← unpack (fQ order) (slice block 0 8);
                   mret (a, slice block 8 (len block))
              else mret (0xFFffFFffFFffFFff, block));
           pixels ← unpack (fQ order) block;
           bmp ← for_each (pixel_y ← range 4; pixel_x ← range 4; [(pixel_y, pixel_x)])
                   (λ '(pixel_y, pixel_x) bmp,
                      let x := pixel_x + block_x * 4 + tile_x * 8 in
                      let y := pixel_y + block_y * 4 + tile_y * 8 in
                      if width <=? x then Ok bmp
                      else if height <=? y then Ok bmp
                      else index_assign bmp (y * width + x)
                             (etc1_block_pixel pixels alphas pixel_x pixel_y))
                   bmp;
           mret (pos, bmp))
        (0, bmp);
  mret r.2.

(** ** Container model *)

Definition VERSIONS : list Z := [0x04000000; 0x03000000].

Definition FFNT_HEADER_SIZE := 0x14.
Definition FINF_HEADER_SIZE := 0x20.
Definition TGLP_HEADER_SIZE := 0x20.
Definition CWDH_HEADER_SIZE := 0x10.
Definition CMAP_HEADER_SIZE := 0x14.

Definition FFNT_MAGIC : list byte := ["F"; "F"; "N"; "T"]%byte.
Definition FFNU_MAGIC : list byte := ["F"; "F"; "N"; "U"]%byte.
Definition FINF_HEADER_MAGIC : list byte := ["F"; "I"; "N"; "F"]%byte.
Definition TGLP_HEADER_MAGIC : list byte := ["T"; "G"; "L"; "P"]%byte.
Definition CWDH_HEADER_MAGIC : list byte := ["C"; "W"; "D"; "H"]%byte.
Definition CMAP_HEADER_MAGIC : list byte := ["C"; "M"; "A"; "P"]%byte.

Definition MAPPING_DIRECT := 0x00.
Definition MAPPING_TABLE := 0x01.
Definition MAPPING_SCAN := 0x02.

Definition TGLP_DATA_OFFSET := 0x2000.

(** [self.filetype]: the container magic in lower case. *)
Inductive FileType : Set := ffnt | ffnu.

(** The fields [left], [glyph] and [char] of the dataclass. *)
Record CwdhSectionData : Set := {
  wd_left : Z;
  wd_glyph : Z;
  wd_char : Z;
}.

Record CwdhSection : Set := {
  cwdh_start : Z;
  cwdh_end : Z;
  cwdh_size : Z;
  cwdh_data : list CwdhSectionData;
}.

(** A CMAP section is a dict: four keys from the header, and one more from
    the payload, which depends on the mapping method. *)
Record CmapSection : Type := {
  cmap_size : Z;
  cmap_start : Z;
  cmap_end : Z;
  cmap_type : Z;
  cmap_indexOffset : option Z;
  cmap_indexTable : option (list Z);
  cmap_entries : option (list (Z * Z));   (* code point ↦ glyph index, in insertion order *)
}.

Record FontInfo : Set := {
  fi_height : Z;
  fi_width : Z;
  fi_ascent : Z;
  fi_lineFeed : Z;
  fi_alterCharIdx : Z;
  fi_defaultWidth : CwdhSectionData;
  fi_fontType : Z;
  fi_encoding : Z;
}.

Record Sheet : Set := {
  sh_width : Z;
  sh_height : Z;
  sh_data : list pixel;
}.

Record Tglp : Set := {
  tglp_size : Z;
  glyph_width : Z;
  glyph_height : Z;
  glyph_baseline : Z;
  sheetCount : Z;
  sheet_size : Z;
  sheet_cols : Z;
  sheet_rows : Z;
  sheet_width : Z;
  sheet_height : Z;
  sheet_format : Format;
  sheetOffset : Z;
  sheets : list Sheet;
}.

(** The attributes of one [Bffnt] object ([verbose], [load_order] and
    [filename], which only steer printing and [load], are left out).
    [own_cwdh_sections] and [own_cmap_sections] are the instance's own
    bindings of these two names, which exist only once [load] has assigned
    them; until then the names resolve to the class attributes.  The three
    offsets are unset until [_parse_finf] has run; [read] uses them only
    after that. *)
Record Bffnt : Type := {
  debug : bool;
  order : option byte_order;
  invalid : bool;
  file_size : Z;
  version : option Z;
  filetype : option FileType;
  sections : option Z;
  font_info : option FontInfo;
  tglp_offset : Z;
  cwdh_offset : Z;
  cmap_offset : Z;
  tglp : option Tglp;
  own_cwdh_sections : option (list CwdhSection);
  own_cmap_sections : option (list CmapSection);
}.

(** The mutable objects bound in the class body: the two lists
    [cwdh_sections = []] and [cmap_sections = []], created once, when the
    class statement runs, and reachable from every instance. *)
Record BffntClass : Type := {
  cls_cwdh_sections : list CwdhSection;
  cls_cmap_sections : list CmapSection;
}.

(** The store a method runs in: the class attributes and [self]. *)
Record World : Type := {
  cls : BffntClass;
  self : Bffnt;
}.

(** The class as the [class] statement leaves it. *)
Definition class_init : BffntClass :=
  {| cls_cwdh_sections := []; cls_cmap_sections := [] |}.

(** [Bffnt(debug=...)]: a new object; every attribute not set by
    [__init__] is looked up in the class. *)
Definition new_Bffnt (debug : bool) : Bffnt :=
  {| debug := debug; order := None; invalid := false; file_size := 0;
     version := None; filetype := None; sections := None; font_info := None;
     tglp_offset := 0; cwdh_offset := 0; cmap_offset := 0; tglp := None;
     own_cwdh_sections := None; own_cmap_sections := None |}.

(** Attribute assignments [self.x = v], one per attribute the reader sets. *)
Definition on_self (f : Bffnt → Bffnt) (w : World) : World :=
  {| cls := cls w; self := f (self w) |}.

Definition set_order (v : byte_order) : Bffnt → Bffnt :=
  λ '(Build_Bffnt d _ i fs ve ft se fi t c m tg oc om),
    Build_Bffnt d (Some v) i fs ve ft se fi t c m tg oc om.
Definition set_invalid : Bffnt → Bffnt :=
  λ '(Build_Bffnt d o _ fs ve ft se fi t c m tg oc om),
    Build_Bffnt d o true fs ve ft se fi t c m tg oc om.
Definition set_file_size (v : Z) : Bffnt → Bffnt :=
  λ '(Build_Bffnt d o i _ ve ft se fi t c m tg oc om),
    Build_Bffnt d o i v ve ft se fi t c m tg oc om.
Definition set_version (v : Z) : Bffnt → Bffnt :=
  λ '(Build_Bffnt d o i fs _ ft se fi t c m tg oc om),
    Build_Bffnt d o i fs (Some v) ft se fi t c m tg oc om.
Definition set_filetype (v : FileType) : Bffnt → Bffnt :=
  λ '(Build_Bffnt d o i fs ve _ se fi t c m tg oc om),
    Build_Bffnt d o i fs ve (Some v) se fi t c m tg oc om.
Definition set_sections (v : Z) : Bffnt → Bffnt :=
  λ '(Build_Bffnt d o i fs ve ft _ fi t c m tg oc om),
    Build_Bffnt d o i fs ve ft (Some v) fi t c m tg oc om.
Definition set_finf (v : FontInfo) (t c m : Z) : Bffnt → Bffnt :=
  λ '(Build_Bffnt d o i fs ve ft se _ _ _ _ tg oc om),
    Build_Bffnt d o i fs ve ft se (Some v) t c m tg oc om.
Definition set_tglp (v : Tglp) : Bffnt → Bffnt :=
  λ '(Build_Bffnt d o i fs ve ft se fi t c m _ oc om),
    Build_Bffnt d o i fs ve ft se fi t c m (Some v) oc om.
Definition set_own_cwdh_sections (v : list CwdhSection) : Bffnt → Bffnt :=
  λ '(Build_Bffnt d o i fs ve ft se fi t c m tg _ om),
    Build_Bffnt d o i fs ve ft se fi t c m tg (Some v) om.
Definition set_own_cmap_sections (v : list CmapSection) : Bffnt → Bffnt :=
  λ '(Build_Bffnt d o i fs ve ft se fi t c m tg oc _),
    Build_Bffnt d o i fs ve ft se fi t c m tg oc (Some v).

(** [self.cwdh_sections]: the instance's own list if it has one, the
    class's otherwise. *)
Definition cwdh_sections (w : World) : list CwdhSection :=
  default (cls_cwdh_sections (cls w)) (own_cwdh_sections (self w)).

Definition cmap_sections (w : World) : list CmapSection :=
  default (cls_cmap_sections (cls w)) (own_cmap_sections (self w)).

(** In-place mutation of the list object [self.cwdh_sections] denotes:
    every name bound to that object sees the change. *)
Definition mutate_cwdh_sections (f : list CwdhSection → list CwdhSection)
    (w : World) : World :=
  match own_cwdh_sections (self w) with
  | Some l => on_self (set_own_cwdh_sections (f l)) w
  | None =>
      {| cls := {| cls_cwdh_sections := f (cls_cwdh_sections (cls w));
                   cls_cmap_sections := cls_cmap_sections (cls w) |};
         self := self w |}
  end.

Definition mutate_cmap_sections (f : list CmapSection → list CmapSection)
    (w : World) : World :=
  match own_cmap_sections (self w) with
  | Some l => on_self (set_own_cmap_sections (f l)) w
  | None =>
      {| cls := {| cls_cwdh_sections := cls_cwdh_sections (cls w);
                   cls_cmap_sections := f (cls_cmap_sections (cls w)) |};
         self := self w |}
  end.

(** [l[-1] = x]: replaces the last element. *)
Definition set_last {A} (x : A) (l : list A) : list A :=
  <[pred (length l) := x]> l.

(** ['%s...' % self.order] is a usable format only once the order is
    resolved to ['<'] or ['>']. *)
Definition the_order (w : World) : res byte_order :=
  of_option StructError (order (self w)).

(** ** Section parsers *)

Definition FFNT_HEADER_STRUCT (o : byte_order) : unpacker (list byte * Z * Z * Z * Z * Z) :=
  magic ← raw 4; bom ← fH o; header_size ← fH o;
  version ← fI o; file_size ← fI o; sections ← fI o;
  mret (magic, bom, header_size, version, file_size, sections).

Definition _parse_header (data : list byte) (w : World) : res World :=
  bom ← unpack_from (fH Big) data 4;
  let w := if bom =? 0xFFFE then on_self (set_order Little) w
           else if bom =? 0xFEFF then on_self (set_order Big) w
           else w in
  match order (self w) with
  | None => Ok (on_self set_invalid w)
  | Some o =>
      '(magic, bom, header_size, version, file_size_, sections) ←
        unpack (FFNT_HEADER_STRUCT o) data;
      let w := on_self (set_version version) w in
      match (if decide (magic = FFNT_MAGIC) then Some ffnt
             else if decide (magic = FFNU_MAGIC) then Some ffnu else None) with
      | None => Ok (on_self set_invalid w)
      | Some ft =>
          let w := on_self (set_filetype ft) w in
          if negb (bool_decide (version ∈ VERSIONS)) then Ok (on_self set_invalid w)
          else if negb (header_size =? FFNT_HEADER_SIZE) then Ok (on_self set_invalid w)
          else if negb (file_size_ =? file_size (self w)) then Ok (on_self set_invalid w)
          else Ok (on_self (set_sections sections) w)
      end
  end.

Definition FINF_HEADER_STRUCT (o : byte_order)
  : unpacker (list byte * Z * FontInfo * (Z * Z * Z)) :=
  magic ← raw 4; section_size ← fI o;
  font_type ← fB; height ← fB; width ← fB; ascent ← fB;
  line_feed ← fH o; alter_char_idx ← fH o;
  def_left ← fB; def_glyph_width ← fB; def_char_width ← fB; encoding ← fB;
  tglp_offset ← fI o; cwdh_offset ← fI o; cmap_offset ← fI o;
  mret (magic, section_size,
        {| fi_height := height; fi_width := width; fi_ascent := ascent;
           fi_lineFeed := line_feed; fi_alterCharIdx := alter_char_idx;
           fi_defaultWidth := {| wd_left := def_left; wd_glyph := def_glyph_width;
                                 wd_char := def_char_width |};
           fi_fontType := font_type; fi_encoding := encoding |},
        (tglp_offset, cwdh_offset, cmap_offset)).

Definition _parse_finf (data : list byte) (w : World) : res World :=
  o ← the_order w;
  '(magic, section_size, info, (t, c, m)) ← unpack (FINF_HEADER_STRUCT o) data;
  if negb (bool_decide (magic = FINF_HEADER_MAGIC)) then Ok (on_self set_invalid w)
  else if negb (section_size =? FINF_HEADER_SIZE) then Ok (on_self set_invalid w)
  else Ok (on_self (set_finf info t c m) w).

Definition TGLP_HEADER_STRUCT (o : byte_order)
  : unpacker (list byte * (Z * Z * Z * Z * Z) * (Z * Z * Z * Z * Z * Z * Z * Z * Z)) :=
  magic ← raw 4; section_size ← fI o;
  cell_width ← fB; cell_height ← fB; num_sheets ← fB; max_char_width ← fB;
  sheet_size ← fI o;
  baseline_position ← fH o; sheet_pixel_format ← fH o;
  num_sheet_cols ← fH o; num_sheet_rows ← fH o;
  sheet_width ← fH o; sheet_height ← fH o;
  sheet_data_offset ← fI o;
  mret (magic, (section_size, cell_width, cell_height, num_sheets, max_char_width),
        (sheet_size, baseline_position, sheet_pixel_format, num_sheet_cols,
         num_sheet_rows, sheet_width, sheet_height, sheet_data_offset, 0)).

Definition _parse_tglp_header (data : list byte) (w : World) : res World :=
  o ← the_order w;
  '(magic, (section_size, cell_width, cell_height, num_sheets, max_char_width),
    (sheet_size, baseline_position, sheet_pixel_format, num_sheet_cols,
     num_sheet_rows, sheet_width, sheet_height, sheet_data_offset, _)) ←
    unpack (TGLP_HEADER_STRUCT o) data;
  sheet_pixel_format ← Format_of_value sheet_pixel_format;
  if negb (bool_decide (magic = TGLP_HEADER_MAGIC)) then Ok (on_self set_invalid w)
  else
    Ok (on_self (set_tglp
          {| tglp_size := section_size;
             glyph_width := cell_width; glyph_height := cell_height;
             glyph_baseline := baseline_position;
             sheetCount := num_sheets;
             sheet_size := sheet_size; sheet_cols := num_sheet_cols;
             sheet_rows := num_sheet_rows; sheet_width := sheet_width;
             sheet_height := sheet_height; sheet_format := sheet_pixel_format;
             sheetOffset := sheet_data_offset; sheets := [] |}) w).

Definition CWDH_HEADER_STRUCT (o : byte_order) : unpacker (list byte * Z * Z * Z * Z) :=
  magic ← raw 4; section_size ← fI o;
  start_index ← fH o; end_index ← fH o; next_cwdh_offset ← fI o;
  mret (magic, section_size, start_index, end_index, next_cwdh_offset).

(** Returns the offset of the next CWDH section, or [None] after a magic
    mismatch. *)
Definition _parse_cwdh_header (data : list byte) (w : World) : res (option Z * World) :=
  o ← the_order w;
  '(magic, section_size, start_index, end_index, next_cwdh_offset) ←
    unpack (CWDH_HEADER_STRUCT o) data;
  if negb (bool_decide (magic = CWDH_HEADER_MAGIC)) then
    Ok (None, on_self set_invalid w)
  else
    let w := mutate_cwdh_sections
               (λ l, l ++ [{| cwdh_size := section_size; cwdh_start := start_index;
                              cwdh_end := end_index; cwdh_data := [] |}]) w in
    Ok (Some next_cwdh_offset, w).

(** [_parse_cwdh_data] sets [info.data]; the section it returns is [info]
    after that assignment.  Each glyph takes three bytes, read with the
    format ['%sb2B']. *)
Definition _parse_cwdh_data (info : CwdhSection) (data : list byte) (w : World)
  : res CwdhSection :=
  let count := cwdh_end info - cwdh_start info + 1 in
  r ← for_each (range count)
        (λ _ '(position, output),
           _ ← the_order w;
           '(l, g, c) ← unpack (l ← fb; g ← fB; c ← fB; mret (l, g, c))
                          (slice data position (position + 3));
           mret (position + 3,
                 output ++ [{| wd_left := l; wd_glyph := g; wd_char := c |}]))
        (0, []);
  mret {| cwdh_start := cwdh_start info; cwdh_end := cwdh_end info;
          cwdh_size := cwdh_size info; cwdh_data := r.2 |}.

Definition CMAP_HEADER_STRUCT (o : byte_order)
  : unpacker (list byte * Z * Z * Z * Z * Z * Z) :=
  magic ← raw 4; section_size ← fI o;
  code_begin ← fH o; code_end ← fH o; map_method ← fH o; unknown ← fH o;
  next_cmap_offset ← fI o;
  mret (magic, section_size, code_begin, code_end, map_method, unknown, next_cmap_offset).

(** A magic mismatch is only printed here.  With [debug] set, the name of
    the mapping method is looked up in [MAPPING_METHODS]. *)
Definition _parse_cmap_header (data : list byte) (w : World) : res (Z * World) :=
  o ← the_order w;
  '(magic, section_size, code_begin, code_end, map_method, unknown, next_cmap_offset) ←
    unpack (CMAP_HEADER_STRUCT o) data;
  let w := mutate_cmap_sections
             (λ l, l ++ [{| cmap_size := section_size; cmap_start := code_begin;
                            cmap_end := code_end; cmap_type := map_method;
                            cmap_indexOffset := None; cmap_indexTable := None;
                            cmap_entries := None |}]) w in
  if debug (self w)
     && negb (bool_decide (map_method ∈ [MAPPING_DIRECT; MAPPING_TABLE; MAPPING_SCAN]))
  then Raise KeyError
  else Ok (next_cmap_offset, w).

(** [d[k] = v] on a dict kept in insertion order. *)
Fixpoint dict_set (d : list (Z * Z)) (k v : Z) : list (Z * Z) :=
  match d with
  | [] => [(k, v)]
  | (k', v') :: d' => if k' =? k then (k', v) :: d' else (k', v') :: dict_set d' k v
  end.

Definition with_payload (info : CmapSection)
    (io : option Z) (it : option (list Z)) (en : option (list (Z * Z))) : CmapSection :=
  {| cmap_size := cmap_size info; cmap_start := cmap_start info;
     cmap_end := cmap_end info; cmap_type := cmap_type info;
     cmap_indexOffset := io; cmap_indexTable := it; cmap_entries := en |}.

Definition _parse_cmap_data (info : CmapSection) (data : list byte) (w : World)
  : res CmapSection :=
  let type_ := cmap_type info in
  if type_ =? MAPPING_DIRECT then
    o ← the_order w;
    v ← unpack (fH o) (slice data 0 2);
    mret (with_payload info (Some v) (cmap_indexTable info) (cmap_entries info))
  else if type_ =? MAPPING_TABLE then
    let count := cmap_end info - cmap_start info + 1 in
    r ← for_each (range count)
          (λ _ '(position, output),
             o ← the_order w;
             offset ← unpack (fH o) (slice data position (position + 2));
             mret (position + 2, output ++ [offset]))
          (0, []);
    mret (with_payload info (cmap_indexOffset info) (Some r.2) (cmap_entries info))
  else if type_ =? MAPPING_SCAN then
    o ← the_order w;
    count ← unpack (fH o) (slice data 0 2);
    r ← for_each (range count)
          (λ _ '(position, output),
             o ← the_order w;
             '(code, offset) ← unpack (c ← fH o; i ← fH o; mret (c, i))
                                 (slice data position (position + 4));
             mret (position + 4, dict_set output code offset))
          (2, []);
    mret (with_payload info (cmap_indexOffset info) (cmap_indexTable info) (Some r.2))
  else Ok info.

Definition _parse_tglp_data (data : list byte) (w : World) : res World :=
  t ← of_option KeyError (tglp (self w));
  let position := sheetOffset t in
  let format_ := sheet_format t in
  r ← for_each (range (sheetCount t))
        (λ _ '(position, sheets),
           let sheet := slice data position (position + sheet_size t) in
           bmp_data ←
             (if bool_decide (format_ = ETC1) || bool_decide (format_ = ETC1A4)
              then o ← the_order w;
                   _decompress_etc1 o (sheet_width t) (sheet_height t) format_ sheet
              else _sheet_to_bitmap (sheet_width t) (sheet_height t) format_ sheet);
           mret (position + sheet_size t,
                 sheets ++ [{| sh_width := sheet_width t; sh_height := sheet_height t;
                               sh_data := bmp_data |}]))
        (position, []);
  Ok (on_self (set_tglp
        {| tglp_size := tglp_size t;
           glyph_width := glyph_width t; glyph_height := glyph_height t;
           glyph_baseline := glyph_baseline t; sheetCount := sheetCount t;
           sheet_size := sheet_size t; sheet_cols := sheet_cols t;
           sheet_rows := sheet_rows t; sheet_width := sheet_width t;
           sheet_height := sheet_height t; sheet_format := sheet_format t;
           sheetOffset := sheetOffset t; sheets := r.2 |}) w).

(** ** [Bffnt.read] *)

(** The loop [while cwdh > 0] of [read].  [k] is the rest of [read] after
    the loop; a [return] inside the loop skips it.  [fuel] bounds the
    number of iterations the model follows. *)
Fixpoint read_cwdh_chain (fuel : nat) (data : list byte) (cwdh : Z) (w : World)
    (k : World → res World) : res World :=
  if 0 <? cwdh then
    match fuel with
    | O => OutOfFuel
    | S fuel' =>
        let position := cwdh - 8 in
        '(cwdh, w) ← _parse_cwdh_header (slice data position (position + CWDH_HEADER_SIZE)) w;
        match cwdh with
        | None => Ok (on_self set_invalid w)
        | Some cwdh =>
            let position := position + CWDH_HEADER_SIZE in
            info ← Py.index (cwdh_sections w) (-1);
            info' ← _parse_cwdh_data info
                      (slice data position (position + cwdh_size info - CWDH_HEADER_SIZE)) w;
            let w := mutate_cwdh_sections (set_last info') w in
            read_cwdh_chain fuel' data cwdh w k
        end
    end
  else k w.

(** The loop [while cmap > 0] of [read]. *)
Fixpoint read_cmap_chain (fuel : nat) (data : list byte) (cmap : Z) (w : World)
    (k : World → res World) : res World :=
  if 0 <? cmap then
    match fuel with
    | O => OutOfFuel
    | S fuel' =>
        let position := cmap - 8 in
        '(cmap, w) ← _parse_cmap_header (slice data position (position + CMAP_HEADER_SIZE)) w;
        if invalid (self w) then Ok w
        else
          let position := position + CMAP_HEADER_SIZE in
          info ← Py.index (cmap_sections w) (-1);
          info' ← _parse_cmap_data info
                    (slice data position (position + cmap_size info - CMAP_HEADER_SIZE)) w;
          let w := mutate_cmap_sections (set_last info') w in
          read_cmap_chain fuel' data cmap w k
    end
  else k w.

(** [read], on the bytes of the file.  Each loop may take up to [fuel]
    iterations. *)
Definition read (fuel : nat) (data : list byte) (w : World) : res World :=
  let w := on_self (set_file_size (len data)) w in
  w ← _parse_header (slice data 0 FFNT_HEADER_SIZE) w;
  let position := FFNT_HEADER_SIZE in
  if invalid (self w) then Ok w else
  w ← _parse_finf (slice data position (position + FINF_HEADER_SIZE)) w;
  if invalid (self w) then Ok w else
  let position := tglp_offset (self w) - 8 in
  w ← _parse_tglp_header (slice data position (position + TGLP_HEADER_SIZE)) w;
  if invalid (self w) then Ok w else
  read_cwdh_chain fuel data (cwdh_offset (self w)) w (λ w,
  read_cmap_chain fuel data (cmap_offset (self w)) w (λ w,
  _parse_tglp_data data w)).

(** ** [Bffnt.save]: the CWDH and CMAP sections *)

(** A file opened with ['wb']: its bytes so far and the position of the
    next write. *)
Record File : Set := {
  content : list byte;
  cursor : Z;
}.

(** [file_.seek(pos)] *)
Definition seek (pos : Z) (f : File) : File :=
  {| content := content f; cursor := pos |}.

(** [file_.write(bs)]: overwrites from the cursor on, after filling the gap
    with zero bytes when the cursor is past the end. *)
Definition write (bs : list byte) (f : File) : File :=
  let gap := replicate (Z.to_nat (cursor f - len (content f))) x00 in
  {| content := take (Z.to_nat (cursor f)) (content f ++ gap) ++ bs
                ++ drop (Z.to_nat (cursor f + len bs)) (content f);
     cursor := cursor f + len bs |}.

(** What the two loops of [save] carry from one section to the next. *)
Record Writer : Set := {
  file_ : File;
  position : Z;
  section_count : Z;
  prev_offset_pos : Z;
}.

(** The zero padding after a section payload and the size field of the
    section, as both loops write them. *)
Definition write_padding_and_size (o : byte_order) (size_pos start_pos : Z)
    (f : File) (position : Z) : res (File * Z) :=
  let padding := position mod 4 in
  f ← for_each (range padding) (λ _ f, z ← pack_b 0; mret (write z f)) f;
  let position := position + padding in
  let f := seek size_pos f in
  sz ← pack_I o (position - start_pos);
  let f := write sz f in
  let f := seek position f in
  mret (f, position).

(** The link from the previous section of the chain, when there is one. *)
Definition write_link (o : byte_order) (prev_offset_pos position : Z) (f : File)
  : res File :=
  if 0 <? prev_offset_pos then
    let f := seek prev_offset_pos f in
    b ← pack_I o (position + 8);
    mret (seek position (write b f))
  else Ok f.

(** The body of [for cwdh in self.cwdh_sections]. *)
Definition save_cwdh_section (o : byte_order) (cwdh : CwdhSection) (s : Writer)
  : res Writer :=
  let section_count := section_count s + 1 in
  let position := position s in
  f ← write_link o (prev_offset_pos s) position (file_ s);
  let size_pos := position + 0x04 in
  let prev_cwdh_offset_pos := position + 0x0C in
  let start_pos := position in
  h1 ← pack_I o 0; h2 ← pack_H o (cwdh_start cwdh); h3 ← pack_H o (cwdh_end cwdh);
  h4 ← pack_I o 0;
  let f := write (CWDH_HEADER_MAGIC ++ h1 ++ h2 ++ h3 ++ h4) f in
  let position := position + CWDH_HEADER_SIZE in
  '(f, position) ←
    for_each (seqZ (cwdh_start cwdh) (cwdh_end cwdh + 1 - cwdh_start cwdh))
      (λ code '(f, position),
         widths ← Py.index (cwdh_data cwdh) code;
         l ← pack_b (wd_left widths); g ← pack_b (wd_glyph widths);
         c ← pack_b (wd_char widths);
         mret (write (l ++ g ++ c) f, position + 3))
      (f, position);
  '(f, position) ← write_padding_and_size o size_pos start_pos f position;
  mret {| file_ := f; position := position; section_count := section_count;
          prev_offset_pos := prev_cwdh_offset_pos |}.

(** The loop over [self.cwdh_sections], from the position the texture
    sheets ended at. *)
Definition save_cwdh_sections (o : byte_order) (sections : list CwdhSection)
    (f : File) (position section_count : Z) : res Writer :=
  for_each sections (save_cwdh_section o)
    {| file_ := f; position := position; section_count := section_count;
       prev_offset_pos := 0 |}.

(** [keys.sort()] on the keys of [cmap['entries']]: by code point. *)
Definition by_code (x y : Z * Z) : Prop := x.1 ≤ y.1.

#[global] Instance by_code_dec : RelDecision by_code.
Proof. intros x y. unfold by_code. apply _. Defined.

(** The body of [for cmap in self.cmap_sections]. *)
Definition save_cmap_section (o : byte_order) (cmap : CmapSection) (s : Writer)
  : res Writer :=
  let section_count := section_count s + 1 in
  let position := position s in
  f ← write_link o (prev_offset_pos s) position (file_ s);
  let size_pos := position + 0x04 in
  let prev_cmap_offset_pos := position + 0x10 in
  let start_pos := position in
  h1 ← pack_I o 0; h2 ← pack_H o (cmap_start cmap); h3 ← pack_H o (cmap_end cmap);
  h4 ← pack_H o (cmap_type cmap); h5 ← pack_H o 0; h6 ← pack_I o 0;
  let f := write (CMAP_HEADER_MAGIC ++ h1 ++ h2 ++ h3 ++ h4 ++ h5 ++ h6) f in
  let position := position + CMAP_HEADER_SIZE in
  entries ← of_option KeyError (cmap_entries cmap);
  n ← pack_H o (len entries);
  let f := write n f in
  let position := position + 2 in
  '(f, position) ←
    (if cmap_type cmap =? MAPPING_DIRECT then
       io ← of_option KeyError (cmap_indexOffset cmap);
       b ← pack_H o io;
       mret (write b f, position + 2)
     else if cmap_type cmap =? MAPPING_TABLE then
       it ← of_option KeyError (cmap_indexTable cmap);
       for_each it
         (λ index '(f, position), b ← pack_H o index; mret (write b f, position + 2))
         (f, position)
     else if cmap_type cmap =? MAPPING_SCAN then
       for_each (merge_sort by_code entries)
         (λ '(code, index) '(f, position),
            b1 ← pack_H o code; b2 ← pack_H o index;
            mret (write (b1 ++ b2) f, position + 4))
         (f, position)
     else Ok (f, position));
  '(f, position) ← write_padding_and_size o size_pos start_pos f position;
  mret {| file_ := f; position := position; section_count := section_count;
          prev_offset_pos := prev_cmap_offset_pos |}.

Definition save_cmap_sections (o : byte_order) (sections : list CmapSection)
    (f : File) (position section_count : Z) : res Writer :=
  for_each sections (save_cmap_section o)
    {| file_ := f; position := position; section_count := section_count;
       prev_offset_pos := 0 |}.

(** * Vocabulary of the statements *)

(** ** Fields of an ETC1 colour block *)

(** Bits [ofs .. ofs + width) of a colour block. *)
Definition block_field (pixels ofs width : Z) : Z := (pixels / 2 ^ ofs) mod 2 ^ width.

(** A 3-bit field read as a two's-complement number. *)
Definition signed3 (d : Z) : Z := if d <? 4 then d else d - 8.

(** A 5-bit value widened to 8 bits: the value itself in the five high
    bits, its three high bits again in the three low bits. *)
Definition widen_5_to_8 (v : Z) : Z := v * 8 + (v / 4) mod 8.

(** ** Encoding and decoding one pixel *)

(** The decoder applied, at the same pixel index, to the bytes
    [_get_tglp_pixel_data] produced for pixel [index], stored where the
    decoder looks for that pixel: the slot starts at byte
    [index * format_size // 8] of an otherwise empty buffer. *)
Definition encode_then_decode (format_ : Format) (p : pixel) (index : Z) : res pixel :=
  let bmp := replicate (Z.to_nat index) (0, 0, 0, 0) ++ [p] in
  frag ← _get_tglp_pixel_data bmp index format_;
  data ← pack_Bs frag;
  _get_pixel_data format_
    (replicate (Z.to_nat (index * format_size format_ / 8)) x00 ++ data) index.

(** The pixels a format holds exactly, for the formats that store their
    channels unscaled or as a multiple of 0x11. *)
Definition held_exactly (format_ : Format) (p : pixel) : Prop :=
  let '(red, green, blue, alpha) := p in
  (0 ≤ red < 256 ∧ 0 ≤ green < 256 ∧ 0 ≤ blue < 256 ∧ 0 ≤ alpha < 256) ∧
  match format_ with
  | RGBA8 => True
  | RGB8 => alpha = 255
  | A8 => red = 255 ∧ green = 255 ∧ blue = 255
  | A4 => red = 255 ∧ green = 255 ∧ blue = 255 ∧ alpha mod 0x11 = 0
  | _ => False
  end.

(** ** Slots and pixels of a sheet *)

(** Column and row, inside its 8x8 tile, of the [k]-th slot of the tile:
    the bits of [k] belong alternately to the column and to the row. *)
Definition tile_col (k : Z) : Z := k mod 2 + 2 * ((k / 4) mod 2) + 4 * ((k / 16) mod 2).
Definition tile_row (k : Z) : Z := (k / 2) mod 2 + 2 * ((k / 8) mod 2) + 4 * ((k / 32) mod 2).

(** The slot, inside its tile, of the pixel in column [a] and row [b]. *)
Definition tile_slot (a b : Z) : Z :=
  a mod 2 + 2 * (b mod 2) + 4 * ((a / 2) mod 2) + 8 * ((b / 2) mod 2)
  + 16 * ((a / 4) mod 2) + 32 * ((b / 4) mod 2).

(** The storage slot of pixel [(x, y)]: [sheet_data_pos] of [visit_pixels]
    with the loop variables written as the digits of [x] and [y]. *)
Definition offset_of_pixel (width x y : Z) : Z :=
  tile_slot (x mod 8) (y mod 8) + (x / 8) * 64 + (y / 8) * width * 8.

(** The pixel stored in slot [pos]: tiles follow one another row by row,
    64 slots each. *)
Definition pixel_of_offset (width pos : Z) : Z * Z :=
  let tile := pos / 64 in
  let k := pos mod 64 in
  (tile_col k + tile mod (width / 8) * 8, tile_row k + tile / (width / 8) * 8).

(** [bmp_pos] of a pixel. *)
Definition bmp_index (width : Z) (p : Z * Z) : Z := p.1 + p.2 * width.

(** One step of the traversal, as a function of the slot. *)
Definition visit_of_offset (width pos : Z) : Z * Z :=
  (bmp_index width (pixel_of_offset width pos), pos).

(** The six inner loop variables [(y, x, y2, x2, y3, x3)] of the [k]-th
    iteration inside a tile. *)
Definition inner_digits (k : Z) : Z * Z * Z * Z * Z * Z :=
  ((k / 32) mod 2, (k / 16) mod 2, (k / 8) mod 2, (k / 4) mod 2, (k / 2) mod 2, k mod 2).

(** The pair [visit_pixels] computes from its eight loop variables. *)
Definition visit_step (width tile_y tile_x : Z) (d : Z * Z * Z * Z * Z * Z) : Z * Z :=
  let '(y, x, y2, x2, y3, x3) := d in
  let pixel_x := x3 + x2 * 2 + x * 4 + tile_x * 8 in
  let pixel_y := y3 + y2 * 2 + y * 4 + tile_y * 8 in
  let data_x := x3 + x2 * 4 + x * 16 + tile_x * 64 in
  let data_y := y3 * 2 + y2 * 8 + y * 32 + tile_y * width * 8 in
  (pixel_x + pixel_y * width, data_x + data_y).

(** ** CWDH payloads and CMAP headers *)

(** The triple stored at byte [pos] of a CWDH payload: a signed byte
    followed by two unsigned bytes. *)
Definition triple_at (data : list byte) (pos : Z) : CwdhSectionData :=
  {| wd_left := s8 (default x00 (data !! Z.to_nat pos));
     wd_glyph := u8 (default x00 (data !! Z.to_nat (pos + 1)));
     wd_char := u8 (default x00 (data !! Z.to_nat (pos + 2))) |}.

(** The body of the loop of [_parse_cwdh_data], named. *)
Definition cwdh_triple_body (data : list byte) (w : World)
  : Z → Z * list CwdhSectionData → res (Z * list CwdhSectionData) :=
  λ _ '(position, output),
    _ ← the_order w;
    '(l, g, c) ← unpack (l ← fb; g ← fB; c ← fB; mret (l, g, c))
                   (slice data position (position + 3));
    mret (position + 3,
          output ++ [{| wd_left := l; wd_glyph := g; wd_char := c |}]).

(** The first [count] triples of a payload. *)
Definition payload_triples (count : Z) (data : list byte) : list CwdhSectionData :=
  (λ i, triple_at data (3 * i)) <$> seqZ 0 count.

(** The keys of [MAPPING_METHODS]. *)
Definition known_method (map_method : Z) : Prop :=
  map_method ∈ [MAPPING_DIRECT; MAPPING_TABLE; MAPPING_SCAN].

(** The dict [_parse_cmap_header] appends: no payload key yet. *)
Definition cmap_header_section (size code_begin code_end map_method : Z) : CmapSection :=
  {| cmap_size := size; cmap_start := code_begin; cmap_end := code_end;
     cmap_type := map_method; cmap_indexOffset := None; cmap_indexTable := None;
     cmap_entries := None |}.

(** ** Sample inputs *)

(** A CWDH section for glyph 0 alone, as [_parse_cwdh_header] records it. *)
Definition one_glyph : CwdhSection :=
  {| cwdh_start := 0; cwdh_end := 0; cwdh_size := 0x14; cwdh_data := [] |}.

(** A new object whose byte order is resolved to ['<']. *)
Definition little_world : World :=
  {| cls := class_init; self := set_order Little (new_Bffnt false) |}.

(** [bytes(zs)] for values below 256. *)
Definition bytes_of (zs : list Z) : list byte := (λ z, default x00 (byte_of z)) <$> zs.

(** A little-endian container of 0xC0 bytes: header, FINF, TGLP (one 8x8
    sheet in format A8 at offset 0x80), one CWDH section for glyph 0 at
    0x54 and one CMAP section (direct mapping of 'A') at 0x68.  The offset
    stored in the CWDH header and the magic of the CMAP header are left
    open. *)
Definition sample_container (cwdh_next : Z) (cmap_magic : list byte) : list byte :=
  FFNT_MAGIC ++ [xff; xfe] ++ le_bytes 2 0x14 ++ le_bytes 4 0x03000000
    ++ le_bytes 4 0xC0 ++ le_bytes 4 4
  ++ FINF_HEADER_MAGIC ++ le_bytes 4 0x20 ++ bytes_of [1; 16; 8; 12]
    ++ le_bytes 2 16 ++ le_bytes 2 0 ++ bytes_of [0; 8; 8; 1]
    ++ le_bytes 4 0x3C ++ le_bytes 4 0x5C ++ le_bytes 4 0x70
  ++ TGLP_HEADER_MAGIC ++ le_bytes 4 0x20 ++ bytes_of [8; 8; 1; 8] ++ le_bytes 4 64
    ++ le_bytes 2 7 ++ le_bytes 2 (Format_value A8) ++ le_bytes 2 1 ++ le_bytes 2 1
    ++ le_bytes 2 8 ++ le_bytes 2 8 ++ le_bytes 4 0x80
  ++ CWDH_HEADER_MAGIC ++ le_bytes 4 0x14 ++ le_bytes 2 0 ++ le_bytes 2 0
    ++ le_bytes 4 cwdh_next ++ bytes_of [0; 8; 8; 0]
  ++ cmap_magic ++ le_bytes 4 0x18 ++ le_bytes 2 0x41 ++ le_bytes 2 0x41
    ++ le_bytes 2 MAPPING_DIRECT ++ le_bytes 2 0 ++ le_bytes 4 0
    ++ le_bytes 2 0 ++ bytes_of [0; 0]
  ++ bytes_of (replicate 64 0xFF).

(** A well-formed container, and the same bytes with the CMAP magic
    replaced by ["XMAP"]. *)
Definition good_container : list byte := sample_container 0 CMAP_HEADER_MAGIC.
Definition bad_cmap_magic_container : list byte :=
  sample_container 0 ["X"; "M"; "A"; "P"]%byte.

(** The CWDH section of this container names itself as its successor. *)
Definition self_referential_container : list byte :=
  sample_container 0x5C CMAP_HEADER_MAGIC.

(** The well-formed container with the magic of its CWDH header replaced
    by ["XWDH"]. *)
Definition bad_cwdh_magic_container : list byte :=
  take 0x54 good_container ++ ["X"; "W"; "D"; "H"]%byte ++ drop 0x58 good_container.

(** The state in which a program's first [Bffnt] object is created. *)
Definition fresh_world : World :=
  {| cls := class_init; self := new_Bffnt false |}.

(** A second object created later in the same program: the class
    attributes are those the earlier calls left behind. *)
Definition next_object (w : World) : World :=
  {| cls := cls w; self := new_Bffnt false |}.

(** The two sections of the sample containers, as [read] records them. *)
Definition the_cwdh_section : CwdhSection :=
  {| cwdh_start := 0; cwdh_end := 0; cwdh_size := 0x14;
     cwdh_data := [{| wd_left := 0; wd_glyph := 8; wd_char := 8 |}] |}.

Definition the_cmap_section : CmapSection :=
  {| cmap_size := 0x18; cmap_start := 0x41; cmap_end := 0x41;
     cmap_type := MAPPING_DIRECT; cmap_indexOffset := Some 0;
     cmap_indexTable := None; cmap_entries := None |}.

(** The file and position [save] reaches before the CWDH loop when the
    texture holds one sheet of 64 bytes at [TGLP_DATA_OFFSET]. *)
Definition after_one_sheet : File :=
  {| content := replicate (Z.to_nat (TGLP_DATA_OFFSET + 64)) x00;
     cursor := TGLP_DATA_OFFSET + 64 |}.

(** The CWDH section [load] builds for [n] glyphs of width 8. *)
Definition widths_for (n : nat) : CwdhSection :=
  {| cwdh_start := 0; cwdh_end := Z.of_nat n - 1; cwdh_size := 0;
     cwdh_data := replicate n {| wd_left := 0; wd_glyph := 8; wd_char := 8 |} |}.

(** A Scan section mapping 'A' to glyph 0. *)
Definition scan_A : CmapSection :=
  {| cmap_size := 0; cmap_start := 0x41; cmap_end := 0x41; cmap_type := MAPPING_SCAN;
     cmap_indexOffset := None; cmap_indexTable := None; cmap_entries := Some [(0x41, 0)] |}.

(** ** Grey levels and wide fragments *)

(** Whether the luma of the grey level [v] is [v] or [v - 1]. *)
Definition grey_ok (v : Z) : bool :=
  match luma v v v with
  | Ok l => bool_decide ((l = v ∨ l = v - 1) ∧ 0 ≤ l)
  | _ => false
  end.


(** The formats whose fragment is made of several bytes computed from the
    channels alone. *)
Definition several_bytes : list Format := [RGBA8; RGB8; RGBA5551; RGB565; RGBA4].

(** ** [Bffnt.save]: before and after the sheets *)

(** [n.bit_length()] *)
Definition bit_length (n : Z) : Z := if n =? 0 then 0 else Z.log2 (Z.abs n) + 1.

(** The two functions local to [save]. *)
Definition is_power_of_two (n : Z) : bool :=
  negb (n =? 0) && (Z.land n (n - 1) =? 0).

Definition next_power_of_two (n : Z) : Z :=
  if n =? 0 then 1 else Z.shiftl 1 (bit_length (n - 1)).

(** [self.filetype.upper().encode('ascii')] *)
Definition magic_of (ft : FileType) : list byte :=
  match ft with ffnt => FFNT_MAGIC | ffnu => FFNU_MAGIC end.

(** [int(width * height * (format_size / 8.0))]; the product enters the
    float multiplication exactly as long as it is below 2^53, which the
    sides of a sheet that fits its 16-bit fields always are. *)
Definition tglp_data_size (width height : Z) (format_ : Format) : res Z :=
  int_of_float (float_of_int (width * height) * (float_of_int (format_size format_) / 8))%float.

(** [save] up to the loop over the sheets, for an object whose byte order,
    file type, version, font information and texture information are set
    (by [load], which also sets [tglp['maxCharWidth']]): the container
    header, the FINF record and the TGLP header, with zero for the fields
    that are filled in later.  Returns the file, the position and the
    number of sections counted so far. *)
Definition save_before_sheets (o : byte_order) (ft : FileType) (version_ : Z)
    (fi : FontInfo) (t : Tglp) (maxCharWidth : Z) : res (File * Z * Z) :=
  let f := {| content := []; cursor := 0 |} in
  let count := 0 in
  let bom := match o with Big => 0xFFFE | Little => 0xFEFF end in
  (* write header *)
  h1 ← pack_H o bom; h2 ← pack_H o FFNT_HEADER_SIZE; h3 ← pack_I o version_;
  h4 ← pack_I o 0; h5 ← pack_I o 0;
  let f := write (magic_of ft ++ h1 ++ h2 ++ h3 ++ h4 ++ h5) f in
  let pos := FFNT_HEADER_SIZE in
  (* write finf *)
  let default_width := fi_defaultWidth fi in
  let finf_tglp_offset_pos := pos + 0x14 in
  i1 ← pack_I o FINF_HEADER_SIZE;
  i2 ← pack_B (fi_fontType fi); i3 ← pack_B (fi_height fi);
  i4 ← pack_B (fi_width fi); i5 ← pack_B (fi_ascent fi);
  i6 ← pack_H o (fi_lineFeed fi); i7 ← pack_H o (fi_alterCharIdx fi);
  i8 ← pack_B (wd_left default_width); i9 ← pack_B (wd_glyph default_width);
  i10 ← pack_B (wd_char default_width); i11 ← pack_B (fi_encoding fi);
  i12 ← pack_I o 0; i13 ← pack_I o 0; i14 ← pack_I o 0;
  let f := write (FINF_HEADER_MAGIC ++ i1 ++ i2 ++ i3 ++ i4 ++ i5 ++ i6 ++ i7 ++ i8
                  ++ i9 ++ i10 ++ i11 ++ i12 ++ i13 ++ i14) f in
  let pos := pos + FINF_HEADER_SIZE in
  let count := count + 1 in
  (* write tglp *)
  data_size ← tglp_data_size (sheet_width t) (sheet_height t) (sheet_format t);
  let f := seek finf_tglp_offset_pos f in
  p ← pack_I o (pos + 8);
  let f := seek pos (write p f) in
  t1 ← pack_I o 0;
  t2 ← pack_B (glyph_width t); t3 ← pack_B (glyph_height t);
  t4 ← pack_B (sheetCount t); t5 ← pack_B maxCharWidth;
  t6 ← pack_I o data_size;
  t7 ← pack_H o (glyph_baseline t); t8 ← pack_H o (Format_value (sheet_format t));
  t9 ← pack_H o (sheet_cols t); t10 ← pack_H o (sheet_rows t);
  t11 ← pack_H o (sheet_width t); t12 ← pack_H o (sheet_height t);
  t13 ← pack_I o TGLP_DATA_OFFSET;
  let f := write (TGLP_HEADER_MAGIC ++ t1 ++ t2 ++ t3 ++ t4 ++ t5 ++ t6 ++ t7 ++ t8
                  ++ t9 ++ t10 ++ t11 ++ t12 ++ t13) f in
  let f := seek TGLP_DATA_OFFSET f in
  let pos := TGLP_DATA_OFFSET in
  let count := count + 1 in
  mret (f, pos, count).

(** The bitmap [save] builds from the rows of a sheet PNG: four values
    per pixel. *)
Definition bmp_of_rows (pixels : list (list Z)) : res (list pixel) :=
  for_each pixels
    (λ row bmp,
       for_each ((λ i, 4 * i) <$> seqZ 0 ((len row + 3) / 4))
         (λ px bmp,
            r ← Py.index row px; g ← Py.index row (px + 1);
            b ← Py.index row (px + 2); a ← Py.index row (px + 3);
            mret (bmp ++ [(r, g, b, a)]))
         bmp)
    [].

(** [save] from the end of the loop over the sheets on: the size of the
    TGLP section, the two chains with the offsets that lead to them, the
    file size and the number of sections. *)
Definition save_after_sheets (o : byte_order)
    (cwdhs : list CwdhSection) (cmaps : list CmapSection)
    (f : File) (pos count : Z) : res File :=
  let file_size_pos := 0x0C in
  let section_count_pos := 0x10 in
  let finf_cwdh_offset_pos := FFNT_HEADER_SIZE + 0x18 in
  let finf_cmap_offset_pos := FFNT_HEADER_SIZE + 0x1C in
  let tglp_start_pos := FFNT_HEADER_SIZE + FINF_HEADER_SIZE in
  let tglp_size_pos := tglp_start_pos + 0x04 in
  b ← pack_I o (pos - tglp_start_pos);
  let f := write b (seek tglp_size_pos f) in
  b ← pack_I o (pos + 8);
  let f := seek pos (write b (seek finf_cwdh_offset_pos f)) in
  (* write cwdh *)
  s ← save_cwdh_sections o cwdhs f pos count;
  b ← pack_I o (position s + 8);
  let f := seek (position s) (write b (seek finf_cmap_offset_pos (file_ s))) in
  (* write cmap *)
  s ← save_cmap_sections o cmaps f (position s) (section_count s);
  (* fill in size/offset placeholders *)
  b ← pack_I o (position s);
  let f := write b (seek file_size_pos (file_ s)) in
  b ← pack_I o (section_count s);
  mret (write b (seek section_count_pos f)).

(** ** [Bffnt.extract]: the manifest tables and the PNG rows *)

(** [chr(code)]: the character, kept as its code point. *)
Definition chr (code : Z) : res Z :=
  if bool_decide (0 ≤ code < 0x110000) then Ok code else Raise ValueError.

(** The body of [for cwdh in self.cwdh_sections]. *)
Definition extract_cwdh_section (cwdh : CwdhSection) (glyph_widths : gmap Z CwdhSectionData)
  : res (gmap Z CwdhSectionData) :=
  for_each (seqZ (cwdh_start cwdh) (cwdh_end cwdh + 1 - cwdh_start cwdh))
    (λ index glyph_widths,
       data ← Py.index (cwdh_data cwdh) (index - cwdh_start cwdh);
       mret (<[index := data]> glyph_widths))
    glyph_widths.

(** [glyph_widths], from glyph index to the three widths. *)
Definition extract_glyph_widths (sections : list CwdhSection)
  : res (gmap Z CwdhSectionData) :=
  for_each sections extract_cwdh_section ∅.

(** The body of [for cmap in self.cmap_sections].  The keys of
    [glyph_mapping] are one-character strings, [chr(code)] in the Direct
    and Table branches and the keys of [cmap['entries']] in the Scan
    branch; a character is kept as its code point. *)
Definition extract_cmap_section (cmap : CmapSection) (glyph_mapping : gmap Z Z)
  : res (gmap Z Z) :=
  if cmap_type cmap =? MAPPING_DIRECT then
    for_each (seqZ (cmap_start cmap) (cmap_end cmap + 1 - cmap_start cmap))
      (λ code glyph_mapping,
         io ← of_option KeyError (cmap_indexOffset cmap);
         c ← chr code;
         mret (<[c := code - cmap_start cmap + io]> glyph_mapping))
      glyph_mapping
  else if cmap_type cmap =? MAPPING_TABLE then
    for_each (seqZ (cmap_start cmap) (cmap_end cmap + 1 - cmap_start cmap))
      (λ code glyph_mapping,
         it ← of_option KeyError (cmap_indexTable cmap);
         index ← Py.index it (code - cmap_start cmap);
         if negb (index =? 0xFFFF) then
           c ← chr code; mret (<[c := index]> glyph_mapping)
         else Ok glyph_mapping)
      glyph_mapping
  else if cmap_type cmap =? MAPPING_SCAN then
    entries ← of_option KeyError (cmap_entries cmap);
    for_each entries
      (λ '(code, index) glyph_mapping, mret (<[code := index]> glyph_mapping))
      glyph_mapping
  else Ok glyph_mapping.

(** [glyph_mapping], from character to glyph index. *)
Definition extract_glyph_mapping (sections : list CmapSection) : res (gmap Z Z) :=
  for_each sections extract_cmap_section ∅.

(** The rows handed to [png.from_array] for one sheet: the four channels
    of every pixel, row after row. *)
Definition png_rows (sheet : Sheet) : res (list (list Z)) :=
  let width := sh_width sheet in
  let height := sh_height sheet in
  for_each (range height)
    (λ y png_data,
       row ← for_each (range width)
               (λ x row,
                  '(r, g, b, a) ← Py.index (sh_data sheet) (x + y * width);
                  mret (row ++ [r; g; b; a]))
               [];
       mret (png_data ++ [row]))
    [].

(** ** The bytes of a written section *)

(** The bytes of a field that packs. *)
Definition packed (r : res (list byte)) : list byte :=
  match r with Ok bs => bs | _ => [] end.

(** A file's bytes, filled with zeros up to its cursor when the cursor is
    past the end: what the next write starts from. *)
Definition extended (f : File) : list byte :=
  content f ++ replicate (Z.to_nat (cursor f - len (content f))) x00.

(** The three bytes [save] writes for one glyph. *)
Definition triple_bytes (t : CwdhSectionData) : list byte :=
  packed (pack_b (wd_left t)) ++ packed (pack_b (wd_glyph t)) ++ packed (pack_b (wd_char t)).

(** A CWDH section as [save] lays it out: the header, with [size] in its
    size field and no successor, one triple per glyph, and [padding] zero
    bytes. *)
Definition cwdh_section_bytes (o : byte_order) (cwdh : CwdhSection) (size padding : Z)
  : list byte :=
  CWDH_HEADER_MAGIC ++ packed (pack_I o size)
  ++ packed (pack_H o (cwdh_start cwdh)) ++ packed (pack_H o (cwdh_end cwdh))
  ++ packed (pack_I o 0)
  ++ (cwdh_data cwdh ≫= triple_bytes)
  ++ replicate (Z.to_nat padding) x00.

(** Widths that [save] can pack, and widths that come back as written. *)
Definition packable (t : CwdhSectionData) : Prop :=
  -128 ≤ wd_left t < 128 ∧ -128 ≤ wd_glyph t < 128 ∧ -128 ≤ wd_char t < 128.

Definition kept (t : CwdhSectionData) : Prop :=
  -128 ≤ wd_left t < 128 ∧ 0 ≤ wd_glyph t < 128 ∧ 0 ≤ wd_char t < 128.

(** ** The tables and rows [extract] builds *)

(** Glyph [i] lies in the range of the section. *)
Definition covers (cwdh : CwdhSection) (i : Z) : Prop :=
  cwdh_start cwdh ≤ i ≤ cwdh_end cwdh.

#[global] Instance covers_dec cwdh i : Decision (covers cwdh i).
Proof. unfold covers. apply _. Defined.

(** What [extract] needs of a CMAP section: the payload of its mapping
    method, as [_parse_cmap_data] stores it, and code points [chr]
    accepts. *)
Definition extractable (c : CmapSection) : Prop :=
  if cmap_type c =? MAPPING_DIRECT then
    is_Some (cmap_indexOffset c) ∧ 0 ≤ cmap_start c ∧ cmap_end c < 0x110000
  else if cmap_type c =? MAPPING_TABLE then
    (∃ it, cmap_indexTable c = Some it ∧ cmap_end c - cmap_start c + 1 ≤ len it)
    ∧ 0 ≤ cmap_start c ∧ cmap_end c < 0x110000
  else if cmap_type c =? MAPPING_SCAN then is_Some (cmap_entries c)
  else True.

(** The glyph a section gives to the character with code point [code],
    if it gives one: [code - start + indexOffset] in the range of a
    Direct section, the entry of the index table in the range of a Table
    section unless it is 0xFFFF, the entry of a Scan section (the last
    one, should the list name the code twice). *)
Definition glyph_of (c : CmapSection) (code : Z) : option Z :=
  if cmap_type c =? MAPPING_DIRECT then
    if decide (cmap_start c ≤ code ≤ cmap_end c)
    then io ← cmap_indexOffset c; Some (code - cmap_start c + io)
    else None
  else if cmap_type c =? MAPPING_TABLE then
    if decide (cmap_start c ≤ code ≤ cmap_end c)
    then it ← cmap_indexTable c;
         index ← it !! Z.to_nat (code - cmap_start c);
         if index =? 0xFFFF then None else Some index
    else None
  else if cmap_type c =? MAPPING_SCAN then
    es ← cmap_entries c; (list_to_map (reverse es) : gmap Z Z) !! code
  else None.

(** The four channels of a pixel, as [extract] appends them to a row. *)
Definition channels (p : pixel) : list Z := let '(r, g, b, a) := p in [r; g; b; a].

(** Row [y] of a bitmap that is [width] pixels wide. *)
Definition bmp_row (width : Z) (data : list pixel) (y : Z) : list pixel :=
  take (Z.to_nat width) (drop (Z.to_nat (y * width)) data).

(** ** The bytes of a written Scan section *)

(** A Scan entry [save] can pack: a code point and a glyph index of 16
    bits. *)
Definition entry_ok (e : Z * Z) : Prop := 0 ≤ e.1 < 65536 ∧ 0 ≤ e.2 < 65536.

(** The four bytes [save] writes for one Scan entry. *)
Definition pair_bytes (o : byte_order) (e : Z * Z) : list byte :=
  packed (pack_H o e.1) ++ packed (pack_H o e.2).

(** A Scan section as [save] lays it out: the header, with [size] in its
    size field and no successor, the number of entries, the entries in the
    order given, and [padding] zero bytes. *)
Definition scan_section_bytes (o : byte_order) (cmap : CmapSection) (entries : list (Z * Z))
    (size padding : Z) : list byte :=
  CMAP_HEADER_MAGIC ++ packed (pack_I o size)
  ++ packed (pack_H o (cmap_start cmap)) ++ packed (pack_H o (cmap_end cmap))
  ++ packed (pack_H o (cmap_type cmap)) ++ packed (pack_H o 0) ++ packed (pack_I o 0)
  ++ packed (pack_H o (len entries))
  ++ (entries ≫= pair_bytes o)
  ++ replicate (Z.to_nat padding) x00.

(** ** The bytes [save] writes before the sheets *)

(** The fields of the container header that are written once. *)
Definition header_fixed (o : byte_order) (ft : FileType) (version_ : Z) : list byte :=
  magic_of ft
  ++ packed (pack_H o (match o with Big => 0xFFFE | Little => 0xFEFF end))
  ++ packed (pack_H o FFNT_HEADER_SIZE) ++ packed (pack_I o version_).

(** The fields of the FINF record up to its three offsets. *)
Definition finf_fixed (o : byte_order) (fi : FontInfo) : list byte :=
  FINF_HEADER_MAGIC ++ packed (pack_I o FINF_HEADER_SIZE)
  ++ packed (pack_B (fi_fontType fi)) ++ packed (pack_B (fi_height fi))
  ++ packed (pack_B (fi_width fi)) ++ packed (pack_B (fi_ascent fi))
  ++ packed (pack_H o (fi_lineFeed fi)) ++ packed (pack_H o (fi_alterCharIdx fi))
  ++ packed (pack_B (wd_left (fi_defaultWidth fi)))
  ++ packed (pack_B (wd_glyph (fi_defaultWidth fi)))
  ++ packed (pack_B (wd_char (fi_defaultWidth fi)))
  ++ packed (pack_B (fi_encoding fi)).

(** The fields of the TGLP header after its size. *)
Definition tglp_fixed (o : byte_order) (t : Tglp) (maxCharWidth data_size : Z) : list byte :=
  packed (pack_B (glyph_width t)) ++ packed (pack_B (glyph_height t))
  ++ packed (pack_B (sheetCount t)) ++ packed (pack_B maxCharWidth)
  ++ packed (pack_I o data_size)
  ++ packed (pack_H o (glyph_baseline t)) ++ packed (pack_H o (Format_value (sheet_format t)))
  ++ packed (pack_H o (sheet_cols t)) ++ packed (pack_H o (sheet_rows t))
  ++ packed (pack_H o (sheet_width t)) ++ packed (pack_H o (sheet_height t))
  ++ packed (pack_I o TGLP_DATA_OFFSET).

(** The first 0x54 bytes of a file [save] writes: the container header,
    the FINF record and the TGLP header, with the six fields that [save]
    fills in later as parameters. *)
Definition head_bytes (o : byte_order) (ft : FileType) (version_ : Z) (fi : FontInfo)
    (t : Tglp) (maxCharWidth data_size : Z)
    (file_size_ sections_ tglp_off cwdh_off cmap_off tglp_size_ : Z) : list byte :=
  header_fixed o ft version_
  ++ packed (pack_I o file_size_) ++ packed (pack_I o sections_)
  ++ finf_fixed o fi
  ++ packed (pack_I o tglp_off) ++ packed (pack_I o cwdh_off) ++ packed (pack_I o cmap_off)
  ++ TGLP_HEADER_MAGIC ++ packed (pack_I o tglp_size_)
  ++ tglp_fixed o t maxCharWidth data_size.

(** Font information and texture information whose fields fit the
    unsigned fields [save] packs them into. *)
Definition font_info_ok (fi : FontInfo) : Prop :=
  0 ≤ fi_fontType fi < 256 ∧ 0 ≤ fi_height fi < 256 ∧ 0 ≤ fi_width fi < 256
  ∧ 0 ≤ fi_ascent fi < 256 ∧ 0 ≤ fi_lineFeed fi < 65536 ∧ 0 ≤ fi_alterCharIdx fi < 65536
  ∧ 0 ≤ wd_left (fi_defaultWidth fi) < 256 ∧ 0 ≤ wd_glyph (fi_defaultWidth fi) < 256
  ∧ 0 ≤ wd_char (fi_defaultWidth fi) < 256 ∧ 0 ≤ fi_encoding fi < 256.

Definition texture_ok (t : Tglp) (maxCharWidth data_size : Z) : Prop :=
  0 ≤ glyph_width t < 256 ∧ 0 ≤ glyph_height t < 256 ∧ 0 ≤ sheetCount t < 256
  ∧ 0 ≤ maxCharWidth < 256 ∧ 0 ≤ data_size < 2 ^ 32
  ∧ 0 ≤ glyph_baseline t < 65536 ∧ 0 ≤ sheet_cols t < 65536 ∧ 0 ≤ sheet_rows t < 65536
  ∧ 0 ≤ sheet_width t < 65536 ∧ 0 ≤ sheet_height t < 65536.

(** ** The object [read] builds from a written file *)

(** The texture information [_parse_tglp_header] stores for a file [save]
    wrote: the fields of [t], the size of the TGLP section and of one
    sheet as [save] computed them, and no sheet yet. *)
Definition tglp_read_back (t : Tglp) (size data_size : Z) : Tglp :=
  {| tglp_size := size;
     glyph_width := glyph_width t; glyph_height := glyph_height t;
     glyph_baseline := glyph_baseline t; sheetCount := sheetCount t;
     sheet_size := data_size; sheet_cols := sheet_cols t;
     sheet_rows := sheet_rows t; sheet_width := sheet_width t;
     sheet_height := sheet_height t; sheet_format := sheet_format t;
     sheetOffset := TGLP_DATA_OFFSET; sheets := [] |}.

(** The object after [read] has parsed the container header, the FINF
    record and the TGLP header. *)
Definition after_headers (o : byte_order) (file_size_ version_ : Z) (ft : FileType)
    (sections_ : Z) (fi : FontInfo) (tglp_off cwdh_off cmap_off : Z) (tg : Tglp)
    (w : World) : World :=
  on_self (set_tglp tg)
    (on_self (set_finf fi tglp_off cwdh_off cmap_off)
       (on_self (set_sections sections_)
          (on_self (set_filetype ft)
             (on_self (set_version version_)
                (on_self (set_order o) (on_self (set_file_size file_size_) w)))))).

(** A font without sheets: 8x8 cells on an 8x8 sheet in format A8. *)
Definition sample_font_info : FontInfo :=
  {| fi_height := 8; fi_width := 8; fi_ascent := 7; fi_lineFeed := 8; fi_alterCharIdx := 0;
     fi_defaultWidth := {| wd_left := 0; wd_glyph := 8; wd_char := 8 |};
     fi_fontType := 1; fi_encoding := 1 |}.

Definition sample_texture : Tglp :=
  {| tglp_size := 0; glyph_width := 7; glyph_height := 7; glyph_baseline := 7;
     sheetCount := 0; sheet_size := 0; sheet_cols := 1; sheet_rows := 1;
     sheet_width := 8; sheet_height := 8; sheet_format := A8;
     sheetOffset := 0; sheets := [] |}.

(** * Properties *)

(** Linear arithmetic with divisions and remainders by constants. *)
Ltac div_lia := Z.to_euclidean_division_equations; lia.

(** ** Bit-level facts used by the codecs *)

Lemma land_shiftl_low a b n :
  0 ≤ n → 0 ≤ b < 2 ^ n → Z.land (Z.shiftl a n) b = 0.
Proof.
  intros Hn Hb. apply Z.bits_inj'. intros m Hm.
  rewrite Z.land_spec, Z.bits_0.
  destruct (decide (m < n)) as [Hlt|Hge].
  - by rewrite Z.shiftl_spec_low.
  - rewrite andb_false_iff. right.
    destruct (decide (b = 0)) as [->|Hb0]; [apply Z.bits_0|].
    apply Z.bits_above_log2; [lia|].
    apply Z.log2_lt_pow2; [lia|].
    apply Z.lt_le_trans with (2 ^ n); [lia|].
    apply Z.pow_le_mono_r; lia.
Qed.

(** OR-ing a value below [2^n] into a value shifted left by [n] is an
    addition. *)
Lemma lor_shiftl_low a b n :
  0 ≤ n → 0 ≤ b < 2 ^ n → Z.lor (Z.shiftl a n) b = a * 2 ^ n + b.
Proof.
  intros Hn Hb.
  rewrite <- Z.lxor_lor by (by apply land_shiftl_low).
  rewrite <- Z.add_nocarry_lxor by (by apply land_shiftl_low).
  by rewrite Z.shiftl_mul_pow2.
Qed.

Lemma land_low_mask a n : 0 ≤ n → Z.land a (2 ^ n - 1) = a mod 2 ^ n.
Proof. intros Hn. rewrite <- Z.land_ones by done. by rewrite Z.ones_equiv, Z.sub_1_r. Qed.

Lemma shiftr_land_mask a k n :
  0 ≤ k → 0 ≤ n → Z.land (Z.shiftr a k) (2 ^ n - 1) = (a / 2 ^ k) mod 2 ^ n.
Proof. intros Hk Hn. by rewrite land_low_mask, Z.shiftr_div_pow2. Qed.

Lemma lor_below_8 a b : 0 ≤ a < 8 → 0 ≤ b < 8 → 0 ≤ Z.lor a b < 8.
Proof.
  intros Ha Hb.
  assert (H : Forall (λ a, Forall (λ b, 0 ≤ Z.lor a b < 8) (seqZ 0 8)) (seqZ 0 8)).
  { apply (bool_decide_unpack _). vm_compute. reflexivity. }
  apply (proj1 (Forall_seqZ _ 0 8) (proj1 (Forall_seqZ _ 0 8) H a ltac:(lia))). lia.
Qed.

Lemma land_below a n : 0 ≤ n → 0 ≤ Z.land a (2 ^ n - 1) < 2 ^ n.
Proof. intros Hn. rewrite land_low_mask by done. apply Z.mod_pos_bound. lia. Qed.

(** ** ETC1: the two base colours in differential mode *)

Lemma widen_5_to_8_bits v :
  Z.lor (Z.shiftl v 3) (Z.land (Z.shiftr v 2) 0x07) = widen_5_to_8 v.
Proof.
  unfold widen_5_to_8.
  change 0x07 with (2 ^ 3 - 1). rewrite shiftr_land_mask by lia.
  rewrite lor_shiftl_low; [done | lia |].
  apply Z.mod_pos_bound. lia.
Qed.

Lemma widen_5_to_8_replicates v :
  0 ≤ v < 32 → widen_5_to_8 v = v * 8 + v / 4 ∧ 0 ≤ widen_5_to_8 v ≤ 255.
Proof.
  unfold widen_5_to_8. intros Hv.
  rewrite Z.mod_small; div_lia.
Qed.

Lemma _complement_3 pixels ofs :
  0 ≤ ofs →
  _complement (Z.land (Z.shiftr pixels ofs) 0x07) 3 = signed3 (block_field pixels ofs 3).
Proof.
  intros Hofs. unfold _complement, signed3, block_field.
  change 0x07 with (2 ^ 3 - 1). rewrite shiftr_land_mask by lia.
  set (d := (pixels / 2 ^ ofs) mod 2 ^ 3).
  assert (0 ≤ d < 8) by (apply Z.mod_pos_bound; lia).
  change (3 - 1) with 2. rewrite Z.shiftr_div_pow2 by lia.
  change (Z.shiftl 1 3) with 8. change (2 ^ 2) with 4.
  destruct (Z.eqb_spec (d / 4) 0), (Z.ltb_spec d 4);
    div_lia.
Qed.

(** C7.  In differential mode (bit 33 of the colour block set), each channel
    of the first base colour is the 5-bit code word of the block widened to
    8 bits by repeating its three high bits in the three low bits, and each
    channel of the second base colour is that code word plus the 3-bit delta
    read as a two's-complement number (values 4..7 stand for -4..-1), the
    sum widened by the same shift-and-or. *)
Theorem etc1_differential_base_colors (pixels : Z) :
  Z.testbit pixels ETC_DIFFERENTIAL_BIT = true →
  let r := block_field pixels 59 5 in
  let g := block_field pixels 51 5 in
  let b := block_field pixels 43 5 in
  let dr := signed3 (block_field pixels 56 3) in
  let dg := signed3 (block_field pixels 48 3) in
  let db := signed3 (block_field pixels 40 3) in
  etc1_base_colors pixels
  = ((widen_5_to_8 r, widen_5_to_8 g, widen_5_to_8 b),
     (widen_5_to_8 (r + dr), widen_5_to_8 (g + dg), widen_5_to_8 (b + db)))
  ∧ widen_5_to_8 r = r * 8 + r / 4
  ∧ widen_5_to_8 g = g * 8 + g / 4
  ∧ widen_5_to_8 b = b * 8 + b / 4.
Proof.
  intros Hbit r g b dr dg db.
  assert (Hfield : ∀ ofs, 0 ≤ ofs → Z.land (Z.shiftr pixels ofs) 0x1F = block_field pixels ofs 5).
  { intros ofs Hofs. change 0x1F with (2 ^ 5 - 1). by apply shiftr_land_mask. }
  assert (Hrange : ∀ ofs, 0 ≤ block_field pixels ofs 5 < 32).
  { intros ofs. apply Z.mod_pos_bound. lia. }
  split; [|repeat split; apply widen_5_to_8_replicates, Hrange].
  unfold etc1_base_colors.
  assert (Z.land (Z.shiftr pixels ETC_DIFFERENTIAL_BIT) 0x01 = 1) as ->.
  { unfold ETC_DIFFERENTIAL_BIT in *.
    change 0x01 with (Z.ones 1). rewrite Z.land_ones by lia.
    change (2 ^ 1) with 2.
    rewrite <- Z.bit0_mod, Z.shiftr_spec by lia.
    change (0 + 33) with 33. by rewrite Hbit. }
  cbn [Z.eqb Pos.eqb].
  unfold ETC_DIFF_RED1_OFFSET, ETC_DIFF_GREEN1_OFFSET, ETC_DIFF_BLUE_OFFSET,
    ETC_RED2_OFFSET, ETC_GREEN2_OFFSET, ETC_BLUE2_OFFSET.
  rewrite !Hfield, !_complement_3, !widen_5_to_8_bits by lia.
  done.
Qed.

(** A block with red code word 21 and red delta 7 (that is, -1). *)
Lemma etc1_differential_base_colors_witness :
  Z.testbit 0xAF00000200000000 ETC_DIFFERENTIAL_BIT = true
  ∧ etc1_base_colors 0xAF00000200000000 = ((173, 0, 0), (165, 0, 0)).
Proof.
  split; [reflexivity|].
  refine (eq_trans
    (proj1 (etc1_differential_base_colors 0xAF00000200000000 _)) _);
    reflexivity.
Defined.

(** ** Bytes and Python sequences *)

Lemma u8_range b : 0 ≤ u8 b ≤ 255.
Proof. unfold u8. pose proof (Byte.to_N_bounded b). lia. Qed.

Lemma s8_range b : -128 ≤ s8 b ≤ 127.
Proof. unfold s8. pose proof (u8_range b). case_match; lia. Qed.

Lemma byte_of_u8 z :
  0 ≤ z < 256 → ∃ b, byte_of z = Some b ∧ u8 b = z.
Proof.
  intros Hz. unfold byte_of. rewrite bool_decide_true by done.
  destruct (Byte.of_N (Z.to_N z)) as [b|] eqn:Hb.
  - exists b. split; [done|]. apply Byte.to_of_N in Hb. unfold u8. lia.
  - apply Byte.of_N_None_iff in Hb. lia.
Qed.

Lemma pack_B_u8 z :
  0 ≤ z < 256 → ∃ b, pack_B z = Ok [b] ∧ u8 b = z.
Proof.
  intros Hz. destruct (byte_of_u8 z Hz) as (b & Hb & Hu).
  exists b. unfold pack_B. by rewrite Hb.
Qed.

Lemma slice_bound_in_range n i : 0 ≤ i ≤ n → slice_bound n i = i.
Proof. unfold slice_bound. intros Hi. case_bool_decide; lia. Qed.

(** A slice that covers exactly the second of two concatenated lists. *)
Lemma slice_app_r {A} (l1 l2 : list A) (lo hi : Z) :
  lo = len l1 → hi = lo + len l2 → slice (l1 ++ l2) lo hi = l2.
Proof.
  intros -> ->. unfold slice, len. rewrite length_app.
  rewrite !slice_bound_in_range by lia.
  replace (Z.to_nat (Z.of_nat (length l1))) with (length l1) by lia.
  rewrite drop_app_length.
  apply firstn_all2. lia.
Qed.

Lemma slice_3 (data : list byte) (pos : Z) :
  0 ≤ pos → pos + 3 ≤ len data →
  ∃ a b c, slice data pos (pos + 3) = [a; b; c]
    ∧ data !! Z.to_nat pos = Some a
    ∧ data !! Z.to_nat (pos + 1) = Some b
    ∧ data !! Z.to_nat (pos + 2) = Some c.
Proof.
  intros Hpos Hlen. unfold slice. unfold len in *.
  rewrite !slice_bound_in_range by lia.
  replace (Z.to_nat (pos + 3 - pos)) with 3%nat by lia.
  pose proof (lookup_drop data (Z.to_nat pos)) as Hd.
  assert (Hl : (3 ≤ length (drop (Z.to_nat pos) data))%nat) by (rewrite length_drop; lia).
  destruct (drop (Z.to_nat pos) data) as [|a [|b [|c rest]]]; cbn in Hl; try lia.
  exists a, b, c. split; [done|].
  pose proof (Hd 0%nat) as H0. pose proof (Hd 1%nat) as H1. pose proof (Hd 2%nat) as H2.
  cbn in H0, H1, H2.
  replace (Z.to_nat (pos + 1)) with (Z.to_nat pos + 1)%nat by lia.
  replace (Z.to_nat (pos + 2)) with (Z.to_nat pos + 2)%nat by lia.
  rewrite Nat.add_0_r in H0. done.
Qed.

Lemma index_nonneg {A} (l : list A) (i : Z) (x : A) :
  0 ≤ i → l !! Z.to_nat i = Some x → Py.index l i = Ok x.
Proof.
  intros Hi Hx. unfold Py.index, index_pos, len.
  pose proof (lookup_lt_Some _ _ _ Hx) as Hlt.
  rewrite (bool_decide_false (i < 0)) by lia.
  rewrite bool_decide_true by lia.
  cbn. by rewrite Hx.
Qed.

Lemma index_assign_nonneg {A} (l : list A) (i : Z) (x : A) :
  0 ≤ i < len l → index_assign l i x = Ok (<[Z.to_nat i := x]> l).
Proof.
  intros Hi. unfold index_assign, index_pos.
  rewrite (bool_decide_false (i < 0)) by lia.
  by rewrite bool_decide_true by done.
Qed.

(** [l[-1]] of a list that was just appended to. *)
Lemma index_last {A} (l : list A) (x : A) : Py.index (l ++ [x]) (-1) = Ok x.
Proof.
  unfold Py.index, index_pos, len. rewrite length_app. cbn [length].
  rewrite (bool_decide_true (-1 < 0)) by lia.
  rewrite bool_decide_true by lia. cbn.
  replace (Z.to_nat (-1 + Z.of_nat (length l + 1))) with (length l) by lia.
  rewrite lookup_app_r, Nat.sub_diag; done.
Qed.

Lemma set_last_snoc {A} (l : list A) (x y : A) : set_last y (l ++ [x]) = l ++ [y].
Proof.
  unfold set_last. rewrite length_app. cbn [length].
  replace (pred (length l + 1)) with (length l + 0)%nat by lia.
  by rewrite insert_app_r.
Qed.

(** ** Pixel codec: encode, pack, decode *)

(** Whatever the stored bytes, the RGBA5551 and RGB565 decoders return
    colour channels of at most 31 (7 for green). *)
Lemma decode_5551_565_channel_bounds (format_ : Format) (data : list byte) (index : Z)
    (red green blue alpha : Z) :
  format_ = RGBA5551 ∨ format_ = RGB565 →
  _get_pixel_data format_ data index = Ok (red, green, blue, alpha) →
  0 ≤ red ≤ 31 ∧ 0 ≤ green ≤ 7 ∧ 0 ≤ blue ≤ 31.
Proof.
  intros [-> | ->] H; unfold _get_pixel_data in H;
    destruct (unpack_2B _) as [[b1 b2]| |]; try done;
    cbn [mbind res_bind mret res_ret] in H; injection H as <- <- <- <-.
  - pose proof (land_below (Z.shiftr b1 3) 5). pose proof (land_below (Z.shiftr b2 1) 5).
    pose proof (lor_below_8 (Z.land b1 0x07) (Z.land (Z.shiftr b2 6) 0x03)
                  (land_below b1 3 ltac:(lia))) as Hg.
    pose proof (land_below (Z.shiftr b2 6) 2).
    change (2 ^ 5 - 1) with 0x1F in *. change (2 ^ 2 - 1) with 0x03 in *.
    change (2 ^ 5) with 32 in *. change (2 ^ 2) with 4 in *. lia.
  - pose proof (land_below (Z.shiftr b1 3) 5). pose proof (land_below b2 5).
    pose proof (lor_below_8 (Z.land b1 0x7) (Z.land (Z.shiftr b2 5) 0x7)
                  (land_below b1 3 ltac:(lia)) (land_below (Z.shiftr b2 5) 3 ltac:(lia))) as Hg.
    change (2 ^ 5 - 1) with 0x1F in *. change (2 ^ 5) with 32 in *. lia.
Qed.

(** Every RGBA4 pixel whose channels are multiples of 0x11 comes back with
    green and alpha exchanged. *)
Lemma rgba4_exchanges_green_and_alpha r4 g4 b4 a4 :
  0 ≤ r4 < 16 → 0 ≤ g4 < 16 → 0 ≤ b4 < 16 → 0 ≤ a4 < 16 →
  encode_then_decode RGBA4 (0x11 * r4, 0x11 * g4, 0x11 * b4, 0x11 * a4) 0
  = Ok (0x11 * r4, 0x11 * a4, 0x11 * b4, 0x11 * g4).
Proof.
  intros Hr Hg Hb Ha.
  assert (H : Forall (λ r4, Forall (λ g4, Forall (λ b4, Forall (λ a4,
                encode_then_decode RGBA4 (0x11 * r4, 0x11 * g4, 0x11 * b4, 0x11 * a4) 0
                = Ok (0x11 * r4, 0x11 * a4, 0x11 * b4, 0x11 * g4))
              (seqZ 0 16)) (seqZ 0 16)) (seqZ 0 16)) (seqZ 0 16)).
  { apply (bool_decide_unpack _). vm_compute. reflexivity. }
  pose proof (proj1 (Forall_seqZ _ 0 16) H r4 ltac:(lia)) as H1.
  pose proof (proj1 (Forall_seqZ _ 0 16) H1 g4 ltac:(lia)) as H2.
  pose proof (proj1 (Forall_seqZ _ 0 16) H2 b4 ltac:(lia)) as H3.
  exact (proj1 (Forall_seqZ _ 0 16) H3 a4 ltac:(lia)).
Qed.

(** No pixel with a colour channel above 31 comes back unchanged from
    RGBA5551 or RGB565. *)
Lemma rgb5_round_trip_loses_bright_pixels format_ (p q : pixel) (index : Z) :
  format_ = RGBA5551 ∨ format_ = RGB565 →
  encode_then_decode format_ p index = Ok q →
  31 < p.1.1.1 ∨ 7 < p.1.1.2 ∨ 31 < p.1.2 →
  q ≠ p.
Proof.
  intros Hf H Hp. unfold encode_then_decode in H.
  destruct (_get_tglp_pixel_data _ _ _) as [frag| |]; try done. cbn [mbind res_bind] in H.
  destruct (pack_Bs frag) as [data| |]; try done. cbn [mbind res_bind] in H.
  destruct q as [[[r g] b] a].
  pose proof (decode_5551_565_channel_bounds _ _ _ _ _ _ _ Hf H) as Hq.
  intros <-. cbn [fst snd] in Hp. lia.
Qed.

(** C1, where the code departs from it.  Three formats do not give back a
    pixel they can hold exactly.  RGBA4 returns green and alpha exchanged,
    for every pixel whose channels are multiples of 0x11.  RGBA5551 and
    RGB565 return the stored 5- and 6-bit fields unscaled (and green
    without its low bits), so no pixel with a colour channel above 31 comes
    back unchanged. *)
Theorem encode_then_decode_differs :
  (∀ r4 g4 b4 a4,
     0 ≤ r4 < 16 → 0 ≤ g4 < 16 → 0 ≤ b4 < 16 → 0 ≤ a4 < 16 →
     encode_then_decode RGBA4 (0x11 * r4, 0x11 * g4, 0x11 * b4, 0x11 * a4) 0
     = Ok (0x11 * r4, 0x11 * a4, 0x11 * b4, 0x11 * g4))
  ∧ (∀ format_ p q index,
       format_ = RGBA5551 ∨ format_ = RGB565 →
       encode_then_decode format_ p index = Ok q →
       31 < p.1.1.1 ∨ 7 < p.1.1.2 ∨ 31 < p.1.2 →
       q ≠ p)
  ∧ encode_then_decode RGBA4 (0x11, 0x22, 0x33, 0x44) 0 = Ok (0x11, 0x44, 0x33, 0x22)
  ∧ encode_then_decode RGBA5551 (255, 255, 255, 255) 0 = Ok (31, 7, 31, 255)
  ∧ encode_then_decode RGB565 (255, 255, 255, 255) 0 = Ok (31, 7, 31, 255).
Proof.
  split; [apply rgba4_exchanges_green_and_alpha|].
  split; [apply rgb5_round_trip_loses_bright_pixels|].
  repeat split; vm_compute; reflexivity.
Qed.

(** C5, where the code departs from it.  The decoders of RGBA5551 and
    RGB565 never return a colour channel above 31.  A stored red field of
    31 decodes to 31 in both formats, not to [(31 << 3) | (31 >> 2) = 255];
    a stored 6-bit green field of 63 decodes to 7, not to
    [(63 << 2) | (63 >> 4) = 255]. *)
Theorem decode_5551_565_returns_raw_fields :
  (∀ format_ data index red green blue alpha,
     format_ = RGBA5551 ∨ format_ = RGB565 →
     _get_pixel_data format_ data index = Ok (red, green, blue, alpha) →
     0 ≤ red ≤ 31 ∧ 0 ≤ green ≤ 7 ∧ 0 ≤ blue ≤ 31)
  ∧ _get_pixel_data RGBA5551 [xf8; x01] 0 = Ok (31, 0, 0, 255)
  ∧ _get_pixel_data RGB565 [xf8; x00] 0 = Ok (31, 0, 0, 255)
  ∧ _get_pixel_data RGB565 [x07; xe0] 0 = Ok (0, 7, 0, 255)
  ∧ Z.lor (Z.shiftl 31 3) (Z.shiftr 31 2) = 255
  ∧ Z.lor (Z.shiftl 63 2) (Z.shiftr 63 4) = 255.
Proof.
  split; [apply decode_5551_565_channel_bounds|].
  repeat split; vm_compute; reflexivity.
Qed.

(** C8, where the code departs from it.  The L4 fragment of a pixel is its
    whole 8-bit luma shifted by the parity of the index, not a nibble: for
    the pixel (0, 100, 0, 255) at index 0 it is 71 = 0x47.  OR-ed into the
    byte it shares with pixel 1, whose luma is 0, it leaves 4 in the nibble
    of pixel 1, in either order of the two visits, and pixel 1 reads back
    as (68, 68, 68, 255). *)
Theorem l4_fragment_spills_into_neighbour :
  let bmp := [(0, 100, 0, 255); (0, 0, 0, 255)] in
  _get_tglp_pixel_data bmp 0 L4 = Ok [71]
  ∧ _get_tglp_pixel_data bmp 1 L4 = Ok [0]
  ∧ ('(bmp, sheet) ← bitmap_to_sheet_vistor L4 bmp 0 [0] 0;
     bitmap_to_sheet_vistor L4 bmp 1 sheet 1) = Ok (bmp, [71])
  ∧ ('(bmp, sheet) ← bitmap_to_sheet_vistor L4 bmp 1 [0] 1;
     bitmap_to_sheet_vistor L4 bmp 0 sheet 0) = Ok (bmp, [71])
  ∧ _get_pixel_data L4 [x47] 1 = Ok (68, 68, 68, 255).
Proof. repeat split; vm_compute; reflexivity. Qed.

(** For RGBA8, RGB8, A8 and A4, a pixel the format holds exactly comes back
    unchanged from encoding, packing and decoding at the same index. *)
Lemma held_exactly_round_trip (format_ : Format) (p : pixel) (index : Z) :
  0 ≤ index → held_exactly format_ p → encode_then_decode format_ p index = Ok p.
Proof.
  intros Hidx. destruct p as [[[red green] blue] alpha].
  intros [(Hr & Hg & Hb & Ha) Hheld].
  unfold encode_then_decode, _get_tglp_pixel_data.
  rewrite (index_nonneg _ _ (red, green, blue, alpha)); [|done|].
  2:{ rewrite lookup_app_r; rewrite length_replicate; [|lia].
      by rewrite Nat.sub_diag. }
  cbn [mbind res_bind].
  destruct (pack_B_u8 red Hr) as (br & Hbr & Hur).
  destruct (pack_B_u8 green Hg) as (bg & Hbg & Hug).
  destruct (pack_B_u8 blue Hb) as (bb & Hbb & Hub).
  destruct (pack_B_u8 alpha Ha) as (ba & Hba & Hua).
  assert (Hslice : ∀ (n k : Z) (bs : list byte), 0 ≤ n → k = len bs →
            slice (replicate (Z.to_nat n) x00 ++ bs) n (n + k) = bs).
  { intros n k bs Hn ->. apply slice_app_r; [|done].
    unfold len. rewrite length_replicate. lia. }
  destruct format_; try done; cbn [mret res_ret mbind res_bind pack_Bs].
  - rewrite Hbr, Hbg, Hbb, Hba. cbn [mbind res_bind mret res_ret app].
    unfold _get_pixel_data. cbn [format_size].
    replace (index * 32 / 8) with (index * 4) by (div_lia).
    rewrite Hslice by (done || lia).
    cbv -[u8 Z.add Z.mul]. by rewrite Hur, Hug, Hub, Hua, !Z.mul_0_r, !Z.add_0_r.
  - rewrite Hbr, Hbg, Hbb. cbn [mbind res_bind mret res_ret app].
    unfold _get_pixel_data. cbn [format_size].
    replace (index * 24 / 8) with (index * 3) by (div_lia).
    rewrite Hslice by (done || lia).
    cbv -[u8 Z.add Z.mul]. by rewrite Hur, Hug, Hub, Hheld, !Z.mul_0_r, !Z.add_0_r.
  - rewrite Hba. cbn [mbind res_bind mret res_ret app].
    unfold _get_pixel_data. cbn [format_size].
    replace (index * 8 / 8) with index by (div_lia).
    rewrite Hslice by (done || lia).
    destruct Hheld as (-> & -> & ->).
    cbv -[u8 Z.add Z.mul]. by rewrite Hua, !Z.mul_0_r, !Z.add_0_r.
  - destruct Hheld as (-> & -> & -> & Hmul).
    cbn [format_size _get_pixel_data].
    replace (index * 4 / 8) with (index / 2) by (div_lia).
    assert (Hpar : Z.land index 1 = 0 ∨ Z.land index 1 = 1).
    { pose proof (land_low_mask index 1) as Hm.
      change (2 ^ 1 - 1) with 1 in Hm. change (2 ^ 1) with 2 in Hm.
      rewrite Hm by lia. div_lia. }
    assert (Hpad : ∀ b : byte,
              Py.index (replicate (Z.to_nat (index / 2)) x00 ++ [b]) (index / 2) = Ok b).
    { intros b. apply index_nonneg; [div_lia|].
      rewrite lookup_app_r; rewrite length_replicate; [|lia].
      by rewrite Nat.sub_diag. }
    assert (Hq : ∃ q, alpha = 17 * q ∧ 0 ≤ q < 16).
    { exists (alpha / 17). div_lia. }
    destruct Hq as (q & -> & Hq).
    assert (Hcases : Exists (λ v, q = v) (seqZ 0 16)).
    { apply Exists_exists. exists q. split; [|done]. apply elem_of_seqZ. lia. }
    clear Ha Hmul Hq Hba Hua.
    cbv [seqZ seq Z.to_nat Pos.to_nat Pos.iter_op Nat.add fmap list_fmap] in Hcases.
    repeat (apply Exists_cons in Hcases as [->|Hcases]);
      [..|by apply Exists_nil in Hcases];
      destruct Hpar as [-> | ->];
      (set (e := pack_B _); vm_compute in e; subst e;
       cbn [mbind res_bind mret res_ret app];
       rewrite Hpad; vm_compute; reflexivity).
Qed.

(** An A4 pixel at an odd index. *)
Lemma held_exactly_round_trip_witness :
  0 ≤ 3
  ∧ held_exactly A4 (255, 255, 255, 0x55)
  ∧ encode_then_decode A4 (255, 255, 255, 0x55) 3 = Ok (255, 255, 255, 0x55).
Proof.
  assert (H : held_exactly A4 (255, 255, 255, 0x55)) by (cbn; repeat split; lia).
  split; [lia|]. split; [exact H|].
  apply (held_exactly_round_trip A4 (255, 255, 255, 0x55) 3); [lia | exact H].
Defined.

(** On encode, RGBA5551 and RGB565 scale each 8-bit colour channel down by
    an integer division (by 8 for a 5-bit field, by 4 for the 6-bit green
    of RGB565) and pack the fields from the high bits down; the alpha bit
    of RGBA5551 is set for any non-zero alpha. *)
Lemma encode_5551_565_divides (red green blue alpha : Z) :
  0 ≤ red < 256 → 0 ≤ green < 256 → 0 ≤ blue < 256 →
  _get_tglp_pixel_data [(red, green, blue, alpha)] 0 RGBA5551
  = Ok [red / 8 * 8 + green / 8 / 4;
        (green / 8) mod 4 * 64 + blue / 8 * 2 + (if 0 <? alpha then 1 else 0)]
  ∧ _get_tglp_pixel_data [(red, green, blue, alpha)] 0 RGB565
    = Ok [red / 8 * 8 + green / 4 / 8; (green / 4) mod 8 * 32 + blue / 8].
Proof.
  intros Hr Hg Hb.
  assert (H5 : ∀ c, 0 ≤ c < 256 → Z.land (c / 8) 0x1F = c / 8).
  { intros c Hc. change 0x1F with (2 ^ 5 - 1). rewrite land_low_mask by lia.
    apply Z.mod_small. div_lia. }
  assert (H6 : Z.land (green / 4) 0x3F = green / 4).
  { change 0x3F with (2 ^ 6 - 1). rewrite land_low_mask by lia.
    apply Z.mod_small. div_lia. }
  unfold _get_tglp_pixel_data. cbn [Py.index index_pos]. 
  change (Py.index [(red, green, blue, alpha)] 0) with (Ok (red, green, blue, alpha) : res pixel).
  cbn [mbind res_bind mret res_ret].
  rewrite !H5, H6 by done.
  set (r5 := red / 8). set (g5 := green / 8). set (b5 := blue / 8). set (g6 := green / 4).
  assert (0 ≤ r5 < 32 ∧ 0 ≤ g5 < 32 ∧ 0 ≤ b5 < 32 ∧ 0 ≤ g6 < 64) as (Hr5 & Hg5 & Hb5 & Hg6)
    by (subst r5 g5 b5 g6; div_lia).
  set (a := if 0 <? alpha then 1 else 0).
  assert (Ha : 0 ≤ a < 2) by (subst a; case_match; lia).
  change 0xFF with (2 ^ 8 - 1). rewrite !land_low_mask by lia.
  rewrite !Z.shiftr_div_pow2 by lia.
  split; (f_equal; f_equal; [|f_equal]).
  - rewrite (lor_shiftl_low r5) by (change (2 ^ 3) with 8; change (2 ^ 2) with 4;
      div_lia).
    change (2 ^ 3) with 8. change (2 ^ 2) with 4. lia.
  - replace (Z.lor (Z.shiftl g5 6) (Z.shiftl b5 1)) with (Z.shiftl (g5 * 32 + b5) 1).
    2:{ rewrite (Z.shiftl_mul_pow2 b5) by lia.
        rewrite lor_shiftl_low by (change (2 ^ 6) with 64; lia).
        rewrite Z.shiftl_mul_pow2 by lia. lia. }
    rewrite lor_shiftl_low by (change (2 ^ 1) with 2; lia).
    change (2 ^ 1) with 2. change (2 ^ 8) with 256.
    div_lia.
  - rewrite (lor_shiftl_low r5) by (change (2 ^ 3) with 8;
      div_lia).
    change (2 ^ 3) with 8. lia.
  - rewrite lor_shiftl_low by (change (2 ^ 5) with 32; lia).
    change (2 ^ 5) with 32. change (2 ^ 8) with 256.
    div_lia.
Qed.

Lemma encode_5551_565_divides_witness :
  _get_tglp_pixel_data [(200, 100, 50, 255)] 0 RGBA5551 = Ok [0xCB; 0x0D]
  ∧ _get_tglp_pixel_data [(200, 100, 50, 255)] 0 RGB565 = Ok [0xCB; 0x26].
Proof.
  exact (encode_5551_565_divides 200 100 50 255
           ltac:(lia) ltac:(lia) ltac:(lia)).
Defined.

Lemma a4_nibble_arith n0 n1 :
  0 ≤ n0 < 16 → 0 ≤ n1 < 16 →
  Z.land n0 15 = n0
  ∧ Z.lor (Z.lor 0 n0) (Z.shiftl n1 4) = n0 + 16 * n1
  ∧ Z.lor (Z.lor 0 (Z.shiftl n1 4)) n0 = n0 + 16 * n1
  ∧ Z.land (n0 + 16 * n1) 15 * 17 = n0 * 17
  ∧ Z.land (Z.shiftr (n0 + 16 * n1) 4) 15 * 17 = n1 * 17.
Proof.
  intros H0 H1.
  assert (H : Forall (λ n0, Forall (λ n1,
              Z.land n0 15 = n0
              ∧ Z.lor (Z.lor 0 n0) (Z.shiftl n1 4) = n0 + 16 * n1
              ∧ Z.lor (Z.lor 0 (Z.shiftl n1 4)) n0 = n0 + 16 * n1
              ∧ Z.land (n0 + 16 * n1) 15 * 17 = n0 * 17
              ∧ Z.land (Z.shiftr (n0 + 16 * n1) 4) 15 * 17 = n1 * 17)
            (seqZ 0 16)) (seqZ 0 16)).
  { apply (bool_decide_unpack _). vm_compute. reflexivity. }
  apply (proj1 (Forall_seqZ _ 0 16) (proj1 (Forall_seqZ _ 0 16) H n0 ltac:(lia))). lia.
Qed.

(** A one-byte fragment of a 4-bit format is OR-ed into the byte that
    slots 0 and 1 share. *)
Lemma vistor_ors_nibble format_ (bmp : list pixel) (pos old v : Z) :
  format_size format_ = 4 → pos = 0 ∨ pos = 1 →
  _get_tglp_pixel_data bmp pos format_ = Ok [v] →
  bitmap_to_sheet_vistor format_ bmp pos [old] pos = Ok (bmp, [Z.lor old v]).
Proof.
  intros Hf Hpos E. unfold bitmap_to_sheet_vistor. rewrite E, Hf.
  cbn [mbind res_bind]. change (1 <? len [v]) with false. cbv iota.
  change (4 =? 4) with true. cbv iota.
  replace (pos / 2) with 0 by (destruct Hpos as [-> | ->]; reflexivity).
  reflexivity.
Qed.

(** For A4 the fragment of a pixel is the nibble [alpha // 0x11], placed by
    the parity of the index, and the two pixels that share a byte keep
    their nibbles whichever is written first. *)
Lemma a4_nibbles_share_a_byte (r0 g0 b0 a0 r1 g1 b1 a1 : Z) :
  0 ≤ a0 < 256 → 0 ≤ a1 < 256 →
  let bmp := [(r0, g0, b0, a0); (r1, g1, b1, a1)] in
  let shared := a0 / 0x11 + 16 * (a1 / 0x11) in
  _get_tglp_pixel_data bmp 0 A4 = Ok [a0 / 0x11]
  ∧ _get_tglp_pixel_data bmp 1 A4 = Ok [16 * (a1 / 0x11)]
  ∧ ('(bmp, sheet) ← bitmap_to_sheet_vistor A4 bmp 0 [0] 0;
     bitmap_to_sheet_vistor A4 bmp 1 sheet 1) = Ok (bmp, [shared])
  ∧ ('(bmp, sheet) ← bitmap_to_sheet_vistor A4 bmp 1 [0] 1;
     bitmap_to_sheet_vistor A4 bmp 0 sheet 0) = Ok (bmp, [shared])
  ∧ ∀ b, u8 b = shared →
      _get_pixel_data A4 [b] 0 = Ok (255, 255, 255, a0 / 0x11 * 0x11)
      ∧ _get_pixel_data A4 [b] 1 = Ok (255, 255, 255, a1 / 0x11 * 0x11).
Proof.
  intros H0 H1 bmp shared.
  assert (Hn0 : 0 ≤ a0 / 0x11 < 16) by (div_lia).
  assert (Hn1 : 0 ≤ a1 / 0x11 < 16) by (div_lia).
  destruct (a4_nibble_arith _ _ Hn0 Hn1) as (Hl0 & Hor & Hor' & Hd0 & Hd1).
  destruct (a4_nibble_arith _ _ Hn1 Hn0) as (Hl1 & _).
  subst bmp shared.
  set (n0 := a0 / 0x11) in *. set (n1 := a1 / 0x11) in *.
  assert (E0 : _get_tglp_pixel_data [(r0, g0, b0, a0); (r1, g1, b1, a1)] 0 A4 = Ok [n0]).
  { unfold _get_tglp_pixel_data.
    change (Py.index _ 0) with (Ok (r0, g0, b0, a0) : res pixel).
    cbn [mbind res_bind mret res_ret]. fold n0. change 0xF with 15. rewrite Hl0.
    change (Z.land 0 1 * 4) with 0. by rewrite Z.shiftl_0_r. }
  assert (E1 : _get_tglp_pixel_data [(r0, g0, b0, a0); (r1, g1, b1, a1)] 1 A4
               = Ok [Z.shiftl n1 4]).
  { unfold _get_tglp_pixel_data.
    change (Py.index _ 1) with (Ok (r1, g1, b1, a1) : res pixel).
    cbn [mbind res_bind mret res_ret]. fold n1. change 0xF with 15. by rewrite Hl1. }
  assert (Hsh : Z.shiftl n1 4 = 16 * n1) by (rewrite Z.shiftl_mul_pow2; lia).
  split; [done|]. split; [by rewrite E1, Hsh|].
  rewrite (vistor_ors_nibble A4 _ 0 0 n0), (vistor_ors_nibble A4 _ 1 0 (Z.shiftl n1 4))
    by (done || auto).
  cbn [mbind res_bind].
  rewrite (vistor_ors_nibble A4 _ 1 _ (Z.shiftl n1 4)), (vistor_ors_nibble A4 _ 0 _ n0)
    by (done || auto).
  rewrite Hor, Hor'. split; [done|]. split; [done|].
  intros b Hb. unfold _get_pixel_data.
  change (0 / 2) with 0. change (1 / 2) with 0.
  change (Py.index [b] 0) with (Ok b : res byte).
  cbn [mbind res_bind mret res_ret].
  change (Z.land 0 1 =? 1) with false. change (Z.land 1 1 =? 1) with true.
  cbv beta iota zeta. rewrite Hb. change 0x0F with 15. change 0xFF with 255.
  by rewrite Hd0, Hd1.
Qed.

Lemma a4_nibbles_share_a_byte_witness :
  let bmp := [(255, 255, 255, 0x33); (255, 255, 255, 0xEE)] in
  ('(bmp, sheet) ← bitmap_to_sheet_vistor A4 bmp 0 [0] 0;
   bitmap_to_sheet_vistor A4 bmp 1 sheet 1) = Ok (bmp, [0xE3])
  ∧ ('(bmp, sheet) ← bitmap_to_sheet_vistor A4 bmp 1 [0] 1;
     bitmap_to_sheet_vistor A4 bmp 0 sheet 0) = Ok (bmp, [0xE3])
  ∧ _get_pixel_data A4 [xe3] 0 = Ok (255, 255, 255, 0x33)
  ∧ _get_pixel_data A4 [xe3] 1 = Ok (255, 255, 255, 0xEE).
Proof.
  destruct (a4_nibbles_share_a_byte 255 255 255 0x33 255 255 255 0xEE
              ltac:(lia) ltac:(lia)) as (_ & _ & H01 & H10 & Hdec).
  split; [exact H01|]. split; [exact H10|].
  exact (Hdec xe3 eq_refl).
Defined.

(** ** Tile traversal *)

Lemma inner_loops_digits :
  (y ← range 2; x ← range 2; y2 ← range 2; x2 ← range 2; y3 ← range 2; x3 ← range 2;
   [(y, x, y2, x2, y3, x3)])
  = inner_digits <$> seqZ 0 64.
Proof. vm_compute. reflexivity. Qed.

Lemma visit_order_tiles (width height : Z) :
  visit_order width height
  = tile_y ← range (height / 8); tile_x ← range (width / 8);
    visit_step width tile_y tile_x <$> (inner_digits <$> seqZ 0 64).
Proof.
  rewrite <- inner_loops_digits. reflexivity.
Qed.

(** Inside a tile, slots and (column, row) pairs correspond one to one. *)
Lemma tile_slot_inverse k :
  0 ≤ k < 64 →
  0 ≤ tile_col k < 8 ∧ 0 ≤ tile_row k < 8 ∧ tile_slot (tile_col k) (tile_row k) = k.
Proof.
  intros Hk.
  assert (H : Forall (λ k, 0 ≤ tile_col k < 8 ∧ 0 ≤ tile_row k < 8
                           ∧ tile_slot (tile_col k) (tile_row k) = k) (seqZ 0 64)).
  { apply (bool_decide_unpack _). vm_compute. reflexivity. }
  apply (proj1 (Forall_seqZ _ 0 64) H). lia.
Qed.

Lemma tile_col_row_inverse a b :
  0 ≤ a < 8 → 0 ≤ b < 8 →
  0 ≤ tile_slot a b < 64
  ∧ tile_col (tile_slot a b) = a ∧ tile_row (tile_slot a b) = b.
Proof.
  intros Ha Hb.
  assert (H : Forall (λ a, Forall (λ b, 0 ≤ tile_slot a b < 64
                                        ∧ tile_col (tile_slot a b) = a
                                        ∧ tile_row (tile_slot a b) = b) (seqZ 0 8))
                (seqZ 0 8)).
  { apply (bool_decide_unpack _). vm_compute. reflexivity. }
  apply (proj1 (Forall_seqZ _ 0 8) (proj1 (Forall_seqZ _ 0 8) H a ltac:(lia))). lia.
Qed.

(** The pair computed in the [k]-th iteration inside tile
    [(tile_x, tile_y)]. *)
Lemma visit_step_digits width tile_y tile_x k :
  0 ≤ k < 64 →
  visit_step width tile_y tile_x (inner_digits k)
  = (tile_col k + tile_x * 8 + (tile_row k + tile_y * 8) * width,
     k + tile_x * 64 + tile_y * width * 8).
Proof.
  intros Hk. unfold visit_step, inner_digits, tile_col, tile_row.
  f_equal; [ring|].
  div_lia.
Qed.

Lemma div_mod_block q r m : 0 ≤ r < m → (r + m * q) / m = q ∧ (r + m * q) mod m = r.
Proof.
  intros Hr. split.
  - symmetry. apply (Z.div_unique_pos _ _ _ r); lia.
  - symmetry. apply (Z.mod_unique_pos _ _ q); lia.
Qed.

(** The same pair, from the slot alone. *)
Lemma visit_step_offset tw tile_y tile_x k :
  0 ≤ k < 64 → 0 ≤ tile_x < tw →
  visit_step (8 * tw) tile_y tile_x (inner_digits k)
  = visit_of_offset (8 * tw) (k + 64 * (tile_x + tw * tile_y)).
Proof.
  intros Hk Hx. rewrite visit_step_digits by done.
  unfold visit_of_offset, pixel_of_offset, bmp_index. cbn [fst snd].
  destruct (div_mod_block (tile_x + tw * tile_y) k 64 Hk) as [-> ->].
  replace (8 * tw / 8) with tw by (div_lia).
  destruct (div_mod_block tile_y tile_x tw Hx) as [-> ->].
  f_equal; lia.
Qed.

(** Consecutive blocks of [m] slots, visited block after block, are the
    slots in order. *)
Lemma bind_seqZ_blocks {B} (g : Z → B) (a m n : Z) :
  0 ≤ m → 0 ≤ n →
  (i ← seqZ 0 n; g <$> seqZ (a + m * i) m) = g <$> seqZ a (m * n).
Proof.
  intros Hm Hn. rewrite <- (Z2Nat.id n) by done.
  induction (Z.to_nat n) as [|j IH].
  - by rewrite Z.mul_0_r.
  - rewrite seqZ_S, bind_app, IH. cbn [mbind list_bind]. rewrite app_nil_r.
    replace (m * Z.of_nat (S j)) with (m * Z.of_nat j + m) by lia.
    rewrite seqZ_app, fmap_app by lia.
    by rewrite Z.add_0_l.
Qed.

(** Row-major positions determine the pixel. *)
Lemma bmp_index_inj width p q :
  0 ≤ p.1 < width → 0 ≤ q.1 < width →
  bmp_index width p = bmp_index width q → p = q.
Proof.
  destruct p as [x y], q as [x' y']. unfold bmp_index. cbn [fst snd].
  intros Hx Hx' Heq.
  replace (x + y * width) with (x + width * y) in Heq by lia.
  replace (x' + y' * width) with (x' + width * y') in Heq by lia.
  destruct (div_mod_block y x width Hx) as [Hd Hm].
  destruct (div_mod_block y' x' width Hx') as [Hd' Hm'].
  rewrite Heq in Hd, Hm. f_equal; congruence.
Qed.

Lemma format_size_pos format_ : 0 < format_size format_.
Proof. by destruct format_. Qed.

(** *** A sheet of [tw] by [th] tiles *)

Section sheet.

Context (tw th : Z) (Htw : 0 ≤ tw) (Hth : 0 ≤ th).

(** The traversal visits the slots [0 .. width * height) in order, each
    with the pixel stored there. *)
Lemma visit_order_by_offset :
  visit_order (8 * tw) (8 * th)
  = visit_of_offset (8 * tw) <$> seqZ 0 (8 * tw * (8 * th)).
Proof.
  rewrite visit_order_tiles.
  replace (8 * th / 8) with th by (div_lia).
  replace (8 * tw / 8) with tw by (div_lia).
  unfold range.
  transitivity (tile_y ← seqZ 0 th;
                visit_of_offset (8 * tw) <$> seqZ (0 + 64 * tw * tile_y) (64 * tw)).
  - apply Forall_bind_ext, Forall_forall. intros tile_y _.
    rewrite <- bind_seqZ_blocks by lia.
    apply Forall_bind_ext, Forall_seqZ. intros tile_x Hx.
    rewrite <- list_fmap_compose.
    replace (0 + 64 * tw * tile_y + 64 * tile_x)
      with (64 * (tile_x + tw * tile_y) + 0) by lia.
    rewrite <- fmap_add_seqZ, <- list_fmap_compose.
    apply Forall_fmap_ext, Forall_seqZ. intros k Hk. unfold compose.
    rewrite visit_step_offset by lia. f_equal. lia.
  - rewrite bind_seqZ_blocks by lia. f_equal. f_equal. lia.
Qed.

(** In a sheet of [tw] by [th] tiles, every slot holds a pixel of the
    sheet, and it is the slot of that pixel. *)
Lemma pixel_of_offset_in_sheet pos :
  0 ≤ pos < 8 * tw * (8 * th) →
  0 ≤ (pixel_of_offset (8 * tw) pos).1 < 8 * tw
  ∧ 0 ≤ (pixel_of_offset (8 * tw) pos).2 < 8 * th
  ∧ offset_of_pixel (8 * tw) (pixel_of_offset (8 * tw) pos).1
      (pixel_of_offset (8 * tw) pos).2 = pos.
Proof.
  intros Hpos. unfold pixel_of_offset, offset_of_pixel. cbn [fst snd].
  replace (8 * tw / 8) with tw by (div_lia).
  assert (0 < tw) by nia.
  set (tile := pos / 64). set (k := pos mod 64).
  assert (Hk : 0 ≤ k < 64) by (apply Z.mod_pos_bound; lia).
  assert (Hdm : pos = 64 * tile + k) by (apply Z.div_mod; lia).
  assert (Htile : 0 ≤ tile < tw * th) by nia.
  destruct (tile_slot_inverse k Hk) as (Ha & Hb & Hs).
  set (a := tile_col k) in *. set (b := tile_row k) in *.
  assert (Hx : 0 ≤ tile mod tw < tw) by (apply Z.mod_pos_bound; lia).
  assert (Hy : 0 ≤ tile / tw < th).
  { split; [apply Z.div_pos; lia|]. apply Z.div_lt_upper_bound; lia. }
  assert (Ht : tile = tw * (tile / tw) + tile mod tw) by (apply Z.div_mod; lia).
  set (tx := tile mod tw) in *. set (ty := tile / tw) in *.
  replace (a + tx * 8) with (a + 8 * tx) by lia.
  replace (b + ty * 8) with (b + 8 * ty) by lia.
  destruct (div_mod_block tx a 8 Ha) as [-> ->].
  destruct (div_mod_block ty b 8 Hb) as [-> ->].
  rewrite Hs. repeat split; nia.
Qed.

(** Every pixel of the sheet has a slot of the sheet, and the slot holds
    that pixel. *)
Lemma offset_of_pixel_in_sheet x y :
  0 ≤ x < 8 * tw → 0 ≤ y < 8 * th →
  0 ≤ offset_of_pixel (8 * tw) x y < 8 * tw * (8 * th)
  ∧ pixel_of_offset (8 * tw) (offset_of_pixel (8 * tw) x y) = (x, y).
Proof using Htw Hth.
  intros Hx Hy. unfold offset_of_pixel.
  assert (Ha : 0 ≤ x mod 8 < 8) by (apply Z.mod_pos_bound; lia).
  assert (Hb : 0 ≤ y mod 8 < 8) by (apply Z.mod_pos_bound; lia).
  assert (Hxd : x = 8 * (x / 8) + x mod 8) by (apply Z.div_mod; lia).
  assert (Hyd : y = 8 * (y / 8) + y mod 8) by (apply Z.div_mod; lia).
  destruct (tile_col_row_inverse _ _ Ha Hb) as (Hs & Hc & Hr).
  set (a := x mod 8) in *. set (b := y mod 8) in *.
  set (tx := x / 8) in *. set (ty := y / 8) in *.
  set (s := tile_slot a b) in *.
  assert (Htx : 0 ≤ tx < tw) by lia.
  assert (Hty : 0 ≤ ty < th) by lia.
  replace (s + tx * 64 + ty * (8 * tw) * 8) with (s + 64 * (tx + tw * ty)) by lia.
  split; [nia|].
  unfold pixel_of_offset.
  destruct (div_mod_block (tx + tw * ty) s 64 Hs) as [-> ->].
  replace (8 * tw / 8) with tw by (div_lia).
  destruct (div_mod_block ty tx tw Htx) as [-> ->].
  rewrite Hc, Hr. f_equal; lia.
Qed.

(** The bitmap positions visited are the positions [0 .. width * height),
    each once. *)
Lemma visited_bmp_positions :
  (visit_order (8 * tw) (8 * th)).*1 ≡ₚ seqZ 0 (8 * tw * (8 * th)).
Proof.
  rewrite visit_order_by_offset.
  rewrite <- list_fmap_compose.
  set (n := 8 * tw * (8 * th)).
  apply NoDup_Permutation.
  - apply NoDup_fmap_2_strong; [|apply NoDup_seqZ].
    intros p q Hp%elem_of_seqZ Hq%elem_of_seqZ Heq. unfold compose in Heq. cbn in Heq.
    destruct (pixel_of_offset_in_sheet p) as (Hx & _ & Hop); [lia|].
    destruct (pixel_of_offset_in_sheet q) as (Hx' & _ & Hoq); [lia|].
    apply bmp_index_inj in Heq; [|done..].
    rewrite <- Hop, <- Hoq. by rewrite Heq.
  - apply NoDup_seqZ.
  - intros b. rewrite list_elem_of_fmap, elem_of_seqZ. split.
    + intros (pos & -> & Hpos%elem_of_seqZ). unfold compose. cbn.
      destruct (pixel_of_offset_in_sheet pos) as (Hx & Hy & _); [lia|].
      unfold bmp_index. subst n. nia.
    + intros Hb. assert (0 < 8 * tw) by (subst n; nia).
      assert (Hx : 0 ≤ b mod (8 * tw) < 8 * tw) by (apply Z.mod_pos_bound; lia).
      assert (Hy : 0 ≤ b / (8 * tw) < 8 * th).
      { split; [apply Z.div_pos; lia|]. apply Z.div_lt_upper_bound; subst n; lia. }
      destruct (offset_of_pixel_in_sheet _ _ Hx Hy) as (Ho & Hp).
      exists (offset_of_pixel (8 * tw) (b mod (8 * tw)) (b / (8 * tw))). split.
      * unfold compose. cbn. rewrite Hp. unfold bmp_index. cbn [fst snd].
        rewrite (Z.div_mod b (8 * tw)) at 1 by lia. lia.
      * apply elem_of_seqZ. subst n. lia.
Qed.

(** With a bitmap of [width * height] pixels and a sheet buffer of
    [width * height * bpp / 8] bytes, neither guard of [visit_pixels] skips
    a step. *)
Lemma visit_guard_full_buffers format_ :
  let n := 8 * tw * (8 * th) in
  Forall (λ v, visit_guard format_ n (n * format_size format_ / 8) v.1 v.2 = true)
    (visit_order (8 * tw) (8 * th)).
Proof.
  intros n. rewrite visit_order_by_offset. fold n.
  apply Forall_fmap, Forall_seqZ. intros pos Hpos. unfold compose, visit_of_offset. cbn [fst snd].
  destruct (pixel_of_offset_in_sheet pos) as (Hx & Hy & _); [subst n; lia|].
  pose proof (format_size_pos format_) as Hf.
  unfold visit_guard, bmp_index.
  set (x := (pixel_of_offset (8 * tw) pos).1) in *.
  set (y := (pixel_of_offset (8 * tw) pos).2) in *.
  assert (Hb : x + y * (8 * tw) < n) by (subst n; nia).
  replace (n * format_size format_) with (8 * tw * th * format_size format_ * 8)
    by (subst n; lia).
  rewrite Z.div_mul by lia.
  assert (Hs : pos * format_size format_ / 8 < 8 * tw * th * format_size format_).
  { apply Z.div_lt_upper_bound; [lia|]. subst n. nia. }
  apply andb_true_intro. split; apply negb_true_iff, Z.leb_gt; lia.
Qed.

End sheet.

(** C2, in the units the code works in.  [sheet_data_pos] counts slots of
    [bpp] bits, not bytes.  For a sheet whose width and height are multiples
    of 8, with [n = width * height]:
    - the storage slots visited are [0 .. n), each once, in increasing order;
    - the bitmap positions visited are [0 .. n), each once;
    - [offset_of_pixel] sends each pixel of the sheet to the slot it is
      visited with, a slot below [n], and [pixel_of_offset] sends that slot
      back to the pixel;
    - [pixel_of_offset] sends each slot below [n] to a pixel of the sheet,
      and [offset_of_pixel] sends that pixel back to the slot;
    - the [n] slots of [bpp] bits fill [n * bpp / 8] bytes exactly, and
      with buffers of that size neither guard skips a step. *)
Theorem tile_traversal_is_a_bijection (width height : Z) (format_ : Format) :
  0 ≤ width → 0 ≤ height → width mod 8 = 0 → height mod 8 = 0 →
  let n := width * height in
  (visit_order width height).*2 = seqZ 0 n
  ∧ (visit_order width height).*1 ≡ₚ seqZ 0 n
  ∧ (∀ x y, 0 ≤ x < width → 0 ≤ y < height →
       (x + y * width, offset_of_pixel width x y) ∈ visit_order width height
       ∧ 0 ≤ offset_of_pixel width x y < n
       ∧ pixel_of_offset width (offset_of_pixel width x y) = (x, y))
  ∧ (∀ pos, 0 ≤ pos < n →
       0 ≤ (pixel_of_offset width pos).1 < width
       ∧ 0 ≤ (pixel_of_offset width pos).2 < height
       ∧ offset_of_pixel width (pixel_of_offset width pos).1
           (pixel_of_offset width pos).2 = pos)
  ∧ n * format_size format_ = 8 * (n * format_size format_ / 8)
  ∧ Forall (λ v, visit_guard format_ n (n * format_size format_ / 8) v.1 v.2 = true)
      (visit_order width height).
Proof.
  intros Hw Hh Hw8 Hh8 n.
  assert (Hwt : width = 8 * (width / 8)) by (div_lia).
  assert (Hht : height = 8 * (height / 8)) by (div_lia).
  assert (Htw : 0 ≤ width / 8) by (apply Z.div_pos; lia).
  assert (Hth : 0 ≤ height / 8) by (apply Z.div_pos; lia).
  subst n. revert Hwt Hht Htw Hth.
  generalize (width / 8) (height / 8). intros tw th -> -> Htw Hth.
  clear Hw Hh Hw8 Hh8.
  split; [|split; [|split; [|split; [|split]]]].
  - rewrite visit_order_by_offset, <- list_fmap_compose by done.
    rewrite <- (list_fmap_id (seqZ 0 _)) at 2. by apply list_fmap_ext.
  - by apply visited_bmp_positions.
  - intros x y Hx Hy.
    destruct (offset_of_pixel_in_sheet tw th Htw Hth x y Hx Hy) as (Ho & Hp).
    split; [|done].
    rewrite visit_order_by_offset by done. apply list_elem_of_fmap.
    exists (offset_of_pixel (8 * tw) x y). split; [|by apply elem_of_seqZ].
    unfold visit_of_offset. by rewrite Hp.
  - intros pos Hpos. by apply pixel_of_offset_in_sheet.
  - replace (8 * tw * (8 * th) * format_size format_)
      with (8 * tw * th * format_size format_ * 8) by lia.
    rewrite Z.div_mul by lia. lia.
  - by apply visit_guard_full_buffers.
Qed.

(** A sheet of two tiles side by side. *)
Lemma tile_traversal_is_a_bijection_witness :
  (0 ≤ 16 ∧ 0 ≤ 8 ∧ 16 mod 8 = 0 ∧ 8 mod 8 = 0)
  ∧ (visit_order 16 8).*2 = seqZ 0 128
  ∧ (visit_order 16 8).*1 ≡ₚ seqZ 0 128
  ∧ pixel_of_offset 16 (offset_of_pixel 16 9 3) = (9, 3).
Proof.
  split; [repeat split; done|].
  destruct (tile_traversal_is_a_bijection 16 8 L4) as (H1 & H2 & H3 & _);
    [done..|].
  split; [exact H1|]. split; [exact H2|].
  apply (H3 9 3); done.
Defined.

(** C2 as stated fails: the range [[0, width * height * bpp / 8)] counts
    bytes, while the offsets enumerated are slot indices.  For one 8x8 tile
    of RGBA8 the sheet has 256 bytes, but the offsets handed to the visitor
    are 0..63: 64 is never visited, and no slot starts at byte 1.  For L4
    the sheet has 32 bytes, and the slots 0 and 1, both visited, lie in the
    same byte, so byte offsets do not determine the pixel. *)
Lemma storage_offsets_are_slots_not_bytes :
  8 * 8 * format_size RGBA8 / 8 = 256
  ∧ (visit_order 8 8).*2 = seqZ 0 64
  ∧ (64 ∉ (visit_order 8 8).*2)
  ∧ (1 ∉ (λ pos, pos * format_size RGBA8 / 8) <$> (visit_order 8 8).*2)
  ∧ 8 * 8 * format_size L4 / 8 = 32
  ∧ 0 ∈ (visit_order 8 8).*2
  ∧ 1 ∈ (visit_order 8 8).*2
  ∧ 0 * format_size L4 / 8 = 1 * format_size L4 / 8.
Proof.
  repeat split; try (vm_compute; reflexivity);
    apply (bool_decide_unpack _); vm_compute; reflexivity.
Qed.

(** ** CWDH payload *)

Lemma cwdh_triple_body_step (data : list byte) (w : World) (x pos : Z) acc :
  is_Some (order (self w)) → 0 ≤ pos → pos + 3 ≤ len data →
  cwdh_triple_body data w x (pos, acc) = Ok (pos + 3, acc ++ [triple_at data pos]).
Proof.
  intros [o Ho] Hpos Hlen.
  destruct (slice_3 data pos) as (a & b & c & Hs & Ha & Hb & Hc); [done..|].
  unfold cwdh_triple_body, the_order, triple_at. rewrite Ho, Hs, Ha, Hb, Hc.
  cbn [of_option mbind res_bind default].
  change (unpack _ [a; b; c]) with (Ok (s8 a, u8 b + 256 * 0, u8 c + 256 * 0) : res _).
  cbn [mbind res_bind mret res_ret].
  by rewrite !Z.mul_0_r, !Z.add_0_r.
Qed.

Lemma cwdh_triples_loop (data : list byte) (w : World) (xs : list Z) :
  is_Some (order (self w)) →
  ∀ pos acc,
    0 ≤ pos → pos + 3 * len xs ≤ len data →
    for_each xs (cwdh_triple_body data w) (pos, acc)
    = Ok (pos + 3 * len xs,
          acc ++ ((λ i, triple_at data (pos + 3 * i)) <$> seqZ 0 (len xs))).
Proof.
  intros Ho. induction xs as [|x xs IH]; intros pos acc Hpos Hlen.
  - cbn. by rewrite Z.add_0_r, app_nil_r.
  - unfold len in *. cbn [length] in *. cbn [for_each].
    rewrite cwdh_triple_body_step by (done || unfold len; lia).
    cbn [mbind res_bind].
    rewrite IH by lia. f_equal. f_equal; [lia|].
    rewrite <- app_assoc. f_equal.
    rewrite (seqZ_cons 0 (Z.of_nat (S (length xs)))) by lia. cbn [fmap list_fmap app].
    f_equal.
    + f_equal. lia.
    + replace (Z.succ 0) with (1 + 0) by lia.
      replace (Z.pred (Z.of_nat (S (length xs)))) with (Z.of_nat (length xs)) by lia.
      rewrite <- fmap_add_seqZ, <- list_fmap_compose.
      apply list_fmap_ext. intros i y _. cbn. f_equal. lia.
Qed.

Lemma _parse_cwdh_data_ok (info : CwdhSection) (data : list byte) (w : World) :
  is_Some (order (self w)) →
  0 ≤ cwdh_end info - cwdh_start info + 1 →
  3 * (cwdh_end info - cwdh_start info + 1) ≤ len data →
  _parse_cwdh_data info data w
  = Ok {| cwdh_start := cwdh_start info; cwdh_end := cwdh_end info;
          cwdh_size := cwdh_size info;
          cwdh_data := payload_triples (cwdh_end info - cwdh_start info + 1) data |}.
Proof.
  intros Ho Hcount Hlen. set (count := cwdh_end info - cwdh_start info + 1) in *.
  assert (Hrange : len (range count) = count).
  { unfold range, len. rewrite length_seqZ. lia. }
  unfold _parse_cwdh_data. fold count.
  change (for_each (range count) _ (0, []))
    with (for_each (range count) (cwdh_triple_body data w) (0, [])).
  rewrite cwdh_triples_loop by (done || lia).
  rewrite Hrange. cbn [mbind res_bind mret res_ret]. done.
Qed.

(** C9, as the code has it.  For a section covering [start, end] with
    [start <= end + 1], whose payload holds at least three bytes per covered
    index, [_parse_cwdh_data] reads exactly [end - start + 1] triples, the
    i-th from bytes [3i, 3i + 2] of the payload; [left] is read as a signed
    byte, in [-128, 127], while [glyph] and [char] are read as unsigned
    bytes, in [0, 255]. *)
Theorem cwdh_payload_triples (info : CwdhSection) (data : list byte) (w : World) :
  let count := cwdh_end info - cwdh_start info + 1 in
  is_Some (order (self w)) →
  0 ≤ count →
  3 * count ≤ len data →
  ∃ output,
    _parse_cwdh_data info data w
    = Ok {| cwdh_start := cwdh_start info; cwdh_end := cwdh_end info;
            cwdh_size := cwdh_size info; cwdh_data := output |}
    ∧ len output = count
    ∧ output = (λ i, triple_at data (3 * i)) <$> seqZ 0 count
    ∧ Forall (λ t, -128 ≤ wd_left t ≤ 127
                   ∧ 0 ≤ wd_glyph t ≤ 255
                   ∧ 0 ≤ wd_char t ≤ 255) output.
Proof.
  intros count Ho Hcount Hlen.
  exists (payload_triples count data).
  split; [|split; [|split]].
  - by apply _parse_cwdh_data_ok.
  - unfold payload_triples, len. rewrite length_fmap, length_seqZ. lia.
  - done.
  - apply Forall_fmap, Forall_forall. intros i _. unfold triple_at. cbn.
    split; [apply s8_range | split; apply u8_range].
Qed.

(** One glyph with the payload bytes 0xFF, 0x80, 0xFF. *)
Lemma cwdh_payload_triples_witness :
  ∃ output,
    _parse_cwdh_data one_glyph [xff; x80; xff] little_world
    = Ok {| cwdh_start := 0; cwdh_end := 0; cwdh_size := 0x14; cwdh_data := output |}
    ∧ len output = 1
    ∧ output = [{| wd_left := -1; wd_glyph := 128; wd_char := 255 |}]
    ∧ Forall (λ t, -128 ≤ wd_left t ≤ 127
                   ∧ 0 ≤ wd_glyph t ≤ 255
                   ∧ 0 ≤ wd_char t ≤ 255) output.
Proof.
  refine (cwdh_payload_triples one_glyph [xff; x80; xff] little_world _ _ _).
  - by eexists.
  - vm_compute. discriminate.
  - vm_compute. discriminate.
Defined.

(** C9 as stated fails: the second and third bytes of a triple are not read
    as signed bytes.  The byte 0x80 gives a glyph width of 128 and the byte
    0xFF a character width of 255, both above 127. *)
Lemma cwdh_widths_are_unsigned :
  _parse_cwdh_data one_glyph [xff; x80; xff] little_world
  = Ok {| cwdh_start := 0; cwdh_end := 0; cwdh_size := 0x14;
          cwdh_data := [{| wd_left := -1; wd_glyph := 128; wd_char := 255 |}] |}
  ∧ 127 < 128 ∧ 127 < 255.
Proof. split; [vm_compute; reflexivity | lia]. Qed.

(** ** Worlds *)

Lemma self_mutate_cwdh f w :
  order (self (mutate_cwdh_sections f w)) = order (self w)
  ∧ invalid (self (mutate_cwdh_sections f w)) = invalid (self w)
  ∧ debug (self (mutate_cwdh_sections f w)) = debug (self w).
Proof. by destruct w as [c [d o i fs ve ft se fi t cw cm tg [oc|] om]]. Qed.

Lemma self_mutate_cmap f w :
  order (self (mutate_cmap_sections f w)) = order (self w)
  ∧ invalid (self (mutate_cmap_sections f w)) = invalid (self w)
  ∧ debug (self (mutate_cmap_sections f w)) = debug (self w).
Proof. by destruct w as [c [d o i fs ve ft se fi t cw cm tg oc [om|]]]. Qed.

Lemma cwdh_sections_mutate f w :
  cwdh_sections (mutate_cwdh_sections f w) = f (cwdh_sections w).
Proof. by destruct w as [c [d o i fs ve ft se fi t cw cm tg [oc|] om]]. Qed.

Lemma cmap_sections_mutate f w :
  cmap_sections (mutate_cmap_sections f w) = f (cmap_sections w).
Proof. by destruct w as [c [d o i fs ve ft se fi t cw cm tg oc [om|]]]. Qed.

Lemma mutate_cwdh_twice f g w :
  mutate_cwdh_sections g (mutate_cwdh_sections f w) = mutate_cwdh_sections (g ∘ f) w.
Proof. by destruct w as [c [d o i fs ve ft se fi t cw cm tg [oc|] om]]. Qed.

Lemma mutate_cmap_twice f g w :
  mutate_cmap_sections g (mutate_cmap_sections f w) = mutate_cmap_sections (g ∘ f) w.
Proof. by destruct w as [c [d o i fs ve ft se fi t cw cm tg oc [om|]]]. Qed.

Lemma mutate_cwdh_ext f g w :
  (∀ l, f l = g l) → mutate_cwdh_sections f w = mutate_cwdh_sections g w.
Proof. intros H. unfold mutate_cwdh_sections. case_match; by rewrite H. Qed.

Lemma mutate_cmap_ext f g w :
  (∀ l, f l = g l) → mutate_cmap_sections f w = mutate_cmap_sections g w.
Proof. intros H. unfold mutate_cmap_sections. case_match; by rewrite H. Qed.

Lemma invalid_set_invalid w : invalid (self (on_self set_invalid w)) = true.
Proof. by destruct w as [c []]. Qed.

(** ** The two chains of [read] *)

Lemma _parse_cwdh_header_ok (hdr : list byte) (w : World) o size start end_ next :
  order (self w) = Some o →
  unpack (CWDH_HEADER_STRUCT o) hdr = Ok (CWDH_HEADER_MAGIC, size, start, end_, next) →
  _parse_cwdh_header hdr w
  = Ok (Some next,
        mutate_cwdh_sections
          (λ l, l ++ [{| cwdh_start := start; cwdh_end := end_;
                         cwdh_size := size; cwdh_data := [] |}]) w).
Proof.
  intros Ho Hhdr. unfold _parse_cwdh_header, the_order. rewrite Ho. cbn [of_option mbind res_bind].
  rewrite Hhdr. cbn [mbind res_bind].
  by rewrite bool_decide_true.
Qed.

(** One turn of the CWDH loop: the section is appended with the triples of
    its payload, and the loop goes on at the offset the header names. *)
Lemma read_cwdh_chain_step fuel (data : list byte) (w : World) k o cwdh size start end_ next :
  order (self w) = Some o →
  0 < cwdh →
  unpack (CWDH_HEADER_STRUCT o) (slice data (cwdh - 8) (cwdh - 8 + CWDH_HEADER_SIZE))
  = Ok (CWDH_HEADER_MAGIC, size, start, end_, next) →
  let payload := slice data (cwdh - 8 + CWDH_HEADER_SIZE)
                   (cwdh - 8 + CWDH_HEADER_SIZE + size - CWDH_HEADER_SIZE) in
  0 ≤ end_ - start + 1 →
  3 * (end_ - start + 1) ≤ len payload →
  read_cwdh_chain (S fuel) data cwdh w k
  = read_cwdh_chain fuel data next
      (mutate_cwdh_sections
         (λ l, l ++ [{| cwdh_start := start; cwdh_end := end_; cwdh_size := size;
                        cwdh_data := payload_triples (end_ - start + 1) payload |}]) w)
      k.
Proof.
  intros Ho Hpos Hhdr payload Hcount Hlen.
  cbn [read_cwdh_chain].
  assert ((0 <? cwdh) = true) as -> by lia.
  rewrite (_parse_cwdh_header_ok _ _ _ _ _ _ _ Ho Hhdr).
  cbn [mbind res_bind].
  rewrite cwdh_sections_mutate, index_last. cbn [mbind res_bind cwdh_size].
  rewrite _parse_cwdh_data_ok; cbn [cwdh_start cwdh_end cwdh_size]; [| |done..].
  2:{ destruct (self_mutate_cwdh
        (λ l, l ++ [{| cwdh_start := start; cwdh_end := end_;
                       cwdh_size := size; cwdh_data := [] |}]) w) as (-> & _).
      by rewrite Ho. }
  cbn [mbind res_bind].
  rewrite mutate_cwdh_twice. f_equal.
  apply mutate_cwdh_ext. intros l. cbn. by rewrite set_last_snoc.
Qed.

Lemma read_cwdh_chain_done fuel (data : list byte) (w : World) k :
  read_cwdh_chain fuel data 0 w k = k w.
Proof. by destruct fuel. Qed.

Lemma read_cwdh_chain_cycle (data : list byte) o cwdh size start end_ :
  0 < cwdh →
  unpack (CWDH_HEADER_STRUCT o) (slice data (cwdh - 8) (cwdh - 8 + CWDH_HEADER_SIZE))
  = Ok (CWDH_HEADER_MAGIC, size, start, end_, cwdh) →
  0 ≤ end_ - start + 1 →
  3 * (end_ - start + 1)
  ≤ len (slice data (cwdh - 8 + CWDH_HEADER_SIZE)
           (cwdh - 8 + CWDH_HEADER_SIZE + size - CWDH_HEADER_SIZE)) →
  ∀ fuel w k, order (self w) = Some o → read_cwdh_chain fuel data cwdh w k = OutOfFuel.
Proof.
  intros Hpos Hhdr Hcount Hlen. induction fuel as [|fuel IH]; intros w k Ho.
  - cbn. by assert ((0 <? cwdh) = true) as -> by lia.
  - rewrite (read_cwdh_chain_step _ _ _ _ _ _ _ _ _ _ Ho Hpos Hhdr Hcount Hlen).
    apply IH. destruct (self_mutate_cwdh
      (λ l, l ++ [{| cwdh_start := start; cwdh_end := end_; cwdh_size := size;
                     cwdh_data := payload_triples (end_ - start + 1)
                       (slice data (cwdh - 8 + CWDH_HEADER_SIZE)
                          (cwdh - 8 + CWDH_HEADER_SIZE + size - CWDH_HEADER_SIZE)) |}]) w)
      as (-> & _). done.
Qed.

(** The header parser accepts any magic. *)
Lemma _parse_cmap_header_ok (hdr : list byte) (w : World) o magic size code_begin code_end
    map_method unknown next :
  order (self w) = Some o →
  debug (self w) = false ∨ known_method map_method →
  unpack (CMAP_HEADER_STRUCT o) hdr
  = Ok (magic, size, code_begin, code_end, map_method, unknown, next) →
  _parse_cmap_header hdr w
  = Ok (next,
        mutate_cmap_sections
          (λ l, l ++ [cmap_header_section size code_begin code_end map_method]) w).
Proof.
  intros Ho Hdbg Hhdr. unfold _parse_cmap_header, the_order. rewrite Ho.
  cbn [of_option mbind res_bind]. rewrite Hhdr. cbn [mbind res_bind].
  destruct (self_mutate_cmap
    (λ l, l ++ [cmap_header_section size code_begin code_end map_method]) w)
    as (_ & _ & Hd).
  unfold cmap_header_section in Hd. rewrite Hd.
  destruct Hdbg as [-> | Hk]; [done|].
  rewrite (bool_decide_true _ Hk). by rewrite andb_false_r.
Qed.

(** [_parse_cmap_data] takes nothing from the world but the byte order. *)
Lemma _parse_cmap_data_order info (data : list byte) (w w' : World) :
  order (self w) = order (self w') →
  _parse_cmap_data info data w = _parse_cmap_data info data w'.
Proof. intros H. unfold _parse_cmap_data, the_order. by rewrite H. Qed.

Lemma read_cmap_chain_step fuel (data : list byte) (w : World) k o cmap magic size
    code_begin code_end map_method unknown next info' :
  order (self w) = Some o →
  invalid (self w) = false →
  debug (self w) = false ∨ known_method map_method →
  0 < cmap →
  unpack (CMAP_HEADER_STRUCT o) (slice data (cmap - 8) (cmap - 8 + CMAP_HEADER_SIZE))
  = Ok (magic, size, code_begin, code_end, map_method, unknown, next) →
  _parse_cmap_data (cmap_header_section size code_begin code_end map_method)
    (slice data (cmap - 8 + CMAP_HEADER_SIZE)
       (cmap - 8 + CMAP_HEADER_SIZE + size - CMAP_HEADER_SIZE)) w
  = Ok info' →
  read_cmap_chain (S fuel) data cmap w k
  = read_cmap_chain fuel data next (mutate_cmap_sections (λ l, l ++ [info']) w) k.
Proof.
  intros Ho Hinv Hdbg Hpos Hhdr Hdata.
  cbn [read_cmap_chain].
  assert ((0 <? cmap) = true) as -> by lia.
  rewrite (_parse_cmap_header_ok _ _ _ _ _ _ _ _ _ _ Ho Hdbg Hhdr).
  cbn [mbind res_bind].
  set (f := λ l, l ++ [cmap_header_section size code_begin code_end map_method]).
  destruct (self_mutate_cmap f w) as (Ho' & Hinv' & _).
  rewrite Hinv', Hinv.
  rewrite cmap_sections_mutate. subst f. cbv beta. rewrite index_last.
  cbn [mbind res_bind cmap_size cmap_header_section].
  rewrite (_parse_cmap_data_order _ _ _ w) by done.
  fold (cmap_header_section size code_begin code_end map_method).
  rewrite Hdata. cbn [mbind res_bind].
  rewrite mutate_cmap_twice. f_equal.
  apply mutate_cmap_ext. intros l. cbn. by rewrite set_last_snoc.
Qed.

Lemma read_cmap_chain_done fuel (data : list byte) (w : World) k :
  read_cmap_chain fuel data 0 w k = k w.
Proof. by destruct fuel. Qed.

Lemma read_cmap_chain_cycle (data : list byte) o cmap magic size code_begin code_end
    map_method unknown info' :
  0 < cmap →
  unpack (CMAP_HEADER_STRUCT o) (slice data (cmap - 8) (cmap - 8 + CMAP_HEADER_SIZE))
  = Ok (magic, size, code_begin, code_end, map_method, unknown, cmap) →
  ∀ fuel w k,
    order (self w) = Some o →
    invalid (self w) = false →
    debug (self w) = false ∨ known_method map_method →
    _parse_cmap_data (cmap_header_section size code_begin code_end map_method)
      (slice data (cmap - 8 + CMAP_HEADER_SIZE)
         (cmap - 8 + CMAP_HEADER_SIZE + size - CMAP_HEADER_SIZE)) w
    = Ok info' →
    read_cmap_chain fuel data cmap w k = OutOfFuel.
Proof.
  intros Hpos Hhdr. induction fuel as [|fuel IH]; intros w k Ho Hinv Hdbg Hdata.
  - cbn. by assert ((0 <? cmap) = true) as -> by lia.
  - rewrite (read_cmap_chain_step _ _ _ _ _ _ _ _ _ _ _ _ _ _ Ho Hinv Hdbg Hpos Hhdr Hdata).
    destruct (self_mutate_cmap (λ l, l ++ [info']) w) as (Ho' & Hinv' & Hd').
    apply IH.
    + by rewrite Ho'.
    + by rewrite Hinv'.
    + by rewrite Hd'.
    + rewrite <- Hdata. apply _parse_cmap_data_order. by rewrite Ho'.
Qed.

(** [read] on the self-referential container reaches the CWDH loop, at
    offset 0x5C, in a world where nothing is invalid yet. *)
Lemma read_self_referential fuel :
  ∃ w, order (self w) = Some Little
    ∧ read fuel self_referential_container fresh_world
      = read_cwdh_chain fuel self_referential_container 0x5C w (λ w,
        read_cmap_chain fuel self_referential_container (cmap_offset (self w)) w (λ w,
        _parse_tglp_data self_referential_container w)).
Proof.
  unfold read.
  set (h := _parse_header _ _). vm_compute in h. subst h.
  cbn [mbind res_bind invalid self].
  set (h := _parse_finf _ _). vm_compute in h. subst h.
  cbn [mbind res_bind invalid self tglp_offset].
  set (h := _parse_tglp_header _ _). vm_compute in h. subst h.
  cbn [mbind res_bind invalid self cwdh_offset].
  eexists. split; [|reflexivity]. reflexivity.
Qed.

(** C4 as stated fails: nothing detects a cyclic chain.  The CWDH header at
    0x54 of this container stores 0x5C, its own offset, as the next one;
    [read] then parses that section on every turn of the loop and is still
    in the loop however many turns it is given. *)
Lemma self_reference_is_followed_forever :
  unpack (CWDH_HEADER_STRUCT Little) (slice self_referential_container 0x54 0x64)
  = Ok (CWDH_HEADER_MAGIC, 0x14, 0, 0, 0x5C)
  ∧ ∀ fuel, read fuel self_referential_container fresh_world = OutOfFuel.
Proof.
  split; [vm_compute; reflexivity|].
  intros fuel. destruct (read_self_referential fuel) as (w & Ho & ->).
  eapply (read_cwdh_chain_cycle _ Little 0x5C 0x14 0 0); [lia| |lia| |done].
  - vm_compute. reflexivity.
  - vm_compute. discriminate.
Qed.

(** C4, as the code has it.  In both chains a section whose header stores
    0 as the next offset is the last one: the loop appends exactly that
    section and [read] goes on with what follows the loop.  Nothing looks
    for cycles: when the header stores the offset of its own section, the
    loop is still running after any number of turns. *)
Theorem chains_follow_the_next_offset
    (data : list byte) (o : byte_order) (w : World) (k : World → res World) :
  order (self w) = Some o →
  (∀ cwdh size start end_ next,
     0 < cwdh →
     unpack (CWDH_HEADER_STRUCT o) (slice data (cwdh - 8) (cwdh - 8 + CWDH_HEADER_SIZE))
     = Ok (CWDH_HEADER_MAGIC, size, start, end_, next) →
     let payload := slice data (cwdh - 8 + CWDH_HEADER_SIZE)
                      (cwdh - 8 + CWDH_HEADER_SIZE + size - CWDH_HEADER_SIZE) in
     0 ≤ end_ - start + 1 →
     3 * (end_ - start + 1) ≤ len payload →
     (next = 0 →
      ∀ fuel,
        read_cwdh_chain (S fuel) data cwdh w k
        = k (mutate_cwdh_sections
               (λ l, l ++ [{| cwdh_start := start; cwdh_end := end_; cwdh_size := size;
                              cwdh_data := payload_triples (end_ - start + 1) payload |}])
               w))
     ∧ (next = cwdh → ∀ fuel, read_cwdh_chain fuel data cwdh w k = OutOfFuel))
  ∧ (∀ cmap magic size code_begin code_end map_method unknown next info',
       invalid (self w) = false →
       debug (self w) = false ∨ known_method map_method →
       0 < cmap →
       unpack (CMAP_HEADER_STRUCT o) (slice data (cmap - 8) (cmap - 8 + CMAP_HEADER_SIZE))
       = Ok (magic, size, code_begin, code_end, map_method, unknown, next) →
       _parse_cmap_data (cmap_header_section size code_begin code_end map_method)
         (slice data (cmap - 8 + CMAP_HEADER_SIZE)
            (cmap - 8 + CMAP_HEADER_SIZE + size - CMAP_HEADER_SIZE)) w
       = Ok info' →
       (next = 0 →
        ∀ fuel,
          read_cmap_chain (S fuel) data cmap w k
          = k (mutate_cmap_sections (λ l, l ++ [info']) w))
       ∧ (next = cmap → ∀ fuel, read_cmap_chain fuel data cmap w k = OutOfFuel)).
Proof.
  intros Ho. split.
  - intros cwdh size start end_ next Hpos Hhdr payload Hcount Hlen. split.
    + intros -> fuel.
      rewrite (read_cwdh_chain_step _ _ _ _ _ _ _ _ _ _ Ho Hpos Hhdr Hcount Hlen).
      apply read_cwdh_chain_done.
    + intros -> fuel. by eapply read_cwdh_chain_cycle.
  - intros cmap magic size code_begin code_end map_method unknown next info'
      Hinv Hdbg Hpos Hhdr Hdata. split.
    + intros -> fuel.
      rewrite (read_cmap_chain_step _ _ _ _ _ _ _ _ _ _ _ _ _ _ Ho Hinv Hdbg Hpos Hhdr Hdata).
      apply read_cmap_chain_done.
    + intros -> fuel. by eapply read_cmap_chain_cycle.
Qed.

(** The CWDH chain of the well-formed container ends after its one
    section; that of the self-referential container does not end. *)
Lemma chains_follow_the_next_offset_witness :
  order (self little_world) = Some Little
  ∧ (∀ fuel,
       read_cwdh_chain (S fuel) good_container 0x5C little_world Ok
       = Ok (mutate_cwdh_sections (λ l, l ++ [the_cwdh_section]) little_world))
  ∧ (∀ fuel,
       read_cwdh_chain fuel self_referential_container 0x5C little_world Ok = OutOfFuel).
Proof.
  split; [reflexivity|]. split.
  - refine (proj1 (proj1 (chains_follow_the_next_offset good_container Little
                            little_world Ok eq_refl) 0x5C 0x14 0 0 0 _ _ _ _) eq_refl).
    + reflexivity.
    + vm_compute. reflexivity.
    + vm_compute. discriminate.
    + vm_compute. discriminate.
  - refine (proj2 (proj1 (chains_follow_the_next_offset self_referential_container Little
                            little_world Ok eq_refl) 0x5C 0x14 0 0 0x5C _ _ _ _) eq_refl).
    + reflexivity.
    + vm_compute. reflexivity.
    + vm_compute. discriminate.
    + vm_compute. discriminate.
Defined.

(** In the FINF, TGLP and CWDH headers a magic mismatch sets [invalid], and
    in the CWDH chain [read] returns at once, without running what follows
    the loop. *)
Lemma magic_mismatch_sets_invalid (o : byte_order) (w : World) (hdr magic : list byte) :
  order (self w) = Some o →
  (∀ size info offsets,
     unpack (FINF_HEADER_STRUCT o) hdr = Ok (magic, size, info, offsets) →
     magic ≠ FINF_HEADER_MAGIC →
     _parse_finf hdr w = Ok (on_self set_invalid w))
  ∧ (∀ size cw ch n mcw ss bl pf cols rows sw sh off z format_,
       unpack (TGLP_HEADER_STRUCT o) hdr
       = Ok (magic, (size, cw, ch, n, mcw), (ss, bl, pf, cols, rows, sw, sh, off, z)) →
       Format_of_value pf = Ok format_ →
       magic ≠ TGLP_HEADER_MAGIC →
       _parse_tglp_header hdr w = Ok (on_self set_invalid w))
  ∧ (∀ size start end_ next,
       unpack (CWDH_HEADER_STRUCT o) hdr = Ok (magic, size, start, end_, next) →
       magic ≠ CWDH_HEADER_MAGIC →
       _parse_cwdh_header hdr w = Ok (None, on_self set_invalid w)
       ∧ ∀ data cwdh fuel k,
           0 < cwdh →
           slice data (cwdh - 8) (cwdh - 8 + CWDH_HEADER_SIZE) = hdr →
           ∃ w', read_cwdh_chain (S fuel) data cwdh w k = Ok w'
                 ∧ invalid (self w') = true).
Proof.
  intros Ho. split; [|split].
  - intros size info [[t c] m] Hhdr Hm. unfold _parse_finf, the_order.
    rewrite Ho. cbn [of_option mbind res_bind]. rewrite Hhdr. cbn [mbind res_bind].
    by rewrite bool_decide_false.
  - intros size cw ch n mcw ss bl pf cols rows sw sh off z format_ Hhdr Hf Hm.
    unfold _parse_tglp_header, the_order.
    rewrite Ho. cbn [of_option mbind res_bind]. rewrite Hhdr. cbn [mbind res_bind].
    rewrite Hf. cbn [mbind res_bind]. by rewrite bool_decide_false.
  - intros size start end_ next Hhdr Hm.
    assert (E : _parse_cwdh_header hdr w = Ok (None, on_self set_invalid w)).
    { unfold _parse_cwdh_header, the_order.
      rewrite Ho. cbn [of_option mbind res_bind]. rewrite Hhdr. cbn [mbind res_bind].
      by rewrite bool_decide_false. }
    split; [done|]. intros data cwdh fuel k Hpos Hslice.
    eexists. split; [|apply invalid_set_invalid].
    cbn [read_cwdh_chain]. assert ((0 <? cwdh) = true) as -> by lia.
    rewrite Hslice, E. reflexivity.
Qed.

(** The CWDH chain of the container whose CWDH magic is damaged. *)
Lemma magic_mismatch_sets_invalid_witness :
  order (self little_world) = Some Little
  ∧ ∃ w', read_cwdh_chain 1 bad_cwdh_magic_container 0x5C little_world Ok = Ok w'
          ∧ invalid (self w') = true.
Proof.
  split; [reflexivity|].
  refine (proj2 (proj2 (proj2 (magic_mismatch_sets_invalid Little little_world
            (slice bad_cwdh_magic_container 0x54 0x64) ["X"; "W"; "D"; "H"]%byte eq_refl))
            0x14 0 0 0 _ _) bad_cwdh_magic_container 0x5C 0%nat Ok _ _).
  - vm_compute. reflexivity.
  - discriminate.
  - lia.
  - reflexivity.
Defined.

Lemma _parse_cmap_header_keeps_invalid (hdr : list byte) (w w' : World) (next : Z) :
  _parse_cmap_header hdr w = Ok (next, w') → invalid (self w') = invalid (self w).
Proof.
  unfold _parse_cmap_header. intros H.
  destruct (the_order w) as [o| |]; try done. cbn [mbind res_bind] in H.
  destruct (unpack _ hdr) as [[[[[[[magic size] b] e] m] u] n]| |]; try done.
  cbn [mbind res_bind] in H.
  case_match; [done|]. injection H as _ <-.
  by destruct (self_mutate_cmap
    (λ l, l ++ [{| cmap_size := size; cmap_start := b; cmap_end := e; cmap_type := m;
                   cmap_indexOffset := None; cmap_indexTable := None;
                   cmap_entries := None |}]) w) as (_ & -> & _).
Qed.

(** C3, where the code departs from it.  [_parse_cmap_header] never sets
    [invalid].  The container whose CMAP header starts with ["XMAP"] is read
    exactly like the well-formed one: [read] returns normally, [invalid] is
    unset, and the section is recorded with its payload parsed. *)
Theorem cmap_magic_mismatch_is_not_rejected :
  (∀ hdr w next w',
     _parse_cmap_header hdr w = Ok (next, w') → invalid (self w') = invalid (self w))
  ∧ slice bad_cmap_magic_container 0x68 0x6C = ["X"; "M"; "A"; "P"]%byte
  ∧ read 2 bad_cmap_magic_container fresh_world = read 2 good_container fresh_world
  ∧ ∃ w, read 2 bad_cmap_magic_container fresh_world = Ok w
         ∧ invalid (self w) = false
         ∧ cwdh_sections w = [the_cwdh_section]
         ∧ cmap_sections w = [the_cmap_section].
Proof.
  split; [intros hdr w next w'; apply _parse_cmap_header_keeps_invalid|].
  split; [vm_compute; reflexivity|].
  split; [vm_compute; reflexivity|].
  destruct (read 2 bad_cmap_magic_container fresh_world) as [w| |] eqn:E;
    [|vm_compute in E; discriminate..].
  exists w. split; [done|].
  vm_compute in E. injection E as <-. by vm_compute.
Qed.

(** C10, where the code departs from it.  Reading the same bytes with two
    objects, each newly constructed, gives the second one two sections of
    each kind where the first had one: both append to the lists of the
    class.  The first object sees the longer lists as well. *)
Theorem second_read_sees_first_read_sections :
  ∃ w1 w2,
    read 2 good_container fresh_world = Ok w1
    ∧ read 2 good_container (next_object w1) = Ok w2
    ∧ cwdh_sections w1 = [the_cwdh_section]
    ∧ cmap_sections w1 = [the_cmap_section]
    ∧ cwdh_sections w2 = [the_cwdh_section; the_cwdh_section]
    ∧ cmap_sections w2 = [the_cmap_section; the_cmap_section]
    ∧ cwdh_sections {| cls := cls w2; self := self w1 |}
      = [the_cwdh_section; the_cwdh_section].
Proof.
  destruct (read 2 good_container fresh_world) as [w1| |] eqn:E1;
    [|vm_compute in E1; discriminate..].
  destruct (read 2 good_container (next_object w1)) as [w2| |] eqn:E2;
    [| vm_compute in E1; injection E1 as <-; vm_compute in E2; discriminate..].
  exists w1, w2. split; [done|]. split; [done|].
  vm_compute in E1. injection E1 as <-.
  vm_compute in E2. injection E2 as <-.
  by vm_compute.
Qed.

(** ** The padding [save] writes *)

(** The padding is [position % 4] bytes: the position after it is a
    multiple of 4 exactly when the position before it is even. *)
Lemma padding_reaches_boundary_from_even o size_pos start_pos f position f' position' :
  write_padding_and_size o size_pos start_pos f position = Ok (f', position') →
  position' = position + position mod 4
  ∧ (position' mod 4 = 0 ↔ position mod 2 = 0).
Proof.
  unfold write_padding_and_size. intros H.
  destruct (for_each _ _ f) as [f1| |]; try done. cbn [mbind res_bind] in H.
  destruct (pack_I _ _) as [sz| |]; try done. cbn [mbind res_bind mret res_ret] in H.
  injection H as _ <-. split; [done|]. div_lia.
Qed.

(** C6, where the code departs from it.  The padding written is
    [position % 4] bytes, which reaches a multiple of 4 only from an even
    position.  A CWDH section for one glyph that starts at 0x2040 ends at
    0x2053; three zero bytes are written, the size field says 22
    (16 + 3 + 3, so the padding is counted), and the next section starts at
    0x2056.  Three glyphs end at 0x205A.  With two glyphs the section does
    end on a boundary. *)
Theorem cwdh_padding_misses_the_boundary :
  (∀ o size_pos start_pos f position f' position',
     write_padding_and_size o size_pos start_pos f position = Ok (f', position') →
     position' = position + position mod 4
     ∧ (position' mod 4 = 0 ↔ position mod 2 = 0))
  ∧ (∃ r, save_cwdh_sections Little [widths_for 1] after_one_sheet 0x2040 2 = Ok r
        ∧ position r = 0x2056
        ∧ position r mod 4 = 2
        ∧ slice (content (file_ r)) 0x2044 0x2048 = le_bytes 4 22
        ∧ slice (content (file_ r)) 0x2053 0x2056 = [x00; x00; x00]
        ∧ ∃ r', save_cmap_sections Little [scan_A] (file_ r) (position r) (section_count r)
                = Ok r'
                ∧ slice (content (file_ r')) 0x2056 0x205A = CMAP_HEADER_MAGIC)
  ∧ (∃ r, save_cwdh_sections Little [widths_for 3] after_one_sheet 0x2040 2 = Ok r
          ∧ position r = 0x205A
          ∧ position r mod 4 = 2)
  ∧ (∃ r, save_cwdh_sections Little [widths_for 2] after_one_sheet 0x2040 2 = Ok r
          ∧ position r = 0x2058
          ∧ position r mod 4 = 0).
Proof.
  split; [apply padding_reaches_boundary_from_even|].
  split; [|split].
  - destruct (save_cwdh_sections Little [widths_for 1] after_one_sheet 0x2040 2)
      as [r| |] eqn:E; [|vm_compute in E; discriminate..].
    exists r. split; [done|].
    vm_compute in E. injection E as <-.
    repeat (split; [vm_compute; reflexivity|]).
    eexists. split; vm_compute; reflexivity.
  - eexists. split; [vm_compute; reflexivity|]. by vm_compute.
  - eexists. split; [vm_compute; reflexivity|]. by vm_compute.
Qed.

(** * Further properties of the code *)

(** What [unpack] returns for a run of ['B'] fields. *)
Lemma unpack_1B (l : list byte) v :
  unpack fB l = Ok v → ∃ b, l = [b] ∧ v = u8 b.
Proof.
  destruct l as [|b [|b2 l]]; cbv -[u8 Z.add Z.mul]; try done.
  intros [= <-]. exists b. split; [done|lia].
Qed.

Lemma unpack_2B_inv (l : list byte) v :
  unpack_2B l = Ok v → ∃ b1 b2, l = [b1; b2] ∧ v = (u8 b1, u8 b2).
Proof.
  destruct l as [|b1 [|b2 [|b3 l]]]; cbv -[u8 Z.add Z.mul]; try done.
  intros [= <-]. exists b1, b2. split; [done|f_equal; lia].
Qed.

Lemma unpack_3B (l : list byte) v :
  unpack (r ← fB; g ← fB; b ← fB; mret (r, g, b)) l = Ok v →
  ∃ b1 b2 b3, l = [b1; b2; b3] ∧ v = (u8 b1, u8 b2, u8 b3).
Proof.
  destruct l as [|b1 [|b2 [|b3 [|b4 l]]]]; cbv -[u8 Z.add Z.mul]; try done.
  intros [= <-]. exists b1, b2, b3. split; [done|repeat f_equal; lia].
Qed.

Lemma unpack_4B (l : list byte) v :
  unpack (r ← fB; g ← fB; b ← fB; a ← fB; mret (r, g, b, a)) l = Ok v →
  ∃ b1 b2 b3 b4, l = [b1; b2; b3; b4] ∧ v = (u8 b1, u8 b2, u8 b3, u8 b4).
Proof.
  destruct l as [|b1 [|b2 [|b3 [|b4 [|b5 l]]]]]; cbv -[u8 Z.add Z.mul]; try done.
  intros [= <-]. exists b1, b2, b3, b4. split; [done|repeat f_equal; lia].
Qed.

Lemma nibble_times_17 a : 0 ≤ Z.land a 0x0F * 0x11 ≤ 255.
Proof. pose proof (land_below a 4). change (2 ^ 4 - 1) with 0x0F in *.
  change (2 ^ 4) with 16 in *. lia. Qed.

(** Every channel of a decoded pixel is a byte value, whatever the format,
    the buffer and the index. *)
Theorem decoded_channels_are_bytes (format_ : Format) (data : list byte) (index : Z)
    (red green blue alpha : Z) :
  _get_pixel_data format_ data index = Ok (red, green, blue, alpha) →
  0 ≤ red ≤ 255 ∧ 0 ≤ green ≤ 255 ∧ 0 ≤ blue ≤ 255 ∧ 0 ≤ alpha ≤ 255.
Proof.
  intros H.
  destruct (decide (format_ = RGBA5551 ∨ format_ = RGB565)) as [Hf|Hf].
  { pose proof (decode_5551_565_channel_bounds _ _ _ _ _ _ _ Hf H) as Hb.
    assert (0 ≤ alpha ≤ 255); [|lia].
    destruct Hf as [-> | ->]; unfold _get_pixel_data in H;
      destruct (unpack_2B _) as [[b1 b2]| |]; try done;
      cbn [mbind res_bind mret res_ret] in H; injection H as <- <- <- <-; [|lia].
    pose proof (land_below b2 1). change (2 ^ 1 - 1) with 0x01 in *.
    change (2 ^ 1) with 2 in *. lia. }
  destruct format_; unfold _get_pixel_data in H.
  - apply unpack_4B in H as (b1 & b2 & b3 & b4 & _ & [= -> -> -> ->]).
    pose proof (u8_range b1). pose proof (u8_range b2).
    pose proof (u8_range b3). pose proof (u8_range b4). lia.
  - destruct (unpack _ _) as [[[r g] b]| |] eqn:E; try done.
    apply unpack_3B in E as (b1 & b2 & b3 & _ & [= -> -> ->]).
    cbn [mbind res_bind mret res_ret] in H. injection H as <- <- <- <-.
    pose proof (u8_range b1). pose proof (u8_range b2). pose proof (u8_range b3). lia.
  - exfalso. apply Hf. by left.
  - exfalso. apply Hf. by right.
  - destruct (unpack_2B _) as [[b1 b2]| |]; try done.
    cbn [mbind res_bind mret res_ret] in H. injection H as <- <- <- <-.
    pose proof (nibble_times_17 (Z.shiftr b1 4)). pose proof (nibble_times_17 b1).
    pose proof (nibble_times_17 (Z.shiftr b2 4)). pose proof (nibble_times_17 b2). lia.
  - destruct (unpack_2B _) as [[l a]| |] eqn:E; try done.
    apply unpack_2B_inv in E as (b1 & b2 & _ & [= -> ->]).
    cbn [mbind res_bind mret res_ret] in H. injection H as <- <- <- <-.
    pose proof (u8_range b1). pose proof (u8_range b2). lia.
  - injection H as <- <- <- <-. lia.
  - destruct (unpack _ _) as [l| |] eqn:E; try done.
    apply unpack_1B in E as (b & _ & ->).
    cbn [mbind res_bind mret res_ret] in H. injection H as <- <- <- <-.
    pose proof (u8_range b). lia.
  - destruct (unpack _ _) as [l| |] eqn:E; try done.
    apply unpack_1B in E as (b & _ & ->).
    cbn [mbind res_bind mret res_ret] in H. injection H as <- <- <- <-.
    pose proof (u8_range b). lia.
  - destruct (unpack _ _) as [l| |] eqn:E; try done.
    cbn [mbind res_bind mret res_ret] in H. injection H as <- <- <- <-.
    pose proof (nibble_times_17 (Z.shiftr l 4)). pose proof (nibble_times_17 l). lia.
  - destruct (Py.index _ _) as [l| |]; try done.
    cbn [mbind res_bind mret res_ret] in H. injection H as <- <- <- <-.
    pose proof (nibble_times_17 (if Z.land index 1 =? 1 then Z.shiftr (u8 l) 4 else u8 l)). lia.
  - destruct (Py.index _ _) as [l| |]; try done.
    cbn [mbind res_bind mret res_ret] in H. injection H as <- <- <- <-.
    pose proof (nibble_times_17 (if Z.land index 1 =? 1 then Z.shiftr (u8 l) 4 else u8 l)). lia.
  - injection H as <- <- <- <-. lia.
  - injection H as <- <- <- <-. lia.
Qed.

Lemma decoded_channels_are_bytes_witness :
  _get_pixel_data RGBA4 [xab; xcd] 0 = Ok (0xAA, 0xDD, 0xCC, 0xBB)
  ∧ (0 ≤ 0xAA ≤ 255 ∧ 0 ≤ 0xDD ≤ 255 ∧ 0 ≤ 0xCC ≤ 255 ∧ 0 ≤ 0xBB ≤ 255).
Proof.
  split; [reflexivity|].
  exact (decoded_channels_are_bytes RGBA4 [xab; xcd] 0 _ _ _ _ eq_refl).
Defined.

Lemma slice_length {A} (l : list A) (a m : Z) :
  0 ≤ a → 0 ≤ m →
  length (slice l a (a + m)) = Z.to_nat (Z.min m (Z.max 0 (len l - a))).
Proof.
  intros Ha Hm. unfold slice, slice_bound, len.
  rewrite !(bool_decide_false (_ < 0)) by lia.
  rewrite length_take, length_drop. lia.
Qed.

(** A run of [k] one-byte fields unpacks exactly the buffers of length
    [k]. *)
Lemma unpack_1B_len (l : list byte) :
  if decide (length l = 1%nat) then ∃ v, unpack fB l = Ok v
  else unpack fB l = Raise StructError.
Proof. destruct l as [|b1 [|b2 l]]; case_decide as H; cbn in H; try lia; cbn; eauto. Qed.

Lemma unpack_2B_len (l : list byte) :
  if decide (length l = 2%nat) then ∃ v, unpack_2B l = Ok v
  else unpack_2B l = Raise StructError.
Proof. destruct l as [|b1 [|b2 [|b3 l]]]; case_decide as H; cbn in H; try lia; cbn; eauto. Qed.

Lemma unpack_3B_len (l : list byte) :
  if decide (length l = 3%nat)
  then ∃ v, unpack (r ← fB; g ← fB; b ← fB; mret (r, g, b)) l = Ok v
  else unpack (r ← fB; g ← fB; b ← fB; mret (r, g, b)) l = Raise StructError.
Proof. destruct l as [|b1 [|b2 [|b3 [|b4 l]]]]; case_decide as H; cbn in H; try lia; cbn; eauto. Qed.

Lemma unpack_4B_len (l : list byte) :
  if decide (length l = 4%nat)
  then ∃ v, unpack (r ← fB; g ← fB; b ← fB; a ← fB; mret (r, g, b, a)) l = Ok v
  else unpack (r ← fB; g ← fB; b ← fB; a ← fB; mret (r, g, b, a)) l = Raise StructError.
Proof. destruct l as [|b1 [|b2 [|b3 [|b4 [|b5 l]]]]]; case_decide as H; cbn in H; try lia; cbn; eauto. Qed.

Lemma index_in_range {A} (l : list A) (i : Z) :
  0 ≤ i →
  if bool_decide (i < len l) then ∃ x, Py.index l i = Ok x
  else Py.index l i = Raise IndexError.
Proof.
  intros Hi. unfold Py.index, index_pos.
  rewrite (bool_decide_false (i < 0)) by lia.
  case_bool_decide as Hlt.
  - rewrite bool_decide_true by lia. cbn.
    destruct (lookup_lt_is_Some_2 l (Z.to_nat i)) as [x ->]; [unfold len in *; lia|].
    by exists x.
  - by rewrite bool_decide_false by lia.
Qed.

Lemma decode_inside_or_raise (format_ : Format) (data : list byte) (index : Z) :
  0 ≤ index → format_ ∉ [HILO8; ETC1; ETC1A4] →
  if bool_decide ((index + 1) * format_size format_ ≤ 8 * len data)
  then ∃ p, _get_pixel_data format_ data index = Ok p
  else _get_pixel_data format_ data index
       = Raise (if bool_decide (format_size format_ = 4) then IndexError else StructError).
Proof.
  intros Hi Hf.
  assert (Hbytes : ∀ m, 0 < m →
            length (slice data (index * m) (index * m + m)) = Z.to_nat m
            ↔ (index + 1) * (8 * m) ≤ 8 * len data).
  { intros m Hm. rewrite slice_length by lia. lia. }
  assert (Hone : length (slice data index (index + 1)) = 1%nat
                 ↔ (index + 1) * 8 ≤ 8 * len data).
  { rewrite <- (Hbytes 1) by lia. by rewrite Z.mul_1_r. }
  destruct format_; cbn [format_size _get_pixel_data];
    try (exfalso; apply Hf; apply (bool_decide_unpack _); reflexivity);
    rewrite ?(bool_decide_false (_ = 4)) by lia.
  - pose proof (unpack_4B_len (slice data (index * 4) (index * 4 + 4))) as H.
    pose proof (Hbytes 4 ltac:(lia)) as Hb. change (8 * 4) with 32 in Hb.
    case_bool_decide; case_decide; try done; exfalso; change (Z.to_nat 4) with 4%nat in Hb; tauto.
  - pose proof (unpack_3B_len (slice data (index * 3) (index * 3 + 3))) as H.
    pose proof (Hbytes 3 ltac:(lia)) as Hb. change (8 * 3) with 24 in Hb.
    change (Z.to_nat 3) with 3%nat in Hb.
    case_bool_decide; case_decide; try (exfalso; tauto).
    + destruct H as [[[r g] b] ->]. by eexists.
    + by rewrite H.
  - pose proof (unpack_2B_len (slice data (index * 2) (index * 2 + 2))) as H.
    pose proof (Hbytes 2 ltac:(lia)) as Hb. change (8 * 2) with 16 in Hb.
    change (Z.to_nat 2) with 2%nat in Hb.
    case_bool_decide; case_decide; try (exfalso; tauto).
    + destruct H as [[b1 b2] ->]. by eexists.
    + by rewrite H.
  - pose proof (unpack_2B_len (slice data (index * 2) (index * 2 + 2))) as H.
    pose proof (Hbytes 2 ltac:(lia)) as Hb. change (8 * 2) with 16 in Hb.
    change (Z.to_nat 2) with 2%nat in Hb.
    case_bool_decide; case_decide; try (exfalso; tauto).
    + destruct H as [[b1 b2] ->]. by eexists.
    + by rewrite H.
  - pose proof (unpack_2B_len (slice data (index * 2) (index * 2 + 2))) as H.
    pose proof (Hbytes 2 ltac:(lia)) as Hb. change (8 * 2) with 16 in Hb.
    change (Z.to_nat 2) with 2%nat in Hb.
    case_bool_decide; case_decide; try (exfalso; tauto).
    + destruct H as [[b1 b2] ->]. by eexists.
    + by rewrite H.
  - pose proof (unpack_2B_len (slice data (index * 2) (index * 2 + 2))) as H.
    pose proof (Hbytes 2 ltac:(lia)) as Hb. change (8 * 2) with 16 in Hb.
    change (Z.to_nat 2) with 2%nat in Hb.
    case_bool_decide; case_decide; try (exfalso; tauto).
    + destruct H as [[b1 b2] ->]. by eexists.
    + by rewrite H.
  - pose proof (unpack_1B_len (slice data index (index + 1))) as H.
    case_bool_decide; case_decide; try (exfalso; tauto).
    + destruct H as [v ->]. by eexists.
    + by rewrite H.
  - pose proof (unpack_1B_len (slice data index (index + 1))) as H.
    case_bool_decide; case_decide; try (exfalso; tauto).
    + destruct H as [v ->]. by eexists.
    + by rewrite H.
  - pose proof (unpack_1B_len (slice data index (index + 1))) as H.
    case_bool_decide; case_decide; try (exfalso; tauto).
    + destruct H as [v ->]. by eexists.
    + by rewrite H.
  - rewrite (bool_decide_true (4 = 4)) by done.
    pose proof (index_in_range data (index / 2) ltac:(div_lia)) as H.
    assert (index / 2 < len data ↔ (index + 1) * 4 ≤ 8 * len data) as Hb by div_lia.
    case_bool_decide; case_bool_decide; try (exfalso; tauto).
    + destruct H as [v ->]. by eexists.
    + by rewrite H.
  - rewrite (bool_decide_true (4 = 4)) by done.
    pose proof (index_in_range data (index / 2) ltac:(div_lia)) as H.
    assert (index / 2 < len data ↔ (index + 1) * 4 ≤ 8 * len data) as Hb by div_lia.
    case_bool_decide; case_bool_decide; try (exfalso; tauto).
    + destruct H as [v ->]. by eexists.
    + by rewrite H.
Qed.

(** A pixel decodes exactly when its whole slot lies inside the buffer.  A
    slot that does not raises [struct.error] in the byte formats, whose
    slice comes out short, and [IndexError] in the two 4-bit formats. *)
Theorem decode_needs_the_whole_slot (format_ : Format) (data : list byte) (index : Z) :
  0 ≤ index → format_ ∉ [HILO8; ETC1; ETC1A4] →
  if bool_decide ((index + 1) * format_size format_ ≤ 8 * len data)
  then ∃ p, _get_pixel_data format_ data index = Ok p
  else _get_pixel_data format_ data index
       = Raise (if bool_decide (format_size format_ = 4) then IndexError else StructError).
Proof. apply decode_inside_or_raise. Qed.

(** The second pixel of a three-byte RGBA5551 buffer is cut short. *)
Lemma decode_needs_the_whole_slot_witness :
  (0 ≤ 1 ∧ RGBA5551 ∉ [HILO8; ETC1; ETC1A4])
  ∧ _get_pixel_data RGBA5551 [x00; x00; xff] 1 = Raise StructError.
Proof.
  assert (Hf : RGBA5551 ∉ [HILO8; ETC1; ETC1A4]) by (by apply (bool_decide_unpack _)).
  split; [split; [lia|exact Hf]|].
  exact (decode_needs_the_whole_slot RGBA5551 [x00; x00; xff] 1 ltac:(lia) Hf).
Defined.

(** The luma of a grey level, in binary64: the level itself, or one
    below. *)
Lemma luma_of_grey (v : Z) :
  0 ≤ v < 256 → ∃ l, luma v v v = Ok l ∧ (l = v ∨ l = v - 1) ∧ 0 ≤ l.
Proof.
  intros Hv.
  assert (Hd : forallb grey_ok (seqZ 0 256) = true).
  { vm_compute. reflexivity. }
  rewrite forallb_forall in Hd.
  assert (Hin : In v (seqZ 0 256)).
  { apply list_elem_of_In, elem_of_seqZ. lia. }
  specialize (Hd v Hin). unfold grey_ok in Hd.
  destruct (luma v v v) as [l| |]; try done.
  exists l. split; [done|]. by apply bool_decide_eq_true in Hd.
Qed.

Lemma slice_after_padding (n k : Z) (bs : list byte) :
  0 ≤ n → k = len bs → slice (replicate (Z.to_nat n) x00 ++ bs) n (n + k) = bs.
Proof.
  intros Hn ->. apply slice_app_r; [|done].
  unfold len. rewrite length_replicate. lia.
Qed.

Lemma index_after_padding {A} (n : Z) (z x : A) :
  0 ≤ n → Py.index (replicate (Z.to_nat n) z ++ [x]) n = Ok x.
Proof.
  intros Hn. apply index_nonneg; [done|].
  rewrite lookup_app_r; rewrite length_replicate; [|lia].
  by rewrite Nat.sub_diag.
Qed.

(** L8 and LA8 store the luma of a pixel, computed in floating point and
    truncated.  A grey pixel comes back grey, at its own level or one
    darker; white comes back as 254. *)
Theorem luma_formats_darken_grey (v alpha index : Z) :
  0 ≤ v < 256 → 0 ≤ alpha < 256 → 0 ≤ index →
  ∃ l, (l = v ∨ l = v - 1)
       ∧ encode_then_decode L8 (v, v, v, alpha) index = Ok (l, l, l, 255)
       ∧ encode_then_decode LA8 (v, v, v, alpha) index = Ok (l, l, l, alpha)
       ∧ (v = 255 → l = 254).
Proof.
  intros Hv Ha Hi.
  destruct (luma_of_grey v Hv) as (l & Hl & Hlv & Hl0).
  exists l. split; [done|].
  destruct (pack_B_u8 l ltac:(lia)) as (bl & Hbl & Hul).
  destruct (pack_B_u8 alpha Ha) as (ba & Hba & Hua).
  unfold encode_then_decode, _get_tglp_pixel_data.
  rewrite index_after_padding by done.
  cbn [mbind res_bind mret res_ret pack_Bs]. rewrite Hl.
  cbn [mbind res_bind mret res_ret pack_Bs]. rewrite Hbl, Hba.
  cbn [mbind res_bind mret res_ret app format_size _get_pixel_data].
  replace (index * 8 / 8) with index by div_lia.
  replace (index * 16 / 8) with (index * 2) by div_lia.
  rewrite (slice_after_padding index 1), (slice_after_padding (index * 2) 2)
    by (done || lia).
  split; [|split].
  - cbv -[u8 Z.add Z.mul]. by rewrite Hul, !Z.mul_0_r, !Z.add_0_r.
  - cbv -[u8 Z.add Z.mul]. by rewrite Hul, Hua, !Z.mul_0_r, !Z.add_0_r.
  - intros ->. assert (E : luma 255 255 255 = Ok 254) by (vm_compute; reflexivity).
    rewrite E in Hl. by injection Hl.
Qed.

Lemma luma_formats_darken_grey_witness :
  (0 ≤ 5 < 256 ∧ 0 ≤ 255 < 256 ∧ 0 ≤ 3)
  ∧ ∃ l, (l = 5 ∨ l = 5 - 1)
         ∧ encode_then_decode L8 (5, 5, 5, 255) 3 = Ok (l, l, l, 255)
         ∧ encode_then_decode LA8 (5, 5, 5, 255) 3 = Ok (l, l, l, 255)
         ∧ (5 = 255 → l = 254).
Proof.
  split; [lia|].
  exact (luma_formats_darken_grey 5 255 3 ltac:(lia) ltac:(lia) ltac:(lia)).
Defined.

(** A loop that, for each item, replaces one element of a list held in its
    state, every item at a position of its own: the list that results has
    at each position visited the value computed from the one the loop
    started with, and is unchanged elsewhere. *)
Lemma for_each_distinct_positions {V A S} (get : S → list A) (I : S → Prop)
    (pos : V → nat) (new : V → A → A) (body : V → S → res S) (n : nat) :
  ∀ (vs : list V) (s : S),
  NoDup (pos <$> vs) →
  Forall (λ v, (pos v < n)%nat) vs →
  (∀ v s old, v ∈ vs → I s → length (get s) = n → get s !! pos v = Some old →
     ∃ s', body v s = Ok s' ∧ I s' ∧ get s' = <[pos v := new v old]> (get s)) →
  I s → length (get s) = n →
  ∃ s', for_each vs body s = Ok s' ∧ I s' ∧ length (get s') = n
        ∧ (∀ v old, v ∈ vs → get s !! pos v = Some old →
             get s' !! pos v = Some (new v old))
        ∧ (∀ i, i ∉ pos <$> vs → get s' !! i = get s !! i).
Proof.
  induction vs as [|v vs IH]; intros s Hnd Hlt Hbody HI Hlen.
  - exists s. cbn. repeat split; try done. intros v old Hv. by apply elem_of_nil in Hv.
  - apply NoDup_cons in Hnd as [Hv Hnd]. apply Forall_cons in Hlt as [Hvn Hlt].
    destruct (lookup_lt_is_Some_2 (get s) (pos v)) as [old Hold]; [lia|].
    destruct (Hbody v s old) as (s1 & Hb & HI1 & Hget1); [left|done..|].
    destruct (IH s1 Hnd Hlt) as (s' & Hfe & HI' & Hlen' & Hin & Hout).
    { intros v' s0 old' Hv'. apply Hbody. by right. }
    { done. }
    { by rewrite Hget1, length_insert. }
    exists s'. cbn [for_each]. rewrite Hb. cbn [mbind res_bind].
    split; [done|]. split; [done|]. split; [done|]. split.
    + intros v' old' Hv' Hold'. apply elem_of_cons in Hv' as [-> | Hv'].
      * rewrite Hout by done. rewrite Hget1, list_lookup_insert_eq by lia.
        congruence.
      * apply Hin; [done|]. rewrite Hget1, list_lookup_insert_ne; [done|].
        intros Heq. apply Hv. rewrite Heq. by apply list_elem_of_fmap_2.
    + intros i Hi. rewrite fmap_cons in Hi. apply not_elem_of_cons in Hi as [Hne Hi].
      rewrite Hout by done. rewrite Hget1, list_lookup_insert_ne; done.
Qed.

Lemma round_up_pow2_tiles (n : Z) :
  5 ≤ n → ∃ t, 0 < t ∧ round_up_pow2 n = Ok (8 * t) ∧ 2 ^ Z.log2_up n = 8 * t.
Proof.
  intros Hn.
  assert (Hk : 3 ≤ Z.log2_up n).
  { destruct (Z.log2_up_spec n) as [_ Hle]; [lia|].
    destruct (decide (3 ≤ Z.log2_up n)) as [|Hlt]; [done|exfalso].
    assert (2 ^ Z.log2_up n ≤ 2 ^ 2) by (apply Z.pow_le_mono_r; lia).
    change (2 ^ 2) with 4 in *. lia. }
  exists (2 ^ (Z.log2_up n - 3)).
  assert (Hp : 2 ^ Z.log2_up n = 8 * 2 ^ (Z.log2_up n - 3)).
  { change 8 with (2 ^ 3). rewrite <- Z.pow_add_r by lia. f_equal. lia. }
  split; [apply Z.pow_pos_nonneg; lia|]. split; [|done].
  unfold round_up_pow2. rewrite (proj2 (Z.leb_gt n 0)) by lia.
  by rewrite Z.shiftl_1_l, Hp.
Qed.

(** A slot that starts inside a buffer made of whole slots decodes. *)
Lemma decode_started_slot (format_ : Format) (data : list byte) (slot : Z) :
  0 ≤ slot → (8 * len data) mod format_size format_ = 0 →
  slot * format_size format_ / 8 < len data →
  ∃ p, _get_pixel_data format_ data slot = Ok p.
Proof.
  intros Hs Hmod Hin.
  destruct (decide (format_ ∈ [HILO8; ETC1; ETC1A4])) as [Hf|Hf].
  { exists (0, 0, 0, 0).
    apply list_elem_of_In in Hf. cbn in Hf.
    destruct Hf as [<- | [<- | [<- | []]]]; reflexivity. }
  pose proof (decode_inside_or_raise format_ data slot Hs Hf) as H.
  rewrite bool_decide_true in H; [done|].
  destruct format_; cbn [format_size] in *; div_lia.
Qed.

Lemma sheet_to_bitmap_spec (sheet_width sheet_height : Z) (format_ : Format)
    (sheet_data : list byte) :
  5 ≤ sheet_width < 65536 → 5 ≤ sheet_height < 65536 →
  (8 * len sheet_data) mod format_size format_ = 0 →
  let width := 2 ^ Z.log2_up sheet_width in
  let height := 2 ^ Z.log2_up sheet_height in
  ∃ bmp, _sheet_to_bitmap sheet_width sheet_height format_ sheet_data = Ok bmp
    ∧ len bmp = width * height
    ∧ ∀ x y, 0 ≤ x < width → 0 ≤ y < height →
        let slot := offset_of_pixel width x y in
        if bool_decide (slot * format_size format_ / 8 < len sheet_data)
        then ∃ p, _get_pixel_data format_ sheet_data slot = Ok p
                  ∧ Py.index bmp (x + y * width) = Ok p
        else Py.index bmp (x + y * width) = Ok (0, 0, 0, 0).
Proof.
  intros Hw Hh Hmod width height.
  destruct (round_up_pow2_tiles sheet_width) as (tw & Htw & Hrw & Hpw); [lia|].
  destruct (round_up_pow2_tiles sheet_height) as (th & Hth & Hrh & Hph); [lia|].
  subst width height. rewrite Hpw, Hph.
  unfold _sheet_to_bitmap. rewrite Hrw, Hrh. cbn [mbind res_bind].
  set (n := 8 * tw * (8 * th)).
  set (new := λ (v : Z * Z) (old : pixel),
         if bool_decide (v.2 * format_size format_ / 8 < len sheet_data)
         then match _get_pixel_data format_ sheet_data v.2 with Ok p => p | _ => old end
         else old).
  unfold visit_pixels.
  match goal with |- context [for_each ?vs0 ?body0 ?s0] =>
    set (loop := for_each vs0 body0 s0);
    destruct (for_each_distinct_positions (S := list pixel * list byte)
                fst (λ st, st.2 = sheet_data)
                (λ v : Z * Z, Z.to_nat v.1) new body0 (Z.to_nat n) vs0 s0)
      as (s' & Hfe & HI & Hlen & Hin & _)
  end.
  - (* positions are distinct *)
    assert (E : (λ v : Z * Z, Z.to_nat v.1) <$> visit_order (8 * tw) (8 * th)
                = Z.to_nat <$> (visit_order (8 * tw) (8 * th)).*1)
      by (by rewrite <- list_fmap_compose).
    rewrite E. apply NoDup_fmap_2_strong.
    + intros a b Ha Hb Heq.
      rewrite (visited_bmp_positions tw th) in Ha, Hb by lia.
      apply elem_of_seqZ in Ha, Hb. lia.
    + rewrite (visited_bmp_positions tw th) by lia. apply NoDup_seqZ.
  - apply Forall_forall. intros v Hv.
    assert (Hv1 : v.1 ∈ (visit_order (8 * tw) (8 * th)).*1) by (by apply list_elem_of_fmap_2).
    rewrite (visited_bmp_positions tw th) in Hv1 by lia.
    apply elem_of_seqZ in Hv1. fold n in Hv1. lia.
  - intros [bp sp] [bmp sd] old Hv HIs Hl Hold. cbn [fst snd] in *. subst sd.
    assert (Hbp : (bp, sp).1 ∈ (visit_order (8 * tw) (8 * th)).*1) by (by apply list_elem_of_fmap_2).
    rewrite (visited_bmp_positions tw th) in Hbp by lia.
    apply elem_of_seqZ in Hbp. fold n in Hbp. cbn [fst] in Hbp.
    assert (Hsp : 0 ≤ sp).
    { rewrite (visit_order_by_offset tw th) in Hv by lia.
      apply list_elem_of_fmap in Hv as (pos & [= _ ->] & Hpos%elem_of_seqZ). lia. }
    unfold visit_guard, new. cbn [fst snd].
    assert (Hlt : bp < len bmp) by (clearbody n; unfold len; lia).
    rewrite (proj2 (Z.leb_gt _ bp)) by exact Hlt. cbn [negb andb].
    case_bool_decide as Hin.
    + rewrite (proj2 (Z.leb_gt _ _)) by lia. cbn [negb].
      destruct (decode_started_slot format_ sheet_data sp Hsp Hmod Hin) as (p & ->).
      cbn [mbind res_bind]. rewrite index_assign_nonneg by (split; [lia|exact Hlt]).
      cbn [mbind res_bind mret res_ret]. eexists. split; [done|]. by split.
    + rewrite (proj2 (Z.leb_le _ _)) by lia. cbn [negb].
      eexists. split; [done|]. split; [done|]. cbn [fst]. by rewrite list_insert_id.
  - done.
  - cbn [fst]. by rewrite length_replicate.
  - change (loop = Ok s') in Hfe. rewrite Hfe.
    cbn [mbind res_bind mret res_ret]. exists s'.1.
    split; [done|]. split; [unfold len; lia|].
    intros x y Hx Hy. set (slot := offset_of_pixel (8 * tw) x y).
    destruct (offset_of_pixel_in_sheet tw th ltac:(lia) ltac:(lia) x y Hx Hy) as (Ho & Hp).
    fold slot in Ho, Hp.
    assert (Hv : (x + y * (8 * tw), slot) ∈ visit_order (8 * tw) (8 * th)).
    { rewrite (visit_order_by_offset tw th) by lia. apply list_elem_of_fmap.
      exists slot. split; [|by apply elem_of_seqZ].
      unfold visit_of_offset. by rewrite Hp. }
    assert (Hxy : 0 ≤ x + y * (8 * tw) < n) by (subst n; nia).
    specialize (Hin _ (0, 0, 0, 0) Hv). cbn [fst snd] in Hin.
    rewrite lookup_replicate_2 in Hin by lia. specialize (Hin eq_refl).
    unfold new in Hin. cbn [snd] in Hin.
    case_bool_decide as Hins.
    + destruct (decode_started_slot format_ sheet_data slot ltac:(lia) Hmod Hins) as (p & Hp').
      rewrite Hp' in Hin. exists p. split; [done|]. apply index_nonneg; [lia|done].
    + apply index_nonneg; [lia|done].
Qed.

Lemma for_each_app {A S} (xs ys : list A) (body : A → S → res S) (s : S) :
  for_each (xs ++ ys) body s = s' ← for_each xs body s; for_each ys body s'.
Proof.
  revert s. induction xs as [|x xs IH]; intros s; [done|].
  cbn [for_each app]. destruct (body x s) as [s1| |]; cbn [mbind res_bind]; [apply IH|done..].
Qed.

(** A loop over [g 0, ..., g (n - 1)] that keeps an invariant indexed by
    the number of iterations made. *)
Lemma for_each_seqZ_inv {A St} (P : Z → St → Prop) (g : Z → A) (body : A → St → res St)
    (n : Z) (s : St) :
  (∀ k s, 0 ≤ k < n → P k s → ∃ s', body (g k) s = Ok s' ∧ P (k + 1) s') →
  P 0 s → 0 ≤ n →
  ∃ s', for_each (g <$> seqZ 0 n) body s = Ok s' ∧ P n s'.
Proof.
  intros Hstep H0 Hn.
  assert (H : ∀ j : nat, Z.of_nat j ≤ n →
            ∃ s', for_each (g <$> seqZ 0 (Z.of_nat j)) body s = Ok s' ∧ P (Z.of_nat j) s').
  { induction j as [|j IH]; intros Hj.
    - exists s. by split.
    - destruct IH as (s1 & Hfe & HP); [lia|].
      destruct (Hstep (Z.of_nat j) s1) as (s2 & Hb & HP2); [lia|done|].
      exists s2. rewrite seqZ_S, fmap_app, for_each_app, Hfe.
      cbn [mbind res_bind fmap list_fmap for_each].
      rewrite Z.add_0_l, Hb. cbn [mbind res_bind]. split; [done|].
      by replace (Z.of_nat (S j)) with (Z.of_nat j + 1) by lia. }
  specialize (H (Z.to_nat n)). rewrite Z2Nat.id in H by done. apply H. lia.
Qed.

(** A pair of sides that round up to [width] and [height], at least one
    tile each. *)
Lemma sheet_sides (sheet_width sheet_height : Z) :
  5 ≤ sheet_width → 5 ≤ sheet_height →
  ∃ tw th, 0 < tw ∧ 0 < th
    ∧ round_up_pow2 sheet_width = Ok (8 * tw) ∧ 2 ^ Z.log2_up sheet_width = 8 * tw
    ∧ round_up_pow2 sheet_height = Ok (8 * th) ∧ 2 ^ Z.log2_up sheet_height = 8 * th.
Proof.
  intros Hw Hh.
  destruct (round_up_pow2_tiles sheet_width Hw) as (tw & Htw & Hrw & Hpw).
  destruct (round_up_pow2_tiles sheet_height Hh) as (th & Hth & Hrh & Hph).
  by exists tw, th.
Qed.

(** What [_bitmap_to_sheet] returns for A8, byte by byte: the alpha of the
    pixel that belongs to the slot, when the bitmap has that pixel. *)
Lemma bitmap_to_sheet_a8_bytes (sheet_width sheet_height sheet_size : Z) (bmp : list pixel) :
  5 ≤ sheet_width < 65536 → 5 ≤ sheet_height < 65536 → 0 ≤ sheet_size →
  let width := 2 ^ Z.log2_up sheet_width in
  let height := 2 ^ Z.log2_up sheet_height in
  ∃ sheet, _bitmap_to_sheet sheet_width sheet_height A8 sheet_size bmp = Ok sheet
    ∧ len sheet = sheet_size
    ∧ ∀ slot, 0 ≤ slot < sheet_size →
        Py.index sheet slot
        = Ok (if bool_decide (slot < width * height)
              then match bmp !! Z.to_nat (bmp_index width (pixel_of_offset width slot)) with
                   | Some p => p.2
                   | None => 0
                   end
              else 0).
Proof.
  intros Hw Hh Hsz width height.
  destruct (sheet_sides sheet_width sheet_height) as (tw & th & Htw & Hth & Hrw & Hpw & Hrh & Hph);
    [lia..|].
  subst width height. rewrite Hpw, Hph.
  unfold _bitmap_to_sheet. rewrite Hrw, Hrh. cbn [mbind res_bind].
  set (n := 8 * tw * (8 * th)).
  set (new := λ (v : Z * Z) (old : Z),
         if bool_decide (v.1 < len bmp ∧ v.2 < sheet_size)
         then Z.lor old (match bmp !! Z.to_nat v.1 with Some p => p.2 | None => 0 end)
         else old).
  unfold visit_pixels.
  rewrite (visit_order_by_offset tw th) by lia. fold n.
  (* only the slots inside the buffer matter *)
  set (m := Z.min n sheet_size).
  assert (Hm : 0 ≤ m ∧ m ≤ n ∧ m ≤ sheet_size ∧ (m = n ∨ m = sheet_size)) by (subst m n; nia).
  replace (seqZ 0 n) with (seqZ 0 (m + (n - m))) by (f_equal; lia).
  rewrite seqZ_app, fmap_app, for_each_app by lia. rewrite Z.add_0_l.
  match goal with |- context [for_each (_ <$> seqZ 0 m) ?body0 ?s0] =>
    set (loop := for_each (visit_of_offset (8 * tw) <$> seqZ 0 m) body0 s0);
    destruct (for_each_distinct_positions (S := list pixel * list Z)
                snd (λ st, st.1 = bmp)
                (λ v : Z * Z, Z.to_nat v.2) new body0 (Z.to_nat sheet_size)
                (visit_of_offset (8 * tw) <$> seqZ 0 m) s0)
      as (s' & Hfe & HI & Hlen & Hin & Hout);
    [..|change (loop = Ok s') in Hfe; rewrite Hfe; cbn [mbind res_bind];
        assert (Hrest : for_each (visit_of_offset (8 * tw) <$> seqZ m (n - m)) body0 s' = Ok s')]
  end.
  - rewrite <- list_fmap_compose.
    apply NoDup_fmap_2_strong; [|apply NoDup_seqZ].
    intros a b Ha%elem_of_seqZ Hb%elem_of_seqZ. unfold compose, visit_of_offset. cbn [snd]. lia.
  - apply Forall_fmap, Forall_seqZ. intros pos Hpos. unfold compose, visit_of_offset.
    cbn [snd]. lia.
  - intros v [bmp' sd] old Hv HIs Hl Hold. cbn [fst snd] in *. subst bmp'.
    apply list_elem_of_fmap in Hv as (pos & -> & Hpos%elem_of_seqZ).
    unfold visit_of_offset in *. cbn [fst snd] in *.
    set (bp := bmp_index (8 * tw) (pixel_of_offset (8 * tw) pos)).
    assert (Hbp : 0 ≤ bp).
    { destruct (pixel_of_offset_in_sheet tw th ltac:(lia) pos) as (Hx & Hy & _); [lia|].
      unfold bp, bmp_index. nia. }
    assert (Hls : len sd = sheet_size) by (unfold len; lia).
    unfold visit_guard, new. cbn [fst snd format_size].
    replace (pos * 8 / 8) with pos by div_lia.
    rewrite (proj2 (Z.leb_gt _ pos)) by lia. rewrite andb_true_r.
    destruct (Z.leb_spec (len bmp) bp) as [Hge|Hlt]; cbn [negb].
    + rewrite bool_decide_false by lia.
      eexists. split; [done|]. split; [done|]. cbn [snd]. by rewrite list_insert_id.
    + rewrite bool_decide_true by lia.
      unfold bitmap_to_sheet_vistor, _get_tglp_pixel_data.
      destruct (lookup_lt_is_Some_2 bmp (Z.to_nat bp)) as [[[[r g] b] a] Hp];
        [unfold len in *; lia|].
      rewrite (index_nonneg _ _ _ Hbp Hp). cbn [mbind res_bind mret res_ret].
      change (1 <? len [a]) with false. cbv iota. cbn [format_size].
      change (8 =? 4) with false. cbv iota.
      rewrite (index_nonneg sd pos old ltac:(lia) Hold). cbn [mbind res_bind].
      change (Py.index [a] 0) with (Ok a : res Z). cbn [mbind res_bind].
      rewrite index_assign_nonneg by lia. cbn [mbind res_bind mret res_ret].
      eexists. split; [done|]. split; [done|]. cbn [snd]. unfold pixel in *. by rewrite Hp.
  - done.
  - cbn [snd]. rewrite length_replicate. lia.
  - (* the slots past the buffer are skipped *)
    clear Hin Hout Hfe loop.
    assert (Hls : len s'.2 = sheet_size) by (unfold len; lia).
    assert (Hall : Forall (λ pos, sheet_size ≤ pos) (seqZ m (n - m))).
    { apply Forall_seqZ. intros pos Hpos. lia. }
    revert Hall. generalize (seqZ m (n - m)). intros l Hall.
    induction Hall as [|pos l Hpos _ IH]; [done|].
    cbn [fmap list_fmap for_each]. destruct s' as [b1 sd]. cbn [fst snd] in *.
    unfold visit_of_offset. cbv beta iota. unfold visit_guard. cbn [format_size].
    replace (pos * 8 / 8) with pos by div_lia.
    rewrite (proj2 (Z.leb_le _ pos)) by lia. rewrite andb_false_r.
    cbn [mbind res_bind]. apply IH.
  - rewrite Hrest. cbn [mbind res_bind mret res_ret]. exists s'.2.
    split; [done|]. split; [unfold len; lia|].
    intros slot Hslot.
    apply index_nonneg; [lia|].
    destruct (decide (slot < n)) as [Hn|Hn].
    + rewrite bool_decide_true by done.
      assert (Hv : visit_of_offset (8 * tw) slot ∈ visit_of_offset (8 * tw) <$> seqZ 0 m).
      { apply list_elem_of_fmap_2, elem_of_seqZ. subst m. lia. }
      specialize (Hin _ 0 Hv). unfold visit_of_offset in Hin at 1 2. cbn [fst snd] in Hin.
      rewrite lookup_replicate_2 in Hin by lia. specialize (Hin eq_refl).
      rewrite Hin. f_equal. unfold new, visit_of_offset. cbn [fst snd].
      set (bp := bmp_index (8 * tw) (pixel_of_offset (8 * tw) slot)).
      assert (Hbp : 0 ≤ bp).
      { destruct (pixel_of_offset_in_sheet tw th ltac:(lia) slot) as (Hx & Hy & _); [lia|].
        unfold bp, bmp_index. nia. }
      case_bool_decide as Hc.
      * destruct (lookup_lt_is_Some_2 bmp (Z.to_nat bp)) as [p Hp]; [unfold len in *; lia|].
        unfold pixel in *. rewrite Hp. cbn. apply Z.lor_0_l.
      * unfold pixel in *. rewrite lookup_ge_None_2; [done|]. unfold len in *. lia.
    + rewrite bool_decide_false by done.
      rewrite Hout; [apply lookup_replicate_2; lia|].
      intros (v & Heq & (pos & -> & Hpos%elem_of_seqZ)%list_elem_of_fmap)%list_elem_of_fmap.
      unfold visit_of_offset in Heq. cbn [snd] in Heq. lia.
Qed.

(** Byte values pack, one byte each. *)
Lemma pack_Bs_bytes (xs : list Z) :
  Forall (λ z, 0 ≤ z < 256) xs → ∃ data, pack_Bs xs = Ok data ∧ u8 <$> data = xs.
Proof.
  induction 1 as [|z xs Hz _ (data & Hd & Hu)].
  - by exists [].
  - destruct (pack_B_u8 z Hz) as (b & Hb & Hub).
    exists (b :: data). cbn [pack_Bs]. rewrite Hb, Hd. cbn. by rewrite Hub, Hu.
Qed.

Lemma decode_a8 (data : list byte) (slot : Z) (b : byte) :
  0 ≤ slot → data !! Z.to_nat slot = Some b →
  _get_pixel_data A8 data slot = Ok (255, 255, 255, u8 b).
Proof.
  intros Hs Hb. unfold _get_pixel_data.
  assert (Hsl : slice data slot (slot + 1) = [b]).
  { pose proof (lookup_lt_Some _ _ _ Hb) as Hlt.
    unfold slice, len. rewrite !slice_bound_in_range by lia.
    replace (Z.to_nat (slot + 1 - slot)) with 1%nat by lia.
    pose proof (lookup_drop data (Z.to_nat slot) 0) as Hd.
    rewrite Nat.add_0_r, Hb in Hd.
    destruct (drop (Z.to_nat slot) data) as [|b' rest]; [done|].
    cbn in Hd. by injection Hd as ->. }
  rewrite Hsl. cbv -[u8 Z.add Z.mul]. by rewrite Z.mul_0_r, Z.add_0_r.
Qed.

Lemma log2_up_pow2_side (a : Z) : 3 ≤ a ≤ 15 → 5 ≤ 2 ^ a < 65536 ∧ Z.log2_up (2 ^ a) = a.
Proof.
  intros Ha. split; [|apply Z.log2_up_pow2; lia].
  assert (2 ^ 3 ≤ 2 ^ a) by (apply Z.pow_le_mono_r; lia).
  assert (2 ^ a ≤ 2 ^ 15) by (apply Z.pow_le_mono_r; lia).
  change (2 ^ 3) with 8 in *. change (2 ^ 15) with 32768 in *. lia.
Qed.

Lemma row_major (width i : Z) :
  0 < width → 0 ≤ i →
  0 ≤ i mod width < width ∧ 0 ≤ i / width ∧ i = i mod width + i / width * width.
Proof.
  intros Hw Hi. pose proof (Z.mod_pos_bound i width Hw).
  pose proof (Z.div_pos i width Hi Hw). pose proof (Z.div_mod i width). lia.
Qed.

(** An A8 sheet survives decoding and re-encoding, and an A8 bitmap
    (white, any alpha) survives encoding, packing and decoding.  The sides
    are powers of two from 8 to 32768; the buffers are of full size. *)
Theorem a8_sheet_round_trip (a b : Z) :
  3 ≤ a ≤ 15 → 3 ≤ b ≤ 15 →
  let width := 2 ^ a in
  let height := 2 ^ b in
  (∀ data : list byte, len data = width * height →
     ∃ bmp, _sheet_to_bitmap width height A8 data = Ok bmp
            ∧ _bitmap_to_sheet width height A8 (width * height) bmp = Ok (u8 <$> data))
  ∧ (∀ bmp : list pixel, len bmp = width * height →
       Forall (λ p, ∃ alpha, p = (255, 255, 255, alpha) ∧ 0 ≤ alpha < 256) bmp →
       ∃ sheet data, _bitmap_to_sheet width height A8 (width * height) bmp = Ok sheet
                     ∧ pack_Bs sheet = Ok data
                     ∧ _sheet_to_bitmap width height A8 data = Ok bmp).
Proof.
  intros Ha Hb width height.
  destruct (log2_up_pow2_side a Ha) as [Hw Hla].
  destruct (log2_up_pow2_side b Hb) as [Hh Hlb].
  fold width in Hw, Hla. fold height in Hh, Hlb.
  destruct (sheet_sides width height) as (tw & th & Htw & Hth & _ & Hpw & _ & Hph); [lia..|].
  rewrite Hla in Hpw. rewrite Hlb in Hph. fold width in Hpw. fold height in Hph.
  assert (Hwa : 2 ^ a = width) by done. assert (Hhb : 2 ^ b = height) by done.
  clearbody width height.
  set (n := width * height).
  assert (Hnd : n = width * height) by done. clearbody n.
  assert (Hn : 0 < n) by nia.
  split.
  - intros data Hlen.
    destruct (sheet_to_bitmap_spec width height A8 data) as (bmp & Hs & Hlb' & Hpx);
      [lia|lia|cbn [format_size]; div_lia|].
    rewrite Hla, Hlb, Hwa, Hhb in Hlb', Hpx. rewrite <- ?Hnd in Hlb', Hpx.
    exists bmp. split; [done|].
    destruct (bitmap_to_sheet_a8_bytes width height n bmp) as (sheet & Hb2s & Hls & Hsh);
      [lia..|].
    rewrite Hla, Hlb, Hwa, Hhb in Hsh. rewrite <- ?Hnd in Hsh.
    rewrite Hb2s. f_equal.
    apply list_eq_same_length with (Z.to_nat n);
      [rewrite ?length_fmap; unfold len in *; lia..|].
    intros i x y Hi Hx Hy. rewrite list_lookup_fmap in Hy.
    destruct (data !! i) as [d|] eqn:Hd; [|done]. cbn in Hy. injection Hy as <-.
    specialize (Hsh (Z.of_nat i) ltac:(lia)).
    rewrite bool_decide_true in Hsh by lia.
    rewrite (index_nonneg sheet (Z.of_nat i) x ltac:(lia)) in Hsh by (by rewrite Nat2Z.id).
    injection Hsh as ->.
    (* the pixel of slot i was decoded from byte i *)
    rewrite Hpw, Hph in *.
    destruct (pixel_of_offset_in_sheet tw th ltac:(lia) (Z.of_nat i)) as (Hpx1 & Hpx2 & Hoff);
      [nia|].
    specialize (Hpx _ _ Hpx1 Hpx2). cbv zeta in Hpx. rewrite Hoff in Hpx.
    cbn [format_size] in Hpx. replace (Z.of_nat i * 8 / 8) with (Z.of_nat i) in Hpx by div_lia.
    rewrite bool_decide_true in Hpx by lia.
    destruct Hpx as (p & Hdec & Hidx).
    rewrite (decode_a8 data (Z.of_nat i) d) in Hdec by (lia || by rewrite Nat2Z.id).
    injection Hdec as <-.
    unfold Py.index, index_pos in Hidx.
    rewrite (bool_decide_false (_ < 0)) in Hidx by (unfold bmp_index; nia).
    rewrite bool_decide_true in Hidx by nia. cbn in Hidx.
    unfold bmp_index. unfold pixel in *.
    destruct (bmp !! _) as [q|]; [|done]. cbn in Hidx. by injection Hidx as ->.
  - intros bmp Hlen Hall.
    destruct (bitmap_to_sheet_a8_bytes width height n bmp) as (sheet & Hb2s & Hls & Hsh);
      [lia..|].
    rewrite Hla, Hlb, Hwa, Hhb in Hsh. rewrite <- ?Hnd in Hsh.
    assert (Hbytes : Forall (λ z, 0 ≤ z < 256) sheet).
    { apply Forall_lookup. intros i z Hz.
      pose proof (lookup_lt_Some _ _ _ Hz) as Hlt.
      specialize (Hsh (Z.of_nat i) ltac:(unfold len in *; lia)).
      rewrite (index_nonneg sheet (Z.of_nat i) z ltac:(lia)) in Hsh by (by rewrite Nat2Z.id).
      injection Hsh as ->. rewrite bool_decide_true by (unfold len in *; lia).
      unfold pixel in *.
      destruct (bmp !! _) as [p|] eqn:Hp; [|lia].
      apply (proj1 (Forall_lookup _ _) Hall) in Hp as (alpha & -> & Halpha). done. }
    destruct (pack_Bs_bytes sheet Hbytes) as (data & Hpack & Hu8).
    exists sheet, data. split; [done|]. split; [done|].
    assert (Hld : len data = n).
    { unfold len in *. rewrite <- Hls, <- Hu8, length_fmap. done. }
    destruct (sheet_to_bitmap_spec width height A8 data) as (bmp' & Hs & Hlb' & Hpx);
      [lia|lia|cbn [format_size]; div_lia|].
    rewrite Hla, Hlb, Hwa, Hhb in Hlb', Hpx. rewrite <- ?Hnd in Hlb', Hpx.
    rewrite Hs. f_equal.
    apply list_eq_same_length with (Z.to_nat n); [unfold len in *; lia..|].
    intros i p' p Hi Hp' Hp.
    destruct (row_major width (Z.of_nat i)) as (Hx & Hy & Hxy); [lia..|].
    set (x := Z.of_nat i mod width) in *. set (y := Z.of_nat i / width) in *.
    assert (Hyh : y < height) by nia.
    specialize (Hpx x y ltac:(lia) ltac:(lia)). cbv zeta in Hpx.
    rewrite Hpw, Hph in *.
    destruct (offset_of_pixel_in_sheet tw th ltac:(lia) ltac:(lia) x y) as (Ho & Hpo);
      [lia..|].
    set (slot := offset_of_pixel (8 * tw) x y) in *.
    cbn [format_size] in Hpx. replace (slot * 8 / 8) with slot in Hpx by div_lia.
    rewrite bool_decide_true in Hpx by nia.
    destruct Hpx as (q & Hdec & Hidx).
    rewrite <- Hxy in Hidx.
    rewrite (index_nonneg bmp' (Z.of_nat i) p' ltac:(lia)) in Hidx by (by rewrite Nat2Z.id).
    injection Hidx as <-.
    destruct (lookup_lt_is_Some_2 data (Z.to_nat slot)) as [d Hd]; [unfold len in *; lia|].
    rewrite (decode_a8 data slot d) in Hdec by (lia || done). injection Hdec as <-.
    (* byte [slot] of the sheet is the alpha of this pixel *)
    specialize (Hsh slot ltac:(nia)).
    rewrite bool_decide_true in Hsh by nia.
    rewrite Hpo in Hsh. unfold bmp_index in Hsh. cbn [fst snd] in Hsh.
    rewrite <- Hxy, Nat2Z.id in Hsh. unfold pixel in *. rewrite Hp in Hsh.
    assert (Hsd : sheet !! Z.to_nat slot = Some (u8 d)).
    { rewrite <- Hu8, list_lookup_fmap, Hd. done. }
    rewrite (index_nonneg sheet slot (u8 d) ltac:(lia) Hsd) in Hsh. injection Hsh as Hsh.
    apply (proj1 (Forall_lookup _ _) Hall) in Hp as (alpha & -> & Halpha).
    cbn in Hsh. by rewrite Hsh.
Qed.

Lemma fragment_of_several_bytes (format_ : Format) (bmp : list pixel) (i : Z) :
  format_ ∈ several_bytes → 0 ≤ i < len bmp →
  ∃ frag, _get_tglp_pixel_data bmp i format_ = Ok frag
          ∧ len frag = format_size format_ / 8 ∧ 2 ≤ len frag.
Proof.
  intros Hf Hi.
  destruct (lookup_lt_is_Some_2 bmp (Z.to_nat i)) as [[[[r g] b] a] Hp];
    [unfold len in *; lia|].
  unfold _get_tglp_pixel_data. rewrite (index_nonneg bmp i _ ltac:(lia) Hp).
  cbn [mbind res_bind].
  apply list_elem_of_In in Hf. cbn in Hf.
  destruct Hf as [<- | [<- | [<- | [<- | [<- | []]]]]];
    cbn [mret res_ret format_size]; eexists; (split; [reflexivity|]); by cbn.
Qed.

(** [_bitmap_to_sheet] stores a fragment of several bytes at the index of
    its slot, not at the byte where the slot starts: byte [k] of the sheet
    is the first byte of the fragment of slot [k], the other bytes of that
    fragment having been overwritten by the fragment of slot [k + 1].
    After the last fragment the sheet is blank. *)
Theorem wide_fragments_overwrite_each_other (a b : Z) (format_ : Format) (bmp : list pixel) :
  3 ≤ a ≤ 15 → 3 ≤ b ≤ 15 → format_ ∈ several_bytes →
  let width := 2 ^ a in
  let height := 2 ^ b in
  let bytes_per_pixel := format_size format_ / 8 in
  let sheet_size := width * height * bytes_per_pixel in
  len bmp = width * height →
  ∃ sheet, _bitmap_to_sheet width height format_ sheet_size bmp = Ok sheet
    ∧ len sheet = sheet_size
    ∧ (∀ slot, 0 ≤ slot < width * height →
         ∃ frag, _get_tglp_pixel_data bmp (bmp_index width (pixel_of_offset width slot)) format_
                 = Ok frag
                 ∧ Py.index sheet slot = Py.index frag 0)
    ∧ (∀ j, width * height + bytes_per_pixel - 1 ≤ j < sheet_size → Py.index sheet j = Ok 0).
Proof.
  intros Ha Hb Hf width height m sheet_size Hlen.
  destruct (log2_up_pow2_side a Ha) as [Hw Hla].
  destruct (log2_up_pow2_side b Hb) as [Hh Hlb].
  fold width in Hw, Hla. fold height in Hh, Hlb.
  destruct (sheet_sides width height) as (tw & th & Htw & Hth & Hrw & Hpw & Hrh & Hph); [lia..|].
  rewrite Hla in Hpw. rewrite Hlb in Hph. fold width in Hpw. fold height in Hph.
  clearbody width height. subst width height.
  set (n := 8 * tw * (8 * th)) in *.
  assert (Hnd : n = 8 * tw * (8 * th)) by done. clearbody n.
  assert (Hm : 2 ≤ m ∧ format_size format_ = 8 * m).
  { subst m. apply list_elem_of_In in Hf. cbn in Hf.
    destruct Hf as [<- | [<- | [<- | [<- | [<- | []]]]]];
      (split; [vm_compute; discriminate|vm_compute; reflexivity]). }
  clearbody m. subst sheet_size.
  set (bp := λ slot, bmp_index (8 * tw) (pixel_of_offset (8 * tw) slot)).
  assert (Hbp : ∀ slot, 0 ≤ slot < n → 0 ≤ bp slot < len bmp).
  { intros slot Hslot.
    destruct (pixel_of_offset_in_sheet tw th ltac:(lia) slot) as (Hx & Hy & _); [lia|].
    unfold bp, bmp_index. nia. }
  set (first := λ slot, match _get_tglp_pixel_data bmp (bp slot) format_ with
                        | Ok (x :: _) => x
                        | _ => 0
                        end).
  unfold _bitmap_to_sheet. rewrite Hrw, Hrh. cbn [mbind res_bind].
  unfold visit_pixels. rewrite (visit_order_by_offset tw th) by lia. rewrite <- Hnd.
  set (P := λ (k : Z) (s : list pixel * list Z),
         s.1 = bmp ∧ len s.2 = n * m
         ∧ (∀ j, 0 ≤ j < k → s.2 !! Z.to_nat j = Some (first j))
         ∧ (∀ j, k + m - 1 ≤ j < n * m → s.2 !! Z.to_nat j = Some 0)).
  match goal with |- context [for_each _ ?body0 ?s0] =>
    destruct (for_each_seqZ_inv P (visit_of_offset (8 * tw)) body0 n s0)
      as (s' & Hfe & HI & Hls & Hfirst & Hzero);
    [..|rewrite Hfe]
  end.
  - intros k [bmp' sd] Hk (HI & Hls & Hfirst & Hzero). cbn [fst snd] in *. subst bmp'.
    unfold visit_of_offset. cbv beta iota. fold (bp k).
    destruct (Hbp k Hk) as [Hb0 Hb1].
    destruct (fragment_of_several_bytes format_ bmp (bp k) Hf (Hbp k Hk))
      as (frag & Hfrag & Hlf & Hl2).
    destruct Hm as [Hm2 Hfs]. rewrite Hfs in Hlf.
    replace (8 * m / 8) with m in Hlf by div_lia.
    unfold visit_guard. rewrite Hfs. replace (k * (8 * m) / 8) with (k * m) by div_lia.
    rewrite (proj2 (Z.leb_gt _ (bp k))) by exact Hb1.
    rewrite (proj2 (Z.leb_gt _ (k * m))) by nia. cbn [negb andb].
    unfold bitmap_to_sheet_vistor. rewrite Hfrag. cbn [mbind res_bind].
    rewrite (proj2 (Z.ltb_lt 1 (len frag))) by lia. cbn [mret res_ret].
    eexists. split; [reflexivity|].
    unfold P. cbn [fst snd]. split; [done|].
    unfold slice_assign. rewrite Hls, Hlf.
    rewrite !slice_bound_in_range by nia.
    replace (Z.max k (k + m)) with (k + m) by lia.
    assert (Hlt : length (take (Z.to_nat k) sd) = Z.to_nat k).
    { rewrite length_take. unfold len in *. nia. }
    split; [|split].
    + unfold len in *. rewrite !length_app, Hlt, length_drop. nia.
    + intros j Hj. destruct (decide (j < k)) as [Hjk|Hjk].
      * rewrite lookup_app_l by lia. rewrite lookup_take_lt by lia. apply Hfirst. lia.
      * assert (j = k) as -> by lia.
        rewrite lookup_app_r by lia. rewrite Hlt, Nat.sub_diag.
        unfold first. rewrite Hfrag.
        destruct frag as [|x frag]; [unfold len in Hl2; cbn in Hl2; lia|done].
    + intros j Hj. rewrite lookup_app_r by lia. rewrite Hlt.
      rewrite lookup_app_r by (unfold len in *; lia).
      rewrite lookup_drop.
      replace (Z.to_nat (k + m) + (Z.to_nat j - Z.to_nat k - length frag))%nat
        with (Z.to_nat j) by (unfold len in *; lia).
      apply Hzero. lia.
  - unfold P. cbn [fst snd]. split; [done|]. split; [|split].
    + unfold len. rewrite length_replicate. nia.
    + intros j Hj. lia.
    + intros j Hj. apply lookup_replicate_2. nia.
  - nia.
  - cbn [mbind res_bind mret res_ret]. exists s'.2.
    rewrite <- ?Hnd.
    split; [done|]. split; [done|]. split.
    + intros slot Hslot.
      destruct (fragment_of_several_bytes format_ bmp (bp slot) Hf (Hbp slot Hslot))
        as (frag & Hfrag & Hlf & Hl2).
      exists frag. split; [done|].
      rewrite (index_nonneg s'.2 slot (first slot)) by (lia || by apply Hfirst).
      unfold first. fold (bp slot). rewrite Hfrag.
      destruct frag as [|x frag]; [unfold len in Hl2; cbn in Hl2; lia|done].
    + intros j Hj. apply index_nonneg; [lia|]. apply Hzero. lia.
Qed.

Lemma bind_nil_r {A B} (l : list A) : (l ≫= λ _, @nil B) = [].
Proof. induction l as [|x l IH]; [done|]. by cbn. Qed.

(** A side below 8 pixels has no tile to visit. *)
Lemma visit_order_no_tile (width height : Z) :
  0 ≤ width < 8 ∨ 0 ≤ height < 8 → visit_order width height = [].
Proof.
  intros H. unfold visit_order, range.
  destruct H as [Hw|Hh].
  - replace (width / 8) with 0 by div_lia. change (seqZ 0 0) with (@nil Z).
    cbn [mbind list_bind]. apply bind_nil_r.
  - by replace (height / 8) with 0 by div_lia.
Qed.

(** A sheet with a side of 4 pixels or less, which rounds up to less than
    one tile, is never read: [_sheet_to_bitmap] returns a bitmap of
    [(0, 0, 0, 0)] whatever the data, and [_bitmap_to_sheet] a blank
    sheet whatever the bitmap.  The sides are those a texture header can
    hold. *)
Theorem narrow_sheet_is_blank (sheet_width sheet_height sheet_size : Z) (format_ : Format)
    (sheet_data : list byte) (bmp : list pixel) :
  1 ≤ sheet_width < 65536 → 1 ≤ sheet_height < 65536 →
  sheet_width ≤ 4 ∨ sheet_height ≤ 4 →
  let width := 2 ^ Z.log2_up sheet_width in
  let height := 2 ^ Z.log2_up sheet_height in
  _sheet_to_bitmap sheet_width sheet_height format_ sheet_data
  = Ok (replicate (Z.to_nat (width * height)) (0, 0, 0, 0))
  ∧ _bitmap_to_sheet sheet_width sheet_height format_ sheet_size bmp
    = Ok (replicate (Z.to_nat sheet_size) 0).
Proof.
  intros Hw Hh Hsmall width height.
  assert (Hpow : ∀ n, 1 ≤ n → round_up_pow2 n = Ok (2 ^ Z.log2_up n) ∧ 0 < 2 ^ Z.log2_up n
                        ∧ (n ≤ 4 → 2 ^ Z.log2_up n < 8)).
  { intros n Hn. split; [|split].
    - unfold round_up_pow2. rewrite (proj2 (Z.leb_gt n 0)) by lia. by rewrite Z.shiftl_1_l.
    - apply Z.pow_pos_nonneg; [lia|apply Z.log2_up_nonneg].
    - intros H4. assert (Z.log2_up n ≤ 2) by (apply Z.log2_up_le_pow2; lia).
      assert (2 ^ Z.log2_up n ≤ 2 ^ 2) by (apply Z.pow_le_mono_r; lia).
      change (2 ^ 2) with 4 in *. lia. }
  destruct (Hpow sheet_width (proj1 Hw)) as (Hrw & Hw0 & Hw4).
  destruct (Hpow sheet_height (proj1 Hh)) as (Hrh & Hh0 & Hh4).
  fold width in Hrw, Hw0, Hw4. fold height in Hrh, Hh0, Hh4. clearbody width height.
  unfold _sheet_to_bitmap, _bitmap_to_sheet, visit_pixels.
  rewrite Hrw, Hrh. cbn [mbind res_bind].
  rewrite visit_order_no_tile by lia. done.
Qed.

Lemma narrow_sheet_is_blank_witness :
  (1 ≤ 3 < 65536 ∧ 1 ≤ 16 < 65536 ∧ (3 ≤ 4 ∨ 16 ≤ 4))
  ∧ _sheet_to_bitmap 3 16 A8 (replicate 64 xff)
    = Ok (replicate (Z.to_nat (2 ^ Z.log2_up 3 * 2 ^ Z.log2_up 16)) (0, 0, 0, 0))
  ∧ _bitmap_to_sheet 3 16 A8 64 (replicate 64 (255, 255, 255, 255))
    = Ok (replicate (Z.to_nat 64) 0).
Proof.
  split; [lia|].
  exact (narrow_sheet_is_blank 3 16 64 A8 (replicate 64 xff) (replicate 64 (255, 255, 255, 255))
           ltac:(lia) ltac:(lia) ltac:(lia)).
Defined.

(** What [_sheet_to_bitmap] returns, pixel by pixel.  The sheet is taken
    at the powers of two its sides round up to; the pixel at [(x, y)] is
    the one decoded from its slot when the slot starts inside the buffer,
    and is left at [(0, 0, 0, 0)] otherwise. *)
Theorem sheet_to_bitmap_pixels (sheet_width sheet_height : Z) (format_ : Format)
    (sheet_data : list byte) :
  5 ≤ sheet_width < 65536 → 5 ≤ sheet_height < 65536 →
  (8 * len sheet_data) mod format_size format_ = 0 →
  let width := 2 ^ Z.log2_up sheet_width in
  let height := 2 ^ Z.log2_up sheet_height in
  ∃ bmp, _sheet_to_bitmap sheet_width sheet_height format_ sheet_data = Ok bmp
    ∧ len bmp = width * height
    ∧ ∀ x y, 0 ≤ x < width → 0 ≤ y < height →
        let slot := offset_of_pixel width x y in
        if bool_decide (slot * format_size format_ / 8 < len sheet_data)
        then ∃ p, _get_pixel_data format_ sheet_data slot = Ok p
                  ∧ Py.index bmp (x + y * width) = Ok p
        else Py.index bmp (x + y * width) = Ok (0, 0, 0, 0).
Proof. apply sheet_to_bitmap_spec. Qed.

(** A sheet of 6 by 8 pixels in RGB565 with room for 40 pixels only. *)
Lemma sheet_to_bitmap_pixels_witness :
  (5 ≤ 6 < 65536 ∧ 5 ≤ 8 < 65536 ∧ (8 * len (replicate 80 x5a)) mod format_size RGB565 = 0)
  ∧ ∃ bmp, _sheet_to_bitmap 6 8 RGB565 (replicate 80 x5a) = Ok bmp
           ∧ len bmp = 2 ^ Z.log2_up 6 * 2 ^ Z.log2_up 8.
Proof.
  split; [split; [lia|split; [lia|reflexivity]]|].
  destruct (sheet_to_bitmap_pixels 6 8 RGB565 (replicate 80 x5a)
              ltac:(lia) ltac:(lia) eq_refl) as (bmp & Hb & Hl & _).
  exists bmp. split; [exact Hb|exact Hl].
Defined.

Lemma a8_sheet_round_trip_witness :
  (3 ≤ 3 ≤ 15 ∧ 3 ≤ 4 ≤ 15)
  ∧ (∃ bmp, _sheet_to_bitmap (2 ^ 3) (2 ^ 4) A8 (replicate 128 x7f) = Ok bmp
            ∧ _bitmap_to_sheet (2 ^ 3) (2 ^ 4) A8 (2 ^ 3 * 2 ^ 4) bmp
              = Ok (u8 <$> replicate 128 x7f)).
Proof.
  split; [lia|].
  destruct (a8_sheet_round_trip 3 4 ltac:(lia) ltac:(lia)) as [H _].
  destruct (H (replicate 128 x7f) eq_refl) as (bmp & H1 & H2).
  exists bmp. split; [exact H1|exact H2].
Defined.

Lemma wide_fragments_overwrite_each_other_witness :
  (3 ≤ 3 ≤ 15 ∧ 3 ≤ 3 ≤ 15 ∧ RGBA8 ∈ several_bytes
   ∧ len (replicate 64 (1, 2, 3, 4) : list pixel) = 2 ^ 3 * 2 ^ 3)
  ∧ ∃ sheet, _bitmap_to_sheet (2 ^ 3) (2 ^ 3) RGBA8 (2 ^ 3 * 2 ^ 3 * (format_size RGBA8 / 8))
               (replicate 64 (1, 2, 3, 4)) = Ok sheet
             ∧ len sheet = 2 ^ 3 * 2 ^ 3 * (format_size RGBA8 / 8).
Proof.
  assert (Hf : RGBA8 ∈ several_bytes) by (by apply (bool_decide_unpack _)).
  split; [split; [lia|split; [lia|split; [exact Hf|reflexivity]]]|].
  destruct (wide_fragments_overwrite_each_other 3 3 RGBA8 (replicate 64 (1, 2, 3, 4))
              ltac:(lia) ltac:(lia) Hf eq_refl) as (sheet & Hs & Hl & _).
  exists sheet. split; [exact Hs|exact Hl].
Defined.

(** ** The helpers of the writer *)

Lemma next_power_of_two_pow (n : Z) : ∃ k, 0 ≤ k ∧ next_power_of_two n = 2 ^ k.
Proof.
  unfold next_power_of_two, bit_length. destruct (Z.eqb_spec n 0) as [->|Hn].
  - by exists 0.
  - destruct (Z.eqb_spec (n - 1) 0) as [Heq|Hm].
    + by exists 0.
    + exists (Z.log2 (Z.abs (n - 1)) + 1). rewrite Z.shiftl_1_l.
      pose proof (Z.log2_nonneg (Z.abs (n - 1))). split; [lia|done].
Qed.

Lemma is_power_of_two_pow (k : Z) : 0 ≤ k → is_power_of_two (2 ^ k) = true.
Proof.
  intros Hk. unfold is_power_of_two.
  assert (0 < 2 ^ k) by (apply Z.pow_pos_nonneg; lia).
  rewrite land_low_mask, Z.mod_same by lia.
  rewrite (proj2 (Z.eqb_neq (2 ^ k) 0)) by lia. done.
Qed.

Lemma is_power_of_two_inv (n : Z) : is_power_of_two n = true → ∃ k, 0 ≤ k ∧ n = 2 ^ k.
Proof.
  unfold is_power_of_two. intros [Hn Hl]%andb_true_iff.
  apply negb_true_iff, Z.eqb_neq in Hn. apply Z.eqb_eq in Hl.
  destruct (decide (n < 0)) as [Hneg|Hpos].
  { assert (Z.land n (n - 1) < 0) by (apply Z.land_neg; lia). lia. }
  exists (Z.log2 n). split; [apply Z.log2_nonneg|].
  destruct (Z.log2_spec n ltac:(lia)) as [Hlo Hhi].
  destruct (decide (n = 2 ^ Z.log2 n)) as [|Hne]; [done|exfalso].
  assert (Hlog : Z.log2 (n - 1) = Z.log2 n).
  { apply Z.log2_unique; [apply Z.log2_nonneg|lia]. }
  assert (Hb : Z.testbit (Z.land n (n - 1)) (Z.log2 n) = true).
  { rewrite Z.land_spec, Z.bit_log2 by lia.
    rewrite <- Hlog. rewrite Z.bit_log2; [done|].
    pose proof (Z.pow_pos_nonneg 2 (Z.log2 n) ltac:(lia) (Z.log2_nonneg n)). lia. }
  rewrite Hl, Z.bits_0 in Hb. done.
Qed.

(** [is_power_of_two] holds of the powers of two and of nothing else, and
    [next_power_of_two n] is the least power of two that is not below
    [n]. *)
Theorem power_of_two_helpers (n : Z) :
  (is_power_of_two n = true ↔ ∃ k, 0 ≤ k ∧ n = 2 ^ k)
  ∧ is_power_of_two (next_power_of_two n) = true
  ∧ n ≤ next_power_of_two n
  ∧ (1 ≤ n → next_power_of_two n < 2 * n)
  ∧ (is_power_of_two n = true → next_power_of_two n = n).
Proof.
  assert (Hbig : 2 ≤ n → n ≤ next_power_of_two n < 2 * n
                          ∧ next_power_of_two n = 2 ^ (Z.log2 (n - 1) + 1)).
  { intros Hn. unfold next_power_of_two, bit_length.
    rewrite (proj2 (Z.eqb_neq n 0)), (proj2 (Z.eqb_neq (n - 1) 0)) by lia.
    rewrite Z.shiftl_1_l, Z.abs_eq by lia.
    destruct (Z.log2_spec (n - 1) ltac:(lia)) as [Hlo Hhi].
    rewrite Z.pow_add_r by (lia || apply Z.log2_nonneg).
    replace (Z.succ (Z.log2 (n - 1))) with (Z.log2 (n - 1) + 1) in Hhi by lia.
    rewrite Z.pow_add_r in Hhi by (lia || apply Z.log2_nonneg).
    change (2 ^ 1) with 2 in *. lia. }
  split; [|split; [|split; [|split]]].
  - split; [apply is_power_of_two_inv|]. intros (k & Hk & ->). by apply is_power_of_two_pow.
  - destruct (next_power_of_two_pow n) as (k & Hk & ->). by apply is_power_of_two_pow.
  - destruct (decide (2 ≤ n)) as [H2|H2]; [by apply Hbig|].
    destruct (next_power_of_two_pow n) as (k & Hk & Hp).
    assert (0 < 2 ^ k) by (apply Z.pow_pos_nonneg; lia).
    destruct (decide (n = 1)) as [->|]; [done|lia].
  - intros Hn. destruct (decide (n = 1)) as [->|]; [done|]. apply Hbig. lia.
  - intros (k & Hk & ->)%is_power_of_two_inv.
    destruct (decide (k = 0)) as [->|Hk0]; [done|].
    assert (H2 : 2 ^ 1 ≤ 2 ^ k) by (apply Z.pow_le_mono_r; lia). change (2 ^ 1) with 2 in H2.
    destruct (Hbig H2) as [_ ->]. f_equal.
    assert (Hl : Z.log2 (2 ^ k - 1) = k - 1); [|lia].
    apply Z.log2_unique; [lia|].
    replace (Z.succ (k - 1)) with k by lia.
    assert (2 ^ k = 2 * 2 ^ (k - 1)).
    { rewrite <- Z.pow_succ_r by lia. f_equal. lia. }
    assert (0 < 2 ^ (k - 1)) by (apply Z.pow_pos_nonneg; lia). lia.
Qed.

(** ** Files and packed fields *)

Lemma for_each_raises {A St} (e : exn) (xs : list A) (body : A → St → res St) :
  Forall (λ x, ∀ s, body x s = Raise e ∨ ∃ s', body x s = Ok s') xs →
  Exists (λ x, ∀ s, body x s = Raise e) xs →
  ∀ s, for_each xs body s = Raise e.
Proof.
  intros Hall Hex. induction Hex as [x xs Hx|x xs Hex IH]; intros s; cbn [for_each].
  - by rewrite Hx.
  - apply Forall_cons in Hall as [Hx Hall].
    destruct (Hx s) as [-> | [s' ->]]; [done|]. cbn [mbind res_bind]. by apply IH.
Qed.

(** Appending to a file whose cursor is at its end. *)
Lemma write_at_end (bs : list byte) (f : File) :
  cursor f = len (content f) →
  write bs f = {| content := content f ++ bs; cursor := len (content f ++ bs) |}.
Proof.
  intros Hc. unfold write. rewrite Hc.
  replace (Z.to_nat (len (content f) - len (content f))) with 0%nat by lia.
  cbn [replicate]. rewrite app_nil_r.
  unfold len. rewrite Nat2Z.id, firstn_all.
  rewrite skipn_all2 by lia. rewrite app_nil_r, length_app. f_equal. lia.
Qed.

(** Overwriting bytes that are already there. *)
Lemma write_inside (bs : list byte) (f : File) :
  0 ≤ cursor f → cursor f + len bs ≤ len (content f) →
  content (write bs f)
  = take (Z.to_nat (cursor f)) (content f) ++ bs
    ++ drop (Z.to_nat (cursor f + len bs)) (content f)
  ∧ len (content (write bs f)) = len (content f).
Proof.
  intros H0 Hle. unfold write. cbn [content]. unfold len in *.
  replace (Z.to_nat (cursor f - Z.of_nat (length (content f)))) with 0%nat by lia.
  cbn [replicate]. rewrite app_nil_r. split; [done|].
  rewrite !length_app, length_take, length_drop. lia.
Qed.

Lemma le_bytes_length (n : nat) (z : Z) : length (le_bytes n z) = n.
Proof. revert z. induction n as [|n IH]; intros z; [done|]. cbn. by rewrite IH. Qed.

Lemma le_uint_le_bytes (n : nat) (z : Z) :
  0 ≤ z < 256 ^ Z.of_nat n → le_uint (le_bytes n z) = z.
Proof.
  revert z. induction n as [|n IH]; intros z Hz.
  - cbn in *. lia.
  - cbn [le_bytes]. unfold le_uint in *. cbn [foldr].
    destruct (byte_of_u8 (z mod 256)) as (b & -> & Hb); [apply Z.mod_pos_bound; lia|].
    cbn [default id]. rewrite Hb, IH.
    + pose proof (Z.div_mod z 256). lia.
    + rewrite Nat2Z.inj_succ, Z.pow_succ_r in Hz by lia.
      split; [apply Z.div_pos; lia|]. apply Z.div_lt_upper_bound; lia.
Qed.

(** A packed unsigned field has the width of its format and reads back as
    the value packed. *)
Lemma pack_uint_ok (o : byte_order) (n : nat) (z : Z) :
  0 ≤ z < 256 ^ Z.of_nat n →
  ∃ bs, pack_uint o n z = Ok bs ∧ length bs = n ∧ uint o bs = z.
Proof.
  intros Hz. unfold pack_uint. rewrite bool_decide_true by done.
  eexists. split; [done|]. destruct o; cbn [uint].
  - by rewrite le_bytes_length, le_uint_le_bytes.
  - by rewrite length_reverse, reverse_involutive, le_bytes_length, le_uint_le_bytes.
Qed.

Lemma pack_uint_raises (o : byte_order) (n : nat) (z : Z) :
  ¬ (0 ≤ z < 256 ^ Z.of_nat n) → pack_uint o n z = Raise StructError.
Proof. intros Hz. unfold pack_uint. by rewrite bool_decide_false. Qed.

Lemma pack_b_ok (z : Z) :
  -128 ≤ z < 128 → ∃ b, pack_b z = Ok [b] ∧ s8 b = z ∧ u8 b = z mod 256.
Proof.
  intros Hz. unfold pack_b. rewrite bool_decide_true by done.
  destruct (byte_of_u8 (z mod 256)) as (b & -> & Hb); [apply Z.mod_pos_bound; lia|].
  exists b. split; [done|]. split; [|done]. unfold s8. rewrite Hb.
  destruct (Z.ltb_spec (z mod 256) 128); div_lia.
Qed.

Lemma pack_b_raises (z : Z) : ¬ (-128 ≤ z < 128) → pack_b z = Raise StructError.
Proof. intros Hz. unfold pack_b. by rewrite bool_decide_false. Qed.

Lemma raw_app (n : nat) (a rest : list byte) :
  length a = n → raw n (a ++ rest) = Some (a, rest).
Proof.
  intros <-. unfold raw. rewrite decide_True by (rewrite length_app; lia).
  by rewrite take_app_length, drop_app_length.
Qed.

Lemma fH_app (o : byte_order) (a rest : list byte) :
  length a = 2%nat → fH o (a ++ rest) = Some (uint o a, rest).
Proof. intros Ha. unfold fH. cbn. unfold mbind, unpacker_bind. by rewrite raw_app. Qed.

Lemma fI_app (o : byte_order) (a rest : list byte) :
  length a = 4%nat → fI o (a ++ rest) = Some (uint o a, rest).
Proof. intros Ha. unfold fI. cbn. unfold mbind, unpacker_bind. by rewrite raw_app. Qed.

Lemma fB_cons (b : byte) (rest : list byte) : fB (b :: rest) = Some (u8 b, rest).
Proof. cbv -[u8 Z.add Z.mul]. by rewrite Z.mul_0_r, Z.add_0_r. Qed.

Lemma fb_cons (b : byte) (rest : list byte) : fb (b :: rest) = Some (s8 b, rest).
Proof. reflexivity. Qed.

(** ** Writing a CWDH section *)

Lemma write_past_end (bs : list byte) (f : File) :
  len (content f) ≤ cursor f →
  write bs f = {| content := extended f ++ bs; cursor := len (extended f ++ bs) |}.
Proof.
  intros Hc. unfold write, extended, len in *.
  set (gap := replicate _ x00).
  assert (Hg : length gap = Z.to_nat (cursor f - Z.of_nat (length (content f))))
    by apply length_replicate.
  rewrite firstn_all2 by (rewrite length_app; lia).
  rewrite skipn_all2 by lia. rewrite app_nil_r.
  f_equal. rewrite !length_app. lia.
Qed.

Lemma pack_triple (t : CwdhSectionData) :
  if decide (packable t)
  then ∃ a b c, pack_b (wd_left t) = Ok [a] ∧ pack_b (wd_glyph t) = Ok [b]
                ∧ pack_b (wd_char t) = Ok [c] ∧ triple_bytes t = [a; b; c]
                ∧ s8 a = wd_left t ∧ u8 b = wd_glyph t mod 256 ∧ u8 c = wd_char t mod 256
  else (l ← pack_b (wd_left t); g ← pack_b (wd_glyph t); c ← pack_b (wd_char t);
        mret (l ++ g ++ c)) = Raise StructError.
Proof.
  case_decide as Hp.
  - destruct Hp as (Hl & Hg & Hc).
    destruct (pack_b_ok _ Hl) as (a & Ha & Hsa & _).
    destruct (pack_b_ok _ Hg) as (b & Hb & _ & Hub).
    destruct (pack_b_ok _ Hc) as (c & Hc' & _ & Huc).
    exists a, b, c. unfold triple_bytes. rewrite Ha, Hb, Hc'. repeat split; done.
  - unfold packable in Hp.
    destruct (decide (-128 ≤ wd_left t < 128)) as [Hl|Hl];
      [|by rewrite (pack_b_raises _ Hl)].
    destruct (pack_b_ok _ Hl) as (a & -> & _). cbn [mbind res_bind].
    destruct (decide (-128 ≤ wd_glyph t < 128)) as [Hg|Hg];
      [|by rewrite (pack_b_raises _ Hg)].
    destruct (pack_b_ok _ Hg) as (b & -> & _). cbn [mbind res_bind].
    rewrite pack_b_raises; [done|]. tauto.
Qed.

(** The body of the loop over the codes of a section. *)
Lemma cwdh_code_step (cwdh : CwdhSection) (code : Z) (f : File) (pos : Z) :
  0 ≤ code →
  (widths ← Py.index (cwdh_data cwdh) code;
   l ← pack_b (wd_left widths); g ← pack_b (wd_glyph widths);
   c ← pack_b (wd_char widths);
   mret (write (l ++ g ++ c) f, pos + 3))
  = match cwdh_data cwdh !! Z.to_nat code with
    | None => Raise IndexError
    | Some t => if decide (packable t) then Ok (write (triple_bytes t) f, pos + 3)
                else Raise StructError
    end.
Proof.
  intros Hc.
  destruct (cwdh_data cwdh !! Z.to_nat code) as [t|] eqn:Ht.
  - rewrite (index_nonneg _ code t Hc Ht). cbn [mbind res_bind].
    pose proof (pack_triple t) as H. case_decide.
    + destruct H as (a & b & c & -> & -> & -> & -> & _). reflexivity.
    + destruct (pack_b (wd_left t)) as [l| |]; cbn [mbind res_bind] in *;
        [|by inversion H..].
      destruct (pack_b (wd_glyph t)) as [g| |]; cbn [mbind res_bind] in *;
        [|by inversion H..].
      destruct (pack_b (wd_char t)) as [c| |]; cbn [mbind res_bind] in *;
        by inversion H.
  - pose proof (index_in_range (cwdh_data cwdh) code Hc) as H.
    apply lookup_ge_None in Ht. rewrite bool_decide_false in H by (unfold len; lia).
    by rewrite H.
Qed.

Lemma triple_bytes_length (t : CwdhSectionData) : packable t → length (triple_bytes t) = 3%nat.
Proof.
  intros Hp. pose proof (pack_triple t) as H. rewrite decide_True in H by done.
  destruct H as (a & b & c & _ & _ & _ & -> & _). done.
Qed.

Lemma triples_length (data : list CwdhSectionData) :
  Forall packable data → len (data ≫= triple_bytes) = 3 * len data.
Proof.
  induction 1 as [|t data Ht _ IH]; [done|].
  unfold len in *. cbn [mbind list_bind length]. change (list_bind ?f ?l) with (l ≫= f).
  rewrite length_app, triple_bytes_length by done. lia.
Qed.

Lemma extended_length (f : File) :
  len (content f) ≤ cursor f → len (extended f) = cursor f.
Proof. intros H. unfold extended, len in *. rewrite length_app, length_replicate. lia. Qed.

Lemma pack_I_ok (o : byte_order) (z : Z) :
  0 ≤ z < 2 ^ 32 → ∃ bs, pack_I o z = Ok bs ∧ length bs = 4%nat ∧ uint o bs = z.
Proof. intros Hz. apply pack_uint_ok. by change (256 ^ Z.of_nat 4) with (2 ^ 32). Qed.

Lemma pack_H_ok (o : byte_order) (z : Z) :
  0 ≤ z < 65536 → ∃ bs, pack_H o z = Ok bs ∧ length bs = 2%nat ∧ uint o bs = z.
Proof. intros Hz. apply pack_uint_ok. by change (256 ^ Z.of_nat 2) with 65536. Qed.

(** The padding loop appends [padding] zero bytes. *)
Lemma write_padding (c : list byte) (padding : Z) :
  0 ≤ padding →
  for_each (range padding) (λ _ f, z ← pack_b 0; mret (write z f))
    {| content := c; cursor := len c |}
  = Ok {| content := c ++ replicate (Z.to_nat padding) x00;
          cursor := len (c ++ replicate (Z.to_nat padding) x00) |}.
Proof.
  intros Hp. unfold range. rewrite <- (list_fmap_id (seqZ 0 padding)).
  destruct (for_each_seqZ_inv
              (λ k f, f = {| content := c ++ replicate (Z.to_nat k) x00;
                             cursor := len (c ++ replicate (Z.to_nat k) x00) |})
              id (λ (_ : Z) f, z ← pack_b 0; mret (write z f)) padding
              {| content := c; cursor := len c |}) as (f' & -> & ->); [| |done..].
  - intros k f Hk ->. eexists. split.
    + change (pack_b 0) with (Ok [x00] : res (list byte)). cbn [mbind res_bind mret res_ret].
      by rewrite write_at_end.
    + cbn [content]. replace (Z.to_nat (k + 1)) with (S (Z.to_nat k)) by lia.
      rewrite replicate_S_end, app_assoc. done.
  - cbn [replicate]. by rewrite app_nil_r.
Qed.

(** A section that starts at glyph 0 and has one packable triple per glyph
    is written in one piece after the bytes the file has. *)
Lemma save_cwdh_section_written (o : byte_order) (cwdh : CwdhSection) (s : Writer) (n : Z) :
  prev_offset_pos s = 0 →
  cursor (file_ s) = position s → len (content (file_ s)) ≤ position s →
  cwdh_start cwdh = 0 → cwdh_end cwdh = n - 1 → len (cwdh_data cwdh) = n → 1 ≤ n ≤ 65536 →
  Forall packable (cwdh_data cwdh) →
  position s + 16 + 3 * n + 3 < 2 ^ 32 →
  let padding := (position s + 16 + 3 * n) mod 4 in
  let size := 16 + 3 * n + padding in
  save_cwdh_section o cwdh s
  = Ok {| file_ := {| content := extended (file_ s) ++ cwdh_section_bytes o cwdh size padding;
                      cursor := position s + size |};
          position := position s + size; section_count := section_count s + 1;
          prev_offset_pos := position s + 0x0C |}.
Proof.
  intros Hprev Hcur Hlen Hstart Hend Hn Hn1 Hpack Hmax padding size.
  set (p := position s) in *.
  assert (Hp0 : 0 ≤ p) by (unfold len in Hlen; lia).
  assert (Hpad : 0 ≤ padding < 4) by (apply Z.mod_pos_bound; lia).
  destruct (pack_I_ok o 0 ltac:(lia)) as (z4 & Hz4 & Hlz4 & _).
  destruct (pack_H_ok o (cwdh_start cwdh) ltac:(lia)) as (hs & Hhs & Hlhs & _).
  destruct (pack_H_ok o (cwdh_end cwdh) ltac:(lia)) as (he & Hhe & Hlhe & _).
  destruct (pack_I_ok o size ltac:(lia)) as (sz & Hsz & Hlsz & _).
  unfold save_cwdh_section, write_link. rewrite Hprev. cbn [mbind res_bind Z.ltb Z.compare].
  fold p. rewrite Hz4, Hhs, Hhe. cbn [mbind res_bind].
  rewrite write_past_end by lia.
  set (base := extended (file_ s)).
  assert (Hlb : len base = p) by (unfold base; rewrite extended_length; lia).
  set (hdr0 := CWDH_HEADER_MAGIC ++ z4 ++ hs ++ he ++ z4).
  assert (Hlh : len hdr0 = 16) by (unfold hdr0, len; rewrite !length_app, Hlz4, Hlhs, Hlhe; done).
  (* the triples *)
  rewrite Hstart, Hend. replace (n - 1 + 1 - 0) with n by lia.
  rewrite <- (list_fmap_id (seqZ 0 n)).
  match goal with |- context [for_each _ ?body0 ?s0] =>
    destruct (for_each_seqZ_inv
                (λ k (st : File * Z),
                   st = ({| content := base ++ hdr0 ++ (take (Z.to_nat k) (cwdh_data cwdh) ≫= triple_bytes);
                            cursor := p + 16 + 3 * k |}, p + 16 + 3 * k))
                id body0 n s0) as (st & -> & ->)
  end.
  - clearbody hdr0 base. intros k [f pos] Hk [= -> ->]. unfold id.
    destruct (lookup_lt_is_Some_2 (cwdh_data cwdh) (Z.to_nat k)) as [t Ht];
      [unfold len in Hn; lia|].
    rewrite cwdh_code_step by lia. rewrite Ht.
    assert (Hpt : packable t) by (by eapply Forall_lookup_1).
    rewrite decide_True by done.
    assert (Hlt : len (take (Z.to_nat k) (cwdh_data cwdh) ≫= triple_bytes) = 3 * k).
    { rewrite triples_length by (by apply Forall_take).
      unfold len in *. rewrite length_take. lia. }
    eexists. split; [reflexivity|]. f_equal; [|lia].
    assert (Hcu : cursor {| content := base ++ hdr0 ++ (take (Z.to_nat k) (cwdh_data cwdh) ≫= triple_bytes); cursor := p + 16 + 3 * k |} = len (base ++ hdr0 ++ (take (Z.to_nat k) (cwdh_data cwdh) ≫= triple_bytes))).
    { cbn [content cursor]. unfold len in *. rewrite !length_app. lia. }
    rewrite write_at_end by exact Hcu. cbn [content].
    replace (Z.to_nat (k + 1)) with (S (Z.to_nat k)) by lia.
    rewrite (take_S_r _ _ _ Ht), bind_app. cbn [mbind list_bind]. rewrite app_nil_r.
    f_equal.
    + by rewrite <- !app_assoc.
    + unfold len in *. rewrite !length_app, triple_bytes_length by done.
      rewrite !length_app in Hcu. cbn [content cursor] in Hcu. lia.
  - change (Z.to_nat 0) with 0%nat. cbn [take mbind list_bind]. rewrite app_nil_r.
    unfold CWDH_HEADER_SIZE. f_equal; [f_equal|lia].
    unfold len in *. rewrite length_app. lia.
  - lia.
  - cbn [mbind res_bind].
    rewrite firstn_all2 by (unfold len in Hn; lia).
    set (triples := cwdh_data cwdh ≫= triple_bytes).
    assert (Hlt : len triples = 3 * n) by (unfold triples; rewrite triples_length by done; lia).
    (* padding and size *)
    unfold write_padding_and_size. fold padding.
    set (c := base ++ hdr0 ++ triples).
    assert (Hlc : len c = p + 16 + 3 * n).
    { unfold c, len in *. rewrite !length_app. lia. }
    rewrite <- Hlc at 1. rewrite write_padding by lia. cbn [mbind res_bind].
    replace (p + 16 + 3 * n + padding - p) with size by (unfold size; lia).
    rewrite Hsz. cbn [mbind res_bind mret res_ret].
    f_equal. f_equal; [|unfold size; lia..].
    unfold seek. cbn [content cursor].
    set (c' := c ++ replicate (Z.to_nat padding) x00).
    assert (Hc' : c' = (base ++ CWDH_HEADER_MAGIC) ++ z4
                       ++ (hs ++ he ++ z4 ++ triples ++ replicate (Z.to_nat padding) x00)).
    { unfold c', c, hdr0. by rewrite <- !app_assoc. }
    unfold write. cbn [content cursor].
    replace (Z.to_nat (p + 4 - len c')) with 0%nat.
    2:{ unfold c', len in *. rewrite length_app. lia. }
    cbn [replicate]. rewrite app_nil_r.
    f_equal; [|unfold size; lia].
    rewrite Hc'. rewrite take_app_length' by (unfold len in *; rewrite length_app; cbn; lia).
    rewrite (app_assoc (base ++ CWDH_HEADER_MAGIC) z4).
    rewrite drop_app_length'
      by (unfold len in *; rewrite !length_app; change (length CWDH_HEADER_MAGIC) with 4%nat; lia).
    unfold cwdh_section_bytes. rewrite Hsz, Hhs, Hhe, Hz4. cbn [packed].
    by rewrite <- !app_assoc.
Qed.

(** ** Reading back a written CWDH section *)

Lemma slice_lookup {A} (l : list A) (lo hi : Z) (i : nat) :
  0 ≤ lo ≤ hi →
  slice l lo hi !! i
  = if bool_decide (Z.of_nat i < hi - lo) then l !! (Z.to_nat lo + i)%nat else None.
Proof.
  intros H. unfold slice, slice_bound, len.
  rewrite !(bool_decide_false (_ < 0)) by lia.
  case_bool_decide as Hi.
  - destruct (decide (Z.of_nat i < Z.min hi (Z.of_nat (length l)) - Z.min lo (Z.of_nat (length l))))
      as [Hin|Hout].
    + rewrite lookup_take_lt by lia. rewrite lookup_drop. f_equal. lia.
    + rewrite lookup_take_ge by lia. symmetry. apply lookup_ge_None. lia.
  - apply lookup_take_ge. lia.
Qed.

(** A part of a slice is a slice. *)
Lemma slice_of_slice {A} (l : list A) (p size a b : Z) :
  0 ≤ p → 0 ≤ a ≤ b → b ≤ size →
  slice l (p + a) (p + b)
  = take (Z.to_nat (b - a)) (drop (Z.to_nat a) (slice l p (p + size))).
Proof.
  intros Hp Hab Hb. apply list_eq. intros i.
  rewrite slice_lookup by lia.
  destruct (decide (Z.of_nat i < b - a)) as [Hi|Hi].
  - rewrite bool_decide_true by lia.
    rewrite lookup_take_lt by lia. rewrite lookup_drop, slice_lookup by lia.
    rewrite bool_decide_true by lia. f_equal. lia.
  - rewrite bool_decide_false by lia. symmetry. apply lookup_take_ge. lia.
Qed.

Lemma unpack_cwdh_header (o : byte_order) (magic sz hs he nx : list byte) :
  length magic = 4%nat → length sz = 4%nat → length hs = 2%nat → length he = 2%nat →
  length nx = 4%nat →
  unpack (CWDH_HEADER_STRUCT o) (magic ++ sz ++ hs ++ he ++ nx)
  = Ok (magic, uint o sz, uint o hs, uint o he, uint o nx).
Proof.
  intros Hm Hsz Hhs Hhe Hnx. unfold unpack, CWDH_HEADER_STRUCT.
  unfold mbind at 1, unpacker_bind at 1. rewrite raw_app by done.
  unfold mbind at 1, unpacker_bind at 1. rewrite fI_app by done.
  unfold mbind at 1, unpacker_bind at 1. rewrite fH_app by done.
  unfold mbind at 1, unpacker_bind at 1. rewrite fH_app by done.
  unfold mbind at 1, unpacker_bind at 1.
  rewrite <- (app_nil_r nx) at 1. rewrite fI_app by done. done.
Qed.

Lemma triple_at_kept (t : CwdhSectionData) (rest : list byte) :
  kept t → triple_at (triple_bytes t ++ rest) 0 = t.
Proof.
  intros (Hl & Hg & Hc).
  pose proof (pack_triple t) as H. rewrite decide_True in H by (unfold packable; lia).
  destruct H as (a & b & c & _ & _ & _ & -> & Ha & Hb & Hc').
  unfold triple_at.
  change (Z.to_nat 0) with 0%nat. change (Z.to_nat (0 + 1)) with 1%nat.
  change (Z.to_nat (0 + 2)) with 2%nat.
  cbn [app lookup list_lookup default id]. rewrite Ha, Hb, Hc'.
  rewrite !Z.mod_small by lia. by destruct t.
Qed.

Lemma triple_at_shift (t : CwdhSectionData) (rest : list byte) (i : Z) :
  packable t → 0 ≤ i →
  triple_at (triple_bytes t ++ rest) (3 * (1 + i)) = triple_at rest (3 * i).
Proof.
  intros Hp Hi. pose proof (triple_bytes_length t Hp) as Hl.
  unfold triple_at.
  rewrite !lookup_app_r by lia. rewrite Hl.
  repeat f_equal; lia.
Qed.

(** The triples of a written payload are the triples that were written,
    provided the two widths are not negative. *)
Lemma payload_triples_written (data : list CwdhSectionData) (rest : list byte) :
  Forall kept data →
  payload_triples (len data) ((data ≫= triple_bytes) ++ rest) = data.
Proof.
  induction 1 as [|t data Ht Hall IH]; [done|].
  unfold payload_triples, len in *. cbn [length mbind list_bind].
  change (list_bind ?f ?l) with (l ≫= f).
  rewrite <- app_assoc.
  rewrite Nat2Z.inj_succ, <- Z.add_1_l, seqZ_app by lia.
  change (seqZ 0 1) with [0]. cbn [fmap list_fmap app]. change (list_fmap _ _ ?f ?l) with (f <$> l).
  rewrite (triple_at_kept t) by done. f_equal.
  rewrite <- IH at 2. rewrite <- (fmap_add_seqZ 1 0), <- list_fmap_compose.
  apply list_fmap_ext. intros i x Hx%list_elem_of_lookup_2%elem_of_seqZ. unfold compose.
  apply triple_at_shift; [|lia]. destruct Ht as (? & ? & ?). unfold packable. lia.
Qed.

Lemma kept_packable (data : list CwdhSectionData) : Forall kept data → Forall packable data.
Proof.
  intros H. eapply Forall_impl; [exact H|]. intros t (? & ? & ?). unfold packable. lia.
Qed.

Lemma read_written_cwdh (o : byte_order) (cwdh : CwdhSection) (n size padding p : Z)
    (data : list byte) (w : World) (k : World → res World) (fuel : nat) :
  0 ≤ p → 0 ≤ padding → size = 16 + 3 * n + padding → size < 2 ^ 32 →
  cwdh_start cwdh = 0 → cwdh_end cwdh = n - 1 → len (cwdh_data cwdh) = n → 1 ≤ n ≤ 65536 →
  Forall kept (cwdh_data cwdh) →
  slice data p (p + size) = cwdh_section_bytes o cwdh size padding →
  order (self w) = Some o →
  read_cwdh_chain (S fuel) data (p + 8) w k
  = k (mutate_cwdh_sections
         (λ l, l ++ [{| cwdh_start := 0; cwdh_end := n - 1; cwdh_size := size;
                        cwdh_data := cwdh_data cwdh |}]) w).
Proof.
  intros Hp Hpad Hsize Hmax Hstart Hend Hn Hn1 Hkept Hbytes Ho.
  destruct (pack_I_ok o 0 ltac:(lia)) as (z4 & Hz4 & Hlz4 & Huz4).
  destruct (pack_H_ok o (cwdh_start cwdh) ltac:(lia)) as (hs & Hhs & Hlhs & Huhs).
  destruct (pack_H_ok o (cwdh_end cwdh) ltac:(lia)) as (he & Hhe & Hlhe & Huhe).
  destruct (pack_I_ok o size ltac:(lia)) as (sz & Hsz & Hlsz & Husz).
  unfold cwdh_section_bytes in Hbytes. rewrite Hsz, Hhs, Hhe, Hz4 in Hbytes. cbn [packed] in Hbytes.
  set (triples := cwdh_data cwdh ≫= triple_bytes) in *.
  assert (Hlt : len triples = 3 * n).
  { unfold triples. rewrite triples_length by (by apply kept_packable). lia. }
  set (hdr := CWDH_HEADER_MAGIC ++ sz ++ hs ++ he ++ z4).
  assert (Hlh : length hdr = 16%nat).
  { unfold hdr. rewrite !length_app, Hlsz, Hlhs, Hlhe, Hlz4. done. }
  assert (Hb2 : slice data p (p + size) = hdr ++ triples ++ replicate (Z.to_nat padding) x00).
  { rewrite Hbytes. unfold hdr. by rewrite <- !app_assoc. }
  assert (Hhdr : slice data (p + 8 - 8) (p + 8 - 8 + CWDH_HEADER_SIZE) = hdr).
  { replace (slice data (p + 8 - 8) (p + 8 - 8 + CWDH_HEADER_SIZE))
      with (slice data (p + 0) (p + 16)) by (unfold CWDH_HEADER_SIZE; f_equal; lia).
    rewrite (slice_of_slice data p size 0 16) by lia. rewrite Hb2.
    change (Z.to_nat 0) with 0%nat. rewrite drop_0.
    replace (Z.to_nat (16 - 0)) with (length hdr) by lia. by rewrite take_app_length. }
  assert (Hpay : slice data (p + 8 - 8 + CWDH_HEADER_SIZE)
                   (p + 8 - 8 + CWDH_HEADER_SIZE + size - CWDH_HEADER_SIZE)
                 = triples ++ replicate (Z.to_nat padding) x00).
  { replace (slice data (p + 8 - 8 + CWDH_HEADER_SIZE)
               (p + 8 - 8 + CWDH_HEADER_SIZE + size - CWDH_HEADER_SIZE))
      with (slice data (p + 16) (p + size)) by (unfold CWDH_HEADER_SIZE; f_equal; lia).
    rewrite (slice_of_slice data p size 16 size) by lia. rewrite Hb2.
    replace (Z.to_nat 16) with (length hdr) by lia. rewrite drop_app_length.
    apply firstn_all2. unfold len in *. rewrite length_app, length_replicate. lia. }
  assert (Hun : unpack (CWDH_HEADER_STRUCT o)
                  (slice data (p + 8 - 8) (p + 8 - 8 + CWDH_HEADER_SIZE))
                = Ok (CWDH_HEADER_MAGIC, size, cwdh_start cwdh, cwdh_end cwdh, 0)).
  { rewrite Hhdr. unfold hdr. rewrite unpack_cwdh_header by done.
    by rewrite Husz, Huhs, Huhe, Huz4. }
  rewrite (read_cwdh_chain_step fuel data w k o (p + 8) size (cwdh_start cwdh)
             (cwdh_end cwdh) 0 Ho ltac:(lia) Hun).
  - rewrite read_cwdh_chain_done. f_equal. apply mutate_cwdh_ext. intros l. f_equal. f_equal.
    rewrite Hpay, Hstart, Hend. f_equal.
    replace (n - 1 - 0 + 1) with (len (cwdh_data cwdh)) by lia.
    by apply payload_triples_written.
  - lia.
  - rewrite Hpay. unfold len in *. rewrite length_app, length_replicate. lia.
Qed.

(** ** What the CWDH writer accepts *)

Lemma cwdh_section_bytes_length (o : byte_order) (cwdh : CwdhSection) (size padding : Z) :
  0 ≤ size < 2 ^ 32 → 0 ≤ cwdh_start cwdh < 65536 → 0 ≤ cwdh_end cwdh < 65536 →
  0 ≤ padding → Forall packable (cwdh_data cwdh) →
  len (cwdh_section_bytes o cwdh size padding) = 16 + 3 * len (cwdh_data cwdh) + padding.
Proof.
  intros Hsz Hs He Hp Hpack.
  destruct (pack_I_ok o 0 ltac:(lia)) as (z4 & Hz4 & Hlz4 & _).
  destruct (pack_H_ok o (cwdh_start cwdh) Hs) as (hs & Hhs & Hlhs & _).
  destruct (pack_H_ok o (cwdh_end cwdh) He) as (he & Hhe & Hlhe & _).
  destruct (pack_I_ok o size Hsz) as (sz & Hsz' & Hlsz & _).
  pose proof (triples_length _ Hpack) as Hlt.
  unfold cwdh_section_bytes. rewrite Hsz', Hhs, Hhe, Hz4. cbn [packed].
  unfold len in *. rewrite !length_app, length_replicate, Hlsz, Hlhs, Hlhe, Hlz4.
  change (length CWDH_HEADER_MAGIC) with 4%nat. lia.
Qed.

(** A font whose one CWDH section starts at glyph 0, with a left bearing
    that fits a signed byte and widths from 0 to 127, is written by [save]
    and read back by [read] as it was: the section comes back with its
    triples, and with the size [save] gave it. *)
Theorem cwdh_section_round_trip (o : byte_order) (cwdh : CwdhSection) (f : File)
    (pos count n : Z) :
  cursor f = pos → len (content f) ≤ pos →
  cwdh_start cwdh = 0 → cwdh_end cwdh = n - 1 → len (cwdh_data cwdh) = n → 1 ≤ n ≤ 65536 →
  Forall kept (cwdh_data cwdh) →
  pos + 16 + 3 * n + 3 < 2 ^ 32 →
  ∃ s', save_cwdh_sections o [cwdh] f pos count = Ok s'
    ∧ section_count s' = count + 1
    ∧ cursor (file_ s') = position s'
    ∧ len (content (file_ s')) = position s'
    ∧ 16 + 3 * n ≤ position s' - pos < 16 + 3 * n + 4
    ∧ ∀ (data : list byte) (w : World) (k : World → res World) (fuel : nat),
        slice data pos (position s') = slice (content (file_ s')) pos (position s') →
        order (self w) = Some o →
        read_cwdh_chain (S fuel) data (pos + 8) w k
        = k (mutate_cwdh_sections
               (λ l, l ++ [{| cwdh_start := 0; cwdh_end := n - 1;
                              cwdh_size := position s' - pos;
                              cwdh_data := cwdh_data cwdh |}]) w).
Proof.
  intros Hcur Hlen Hstart Hend Hn Hn1 Hkept Hmax.
  pose proof (kept_packable _ Hkept) as Hpack.
  assert (Hp0 : 0 ≤ pos) by (unfold len in Hlen; lia).
  set (padding := (pos + 16 + 3 * n) mod 4).
  assert (Hpad : 0 ≤ padding < 4) by (apply Z.mod_pos_bound; lia).
  set (size := 16 + 3 * n + padding).
  unfold save_cwdh_sections. cbn [for_each].
  rewrite (save_cwdh_section_written o cwdh _ n); cbn [prev_offset_pos file_ position]; try done.
  cbn [mbind res_bind]. fold padding size.
  assert (Hlb : len (cwdh_section_bytes o cwdh size padding) = size).
  { rewrite cwdh_section_bytes_length; [unfold size; lia|unfold size in *; lia..|done]. }
  assert (Hle : len (extended f) = pos) by (rewrite extended_length; lia).
  eexists. split; [reflexivity|]. cbn [section_count file_ position content cursor].
  split; [done|]. split; [done|]. split.
  { unfold len in *. rewrite length_app. lia. }
  split; [unfold size; lia|].
  intros data w k fuel Hdata Ho.
  replace (pos + size - pos) with size by lia.
  apply (read_written_cwdh o cwdh n size padding pos); try done; try lia.
  rewrite Hdata. apply slice_app_r; lia.
Qed.

Lemma cwdh_section_round_trip_witness :
  (cursor after_one_sheet = TGLP_DATA_OFFSET + 64
   ∧ len (content after_one_sheet) ≤ TGLP_DATA_OFFSET + 64
   ∧ cwdh_start (widths_for 3) = 0 ∧ cwdh_end (widths_for 3) = 3 - 1
   ∧ len (cwdh_data (widths_for 3)) = 3 ∧ 1 ≤ 3 ≤ 65536
   ∧ Forall kept (cwdh_data (widths_for 3))
   ∧ TGLP_DATA_OFFSET + 64 + 16 + 3 * 3 + 3 < 2 ^ 32)
  ∧ ∃ s', save_cwdh_sections Little [widths_for 3] after_one_sheet (TGLP_DATA_OFFSET + 64) 2
          = Ok s'
          ∧ section_count s' = 2 + 1.
Proof.
  assert (Hk : Forall kept (cwdh_data (widths_for 3))).
  { repeat constructor; cbn; lia. }
  split; [repeat split; try reflexivity; try lia; try exact Hk; vm_compute; discriminate|].
  destruct (cwdh_section_round_trip Little (widths_for 3) after_one_sheet
              (TGLP_DATA_OFFSET + 64) 2 3 eq_refl ltac:(vm_compute; discriminate)
              eq_refl eq_refl eq_refl ltac:(lia) Hk ltac:(vm_compute; reflexivity))
    as (s' & Hs & Hc & _).
  exists s'. split; [exact Hs|exact Hc].
Defined.

Lemma pack_uint_cases (o : byte_order) (n : nat) (z : Z) :
  (∃ bs, pack_uint o n z = Ok bs) ∨ pack_uint o n z = Raise StructError.
Proof. unfold pack_uint. case_bool_decide; eauto. Qed.

Lemma write_link_cases (o : byte_order) (prev pos : Z) (f : File) :
  (∃ f', write_link o prev pos f = Ok f') ∨ write_link o prev pos f = Raise StructError.
Proof.
  unfold write_link. case_match; [|eauto].
  destruct (pack_uint_cases o 4 (pos + 8)) as [[bs Hb] | Hb]; unfold pack_I; rewrite Hb; eauto.
Qed.

Lemma cwdh_loop_step_cases (e : exn) (cwdh : CwdhSection) (codes : list Z) :
  Forall (λ code, 0 ≤ code
                  ∧ match cwdh_data cwdh !! Z.to_nat code with
                    | Some t => packable t ∨ e = StructError
                    | None => e = IndexError
                    end) codes →
  Exists (λ code, match cwdh_data cwdh !! Z.to_nat code with
                  | Some t => ¬ packable t
                  | None => True
                  end) codes →
  ∀ st,
    for_each codes
      (λ code '(f, position),
         widths ← Py.index (cwdh_data cwdh) code;
         l ← pack_b (wd_left widths); g ← pack_b (wd_glyph widths);
         c ← pack_b (wd_char widths);
         mret (write (l ++ g ++ c) f, position + 3)) st = Raise e.
Proof.
  intros Hall Hex. apply for_each_raises.
  - eapply Forall_impl; [exact Hall|]. cbn beta. intros code [H0 Hc] [f pos].
    rewrite cwdh_code_step by done.
    destruct (cwdh_data cwdh !! Z.to_nat code) as [t|]; [|left; by rewrite Hc].
    case_decide; [right; eauto|]. left. destruct Hc as [?| ->]; done.
  - apply Exists_exists in Hex as (code & Hin & Hc). apply Exists_exists.
    exists code. split; [done|]. intros [f pos].
    destruct (proj1 (Forall_forall _ _) Hall code Hin) as [H0 Hc'].
    rewrite cwdh_code_step by done.
    destruct (cwdh_data cwdh !! Z.to_nat code) as [t|]; [|by rewrite Hc'].
    rewrite decide_False by done. destruct Hc' as [?| ->]; done.
Qed.

(** The reader accepts glyph and character widths up to 255; the writer
    packs all three widths as signed bytes.  A section that starts at glyph
    0 and has a width outside [-128, 127] makes [save] raise
    [struct.error]. *)
Theorem save_rejects_wide_glyphs (o : byte_order) (cwdh : CwdhSection) (s : Writer) :
  cwdh_start cwdh = 0 → cwdh_end cwdh = len (cwdh_data cwdh) - 1 →
  Exists (λ t, ¬ packable t) (cwdh_data cwdh) →
  save_cwdh_section o cwdh s = Raise StructError.
Proof.
  intros Hstart Hend Hex. unfold save_cwdh_section.
  destruct (write_link_cases o (prev_offset_pos s) (position s) (file_ s)) as [[f' ->] | ->];
    [|done].
  cbn [mbind res_bind]. unfold pack_I, pack_H.
  destruct (pack_uint_cases o 4 0) as [[h1 ->] | ->]; [|done]. cbn [mbind res_bind].
  destruct (pack_uint_cases o 2 (cwdh_start cwdh)) as [[h2 ->] | ->]; [|done].
  cbn [mbind res_bind].
  destruct (pack_uint_cases o 2 (cwdh_end cwdh)) as [[h3 ->] | ->]; [|done].
  cbn [mbind res_bind].
  rewrite (cwdh_loop_step_cases StructError); [done| |].
  - rewrite Hstart, Hend. apply Forall_seqZ. intros code Hcode. split; [lia|].
    destruct (lookup_lt_is_Some_2 (cwdh_data cwdh) (Z.to_nat code)) as [t ->];
      [unfold len in *; lia|]. by right.
  - rewrite Hstart, Hend.
    apply Exists_exists in Hex as (t & [i Hi]%list_elem_of_lookup_1 & Ht).
    pose proof (lookup_lt_Some _ _ _ Hi) as Hlt.
    apply Exists_exists. exists (Z.of_nat i). split.
    + apply elem_of_seqZ. unfold len. lia.
    + by rewrite Nat2Z.id, Hi.
Qed.

(** A section read from a file with the character width 200. *)
Lemma save_rejects_wide_glyphs_witness :
  let cwdh := {| cwdh_start := 0; cwdh_end := 0; cwdh_size := 0x14;
                 cwdh_data := [{| wd_left := 0; wd_glyph := 100; wd_char := 200 |}] |} in
  let s := {| file_ := after_one_sheet; position := TGLP_DATA_OFFSET + 64;
              section_count := 2; prev_offset_pos := 0 |} in
  (cwdh_start cwdh = 0 ∧ cwdh_end cwdh = len (cwdh_data cwdh) - 1
   ∧ Exists (λ t, ¬ packable t) (cwdh_data cwdh))
  ∧ save_cwdh_section Little cwdh s = Raise StructError.
Proof.
  intros cwdh s.
  assert (Hex : Exists (λ t, ¬ packable t) (cwdh_data cwdh)).
  { left. unfold packable. cbn. lia. }
  split; [split; [reflexivity|split; [reflexivity|exact Hex]]|].
  exact (save_rejects_wide_glyphs Little cwdh s eq_refl eq_refl Hex).
Defined.

(** [save] takes the widths of glyph [code] from [cwdh.data[code]], while
    [read] stores them at [code - start].  A section as [read] builds it,
    with one triple for each glyph from [start] to [end], makes [save]
    raise [IndexError] as soon as it does not start at glyph 0. *)
Theorem save_indexes_widths_by_code (o : byte_order) (cwdh : CwdhSection) (s : Writer) :
  1 ≤ cwdh_start cwdh → cwdh_start cwdh ≤ cwdh_end cwdh → cwdh_end cwdh < 65536 →
  len (cwdh_data cwdh) = cwdh_end cwdh - cwdh_start cwdh + 1 →
  Forall packable (cwdh_data cwdh) →
  0 ≤ position s → position s + 8 < 2 ^ 32 →
  save_cwdh_section o cwdh s = Raise IndexError.
Proof.
  intros Hstart Hle Hend Hlen Hpack Hp0 Hp. unfold save_cwdh_section.
  assert (Hlink : ∃ f', write_link o (prev_offset_pos s) (position s) (file_ s) = Ok f').
  { unfold write_link. case_match; [|eauto].
    destruct (pack_I_ok o (position s + 8) ltac:(lia)) as (b & -> & _). eauto. }
  destruct Hlink as [f' ->]. cbn [mbind res_bind].
  destruct (pack_I_ok o 0 ltac:(lia)) as (z4 & -> & _).
  destruct (pack_H_ok o (cwdh_start cwdh) ltac:(lia)) as (hs & -> & _).
  destruct (pack_H_ok o (cwdh_end cwdh) ltac:(lia)) as (he & -> & _).
  cbn [mbind res_bind].
  rewrite (cwdh_loop_step_cases IndexError); [done| |].
  - apply Forall_seqZ. intros code Hcode. split; [lia|].
    destruct (cwdh_data cwdh !! Z.to_nat code) as [t|] eqn:Ht; [|done].
    left. by eapply Forall_lookup_1.
  - apply Exists_exists. exists (cwdh_end cwdh). split; [apply elem_of_seqZ; lia|].
    rewrite lookup_ge_None_2; [done|]. unfold len in *. lia.
Qed.

(** The second section of a font: glyphs 1 and 2. *)
Lemma save_indexes_widths_by_code_witness :
  let cwdh := {| cwdh_start := 1; cwdh_end := 2; cwdh_size := 0x18;
                 cwdh_data := replicate 2 {| wd_left := 0; wd_glyph := 8; wd_char := 8 |} |} in
  let s := {| file_ := after_one_sheet; position := TGLP_DATA_OFFSET + 64;
              section_count := 2; prev_offset_pos := 0 |} in
  (1 ≤ cwdh_start cwdh ∧ cwdh_start cwdh ≤ cwdh_end cwdh ∧ cwdh_end cwdh < 65536
   ∧ len (cwdh_data cwdh) = cwdh_end cwdh - cwdh_start cwdh + 1
   ∧ Forall packable (cwdh_data cwdh)
   ∧ 0 ≤ position s ∧ position s + 8 < 2 ^ 32)
  ∧ save_cwdh_section Little cwdh s = Raise IndexError.
Proof.
  intros cwdh s.
  assert (Hp : Forall packable (cwdh_data cwdh)).
  { repeat constructor; cbn; lia. }
  split; [repeat split; try reflexivity; try exact Hp; vm_compute; discriminate|].
  exact (save_indexes_widths_by_code Little cwdh s ltac:(cbn; lia) ltac:(cbn; lia)
           ltac:(cbn; lia) eq_refl Hp ltac:(vm_compute; discriminate)
           ltac:(vm_compute; reflexivity)).
Defined.

(** ** [Bffnt.extract]: the tables of the manifest *)

Lemma seqZ_from (m n : Z) : seqZ m n = Z.add m <$> seqZ 0 n.
Proof. by rewrite fmap_add_seqZ, Z.add_0_r. Qed.

Lemma extract_cwdh_section_spec (cwdh : CwdhSection) (m : gmap Z CwdhSectionData) :
  cwdh_end cwdh - cwdh_start cwdh + 1 ≤ len (cwdh_data cwdh) →
  ∃ m', extract_cwdh_section cwdh m = Ok m'
    ∧ ∀ i, m' !! i = if decide (covers cwdh i)
                     then cwdh_data cwdh !! Z.to_nat (i - cwdh_start cwdh)
                     else m !! i.
Proof.
  intros Hlen. unfold extract_cwdh_section.
  destruct (decide (0 ≤ cwdh_end cwdh + 1 - cwdh_start cwdh)) as [Hn|Hn].
  2:{ rewrite seqZ_nil by lia. exists m. split; [done|]. intros i.
      rewrite decide_False; [done|]. unfold covers. lia. }
  rewrite seqZ_from.
  destruct (for_each_seqZ_inv
    (λ k (m' : gmap Z CwdhSectionData),
       ∀ i, m' !! i = if decide (cwdh_start cwdh ≤ i < cwdh_start cwdh + k)
                      then cwdh_data cwdh !! Z.to_nat (i - cwdh_start cwdh)
                      else m !! i)
    (Z.add (cwdh_start cwdh))
    (λ index glyph_widths,
       data ← Py.index (cwdh_data cwdh) (index - cwdh_start cwdh);
       mret (<[index := data]> glyph_widths))
    (cwdh_end cwdh + 1 - cwdh_start cwdh) m) as (m' & Hfe & HP); [| |done|].
  - intros k s Hk HP.
    destruct (lookup_lt_is_Some_2 (cwdh_data cwdh) (Z.to_nat k)) as [t Ht];
      [unfold len in Hlen; clear HP; lia|].
    exists (<[cwdh_start cwdh + k := t]> s). split.
    + replace (cwdh_start cwdh + k - cwdh_start cwdh) with k by lia.
      by rewrite (index_nonneg _ k t) by (lia || done).
    + intros i. destruct (decide (i = cwdh_start cwdh + k)) as [->|Hne].
      * rewrite lookup_insert_eq, decide_True by lia.
        by replace (cwdh_start cwdh + k - cwdh_start cwdh) with k by lia.
      * rewrite lookup_insert_ne, HP by done.
        destruct (decide (cwdh_start cwdh ≤ i < cwdh_start cwdh + k));
          [rewrite decide_True by lia|rewrite decide_False by lia]; done.
  - intros i. rewrite decide_False by lia. done.
  - exists m'. split; [done|]. intros i. rewrite HP. unfold covers.
    destruct (decide (cwdh_start cwdh ≤ i ≤ cwdh_end cwdh));
      [rewrite decide_True by lia|rewrite decide_False by lia]; done.
Qed.

Lemma extract_widths_from (sections : list CwdhSection) (m0 : gmap Z CwdhSectionData) :
  Forall (λ c, cwdh_end c - cwdh_start c + 1 ≤ len (cwdh_data c)) sections →
  ∃ m, for_each sections extract_cwdh_section m0 = Ok m
    ∧ ∀ i,
        (Forall (λ c, ¬ covers c i) sections → m !! i = m0 !! i)
        ∧ (∀ before c after, sections = before ++ c :: after → covers c i →
             Forall (λ c, ¬ covers c i) after →
             m !! i = cwdh_data c !! Z.to_nat (i - cwdh_start c)).
Proof.
  revert m0. induction sections as [|c0 rest IH]; intros m0 Hall.
  - exists m0. split; [done|]. intros i. split; [done|].
    intros before c after Heq. by destruct before.
  - apply Forall_cons in Hall as [H0 Hall].
    destruct (extract_cwdh_section_spec c0 m0 H0) as (m1 & H1 & Hm1).
    destruct (IH m1 Hall) as (m & Hm & Hspec).
    exists m. cbn [for_each]. rewrite H1. cbn [mbind res_bind]. split; [done|].
    intros i. destruct (Hspec i) as [Hnone Hsome]. split.
    + intros [Hc0 Hrest]%Forall_cons. rewrite Hnone, Hm1 by done.
      by rewrite decide_False.
    + intros before c after Heq Hc Hafter. destruct before as [|b before].
      * cbn in Heq. injection Heq as -> ->. rewrite Hnone, Hm1 by done.
        by rewrite decide_True.
      * cbn in Heq. injection Heq as -> ->. by eapply Hsome.
Qed.

(** [glyph_widths] of the manifest.  When every section holds a triple for
    each glyph of its range, as the sections [read] builds do, the table
    has an entry for glyph [i] exactly when some section covers [i], and
    the entry is the triple of the last section that covers it, taken at
    [i - start]. *)
Theorem glyph_widths_of_the_last_section (sections : list CwdhSection) :
  Forall (λ c, cwdh_end c - cwdh_start c + 1 ≤ len (cwdh_data c)) sections →
  ∃ m, extract_glyph_widths sections = Ok m
    ∧ ∀ i,
        (Forall (λ c, ¬ covers c i) sections → m !! i = None)
        ∧ (∀ before c after, sections = before ++ c :: after → covers c i →
             Forall (λ c, ¬ covers c i) after →
             m !! i = cwdh_data c !! Z.to_nat (i - cwdh_start c)).
Proof.
  intros Hall. destruct (extract_widths_from sections ∅ Hall) as (m & Hm & Hspec).
  exists m. split; [done|]. intros i. destruct (Hspec i) as [Hnone Hsome].
  split; [|done]. intros H. by rewrite Hnone, lookup_empty.
Qed.

(** Two sections that both cover glyph 1. *)
Lemma glyph_widths_of_the_last_section_witness :
  let t k := {| wd_left := 0; wd_glyph := k; wd_char := k |} in
  let c1 := {| cwdh_start := 0; cwdh_end := 1; cwdh_size := 0x18; cwdh_data := [t 5; t 6] |} in
  let c2 := {| cwdh_start := 1; cwdh_end := 2; cwdh_size := 0x18; cwdh_data := [t 7; t 8] |} in
  Forall (λ c, cwdh_end c - cwdh_start c + 1 ≤ len (cwdh_data c)) [c1; c2]
  ∧ ∃ m, extract_glyph_widths [c1; c2] = Ok m
      ∧ m !! 0 = Some (t 5) ∧ m !! 1 = Some (t 7) ∧ m !! 2 = Some (t 8) ∧ m !! 3 = None.
Proof.
  intros t c1 c2.
  assert (Hall : Forall (λ c, cwdh_end c - cwdh_start c + 1 ≤ len (cwdh_data c)) [c1; c2]).
  { repeat (apply Forall_cons_2; [unfold len; cbn; lia|]). apply Forall_nil_2. }
  split; [exact Hall|].
  destruct (glyph_widths_of_the_last_section [c1; c2] Hall) as (m & Hm & Hspec).
  exists m. split; [exact Hm|].
  assert (Hno : ∀ c i, ¬ (cwdh_start c ≤ i ≤ cwdh_end c) → ¬ covers c i) by done.
  assert (Hyes : ∀ c i, cwdh_start c ≤ i ≤ cwdh_end c → covers c i) by done.
  repeat split.
  - rewrite (proj2 (Hspec 0) [] c1 [c2]); [done|done|apply Hyes; cbn; lia|].
    apply Forall_cons_2; [apply Hno; cbn; lia|apply Forall_nil_2].
  - rewrite (proj2 (Hspec 1) [c1] c2 []); [done|done|apply Hyes; cbn; lia|apply Forall_nil_2].
  - rewrite (proj2 (Hspec 2) [c1] c2 []); [done|done|apply Hyes; cbn; lia|apply Forall_nil_2].
  - apply (proj1 (Hspec 3)).
    repeat (apply Forall_cons_2; [apply Hno; cbn; lia|]). apply Forall_nil_2.
Defined.


Lemma chr_ok (code : Z) : 0 ≤ code < 0x110000 → chr code = Ok code.
Proof. intros H. unfold chr. by rewrite bool_decide_true. Qed.

Lemma scan_loop_map (es : list (Z * Z)) (m0 : gmap Z Z) :
  ∃ m, for_each es
         (λ '(code, index) glyph_mapping, mret (<[code := index]> glyph_mapping)) m0
       = Ok m
    ∧ ∀ code, m !! code = match (list_to_map (reverse es) : gmap Z Z) !! code with
                          | Some v => Some v
                          | None => m0 !! code
                          end.
Proof.
  revert m0. induction es as [|[c i] es IH]; intros m0.
  - exists m0. split; [done|]. intros code. by rewrite reverse_nil, list_to_map_nil, lookup_empty.
  - destruct (IH (<[c := i]> m0)) as (m & Hm & Hspec). exists m.
    split; [done|]. intros code. rewrite Hspec.
    rewrite reverse_cons, list_to_map_app, lookup_union.
    destruct ((list_to_map (reverse es) : gmap Z Z) !! code) as [v|] eqn:Hl.
    + by rewrite union_Some_l.
    + rewrite (left_id_L None _).
      cbn [list_to_map foldr fst snd]. rewrite insert_empty.
      destruct (decide (code = c)) as [->|Hne].
      * by rewrite lookup_insert_eq, lookup_singleton_eq.
      * by rewrite lookup_insert_ne, lookup_singleton_ne by congruence.
Qed.

Lemma extract_cmap_section_spec (c : CmapSection) (m0 : gmap Z Z) :
  extractable c →
  ∃ m, extract_cmap_section c m0 = Ok m
    ∧ ∀ code, m !! code = match glyph_of c code with
                          | Some v => Some v
                          | None => m0 !! code
                          end.
Proof.
  unfold extractable, extract_cmap_section, glyph_of.
  unfold MAPPING_DIRECT, MAPPING_TABLE, MAPPING_SCAN.
  destruct (cmap_type c =? 0) eqn:Hd.
  { (* Direct *)
    intros ([io Hio] & Hs & He). rewrite Hio.
    destruct (decide (0 ≤ cmap_end c + 1 - cmap_start c)) as [Hn|Hn].
    2:{ rewrite seqZ_nil by lia. exists m0. split; [done|]. intros code.
        by rewrite decide_False by lia. }
    rewrite seqZ_from.
    destruct (for_each_seqZ_inv
      (λ k (m : gmap Z Z),
         ∀ code, m !! code = if decide (cmap_start c ≤ code < cmap_start c + k)
                             then Some (code - cmap_start c + io) else m0 !! code)
      (Z.add (cmap_start c))
      (λ code glyph_mapping,
         io ← of_option KeyError (Some io);
         c0 ← chr code;
         mret (<[c0 := code - cmap_start c + io]> glyph_mapping))
      (cmap_end c + 1 - cmap_start c) m0) as (m & Hfe & HP); [| |done|].
    - intros k s Hk HP. cbn [of_option mbind res_bind]. rewrite chr_ok by lia.
      eexists. split; [done|]. intros code.
      destruct (decide (code = cmap_start c + k)) as [->|Hne].
      + by rewrite lookup_insert_eq, decide_True by lia.
      + rewrite lookup_insert_ne, HP by done.
        destruct (decide (cmap_start c ≤ code < cmap_start c + k));
          [rewrite decide_True by lia|rewrite decide_False by lia]; done.
    - intros code. by rewrite decide_False by lia.
    - exists m. split; [done|]. intros code. rewrite HP. cbn [mbind option_bind].
      destruct (decide (cmap_start c ≤ code ≤ cmap_end c));
        [rewrite decide_True by lia|rewrite decide_False by lia]; done. }
  destruct (cmap_type c =? 1) eqn:Ht.
  { (* Table *)
    intros ((it & Hit & Hlen) & Hs & He). rewrite Hit.
    destruct (decide (0 ≤ cmap_end c + 1 - cmap_start c)) as [Hn|Hn].
    2:{ rewrite seqZ_nil by lia. exists m0. split; [done|]. intros code.
        by rewrite decide_False by lia. }
    rewrite seqZ_from.
    destruct (for_each_seqZ_inv
      (λ k (m : gmap Z Z),
         ∀ code, m !! code
                 = match (if decide (cmap_start c ≤ code < cmap_start c + k)
                          then index ← it !! Z.to_nat (code - cmap_start c);
                               if index =? 0xFFFF then None else Some index
                          else None) with
                   | Some v => Some v
                   | None => m0 !! code
                   end)
      (Z.add (cmap_start c))
      (λ code glyph_mapping,
         it ← of_option KeyError (Some it);
         index ← Py.index it (code - cmap_start c);
         if negb (index =? 0xFFFF) then
           c0 ← chr code; mret (<[c0 := index]> glyph_mapping)
         else Ok glyph_mapping)
      (cmap_end c + 1 - cmap_start c) m0) as (m & Hfe & HP); [| |done|].
    - intros k s Hk HP. cbn [of_option mbind res_bind].
      destruct (lookup_lt_is_Some_2 it (Z.to_nat k)) as [ix Hix];
        [unfold len in Hlen; lia|].
      replace (cmap_start c + k - cmap_start c) with k by lia.
      rewrite (index_nonneg _ k ix) by (lia || done). cbn [mbind res_bind].
      destruct (ix =? 65535) eqn:Hff; cbn [negb].
      + exists s. split; [done|]. intros code. rewrite HP.
        destruct (decide (code = cmap_start c + k)) as [->|Hne].
        * rewrite decide_False, decide_True by lia.
          replace (cmap_start c + k - cmap_start c) with k by lia.
          rewrite Hix. cbn [mbind option_bind]. by rewrite Hff.
        * destruct (decide (cmap_start c ≤ code < cmap_start c + k));
            [rewrite decide_True by lia|rewrite decide_False by lia]; done.
      + rewrite chr_ok by lia. eexists. split; [done|]. intros code.
        destruct (decide (code = cmap_start c + k)) as [->|Hne].
        * rewrite lookup_insert_eq, decide_True by lia.
          replace (cmap_start c + k - cmap_start c) with k by lia.
          rewrite Hix. cbn [mbind option_bind]. by rewrite Hff.
        * rewrite lookup_insert_ne, HP by done.
          destruct (decide (cmap_start c ≤ code < cmap_start c + k));
            [rewrite decide_True by lia|rewrite decide_False by lia]; done.
    - intros code. by rewrite decide_False by lia.
    - exists m. split; [done|]. intros code. rewrite HP. cbn [mbind option_bind].
      destruct (decide (cmap_start c ≤ code ≤ cmap_end c));
        [rewrite decide_True by lia|rewrite decide_False by lia]; done. }
  destruct (cmap_type c =? 2) eqn:Hsc.
  { (* Scan *)
    intros [es Hes]. rewrite Hes. cbn [of_option mbind res_bind option_bind].
    apply scan_loop_map. }
  intros _. by exists m0.
Qed.

Lemma extract_mapping_from (sections : list CmapSection) (m0 : gmap Z Z) :
  Forall extractable sections →
  ∃ m, for_each sections extract_cmap_section m0 = Ok m
    ∧ ∀ code,
        (Forall (λ c, glyph_of c code = None) sections → m !! code = m0 !! code)
        ∧ (∀ before c after, sections = before ++ c :: after →
             is_Some (glyph_of c code) →
             Forall (λ c, glyph_of c code = None) after →
             m !! code = glyph_of c code).
Proof.
  revert m0. induction sections as [|c0 rest IH]; intros m0 Hall.
  - exists m0. split; [done|]. intros code. split; [done|].
    intros before c after Heq. by destruct before.
  - apply Forall_cons in Hall as [H0 Hall].
    destruct (extract_cmap_section_spec c0 m0 H0) as (m1 & H1 & Hm1).
    destruct (IH m1 Hall) as (m & Hm & Hspec).
    exists m. cbn [for_each]. rewrite H1. cbn [mbind res_bind]. split; [done|].
    intros code. destruct (Hspec code) as [Hnone Hsome]. split.
    + intros [Hc0 Hrest]%Forall_cons. by rewrite Hnone, Hm1, Hc0.
    + intros before c after Heq Hc Hafter. destruct before as [|b before].
      * cbn in Heq. injection Heq as -> ->. rewrite Hnone, Hm1 by done.
        by destruct Hc as [v ->].
      * cbn in Heq. injection Heq as -> ->. by eapply Hsome.
Qed.

(** [glyph_mapping] of the manifest, for sections that hold the payload
    of their mapping method, as the sections [read] builds do.  A
    character has an entry exactly when some section gives it a glyph, and
    the entry is the glyph of the last section that does: a later section
    overrides an earlier one, and an index of 0xFFFF in a Table section
    leaves what an earlier section gave. *)
Theorem glyph_mapping_of_the_last_section (sections : list CmapSection) :
  Forall extractable sections →
  ∃ m, extract_glyph_mapping sections = Ok m
    ∧ ∀ code,
        (Forall (λ c, glyph_of c code = None) sections → m !! code = None)
        ∧ (∀ before c after, sections = before ++ c :: after →
             is_Some (glyph_of c code) →
             Forall (λ c, glyph_of c code = None) after →
             m !! code = glyph_of c code).
Proof.
  intros Hall. destruct (extract_mapping_from sections ∅ Hall) as (m & Hm & Hspec).
  exists m. split; [done|]. intros code. destruct (Hspec code) as [Hnone Hsome].
  split; [|done]. intros H. by rewrite Hnone, lookup_empty.
Qed.

(** A Direct section for the letters A and B, a Table section that skips
    A and maps B, and a Scan section with an entry for C. *)
Lemma glyph_mapping_of_the_last_section_witness :
  let direct := {| cmap_size := 0x18; cmap_start := 65; cmap_end := 66;
                   cmap_type := MAPPING_DIRECT; cmap_indexOffset := Some 0;
                   cmap_indexTable := None; cmap_entries := None |} in
  let table := {| cmap_size := 0x18; cmap_start := 65; cmap_end := 66;
                  cmap_type := MAPPING_TABLE; cmap_indexOffset := None;
                  cmap_indexTable := Some [0xFFFF; 9]; cmap_entries := None |} in
  let scan := {| cmap_size := 0x1C; cmap_start := 0; cmap_end := 0xFFFF;
                 cmap_type := MAPPING_SCAN; cmap_indexOffset := None;
                 cmap_indexTable := None; cmap_entries := Some [(67, 7)] |} in
  Forall extractable [direct; table; scan]
  ∧ ∃ m, extract_glyph_mapping [direct; table; scan] = Ok m
      ∧ m !! 65 = Some 0 ∧ m !! 66 = Some 9 ∧ m !! 67 = Some 7 ∧ m !! 68 = None.
Proof.
  intros direct table scan.
  assert (Hall : Forall extractable [direct; table; scan]).
  { apply Forall_cons_2; [|apply Forall_cons_2; [|apply Forall_cons_2; [|apply Forall_nil_2]]].
    - split; [by eexists|]. cbn. lia.
    - split; [|cbn; lia]. exists [0xFFFF; 9]. split; [done|]. unfold len. cbn. lia.
    - by eexists. }
  split; [exact Hall|].
  destruct (glyph_mapping_of_the_last_section [direct; table; scan] Hall) as (m & Hm & Hspec).
  exists m. split; [exact Hm|]. split; [|split; [|split]].
  - rewrite (proj2 (Hspec 65) [] direct [table; scan]); [done|done|by eexists|].
    apply Forall_cons_2; [done|]. apply Forall_cons_2; [done|apply Forall_nil_2].
  - rewrite (proj2 (Hspec 66) [direct] table [scan]); [done|done|by eexists|].
    apply Forall_cons_2; [done|apply Forall_nil_2].
  - rewrite (proj2 (Hspec 67) [direct; table] scan []); [done|done|by eexists|].
    apply Forall_nil_2.
  - apply (proj1 (Hspec 68)).
    apply Forall_cons_2; [done|]. apply Forall_cons_2; [done|].
    apply Forall_cons_2; [done|apply Forall_nil_2].
Defined.

(** ** The rows of a sheet PNG *)

Lemma png_row_loop (data : list pixel) (width y : Z) :
  0 ≤ width → 0 ≤ y → (y + 1) * width ≤ len data →
  for_each (range width)
    (λ x row, '(r, g, b, a) ← Py.index data (x + y * width); mret (row ++ [r; g; b; a])) []
  = Ok (mjoin (channels <$> bmp_row width data y)).
Proof.
  intros Hw Hy Hlen. unfold range. rewrite <- (list_fmap_id (seqZ 0 width)).
  destruct (for_each_seqZ_inv
    (λ k (row : list Z),
       row = mjoin (channels <$> take (Z.to_nat k) (drop (Z.to_nat (y * width)) data)))
    id
    (λ x row, '(r, g, b, a) ← Py.index data (x + y * width); mret (row ++ [r; g; b; a]))
    width []) as (row & Hfe & HP); [| |done|].
  - intros k s Hk ->.
    destruct (lookup_lt_is_Some_2 data (Z.to_nat (k + y * width))) as [p Hp];
      [unfold len in Hlen; nia|].
    assert (H0 : 0 ≤ k + y * width) by nia.
    unfold id. rewrite (index_nonneg data (k + y * width) p H0 Hp).
    destruct p as [[[r g] b] a]. cbn [mbind res_bind]. eexists. split; [done|].
    replace (Z.to_nat (k + 1)) with (S (Z.to_nat k)) by lia.
    rewrite (take_S_r _ _ (r, g, b, a)).
    + rewrite fmap_app, join_app. done.
    + rewrite lookup_drop.
      replace (Z.to_nat (y * width) + Z.to_nat k)%nat with (Z.to_nat (k + y * width)) by nia.
      exact Hp.
  - done.
  - rewrite Hfe. by subst row.
Qed.

Lemma png_rows_spec (sheet : Sheet) :
  0 ≤ sh_width sheet → 0 ≤ sh_height sheet →
  sh_width sheet * sh_height sheet ≤ len (sh_data sheet) →
  png_rows sheet
  = Ok ((λ y, mjoin (channels <$> bmp_row (sh_width sheet) (sh_data sheet) y))
          <$> seqZ 0 (sh_height sheet)).
Proof.
  intros Hw Hh Hlen. unfold png_rows, range.
  rewrite <- (list_fmap_id (seqZ 0 (sh_height sheet))) at 1.
  destruct (for_each_seqZ_inv
    (λ k (rows : list (list Z)),
       rows = (λ y, mjoin (channels <$> bmp_row (sh_width sheet) (sh_data sheet) y))
                <$> seqZ 0 k)
    id
    (λ y png_data,
       row ← for_each (seqZ 0 (sh_width sheet))
               (λ x row,
                  '(r, g, b, a) ← Py.index (sh_data sheet) (x + y * sh_width sheet);
                  mret (row ++ [r; g; b; a]))
               [];
       mret (png_data ++ [row]))
    (sh_height sheet) []) as (rows & Hfe & HP); [| |done|].
  - intros k s Hk ->. unfold id.
    pose proof (png_row_loop (sh_data sheet) (sh_width sheet) k) as Hrow.
    unfold range in Hrow. rewrite Hrow by nia. cbn [mbind res_bind].
    eexists. split; [done|].
    rewrite seqZ_app by lia. rewrite fmap_app. cbn. by rewrite Z.add_0_l.
  - done.
  - rewrite Hfe. by subst rows.
Qed.

Lemma channels_lookup (ps : list pixel) (k : nat) (r g b a : Z) :
  ps !! k = Some (r, g, b, a) →
  let row := mjoin (channels <$> ps) in
  row !! (4 * k)%nat = Some r ∧ row !! (4 * k + 1)%nat = Some g
  ∧ row !! (4 * k + 2)%nat = Some b ∧ row !! (4 * k + 3)%nat = Some a.
Proof.
  revert k. induction ps as [|[[[r' g'] b'] a'] ps IH]; intros k Hk; [done|].
  destruct k as [|k].
  - injection Hk as -> -> -> ->. done.
  - cbn in Hk. destruct (IH k Hk) as (H0 & H1 & H2 & H3).
    replace (4 * S k)%nat with (S (S (S (S (4 * k))))) by lia.
    cbn -[Nat.mul]. cbn -[Nat.mul] in H0, H1, H2, H3. done.
Qed.

Lemma channels_length (ps : list pixel) : len (mjoin (channels <$> ps)) = 4 * len ps.
Proof.
  unfold len. induction ps as [|[[[r g] b] a] ps IH]; [done|].
  change (Z.of_nat (length (channels (r, g, b, a) ++ mjoin (channels <$> ps)))
          = 4 * Z.of_nat (S (length ps))).
  rewrite length_app. cbn [channels length]. lia.
Qed.

Lemma bmp_row_loop (ps acc : list pixel) :
  let row := mjoin (channels <$> ps) in
  for_each ((λ i, 4 * i) <$> seqZ 0 ((len row + 3) / 4))
    (λ px bmp,
       r ← Py.index row px; g ← Py.index row (px + 1);
       b ← Py.index row (px + 2); a ← Py.index row (px + 3);
       mret (bmp ++ [(r, g, b, a)]))
    acc
  = Ok (acc ++ ps).
Proof.
  intros row.
  assert (Hn : (len row + 3) / 4 = len ps).
  { unfold row. rewrite channels_length. Z.to_euclidean_division_equations. lia. }
  rewrite Hn.
  destruct (for_each_seqZ_inv
    (λ k (bmp : list pixel), bmp = acc ++ take (Z.to_nat k) ps)
    (λ i, 4 * i)
    (λ px bmp,
       r ← Py.index row px; g ← Py.index row (px + 1);
       b ← Py.index row (px + 2); a ← Py.index row (px + 3);
       mret (bmp ++ [(r, g, b, a)]))
    (len ps) acc) as (bmp & Hfe & HP); [| |unfold len; lia|].
  - intros k s Hk ->.
    destruct (lookup_lt_is_Some_2 ps (Z.to_nat k)) as [[[[r g] b] a] Hp];
      [unfold len in Hk; lia|].
    destruct (channels_lookup ps _ r g b a Hp) as (H0 & H1 & H2 & H3). fold row in H0, H1, H2, H3.
    rewrite (index_nonneg row (4 * k) r), (index_nonneg row (4 * k + 1) g),
      (index_nonneg row (4 * k + 2) b), (index_nonneg row (4 * k + 3) a); try lia.
    + cbn [mbind res_bind]. eexists. split; [done|].
      replace (Z.to_nat (k + 1)) with (S (Z.to_nat k)) by lia.
      rewrite (take_S_r _ _ (r, g, b, a)) by exact Hp. by rewrite app_assoc.
    + by replace (Z.to_nat (4 * k + 3)) with (4 * Z.to_nat k + 3)%nat by lia.
    + by replace (Z.to_nat (4 * k + 2)) with (4 * Z.to_nat k + 2)%nat by lia.
    + by replace (Z.to_nat (4 * k + 1)) with (4 * Z.to_nat k + 1)%nat by lia.
    + by replace (Z.to_nat (4 * k)) with (4 * Z.to_nat k)%nat by lia.
  - by rewrite take_0, app_nil_r.
  - subst bmp. refine (eq_trans Hfe _). unfold len. by rewrite Nat2Z.id, firstn_all.
Qed.

Lemma bmp_of_rows_from (pss : list (list pixel)) (acc : list pixel) :
  for_each ((λ ps, mjoin (channels <$> ps)) <$> pss)
    (λ row bmp,
       for_each ((λ i, 4 * i) <$> seqZ 0 ((len row + 3) / 4))
         (λ px bmp,
            r ← Py.index row px; g ← Py.index row (px + 1);
            b ← Py.index row (px + 2); a ← Py.index row (px + 3);
            mret (bmp ++ [(r, g, b, a)]))
         bmp)
    acc
  = Ok (acc ++ mjoin pss).
Proof.
  revert acc. induction pss as [|ps pss IH]; intros acc.
  - cbn. by rewrite app_nil_r.
  - cbn [fmap list_fmap for_each]. rewrite (bmp_row_loop ps acc). cbn [mbind res_bind].
    rewrite IH. cbn [mjoin list_join]. by rewrite app_assoc.
Qed.

Lemma rows_join (width : Z) (data : list pixel) (h : nat) :
  0 ≤ width →
  mjoin (bmp_row width data <$> seqZ 0 (Z.of_nat h)) = take (Z.to_nat (width * Z.of_nat h)) data.
Proof.
  intros Hw. induction h as [|h IH].
  - cbn. by rewrite Z.mul_0_r.
  - rewrite Nat2Z.inj_succ, <- Z.add_1_r, seqZ_app by lia. rewrite fmap_app, join_app, IH.
    cbn [seqZ]. change (seqZ (0 + Z.of_nat h) 1) with ([0 + Z.of_nat h]) at 1.
    cbn [fmap list_fmap mjoin list_join]. rewrite app_nil_r, Z.add_0_l. unfold bmp_row.
    replace (Z.to_nat (width * (Z.of_nat h + 1)))
      with (Z.to_nat (Z.of_nat h * width) + Z.to_nat width)%nat by nia.
    replace (Z.to_nat (width * Z.of_nat h)) with (Z.to_nat (Z.of_nat h * width)) by (f_equal; lia).
    by rewrite take_take_drop.
Qed.

(** The rows [extract] hands to the PNG writer hold four values for each
    of the [width] pixels of a row, and [save], reading such rows back,
    rebuilds the first [width * height] pixels of the bitmap they came
    from: the whole bitmap when it has exactly that many. *)
Theorem png_rows_round_trip (sheet : Sheet) :
  0 ≤ sh_width sheet → 0 ≤ sh_height sheet →
  sh_width sheet * sh_height sheet ≤ len (sh_data sheet) →
  ∃ rows, png_rows sheet = Ok rows
    ∧ len rows = sh_height sheet
    ∧ Forall (λ row, len row = 4 * sh_width sheet) rows
    ∧ bmp_of_rows rows
      = Ok (take (Z.to_nat (sh_width sheet * sh_height sheet)) (sh_data sheet)).
Proof.
  intros Hw Hh Hlen. rewrite png_rows_spec by done. eexists. split; [done|].
  split; [|split].
  - unfold len. rewrite length_fmap, length_seqZ. lia.
  - apply Forall_fmap, Forall_seqZ. intros y Hy. cbn. rewrite channels_length.
    unfold bmp_row, len. rewrite length_take, length_drop. unfold len in Hlen. nia.
  - unfold bmp_of_rows.
    pose proof (bmp_of_rows_from
                  (bmp_row (sh_width sheet) (sh_data sheet) <$> seqZ 0 (sh_height sheet)) [])
      as Hb.
    rewrite <- list_fmap_compose in Hb. refine (eq_trans Hb _). cbn [app]. f_equal.
    rewrite <- (Z2Nat.id (sh_height sheet)) by done. rewrite rows_join by done.
    by rewrite Z2Nat.id by done.
Qed.

(** A bitmap of two rows of two pixels. *)
Lemma png_rows_round_trip_witness :
  let sheet := {| sh_width := 2; sh_height := 2;
                  sh_data := [(1, 2, 3, 4); (5, 6, 7, 8); (9, 10, 11, 12); (13, 14, 15, 16)] |} in
  (0 ≤ sh_width sheet ∧ 0 ≤ sh_height sheet
   ∧ sh_width sheet * sh_height sheet ≤ len (sh_data sheet))
  ∧ ∃ rows, png_rows sheet = Ok rows
      ∧ bmp_of_rows rows
        = Ok (take (Z.to_nat (sh_width sheet * sh_height sheet)) (sh_data sheet)).
Proof.
  intros sheet.
  assert (H : sh_width sheet * sh_height sheet ≤ len (sh_data sheet)) by (vm_compute; discriminate).
  split; [split; [|split]; [cbn; lia|cbn; lia|exact H]|].
  destruct (png_rows_round_trip sheet ltac:(cbn; lia) ltac:(cbn; lia) H)
    as (rows & Hr & _ & _ & Hb).
  exists rows. split; [exact Hr|exact Hb].
Defined.


(** ** Writing a CMAP section *)

(** The padding and the size field, for a section written at the end of
    the file: [base] is what the file held, [magic] and [z4] the first
    two fields of the header. *)
Lemma write_padding_and_size_ok (o : byte_order) (base magic z4 rest : list byte) (p : Z) :
  len base = p → length magic = 4%nat → length z4 = 4%nat →
  let c := base ++ magic ++ z4 ++ rest in
  let padding := len c mod 4 in
  let size := len c + padding - p in
  size < 2 ^ 32 →
  write_padding_and_size o (p + 4) p {| content := c; cursor := len c |} (len c)
  = Ok ({| content := base ++ magic ++ packed (pack_I o size) ++ rest
                      ++ replicate (Z.to_nat padding) x00;
           cursor := len c + padding |}, len c + padding).
Proof.
  intros Hb Hm Hz c padding size Hmax.
  assert (Hpad : 0 ≤ padding < 4) by (apply Z.mod_pos_bound; lia).
  assert (Hlc : len c = p + 8 + len rest).
  { unfold c, len in *. rewrite !length_app. lia. }
  assert (Hs0 : 0 ≤ size) by (unfold size, len in *; lia).
  destruct (pack_I_ok o size ltac:(lia)) as (sz & Hsz & Hlsz & _).
  unfold write_padding_and_size. fold padding.
  rewrite write_padding by lia. cbn [mbind res_bind].
  fold size. rewrite Hsz. cbn [mbind res_bind mret res_ret packed].
  f_equal. f_equal.
  unfold seek. cbn [content cursor].
  set (c' := c ++ replicate (Z.to_nat padding) x00).
  assert (Hc' : c' = (base ++ magic) ++ z4 ++ (rest ++ replicate (Z.to_nat padding) x00)).
  { unfold c', c. by rewrite <- !app_assoc. }
  unfold write. cbn [content cursor].
  replace (Z.to_nat (p + 4 - len c')) with 0%nat.
  2:{ unfold c', len in *. rewrite length_app. lia. }
  cbn [replicate]. rewrite app_nil_r.
  f_equal.
  rewrite Hc'. rewrite take_app_length' by (unfold len in *; rewrite length_app; lia).
  rewrite (app_assoc (base ++ magic) z4).
  rewrite drop_app_length' by (unfold len in *; rewrite !length_app; lia).
  by rewrite <- !app_assoc.
Qed.

Lemma pair_bytes_ok (o : byte_order) (e : Z * Z) :
  entry_ok e →
  ∃ b1 b2, pack_H o e.1 = Ok b1 ∧ pack_H o e.2 = Ok b2 ∧ pair_bytes o e = b1 ++ b2
           ∧ length b1 = 2%nat ∧ length b2 = 2%nat ∧ uint o b1 = e.1 ∧ uint o b2 = e.2.
Proof.
  intros [H1 H2].
  destruct (pack_H_ok o e.1 H1) as (b1 & Hb1 & Hl1 & Hu1).
  destruct (pack_H_ok o e.2 H2) as (b2 & Hb2 & Hl2 & Hu2).
  exists b1, b2. unfold pair_bytes. rewrite Hb1, Hb2. done.
Qed.

Lemma pair_bytes_length (o : byte_order) (e : Z * Z) :
  entry_ok e → length (pair_bytes o e) = 4%nat.
Proof.
  intros H. destruct (pair_bytes_ok o e H) as (b1 & b2 & _ & _ & -> & H1 & H2 & _).
  rewrite length_app. lia.
Qed.

Lemma pairs_length (o : byte_order) (l : list (Z * Z)) :
  Forall entry_ok l → len (l ≫= pair_bytes o) = 4 * len l.
Proof.
  induction 1 as [|e l He _ IH]; [done|].
  unfold len in *. cbn [mbind list_bind length]. change (list_bind ?f ?l) with (l ≫= f).
  rewrite length_app, pair_bytes_length by done. lia.
Qed.

(** The loop over the sorted keys of a Scan section. *)
Lemma scan_loop_written (o : byte_order) (l : list (Z * Z)) (c : list byte) (pos : Z) :
  Forall entry_ok l →
  for_each l
    (λ '(code, index) '(f, position),
       b1 ← pack_H o code; b2 ← pack_H o index;
       mret (write (b1 ++ b2) f, position + 4))
    ({| content := c; cursor := len c |}, pos)
  = Ok ({| content := c ++ (l ≫= pair_bytes o); cursor := len (c ++ (l ≫= pair_bytes o)) |},
        pos + 4 * len l).
Proof.
  intros Hall. revert c pos. induction Hall as [|[code index] l He _ IH]; intros c pos.
  - cbn. rewrite app_nil_r. do 2 f_equal. unfold len. cbn. lia.
  - destruct (pair_bytes_ok o _ He) as (b1 & b2 & Hb1 & Hb2 & Hpb & _).
    cbn [fst snd] in Hb1, Hb2. cbn [for_each]. rewrite Hb1, Hb2. cbn [mbind res_bind mret res_ret].
    rewrite write_at_end by done. cbn [content].
    rewrite IH. rewrite bind_cons, Hpb, <- !app_assoc. do 2 f_equal. unfold len. cbn [length]. lia.
Qed.

(** A Scan section is written in one piece after the bytes the file has,
    its entries sorted by code point. *)
Lemma save_scan_section_written (o : byte_order) (cmap : CmapSection) (es : list (Z * Z))
    (s : Writer) :
  prev_offset_pos s = 0 →
  cursor (file_ s) = position s → len (content (file_ s)) ≤ position s →
  cmap_type cmap = MAPPING_SCAN → cmap_entries cmap = Some es →
  Forall entry_ok es → len es < 65536 →
  0 ≤ cmap_start cmap < 65536 → 0 ≤ cmap_end cmap < 65536 →
  position s + 22 + 4 * len es + 3 < 2 ^ 32 →
  let padding := (position s + 22 + 4 * len es) mod 4 in
  let size := 22 + 4 * len es + padding in
  save_cmap_section o cmap s
  = Ok {| file_ := {| content := extended (file_ s)
                                 ++ scan_section_bytes o cmap (merge_sort by_code es) size padding;
                      cursor := position s + size |};
          position := position s + size; section_count := section_count s + 1;
          prev_offset_pos := position s + 0x10 |}.
Proof.
  intros Hprev Hcur Hlen Htype Hes Hall Hcount Hstart Hend Hmax padding size.
  set (p := position s) in *.
  set (sorted := merge_sort by_code es).
  assert (Hperm : sorted ≡ₚ es) by apply merge_sort_Permutation.
  assert (Hls : len sorted = len es) by (unfold len; by rewrite Hperm).
  assert (Hsall : Forall entry_ok sorted) by (by rewrite Hperm).
  assert (Hp0 : 0 ≤ p) by (unfold len in Hlen; lia).
  assert (Hn0 : 0 ≤ len es) by (unfold len; lia).
  assert (Hpad : 0 ≤ padding < 4) by (apply Z.mod_pos_bound; lia).
  destruct (pack_I_ok o 0 ltac:(lia)) as (z4 & Hz4 & Hlz4 & _).
  destruct (pack_H_ok o 0 ltac:(lia)) as (z2 & Hz2 & Hlz2 & _).
  destruct (pack_H_ok o (cmap_start cmap) ltac:(lia)) as (hs & Hhs & Hlhs & _).
  destruct (pack_H_ok o (cmap_end cmap) ltac:(lia)) as (he & Hhe & Hlhe & _).
  destruct (pack_H_ok o (cmap_type cmap)) as (ht & Hht & Hlht & _);
    [rewrite Htype; unfold MAPPING_SCAN; lia|].
  destruct (pack_H_ok o (len es) ltac:(lia)) as (hn & Hhn & Hlhn & _).
  unfold save_cmap_section, write_link. rewrite Hprev. cbn [mbind res_bind Z.ltb Z.compare].
  fold p. rewrite Hz4, Hhs, Hhe, Hht, Hz2, Hes. cbn [of_option mbind res_bind].
  rewrite Hhn. cbn [mbind res_bind].
  rewrite (write_past_end _ (file_ s)) by lia.
  set (base := extended (file_ s)).
  assert (Hlb : len base = p) by (unfold base; rewrite extended_length; lia).
  rewrite write_at_end by done. cbn [content].
  rewrite Htype. change (MAPPING_SCAN =? MAPPING_DIRECT) with false.
  change (MAPPING_SCAN =? MAPPING_TABLE) with false.
  change (MAPPING_SCAN =? MAPPING_SCAN) with true. cbv iota. fold sorted.
  rewrite scan_loop_written by done. cbn [mbind res_bind].
  set (rest := hs ++ he ++ ht ++ z2 ++ z4 ++ hn ++ (sorted ≫= pair_bytes o)).
  assert (Hc : ((base ++ CMAP_HEADER_MAGIC ++ z4 ++ hs ++ he ++ ht ++ z2 ++ z4) ++ hn)
               ++ (sorted ≫= pair_bytes o)
               = base ++ CMAP_HEADER_MAGIC ++ z4 ++ rest).
  { unfold rest. by rewrite <- !app_assoc. }
  rewrite Hc.
  assert (Hlc : len (base ++ CMAP_HEADER_MAGIC ++ z4 ++ rest) = p + 22 + 4 * len es).
  { unfold rest. pose proof (pairs_length o sorted Hsall) as Hpl.
    unfold len in *. rewrite !length_app. change (length CMAP_HEADER_MAGIC) with 4%nat. lia. }
  pose proof (write_padding_and_size_ok o base CMAP_HEADER_MAGIC z4 rest p Hlb eq_refl Hlz4)
    as Hw.
  cbv zeta in Hw. rewrite Hlc in Hw. fold padding in Hw.
  replace (p + 22 + 4 * len es + padding - p) with size in Hw by (unfold size; lia).
  replace (p + CMAP_HEADER_SIZE + 2 + 4 * len sorted) with (p + 22 + 4 * len es)
    by (unfold CMAP_HEADER_SIZE; lia).
  rewrite Hlc, Hw by (unfold size; lia). cbn [mbind res_bind mret res_ret].
  f_equal. f_equal; [|unfold size; lia..]. f_equal; [|unfold size; lia].
  unfold scan_section_bytes, rest. rewrite Hls, Hhs, Hhe, Hht, Hz2, Hz4, Hhn. cbn [packed].
  by rewrite <- !app_assoc.
Qed.

(** ** Reading back a written Scan section *)

Lemma slice_middle {A} (a b c : list A) (lo hi : Z) :
  lo = len a → hi = lo + len b → slice (a ++ b ++ c) lo hi = b.
Proof.
  intros -> ->. unfold slice, len. rewrite !length_app.
  rewrite !slice_bound_in_range by lia.
  replace (Z.to_nat (Z.of_nat (length a))) with (length a) by lia.
  rewrite drop_app_length.
  replace (Z.to_nat (Z.of_nat (length a) + Z.of_nat (length b) - Z.of_nat (length a)))
    with (length b) by lia.
  by rewrite take_app_length.
Qed.

Lemma unpack_cmap_header (o : byte_order) (magic sz hs he ht hu nx : list byte) :
  length magic = 4%nat → length sz = 4%nat → length hs = 2%nat → length he = 2%nat →
  length ht = 2%nat → length hu = 2%nat → length nx = 4%nat →
  unpack (CMAP_HEADER_STRUCT o) (magic ++ sz ++ hs ++ he ++ ht ++ hu ++ nx)
  = Ok (magic, uint o sz, uint o hs, uint o he, uint o ht, uint o hu, uint o nx).
Proof.
  intros Hm Hsz Hhs Hhe Hht Hhu Hnx. unfold unpack, CMAP_HEADER_STRUCT.
  unfold mbind at 1, unpacker_bind at 1. rewrite raw_app by done.
  unfold mbind at 1, unpacker_bind at 1. rewrite fI_app by done.
  unfold mbind at 1, unpacker_bind at 1. rewrite fH_app by done.
  unfold mbind at 1, unpacker_bind at 1. rewrite fH_app by done.
  unfold mbind at 1, unpacker_bind at 1. rewrite fH_app by done.
  unfold mbind at 1, unpacker_bind at 1. rewrite fH_app by done.
  unfold mbind at 1, unpacker_bind at 1.
  rewrite <- (app_nil_r nx) at 1. rewrite fI_app by done. done.
Qed.

Lemma unpack_H (o : byte_order) (b : list byte) :
  length b = 2%nat → unpack (fH o) b = Ok (uint o b).
Proof.
  intros Hb. unfold unpack. rewrite <- (app_nil_r b) at 1. by rewrite fH_app.
Qed.

Lemma unpack_pair (o : byte_order) (e : Z * Z) :
  entry_ok e →
  unpack (c ← fH o; i ← fH o; mret (c, i)) (pair_bytes o e) = Ok e.
Proof.
  intros He. destruct (pair_bytes_ok o e He) as (b1 & b2 & _ & _ & -> & H1 & H2 & Hu1 & Hu2).
  unfold unpack.
  unfold mbind at 1, unpacker_bind at 1. rewrite fH_app by done.
  unfold mbind at 1, unpacker_bind at 1.
  rewrite <- (app_nil_r b2) at 1. rewrite fH_app by done.
  rewrite Hu1, Hu2. by destruct e.
Qed.

(** A key the dict does not have yet is appended. *)
Lemma dict_set_fresh (d : list (Z * Z)) (k v : Z) :
  k ∉ d.*1 → dict_set d k v = d ++ [(k, v)].
Proof.
  induction d as [|[k' v'] d IH]; intros Hk; [done|].
  cbn [dict_set]. cbn [fmap list_fmap fst] in Hk. apply not_elem_of_cons in Hk as [Hne Hk].
  rewrite (proj2 (Z.eqb_neq k' k)) by congruence. by rewrite IH.
Qed.

Lemma slice_entry (o : byte_order) (nb : list byte) (l : list (Z * Z)) (pad : list byte)
    (k : nat) (e : Z * Z) :
  length nb = 2%nat → Forall entry_ok l → l !! k = Some e →
  slice (nb ++ (l ≫= pair_bytes o) ++ pad) (2 + 4 * Z.of_nat k) (2 + 4 * Z.of_nat k + 4)
  = pair_bytes o e.
Proof.
  intros Hnb Hall He.
  rewrite <- (take_drop_middle l k e He), bind_app, bind_cons.
  rewrite <- !app_assoc.
  rewrite (app_assoc nb). apply slice_middle.
  - pose proof (pairs_length o (take k l) (Forall_take _ _ _ Hall)) as Hl.
    pose proof (lookup_lt_Some _ _ _ He).
    unfold len in *. rewrite length_app, length_take in *. lia.
  - unfold len. rewrite pair_bytes_length; [lia|]. by eapply Forall_lookup_1.
Qed.

Lemma parse_scan_payload (o : byte_order) (info : CmapSection) (l : list (Z * Z))
    (nb pad : list byte) (w : World) :
  order (self w) = Some o → cmap_type info = MAPPING_SCAN →
  length nb = 2%nat → uint o nb = len l → Forall entry_ok l → NoDup l.*1 →
  _parse_cmap_data info (nb ++ (l ≫= pair_bytes o) ++ pad) w
  = Ok (with_payload info (cmap_indexOffset info) (cmap_indexTable info) (Some l)).
Proof.
  intros Ho Htype Hnb Hun Hall Hnd. unfold _parse_cmap_data, the_order. rewrite Htype, Ho.
  change (MAPPING_SCAN =? MAPPING_DIRECT) with false.
  change (MAPPING_SCAN =? MAPPING_TABLE) with false.
  change (MAPPING_SCAN =? MAPPING_SCAN) with true. cbv iota.
  cbn [of_option mbind res_bind].
  set (data := nb ++ (l ≫= pair_bytes o) ++ pad).
  assert (Hs0 : slice data 0 2 = nb).
  { unfold data. apply (slice_middle [] nb); unfold len; cbn [length]; lia. }
  rewrite Hs0, unpack_H by done. cbn [mbind res_bind]. rewrite Hun.
  unfold range. rewrite <- (list_fmap_id (seqZ 0 (len l))).
  match goal with |- context [for_each _ ?body0 ?s0] =>
    destruct (for_each_seqZ_inv
                (λ k (st : Z * list (Z * Z)), st = (2 + 4 * k, take (Z.to_nat k) l))
                id body0 (len l) s0) as (st & Hfe & ->)
  end.
  - intros k [pos out] Hk [= -> ->]. unfold id.
    destruct (lookup_lt_is_Some_2 l (Z.to_nat k)) as [e He]; [unfold len in Hk; lia|].
    pose proof (slice_entry o nb l pad (Z.to_nat k) e Hnb Hall He) as Hsl.
    rewrite Z2Nat.id in Hsl by lia. fold data in Hsl. rewrite Hsl.
    rewrite unpack_pair by (by eapply Forall_lookup_1).
    destruct e as [code index]. cbn [mbind res_bind]. eexists. split; [done|].
    f_equal; [lia|].
    replace (Z.to_nat (k + 1)) with (S (Z.to_nat k)) by lia.
    rewrite (take_S_r _ _ _ He). apply dict_set_fresh.
    rewrite <- (take_drop_middle l (Z.to_nat k) _ He), fmap_app in Hnd.
    apply NoDup_app in Hnd as (_ & Hnd & _). intros Hin. apply (Hnd _ Hin).
    cbn [fmap list_fmap fst]. by left.
  - done.
  - unfold len. lia.
  - rewrite Hfe. cbn [mbind res_bind snd]. unfold len.
    by rewrite Nat2Z.id, firstn_all.
Qed.

Lemma scan_section_bytes_length (o : byte_order) (cmap : CmapSection) (l : list (Z * Z))
    (size padding : Z) :
  0 ≤ size < 2 ^ 32 → 0 ≤ cmap_start cmap < 65536 → 0 ≤ cmap_end cmap < 65536 →
  0 ≤ cmap_type cmap < 65536 → len l < 65536 → 0 ≤ padding → Forall entry_ok l →
  len (scan_section_bytes o cmap l size padding) = 22 + 4 * len l + padding.
Proof.
  intros Hsz Hs He Ht Hl Hp Hall.
  destruct (pack_I_ok o 0 ltac:(lia)) as (z4 & Hz4 & Hlz4 & _).
  destruct (pack_H_ok o 0 ltac:(lia)) as (z2 & Hz2 & Hlz2 & _).
  destruct (pack_H_ok o (cmap_start cmap) Hs) as (hs & Hhs & Hlhs & _).
  destruct (pack_H_ok o (cmap_end cmap) He) as (he & Hhe & Hlhe & _).
  destruct (pack_H_ok o (cmap_type cmap) Ht) as (ht & Hht & Hlht & _).
  destruct (pack_H_ok o (len l)) as (hn & Hhn & Hlhn & _); [unfold len in *; lia|].
  destruct (pack_I_ok o size Hsz) as (sz & Hsz' & Hlsz & _).
  pose proof (pairs_length o _ Hall) as Hlt.
  unfold scan_section_bytes. rewrite Hsz', Hhs, Hhe, Hht, Hz2, Hz4, Hhn. cbn [packed].
  unfold len in *. rewrite !length_app, length_replicate, Hlsz, Hlhs, Hlhe, Hlht, Hlz2, Hlz4, Hlhn.
  change (length CMAP_HEADER_MAGIC) with 4%nat. lia.
Qed.

Lemma read_written_scan (o : byte_order) (cmap : CmapSection) (l : list (Z * Z))
    (size padding p : Z) (data : list byte) (w : World) (k : World → res World)
    (fuel : nat) :
  0 ≤ p → 0 ≤ padding → size = 22 + 4 * len l + padding → size < 2 ^ 32 →
  cmap_type cmap = MAPPING_SCAN →
  0 ≤ cmap_start cmap < 65536 → 0 ≤ cmap_end cmap < 65536 →
  Forall entry_ok l → NoDup l.*1 → len l < 65536 →
  slice data p (p + size) = scan_section_bytes o cmap l size padding →
  order (self w) = Some o → invalid (self w) = false →
  read_cmap_chain (S fuel) data (p + 8) w k
  = k (mutate_cmap_sections
         (λ sections, sections ++ [{| cmap_size := size; cmap_start := cmap_start cmap;
                                      cmap_end := cmap_end cmap; cmap_type := MAPPING_SCAN;
                                      cmap_indexOffset := None; cmap_indexTable := None;
                                      cmap_entries := Some l |}]) w).
Proof.
  intros Hp Hpad Hsize Hmax Htype Hstart Hend Hall Hnd Hcount Hbytes Ho Hinv.
  assert (Hn0 : 0 ≤ len l) by (unfold len; lia).
  destruct (pack_I_ok o 0 ltac:(lia)) as (z4 & Hz4 & Hlz4 & Huz4).
  destruct (pack_H_ok o 0 ltac:(lia)) as (z2 & Hz2 & Hlz2 & Huz2).
  destruct (pack_H_ok o (cmap_start cmap) Hstart) as (hs & Hhs & Hlhs & Huhs).
  destruct (pack_H_ok o (cmap_end cmap) Hend) as (he & Hhe & Hlhe & Huhe).
  destruct (pack_H_ok o (cmap_type cmap)) as (ht & Hht & Hlht & Huht);
    [rewrite Htype; unfold MAPPING_SCAN; lia|].
  destruct (pack_H_ok o (len l) ltac:(lia)) as (hn & Hhn & Hlhn & Huhn).
  destruct (pack_I_ok o size ltac:(lia)) as (sz & Hsz & Hlsz & Husz).
  unfold scan_section_bytes in Hbytes.
  rewrite Hsz, Hhs, Hhe, Hht, Hz2, Hz4, Hhn in Hbytes. cbn [packed] in Hbytes.
  set (pairs := l ≫= pair_bytes o) in *.
  assert (Hlt : len pairs = 4 * len l) by (by apply pairs_length).
  set (hdr := CMAP_HEADER_MAGIC ++ sz ++ hs ++ he ++ ht ++ z2 ++ z4).
  assert (Hlh : length hdr = 20%nat).
  { unfold hdr. rewrite !length_app, Hlsz, Hlhs, Hlhe, Hlht, Hlz2, Hlz4. done. }
  set (payload := hn ++ pairs ++ replicate (Z.to_nat padding) x00).
  assert (Hb2 : slice data p (p + size) = hdr ++ payload).
  { rewrite Hbytes. unfold hdr, payload. by rewrite <- !app_assoc. }
  assert (Hlp : len payload = size - 20).
  { unfold payload, len in *. rewrite !length_app, length_replicate. lia. }
  assert (Hhdr : slice data (p + 8 - 8) (p + 8 - 8 + CMAP_HEADER_SIZE) = hdr).
  { replace (slice data (p + 8 - 8) (p + 8 - 8 + CMAP_HEADER_SIZE))
      with (slice data (p + 0) (p + 20)) by (unfold CMAP_HEADER_SIZE; f_equal; lia).
    rewrite (slice_of_slice data p size 0 20) by lia. rewrite Hb2.
    change (Z.to_nat 0) with 0%nat. rewrite drop_0.
    replace (Z.to_nat (20 - 0)) with (length hdr) by lia. by rewrite take_app_length. }
  assert (Hpay : slice data (p + 8 - 8 + CMAP_HEADER_SIZE)
                   (p + 8 - 8 + CMAP_HEADER_SIZE + size - CMAP_HEADER_SIZE)
                 = payload).
  { replace (slice data (p + 8 - 8 + CMAP_HEADER_SIZE)
               (p + 8 - 8 + CMAP_HEADER_SIZE + size - CMAP_HEADER_SIZE))
      with (slice data (p + 20) (p + size)) by (unfold CMAP_HEADER_SIZE; f_equal; lia).
    rewrite (slice_of_slice data p size 20 size) by lia. rewrite Hb2.
    replace (Z.to_nat 20) with (length hdr) by lia. rewrite drop_app_length.
    apply firstn_all2. unfold len in *. lia. }
  assert (Hun : unpack (CMAP_HEADER_STRUCT o)
                  (slice data (p + 8 - 8) (p + 8 - 8 + CMAP_HEADER_SIZE))
                = Ok (CMAP_HEADER_MAGIC, size, cmap_start cmap, cmap_end cmap,
                      MAPPING_SCAN, 0, 0)).
  { rewrite Hhdr. unfold hdr. rewrite unpack_cmap_header by done.
    by rewrite Husz, Huhs, Huhe, Huht, Huz2, Huz4, Htype. }
  assert (Hknown : known_method MAPPING_SCAN) by (by apply (bool_decide_unpack _)).
  rewrite (read_cmap_chain_step fuel data w k o (p + 8) CMAP_HEADER_MAGIC size
             (cmap_start cmap) (cmap_end cmap) MAPPING_SCAN 0 0
             (with_payload (cmap_header_section size (cmap_start cmap) (cmap_end cmap)
                              MAPPING_SCAN) None None (Some l))
             Ho Hinv (or_intror Hknown) ltac:(lia) Hun).
  - by rewrite read_cmap_chain_done.
  - rewrite Hpay. unfold payload. by apply parse_scan_payload.
Qed.

(** A Scan section as [load] builds it, with code points and glyph
    indices of 16 bits, is written by [save] and read back by [read] with
    the same entries, in the order of their code points.  (The keys of
    the entries are characters; a character is kept as its code point.) *)
Theorem scan_section_round_trip (o : byte_order) (cmap : CmapSection) (es : list (Z * Z))
    (f : File) (pos count : Z) :
  cursor f = pos → len (content f) ≤ pos →
  cmap_type cmap = MAPPING_SCAN → cmap_entries cmap = Some es →
  NoDup es.*1 → Forall entry_ok es → len es < 65536 →
  0 ≤ cmap_start cmap < 65536 → 0 ≤ cmap_end cmap < 65536 →
  pos + 22 + 4 * len es + 3 < 2 ^ 32 →
  ∃ s', save_cmap_sections o [cmap] f pos count = Ok s'
    ∧ section_count s' = count + 1
    ∧ cursor (file_ s') = position s'
    ∧ len (content (file_ s')) = position s'
    ∧ 22 + 4 * len es ≤ position s' - pos < 22 + 4 * len es + 4
    ∧ ∀ (data : list byte) (w : World) (k : World → res World) (fuel : nat),
        slice data pos (position s') = slice (content (file_ s')) pos (position s') →
        order (self w) = Some o → invalid (self w) = false →
        read_cmap_chain (S fuel) data (pos + 8) w k
        = k (mutate_cmap_sections
               (λ l, l ++ [{| cmap_size := position s' - pos;
                              cmap_start := cmap_start cmap; cmap_end := cmap_end cmap;
                              cmap_type := MAPPING_SCAN;
                              cmap_indexOffset := None; cmap_indexTable := None;
                              cmap_entries := Some (merge_sort by_code es) |}]) w).
Proof.
  intros Hcur Hlen Htype Hes Hnd Hall Hcount Hstart Hend Hmax.
  assert (Hp0 : 0 ≤ pos) by (unfold len in Hlen; lia).
  assert (Hn0 : 0 ≤ len es) by (unfold len; lia).
  set (padding := (pos + 22 + 4 * len es) mod 4).
  assert (Hpad : 0 ≤ padding < 4) by (apply Z.mod_pos_bound; lia).
  set (size := 22 + 4 * len es + padding).
  set (sorted := merge_sort by_code es).
  assert (Hperm : sorted ≡ₚ es) by apply merge_sort_Permutation.
  assert (Hls : len sorted = len es) by (unfold len; by rewrite Hperm).
  assert (Hsall : Forall entry_ok sorted) by (by rewrite Hperm).
  assert (Hsnd : NoDup sorted.*1) by (by rewrite Hperm).
  unfold save_cmap_sections. cbn [for_each].
  rewrite (save_scan_section_written o cmap es); cbn [prev_offset_pos file_ position]; try done.
  cbn [mbind res_bind]. fold padding size sorted.
  assert (Hlb : len (scan_section_bytes o cmap sorted size padding) = size).
  { rewrite scan_section_bytes_length; try done;
      try (rewrite Htype; unfold MAPPING_SCAN); unfold size; clearbody padding; lia. }
  assert (Hle : len (extended f) = pos) by (rewrite extended_length; lia).
  eexists. split; [reflexivity|]. cbn [section_count file_ position content cursor].
  split; [done|]. split; [done|]. split.
  { unfold len in *. rewrite length_app. lia. }
  split; [unfold size; lia|].
  intros data w k fuel Hdata Ho Hinv.
  replace (pos + size - pos) with size by lia.
  apply (read_written_scan o cmap sorted size padding pos); try done; try lia.
  rewrite Hdata. apply slice_app_r; lia.
Qed.

(** The section for the letter A, written after one sheet. *)
Lemma scan_section_round_trip_witness :
  (cursor after_one_sheet = TGLP_DATA_OFFSET + 64
   ∧ len (content after_one_sheet) ≤ TGLP_DATA_OFFSET + 64
   ∧ cmap_type scan_A = MAPPING_SCAN ∧ cmap_entries scan_A = Some [(0x41, 0)]
   ∧ NoDup [(0x41, 0)].*1 ∧ Forall entry_ok [(0x41, 0)] ∧ len [(0x41, 0)] < 65536
   ∧ 0 ≤ cmap_start scan_A < 65536 ∧ 0 ≤ cmap_end scan_A < 65536
   ∧ TGLP_DATA_OFFSET + 64 + 22 + 4 * len [(0x41, 0)] + 3 < 2 ^ 32)
  ∧ ∃ s', save_cmap_sections Little [scan_A] after_one_sheet (TGLP_DATA_OFFSET + 64) 3 = Ok s'
          ∧ section_count s' = 3 + 1.
Proof.
  assert (Hnd : NoDup [(0x41, 0)].*1) by (apply NoDup_singleton).
  assert (Hall : Forall entry_ok [(0x41, 0)]).
  { apply Forall_cons_2; [|apply Forall_nil_2]. unfold entry_ok. cbn. lia. }
  assert (Hs : 0 ≤ cmap_start scan_A < 65536) by (cbn; lia).
  assert (He : 0 ≤ cmap_end scan_A < 65536) by (cbn; lia).
  split.
  { split; [reflexivity|]. split; [vm_compute; discriminate|]. split; [reflexivity|].
    split; [reflexivity|]. split; [exact Hnd|]. split; [exact Hall|].
    split; [reflexivity|]. split; [exact Hs|]. split; [exact He|reflexivity]. }
  destruct (scan_section_round_trip Little scan_A [(0x41, 0)] after_one_sheet
              (TGLP_DATA_OFFSET + 64) 3 eq_refl ltac:(vm_compute; discriminate)
              eq_refl eq_refl Hnd Hall eq_refl Hs He eq_refl)
    as (s' & Hsv & Hc & _).
  exists s'. split; [exact Hsv|exact Hc].
Defined.

(** [save] asks [len(cmap['entries'])] of every CMAP section, but [read]
    gives that key to Scan sections only: a section [_parse_cmap_data]
    returns for a Direct or a Table header makes [save] raise
    [KeyError]. *)
Theorem save_needs_entries (o : byte_order) (size code_begin code_end map_method : Z)
    (data : list byte) (w : World) (info : CmapSection) (s : Writer) :
  map_method = MAPPING_DIRECT ∨ map_method = MAPPING_TABLE →
  _parse_cmap_data (cmap_header_section size code_begin code_end map_method) data w
  = Ok info →
  0 ≤ code_begin < 65536 → 0 ≤ code_end < 65536 →
  0 ≤ position s → position s + 8 < 2 ^ 32 →
  save_cmap_section o info s = Raise KeyError.
Proof.
  intros Hm Hparse Hb He Hp0 Hp.
  assert (Hinfo : cmap_start info = code_begin ∧ cmap_end info = code_end
                  ∧ cmap_type info = map_method ∧ cmap_entries info = None).
  { unfold _parse_cmap_data in Hparse. cbn [cmap_header_section cmap_type] in Hparse.
    destruct Hm as [-> | ->].
    - change (MAPPING_DIRECT =? MAPPING_DIRECT) with true in Hparse. cbv iota in Hparse.
      destruct (the_order w) as [o'| |]; cbn [mbind res_bind] in Hparse; [|done..].
      destruct (unpack (fH o') (slice data 0 2)) as [v| |]; cbn [mbind res_bind] in Hparse;
        [|done..].
      by injection Hparse as <-.
    - change (MAPPING_TABLE =? MAPPING_DIRECT) with false in Hparse.
      change (MAPPING_TABLE =? MAPPING_TABLE) with true in Hparse. cbv iota in Hparse.
      match type of Hparse with context [for_each ?xs ?body ?s0] =>
        destruct (for_each xs body s0) as [r| |]
      end; cbn [mbind res_bind] in Hparse; [|done..].
      by injection Hparse as <-. }
  destruct Hinfo as (Hs & He' & Ht & Hen).
  unfold save_cmap_section.
  assert (Hlink : ∃ f', write_link o (prev_offset_pos s) (position s) (file_ s) = Ok f').
  { unfold write_link. case_match; [|eauto].
    destruct (pack_I_ok o (position s + 8) ltac:(lia)) as (b & -> & _). eauto. }
  destruct Hlink as [f' ->]. cbn [mbind res_bind].
  destruct (pack_I_ok o 0 ltac:(lia)) as (z4 & -> & _).
  destruct (pack_H_ok o 0 ltac:(lia)) as (z2 & -> & _).
  destruct (pack_H_ok o (cmap_start info) ltac:(lia)) as (hs & -> & _).
  destruct (pack_H_ok o (cmap_end info) ltac:(lia)) as (he & -> & _).
  destruct (pack_H_ok o (cmap_type info)) as (ht & -> & _).
  { rewrite Ht. destruct Hm as [-> | ->]; unfold MAPPING_DIRECT, MAPPING_TABLE; lia. }
  cbn [mbind res_bind]. by rewrite Hen.
Qed.

(** The Direct section for the letters A and B, as [read] stores it. *)
Lemma save_needs_entries_witness :
  let info := with_payload (cmap_header_section 0x18 0x41 0x42 MAPPING_DIRECT)
                (Some 5) None None in
  let s := {| file_ := after_one_sheet; position := TGLP_DATA_OFFSET + 64;
              section_count := 3; prev_offset_pos := 0 |} in
  ((MAPPING_DIRECT = MAPPING_DIRECT ∨ MAPPING_DIRECT = MAPPING_TABLE)
   ∧ _parse_cmap_data (cmap_header_section 0x18 0x41 0x42 MAPPING_DIRECT) [x05; x00]
       little_world = Ok info
   ∧ 0 ≤ 0x41 < 65536 ∧ 0 ≤ 0x42 < 65536
   ∧ 0 ≤ position s ∧ position s + 8 < 2 ^ 32)
  ∧ save_cmap_section Little info s = Raise KeyError.
Proof.
  intros info s.
  assert (Hparse : _parse_cmap_data (cmap_header_section 0x18 0x41 0x42 MAPPING_DIRECT)
                     [x05; x00] little_world = Ok info) by reflexivity.
  assert (Hp0 : 0 ≤ position s) by (vm_compute; discriminate).
  assert (Hp : position s + 8 < 2 ^ 32) by reflexivity.
  split; [split; [by left|]; split; [exact Hparse|]; split; [lia|]; split; [lia|];
          split; [exact Hp0|exact Hp]|].
  exact (save_needs_entries Little 0x18 0x41 0x42 MAPPING_DIRECT [x05; x00] little_world info s
           (or_introl eq_refl) Hparse ltac:(lia) ltac:(lia) Hp0 Hp).
Defined.


(** ** The head of a written file *)

(** Overwriting a field that is already there. *)
Lemma write_patch (bs a old z : list byte) (p : Z) :
  len a = p → length old = length bs →
  write bs {| content := a ++ old ++ z; cursor := p |}
  = {| content := a ++ bs ++ z; cursor := p + len bs |}.
Proof.
  intros <- Ho. unfold write. cbn [content cursor]. unfold len in *.
  replace (Z.to_nat (Z.of_nat (length a) - Z.of_nat (length (a ++ old ++ z)))) with 0%nat
    by (rewrite !length_app; lia).
  cbn [replicate]. rewrite app_nil_r.
  rewrite Nat2Z.id, take_app_length.
  replace (Z.to_nat (Z.of_nat (length a) + Z.of_nat (length bs))) with (length (a ++ old))
    by (rewrite length_app; lia).
  by rewrite (app_assoc a old z), drop_app_length.
Qed.

Lemma format_value_fits (f : Format) : 0 ≤ Format_value f < 65536.
Proof. destruct f; cbn; lia. Qed.

Lemma header_fixed_length (o : byte_order) (ft : FileType) (version_ : Z) :
  0 ≤ version_ < 2 ^ 32 → length (header_fixed o ft version_) = 12%nat.
Proof.
  intros Hv. destruct (pack_I_ok o version_ Hv) as (ve & Hve & Hlve & _).
  unfold header_fixed. rewrite Hve. cbn [packed]. rewrite !length_app, Hlve.
  by destruct o, ft.
Qed.

Lemma finf_fixed_length (o : byte_order) (fi : FontInfo) :
  font_info_ok fi → length (finf_fixed o fi) = 20%nat.
Proof.
  intros (H1 & H2 & H3 & H4 & H5 & H6 & H7 & H8 & H9 & H10).
  destruct (pack_B_u8 _ H1) as (b1 & Hb1 & _). destruct (pack_B_u8 _ H2) as (b2 & Hb2 & _).
  destruct (pack_B_u8 _ H3) as (b3 & Hb3 & _). destruct (pack_B_u8 _ H4) as (b4 & Hb4 & _).
  destruct (pack_H_ok o _ H5) as (b5 & Hb5 & Hl5 & _).
  destruct (pack_H_ok o _ H6) as (b6 & Hb6 & Hl6 & _).
  destruct (pack_B_u8 _ H7) as (b7 & Hb7 & _). destruct (pack_B_u8 _ H8) as (b8 & Hb8 & _).
  destruct (pack_B_u8 _ H9) as (b9 & Hb9 & _). destruct (pack_B_u8 _ H10) as (b10 & Hb10 & _).
  destruct (pack_I_ok o FINF_HEADER_SIZE ltac:(unfold FINF_HEADER_SIZE; lia))
    as (sz & Hsz & Hlsz & _).
  unfold finf_fixed. rewrite Hb1, Hb2, Hb3, Hb4, Hb5, Hb6, Hb7, Hb8, Hb9, Hb10, Hsz.
  cbn [packed]. rewrite !length_app, Hlsz, Hl5, Hl6. done.
Qed.

Lemma tglp_fixed_length (o : byte_order) (t : Tglp) (maxCharWidth data_size : Z) :
  texture_ok t maxCharWidth data_size →
  length (tglp_fixed o t maxCharWidth data_size) = 24%nat.
Proof.
  intros (H1 & H2 & H3 & H4 & H5 & H6 & H7 & H8 & H9 & H10).
  destruct (pack_B_u8 _ H1) as (b1 & Hb1 & _). destruct (pack_B_u8 _ H2) as (b2 & Hb2 & _).
  destruct (pack_B_u8 _ H3) as (b3 & Hb3 & _). destruct (pack_B_u8 _ H4) as (b4 & Hb4 & _).
  destruct (pack_I_ok o _ H5) as (b5 & Hb5 & Hl5 & _).
  destruct (pack_H_ok o _ H6) as (b6 & Hb6 & Hl6 & _).
  destruct (pack_H_ok o _ (format_value_fits (sheet_format t))) as (bf & Hbf & Hlf & _).
  destruct (pack_H_ok o _ H7) as (b7 & Hb7 & Hl7 & _).
  destruct (pack_H_ok o _ H8) as (b8 & Hb8 & Hl8 & _).
  destruct (pack_H_ok o _ H9) as (b9 & Hb9 & Hl9 & _).
  destruct (pack_H_ok o _ H10) as (b10 & Hb10 & Hl10 & _).
  destruct (pack_I_ok o TGLP_DATA_OFFSET ltac:(unfold TGLP_DATA_OFFSET; lia))
    as (bo & Hbo & Hlo & _).
  unfold tglp_fixed. rewrite Hb1, Hb2, Hb3, Hb4, Hb5, Hb6, Hbf, Hb7, Hb8, Hb9, Hb10, Hbo.
  cbn [packed]. rewrite !length_app, Hl5, Hl6, Hlf, Hl7, Hl8, Hl9, Hl10, Hlo. done.
Qed.

Lemma packed_I_length (o : byte_order) (z : Z) :
  0 ≤ z < 2 ^ 32 → pack_I o z = Ok (packed (pack_I o z)) ∧ length (packed (pack_I o z)) = 4%nat.
Proof. intros Hz. destruct (pack_I_ok o z Hz) as (b & -> & Hl & _). done. Qed.

(** [save] up to the sheets leaves the head of the file, with zero in the
    fields it fills in later, and the cursor at [TGLP_DATA_OFFSET]. *)
Lemma save_before_sheets_written (o : byte_order) (ft : FileType) (version_ : Z)
    (fi : FontInfo) (t : Tglp) (maxCharWidth data_size : Z) :
  0 ≤ version_ < 2 ^ 32 → font_info_ok fi → texture_ok t maxCharWidth data_size →
  tglp_data_size (sheet_width t) (sheet_height t) (sheet_format t) = Ok data_size →
  save_before_sheets o ft version_ fi t maxCharWidth
  = Ok ({| content := head_bytes o ft version_ fi t maxCharWidth data_size 0 0 0x3C 0 0 0;
           cursor := TGLP_DATA_OFFSET |}, TGLP_DATA_OFFSET, 2).
Proof.
  intros Hv Hfi Ht Hds.
  pose proof (header_fixed_length o ft version_ Hv) as HlH.
  pose proof (finf_fixed_length o fi Hfi) as HlF.
  pose proof (tglp_fixed_length o t maxCharWidth data_size Ht) as HlT.
  unfold header_fixed in HlH. unfold finf_fixed in HlF. unfold tglp_fixed in HlT.
  unfold head_bytes, header_fixed, finf_fixed, tglp_fixed.
  destruct Hfi as (H1 & H2 & H3 & H4 & H5 & H6 & H7 & H8 & H9 & H10).
  destruct Ht as (G1 & G2 & G3 & G4 & G5 & G6 & G7 & G8 & G9 & G10).
  unfold save_before_sheets.
  destruct (pack_H_ok o (match o with Big => 0xFFFE | Little => 0xFEFF end))
    as (bom & Hbom & Hlbom & _); [destruct o; lia|].
  destruct (pack_H_ok o FFNT_HEADER_SIZE ltac:(unfold FFNT_HEADER_SIZE; lia))
    as (hs & Hhs & Hlhs & _).
  destruct (pack_I_ok o version_ Hv) as (ve & Hve & Hlve & _).
  destruct (pack_I_ok o 0 ltac:(lia)) as (z4 & Hz4 & Hlz4 & _).
  destruct (pack_I_ok o FINF_HEADER_SIZE ltac:(unfold FINF_HEADER_SIZE; lia))
    as (fsz & Hfsz & Hlfsz & _).
  destruct (pack_B_u8 _ H1) as (b1 & Hb1 & _). destruct (pack_B_u8 _ H2) as (b2 & Hb2 & _).
  destruct (pack_B_u8 _ H3) as (b3 & Hb3 & _). destruct (pack_B_u8 _ H4) as (b4 & Hb4 & _).
  destruct (pack_H_ok o _ H5) as (b5 & Hb5 & Hl5 & _).
  destruct (pack_H_ok o _ H6) as (b6 & Hb6 & Hl6 & _).
  destruct (pack_B_u8 _ H7) as (b7 & Hb7 & _). destruct (pack_B_u8 _ H8) as (b8 & Hb8 & _).
  destruct (pack_B_u8 _ H9) as (b9 & Hb9 & _). destruct (pack_B_u8 _ H10) as (b10 & Hb10 & _).
  destruct (pack_I_ok o (FFNT_HEADER_SIZE + FINF_HEADER_SIZE + 8)
              ltac:(unfold FFNT_HEADER_SIZE, FINF_HEADER_SIZE; lia))
    as (to & Hto & Hlto & _).
  destruct (pack_B_u8 _ G1) as (c1 & Hc1 & _). destruct (pack_B_u8 _ G2) as (c2 & Hc2 & _).
  destruct (pack_B_u8 _ G3) as (c3 & Hc3 & _). destruct (pack_B_u8 _ G4) as (c4 & Hc4 & _).
  destruct (pack_I_ok o _ G5) as (c5 & Hc5 & Hlc5 & _).
  destruct (pack_H_ok o _ G6) as (c6 & Hc6 & Hlc6 & _).
  destruct (pack_H_ok o _ (format_value_fits (sheet_format t))) as (cf & Hcf & Hlcf & _).
  destruct (pack_H_ok o _ G7) as (c7 & Hc7 & Hlc7 & _).
  destruct (pack_H_ok o _ G8) as (c8 & Hc8 & Hlc8 & _).
  destruct (pack_H_ok o _ G9) as (c9 & Hc9 & Hlc9 & _).
  destruct (pack_H_ok o _ G10) as (c10 & Hc10 & Hlc10 & _).
  destruct (pack_I_ok o TGLP_DATA_OFFSET ltac:(unfold TGLP_DATA_OFFSET; lia))
    as (co & Hco & Hlco & _).
  change (pack_I o 60) with (pack_I o (FFNT_HEADER_SIZE + FINF_HEADER_SIZE + 8)).
  rewrite Hbom, Hhs, Hve, Hz4, Hfsz, Hb1, Hb2, Hb3, Hb4, Hb5, Hb6, Hb7, Hb8, Hb9, Hb10 in *.
  cbn [packed mbind res_bind mret res_ret] in *.
  rewrite Hds. cbn [mbind res_bind].
  rewrite Hto, Hc1, Hc2, Hc3, Hc4, Hc5, Hc6, Hcf, Hc7, Hc8, Hc9, Hc10, Hco in *.
  cbn [packed mbind res_bind mret res_ret] in *.
  set (H := magic_of ft ++ bom ++ hs ++ ve) in *.
  set (F := FINF_HEADER_MAGIC ++ fsz ++ [b1] ++ [b2] ++ [b3] ++ [b4] ++ b5 ++ b6 ++ [b7]
            ++ [b8] ++ [b9] ++ [b10]) in *.
  set (T := [c1] ++ [c2] ++ [c3] ++ [c4] ++ c5 ++ c6 ++ cf ++ c7 ++ c8 ++ c9 ++ c10 ++ co) in *.
  assert (HlH' : len H = 12) by (unfold len; lia).
  assert (HlF' : len F = 20) by (unfold len; lia).
  rewrite (write_at_end _ {| content := []; cursor := 0 |}) by done.
  cbn [content]. rewrite !app_nil_l.
  replace (magic_of ft ++ bom ++ hs ++ ve ++ z4 ++ z4) with (H ++ z4 ++ z4)
    by (unfold H; by rewrite <- !app_assoc).
  match goal with |- context [write ?bs {| content := ?c; cursor := len ?c |}] =>
    rewrite (write_at_end bs {| content := c; cursor := len c |}) by done
  end.
  cbn [content]. unfold seek at 3. cbn [content].
  replace ((H ++ z4 ++ z4) ++ FINF_HEADER_MAGIC ++ fsz ++ [b1] ++ [b2] ++ [b3] ++ [b4] ++ b5
           ++ b6 ++ [b7] ++ [b8] ++ [b9] ++ [b10] ++ z4 ++ z4 ++ z4)
    with ((H ++ z4 ++ z4 ++ F) ++ z4 ++ (z4 ++ z4))
    by (unfold F; by rewrite <- !app_assoc).
  clearbody H F T.
  rewrite write_patch;
    [|unfold len in *; rewrite !length_app; unfold FFNT_HEADER_SIZE; lia|lia].
  unfold seek at 2. cbn [content].
  rewrite write_at_end.
  2:{ cbn [content cursor]. unfold len in *. rewrite !length_app.
      unfold FFNT_HEADER_SIZE, FINF_HEADER_SIZE. lia. }
  unfold seek. cbn [content cursor mret res_ret]. do 3 f_equal.
  by rewrite <- !app_assoc.
Qed.

Lemma extended_at_end (f : File) : cursor f = len (content f) → extended f = content f.
Proof.
  intros H. unfold extended. rewrite H.
  replace (Z.to_nat (len (content f) - len (content f))) with 0%nat by lia.
  apply app_nil_r.
Qed.

(** [save] after the sheets, for one CWDH section and one Scan section as
    [load] builds them: the six fields of the head are filled in, and the
    two sections follow what the file held. *)
Lemma save_after_sheets_written (o : byte_order) (ft : FileType) (version_ : Z)
    (fi : FontInfo) (t : Tglp) (maxCharWidth data_size : Z)
    (cwdh : CwdhSection) (cmap : CmapSection) (es : list (Z * Z)) (n : Z)
    (rest0 : list byte) (f : File) (pos count : Z) :
  0 ≤ version_ < 2 ^ 32 → font_info_ok fi → texture_ok t maxCharWidth data_size →
  content f = head_bytes o ft version_ fi t maxCharWidth data_size 0 0 0x3C 0 0 0 ++ rest0 →
  cursor f = pos → len (content f) ≤ pos →
  cwdh_start cwdh = 0 → cwdh_end cwdh = n - 1 → len (cwdh_data cwdh) = n → 1 ≤ n ≤ 65536 →
  Forall packable (cwdh_data cwdh) →
  cmap_type cmap = MAPPING_SCAN → cmap_entries cmap = Some es →
  Forall entry_ok es → len es < 65536 →
  0 ≤ cmap_start cmap < 65536 → 0 ≤ cmap_end cmap < 65536 →
  0 ≤ count → count + 2 < 2 ^ 32 →
  let mid := rest0 ++ replicate (Z.to_nat (pos - len (content f))) x00 in
  let pad1 := (pos + 16 + 3 * n) mod 4 in
  let size1 := 16 + 3 * n + pad1 in
  let pos1 := pos + size1 in
  let pad2 := (pos1 + 22 + 4 * len es) mod 4 in
  let size2 := 22 + 4 * len es + pad2 in
  let pos2 := pos1 + size2 in
  pos2 + 8 < 2 ^ 32 →
  save_after_sheets o [cwdh] [cmap] f pos count
  = Ok {| content := head_bytes o ft version_ fi t maxCharWidth data_size
                       pos2 (count + 2) 0x3C (pos + 8) (pos1 + 8) (pos - 0x34)
                     ++ mid ++ cwdh_section_bytes o cwdh size1 pad1
                     ++ scan_section_bytes o cmap (merge_sort by_code es) size2 pad2;
          cursor := 0x14 |}.
Proof.
  intros Hv Hfi Ht Hcont Hcur Hlen Hstart Hend Hn Hn1 Hpack Htype Hes Hall Hcount Hcs Hce
    Hc0 Hc2 mid pad1 size1 pos1 pad2 size2 pos2 Hmax.
  pose proof (header_fixed_length o ft version_ Hv) as HlH.
  pose proof (finf_fixed_length o fi Hfi) as HlF.
  pose proof (tglp_fixed_length o t maxCharWidth data_size Ht) as HlT.
  assert (Hn0 : 0 ≤ len es) by (unfold len; lia).
  assert (Hpad1 : 0 ≤ pad1 < 4) by (apply Z.mod_pos_bound; lia).
  assert (Hpad2 : 0 ≤ pad2 < 4) by (apply Z.mod_pos_bound; lia).
  assert (Hp1 : (pos + 16 + 3 * n) mod 4 = pad1) by done.
  assert (Hp2 : (pos1 + 22 + 4 * len es) mod 4 = pad2) by done.
  clearbody pad1. clearbody pad2.
  destruct (pack_I_ok o 0 ltac:(lia)) as (z4 & Hz4 & Hlz4 & _).
  destruct (pack_I_ok o 0x3C ltac:(lia)) as (to & Hto & Hlto & _).
  unfold head_bytes in *. rewrite Hz4, Hto in *. cbn [packed] in *.
  set (Hx := header_fixed o ft version_) in *.
  set (Fx := finf_fixed o fi) in *.
  set (Tx := tglp_fixed o t maxCharWidth data_size) in *.
  clearbody Hx Fx Tx.
  assert (Hlc : len (content f) = 84 + len rest0).
  { rewrite Hcont. unfold len. rewrite !length_app.
    change (length TGLP_HEADER_MAGIC) with 4%nat. lia. }
  assert (Hlr : 0 ≤ len rest0) by (unfold len; lia).
  assert (Hlm : len mid = pos - 84).
  { unfold mid, len in *. rewrite length_app, length_replicate. lia. }
  destruct (pack_I_ok o (pos - 0x34) ltac:(unfold size1, pos1, size2, pos2 in *; lia))
    as (ts & Hts & Hlts & _).
  destruct (pack_I_ok o (pos + 8) ltac:(unfold size1, pos1, size2, pos2 in *; lia))
    as (co & Hco & Hlco & _).
  destruct (pack_I_ok o (pos1 + 8) ltac:(unfold size1, pos1, size2, pos2 in *; lia))
    as (mo & Hmo & Hlmo & _).
  destruct (pack_I_ok o pos2 ltac:(unfold size1, pos1, size2, pos2 in *; lia))
    as (fs & Hfs & Hlfs & _).
  destruct (pack_I_ok o (count + 2) ltac:(lia)) as (sc & Hsc & Hlsc & _).
  rewrite Hts, Hco, Hmo, Hfs, Hsc. cbn [packed].
  unfold save_after_sheets.
  change (FFNT_HEADER_SIZE + FINF_HEADER_SIZE) with 0x34. rewrite Hts, Hco.
  cbn [mbind res_bind]. destruct f as [c cur]. cbn [content cursor] in *. subst c cur.
  unfold seek. cbn [content cursor].
  set (TM := TGLP_HEADER_MAGIC) in *.
  assert (HlTM : length TM = 4%nat) by done. clearbody TM.
  assert (Hpos : 84 ≤ pos) by lia.
  (* the size of the TGLP section *)
  replace ((Hx ++ z4 ++ z4 ++ Fx ++ to ++ z4 ++ z4 ++ TM ++ z4 ++ Tx) ++ rest0)
    with ((Hx ++ z4 ++ z4 ++ Fx ++ to ++ z4 ++ z4 ++ TM) ++ z4 ++ (Tx ++ rest0))
    by (by rewrite <- !app_assoc).
  rewrite write_patch; [|unfold len; rewrite !length_app; lia|lia]. cbn [content].
  (* the offset of the first CWDH section *)
  replace ((Hx ++ z4 ++ z4 ++ Fx ++ to ++ z4 ++ z4 ++ TM) ++ ts ++ Tx ++ rest0)
    with ((Hx ++ z4 ++ z4 ++ Fx ++ to) ++ z4 ++ (z4 ++ TM ++ ts ++ Tx ++ rest0))
    by (by rewrite <- !app_assoc).
  rewrite write_patch;
    [|unfold len; rewrite !length_app; unfold FFNT_HEADER_SIZE; lia|lia].
  cbn [content].
  (* the CWDH section *)
  set (C2 := (Hx ++ z4 ++ z4 ++ Fx ++ to) ++ co ++ z4 ++ TM ++ ts ++ Tx ++ rest0).
  assert (HlC2 : len C2 = 84 + len rest0).
  { unfold C2, len. rewrite !length_app. lia. }
  pose proof (save_cwdh_section_written o cwdh
                {| file_ := {| content := C2; cursor := pos |}; position := pos;
                   section_count := count; prev_offset_pos := 0 |} n) as Hw.
  cbv zeta in Hw. cbn [file_ position section_count prev_offset_pos content cursor] in Hw.
  rewrite Hp1 in Hw. fold size1 pos1 in Hw.
  unfold save_cwdh_sections. cbn [for_each].
  rewrite Hw; [|done|done|lia|done..|unfold size1, pos1, size2, pos2 in *; lia].
  clear Hw. cbn [mbind res_bind position file_ section_count content cursor].
  rewrite Hmo. cbn [mbind res_bind].
  assert (Hext : extended {| content := C2; cursor := pos |}
                 = (Hx ++ z4 ++ z4 ++ Fx ++ to ++ co) ++ z4 ++ (TM ++ ts ++ Tx ++ mid)).
  { unfold extended. cbn [content cursor]. rewrite HlC2. unfold C2, mid. rewrite Hlc.
    by rewrite <- !app_assoc. }
  rewrite Hext.
  set (cwdhB := cwdh_section_bytes o cwdh size1 pad1).
  assert (HlcB : len cwdhB = size1).
  { unfold cwdhB. rewrite cwdh_section_bytes_length; [unfold size1; lia|unfold size1; lia|lia..|done]. }
  (* the offset of the first CMAP section *)
  rewrite <- (app_assoc _ _ cwdhB), <- (app_assoc z4 _ cwdhB).
  rewrite write_patch;
    [|unfold len; rewrite !length_app; unfold FFNT_HEADER_SIZE; lia|lia].
  cbn [content].
  (* the CMAP section *)
  set (C3 := (Hx ++ z4 ++ z4 ++ Fx ++ to ++ co) ++ mo ++ (TM ++ ts ++ Tx ++ mid) ++ cwdhB).
  assert (HlC3 : len C3 = pos1).
  { unfold C3, pos1, len in *. rewrite !length_app. lia. }
  pose proof (save_scan_section_written o cmap es
                {| file_ := {| content := C3; cursor := pos1 |}; position := pos1;
                   section_count := count + 1; prev_offset_pos := 0 |}) as Hw.
  cbv zeta in Hw. cbn [file_ position section_count prev_offset_pos content cursor] in Hw.
  rewrite Hp2 in Hw. fold size2 pos2 in Hw.
  unfold save_cmap_sections. cbn [for_each].
  rewrite Hw; [|done|done|lia|done..|unfold size1, pos1, size2, pos2 in *; lia].
  clear Hw. cbn [mbind res_bind position file_ section_count content cursor].
  rewrite extended_at_end by done. cbn [content].
  replace (count + 1 + 1) with (count + 2) by lia. rewrite Hfs, Hsc.
  cbn [mbind res_bind mret res_ret].
  set (scanB := scan_section_bytes o cmap (merge_sort by_code es) size2 pad2).
  (* the file size and the number of sections *)
  replace (C3 ++ scanB)
    with (Hx ++ z4 ++ (z4 ++ Fx ++ to ++ co ++ mo ++ TM ++ ts ++ Tx ++ mid ++ cwdhB ++ scanB))
    by (unfold C3; by rewrite <- !app_assoc).
  rewrite write_patch; [|unfold len; lia|lia]. cbn [content].
  rewrite (app_assoc Hx fs).
  rewrite write_patch; [|unfold len; rewrite !length_app; lia|lia].
  f_equal. f_equal; [by rewrite <- !app_assoc|unfold len; lia].
Qed.


(** ** Reading the head of a written file *)

Lemma unpack_ffnt_header (o : byte_order) (magic bom hs ve fs sc : list byte) :
  length magic = 4%nat → length bom = 2%nat → length hs = 2%nat → length ve = 4%nat →
  length fs = 4%nat → length sc = 4%nat →
  unpack (FFNT_HEADER_STRUCT o) (magic ++ bom ++ hs ++ ve ++ fs ++ sc)
  = Ok (magic, uint o bom, uint o hs, uint o ve, uint o fs, uint o sc).
Proof.
  intros Hm Hb Hh Hv Hf Hs. unfold unpack, FFNT_HEADER_STRUCT.
  unfold mbind at 1, unpacker_bind at 1. rewrite raw_app by done.
  unfold mbind at 1, unpacker_bind at 1. rewrite fH_app by done.
  unfold mbind at 1, unpacker_bind at 1. rewrite fH_app by done.
  unfold mbind at 1, unpacker_bind at 1. rewrite fI_app by done.
  unfold mbind at 1, unpacker_bind at 1. rewrite fI_app by done.
  unfold mbind at 1, unpacker_bind at 1.
  rewrite <- (app_nil_r sc) at 1. rewrite fI_app by done. done.
Qed.

Lemma magic_of_length (ft : FileType) : length (magic_of ft) = 4%nat.
Proof. by destruct ft. Qed.

(** The byte-order mark is looked at in big-endian order, whatever the
    order of the file. *)
Lemma bom_of_header (o : byte_order) (magic bom rest : list byte) :
  length magic = 4%nat → length bom = 2%nat →
  unpack_from (fH Big) (magic ++ bom ++ rest) 4 = Ok (uint Big bom).
Proof.
  intros Hm Hb. unfold unpack_from, index_pos, len.
  rewrite (bool_decide_false (4 < 0)) by lia.
  rewrite bool_decide_true by (rewrite !length_app; lia).
  replace (Z.to_nat 4) with (length magic) by lia.
  by rewrite drop_app_length, fH_app.
Qed.

Lemma parse_header_little (ft : FileType) (version_ file_size_ sections_ : Z) (w : World) :
  0 ≤ version_ < 2 ^ 32 → 0 ≤ file_size_ < 2 ^ 32 → 0 ≤ sections_ < 2 ^ 32 →
  version_ ∈ VERSIONS → file_size_ = file_size (self w) →
  _parse_header (header_fixed Little ft version_ ++ packed (pack_I Little file_size_)
                 ++ packed (pack_I Little sections_)) w
  = Ok (on_self (set_sections sections_)
          (on_self (set_filetype ft)
             (on_self (set_version version_) (on_self (set_order Little) w)))).
Proof.
  intros Hv Hf Hs Hin Hfs.
  destruct (pack_I_ok Little version_ Hv) as (ve & Hve & Hlve & Huve).
  destruct (pack_I_ok Little file_size_ Hf) as (fs & Hfsb & Hlfs & Hufs).
  destruct (pack_I_ok Little sections_ Hs) as (sc & Hsc & Hlsc & Husc).
  unfold header_fixed. rewrite Hve, Hfsb, Hsc. cbn [packed].
  change (packed (pack_H Little 65279)) with [xff; xfe].
  change (packed (pack_H Little FFNT_HEADER_SIZE)) with [x14; x00].
  rewrite <- !app_assoc. unfold _parse_header.
  rewrite (bom_of_header Little) by (done || apply magic_of_length).
  cbn [mbind res_bind]. change (uint Big [xff; xfe]) with 0xFFFE.
  change (0xFFFE =? 0xFFFE) with true. cbv beta iota zeta.
  assert (Ho : order (self (on_self (set_order Little) w)) = Some Little)
    by (by destruct w as [c []]).
  rewrite Ho.
  rewrite unpack_ffnt_header by (done || apply magic_of_length).
  cbn [mbind res_bind]. rewrite Huve, Hufs, Husc.
  change (uint Little [x14; x00]) with 0x14.
  assert (Hm : (if decide (magic_of ft = FFNT_MAGIC) then Some ffnt
                else if decide (magic_of ft = FFNU_MAGIC) then Some ffnu else None)
               = Some ft) by (by destruct ft).
  rewrite Hm. rewrite (bool_decide_true _ Hin). cbn [negb].
  change (0x14 =? FFNT_HEADER_SIZE) with true. cbn [negb].
  assert (Hfs' : file_size (self (on_self (set_filetype ft)
                   (on_self (set_version version_) (on_self (set_order Little) w))))
                 = file_size (self w)) by (by destruct w as [c []]).
  rewrite Hfs', <- Hfs, Z.eqb_refl. done.
Qed.

(** What [save] writes as the mark of a big-endian file reads, in
    big-endian order, as the mark of a little-endian one: the header is
    then unpacked in the wrong order and rejected. *)
Lemma parse_header_big (ft : FileType) (version_ file_size_ sections_ : Z) (w : World) :
  0 ≤ version_ < 2 ^ 32 → 0 ≤ file_size_ < 2 ^ 32 → 0 ≤ sections_ < 2 ^ 32 →
  ∃ w', _parse_header (header_fixed Big ft version_ ++ packed (pack_I Big file_size_)
                       ++ packed (pack_I Big sections_)) w = Ok w'
        ∧ invalid (self w') = true ∧ order (self w') = Some Little.
Proof.
  intros Hv Hf Hs.
  destruct (pack_I_ok Big version_ Hv) as (ve & Hve & Hlve & Huve).
  destruct (pack_I_ok Big file_size_ Hf) as (fs & Hfsb & Hlfs & Hufs).
  destruct (pack_I_ok Big sections_ Hs) as (sc & Hsc & Hlsc & Husc).
  unfold header_fixed. rewrite Hve, Hfsb, Hsc. cbn [packed].
  change (packed (pack_H Big 65534)) with [xff; xfe].
  change (packed (pack_H Big FFNT_HEADER_SIZE)) with [x00; x14].
  rewrite <- !app_assoc. unfold _parse_header.
  rewrite (bom_of_header Big) by (done || apply magic_of_length).
  cbn [mbind res_bind]. change (uint Big [xff; xfe]) with 0xFFFE.
  change (0xFFFE =? 0xFFFE) with true. cbv beta iota zeta.
  assert (Ho : order (self (on_self (set_order Little) w)) = Some Little)
    by (by destruct w as [c []]).
  rewrite Ho.
  rewrite unpack_ffnt_header by (done || apply magic_of_length).
  cbn [mbind res_bind].
  change (uint Little [x00; x14]) with 0x1400.
  assert (Hm : (if decide (magic_of ft = FFNT_MAGIC) then Some ffnt
                else if decide (magic_of ft = FFNU_MAGIC) then Some ffnu else None)
               = Some ft) by (by destruct ft).
  rewrite Hm. change (0x1400 =? FFNT_HEADER_SIZE) with false. cbn [negb].
  destruct (negb (bool_decide (uint Little ve ∈ VERSIONS)));
    (eexists; split; [reflexivity|]); by destruct w as [c []].
Qed.

Lemma fB_app (b : byte) (rest : list byte) : fB ([b] ++ rest) = Some (u8 b, rest).
Proof. apply fB_cons. Qed.

Ltac unpack_field :=
  unfold mbind at 1, unpacker_bind at 1;
  first [rewrite raw_app by done | rewrite fI_app by done | rewrite fH_app by done
        | rewrite fB_app].

Lemma unpack_finf_header (o : byte_order) (magic sz b5 b6 bt bc bm : list byte)
    (b1 b2 b3 b4 b7 b8 b9 b10 : byte) :
  length magic = 4%nat → length sz = 4%nat → length b5 = 2%nat → length b6 = 2%nat →
  length bt = 4%nat → length bc = 4%nat → length bm = 4%nat →
  unpack (FINF_HEADER_STRUCT o)
    (magic ++ sz ++ [b1] ++ [b2] ++ [b3] ++ [b4] ++ b5 ++ b6 ++ [b7] ++ [b8] ++ [b9]
     ++ [b10] ++ bt ++ bc ++ bm)
  = Ok (magic, uint o sz,
        {| fi_height := u8 b2; fi_width := u8 b3; fi_ascent := u8 b4;
           fi_lineFeed := uint o b5; fi_alterCharIdx := uint o b6;
           fi_defaultWidth := {| wd_left := u8 b7; wd_glyph := u8 b8; wd_char := u8 b9 |};
           fi_fontType := u8 b1; fi_encoding := u8 b10 |},
        (uint o bt, uint o bc, uint o bm)).
Proof.
  intros Hm Hsz H5 H6 Ht Hc Hbm. rewrite <- (app_nil_r bm).
  unfold unpack, FINF_HEADER_STRUCT. do 15 unpack_field. by rewrite app_nil_r.
Qed.

Lemma unpack_tglp_header (o : byte_order) (magic sz b5 b6 bf b7 b8 b9 b10 bo : list byte)
    (b1 b2 b3 b4 : byte) :
  length magic = 4%nat → length sz = 4%nat → length b5 = 4%nat → length b6 = 2%nat →
  length bf = 2%nat → length b7 = 2%nat → length b8 = 2%nat → length b9 = 2%nat →
  length b10 = 2%nat → length bo = 4%nat →
  unpack (TGLP_HEADER_STRUCT o)
    (magic ++ sz ++ [b1] ++ [b2] ++ [b3] ++ [b4] ++ b5 ++ b6 ++ bf ++ b7 ++ b8 ++ b9
     ++ b10 ++ bo)
  = Ok (magic, (uint o sz, u8 b1, u8 b2, u8 b3, u8 b4),
        (uint o b5, uint o b6, uint o bf, uint o b7, uint o b8, uint o b9, uint o b10,
         uint o bo, 0)).
Proof.
  intros Hm Hsz H5 H6 Hf H7 H8 H9 H10 Ho. rewrite <- (app_nil_r bo).
  unfold unpack, TGLP_HEADER_STRUCT. do 14 unpack_field. by rewrite app_nil_r.
Qed.

Lemma parse_finf_written (o : byte_order) (fi : FontInfo) (t c m : Z) (w : World) :
  font_info_ok fi → 0 ≤ t < 2 ^ 32 → 0 ≤ c < 2 ^ 32 → 0 ≤ m < 2 ^ 32 →
  order (self w) = Some o →
  _parse_finf (finf_fixed o fi ++ packed (pack_I o t) ++ packed (pack_I o c)
               ++ packed (pack_I o m)) w
  = Ok (on_self (set_finf fi t c m) w).
Proof.
  intros (H1 & H2 & H3 & H4 & H5 & H6 & H7 & H8 & H9 & H10) Ht Hc Hm Ho.
  destruct (pack_I_ok o FINF_HEADER_SIZE ltac:(unfold FINF_HEADER_SIZE; lia))
    as (sz & Hsz & Hlsz & Husz).
  destruct (pack_B_u8 _ H1) as (b1 & Hb1 & Hu1). destruct (pack_B_u8 _ H2) as (b2 & Hb2 & Hu2).
  destruct (pack_B_u8 _ H3) as (b3 & Hb3 & Hu3). destruct (pack_B_u8 _ H4) as (b4 & Hb4 & Hu4).
  destruct (pack_H_ok o _ H5) as (b5 & Hb5 & Hl5 & Hu5).
  destruct (pack_H_ok o _ H6) as (b6 & Hb6 & Hl6 & Hu6).
  destruct (pack_B_u8 _ H7) as (b7 & Hb7 & Hu7). destruct (pack_B_u8 _ H8) as (b8 & Hb8 & Hu8).
  destruct (pack_B_u8 _ H9) as (b9 & Hb9 & Hu9).
  destruct (pack_B_u8 _ H10) as (b10 & Hb10 & Hu10).
  destruct (pack_I_ok o t Ht) as (bt & Hbt & Hlt & Hut).
  destruct (pack_I_ok o c Hc) as (bc & Hbc & Hlc & Huc).
  destruct (pack_I_ok o m Hm) as (bm & Hbm & Hlm & Hum).
  unfold finf_fixed.
  rewrite Hsz, Hb1, Hb2, Hb3, Hb4, Hb5, Hb6, Hb7, Hb8, Hb9, Hb10, Hbt, Hbc, Hbm.
  cbn [packed]. rewrite <- !app_assoc.
  unfold _parse_finf, the_order. rewrite Ho. cbn [of_option mbind res_bind].
  rewrite unpack_finf_header by done. cbn [mbind res_bind].
  rewrite Husz, Hu1, Hu2, Hu3, Hu4, Hu5, Hu6, Hu7, Hu8, Hu9, Hu10, Hut, Huc, Hum.
  rewrite bool_decide_true by done. rewrite Z.eqb_refl. cbn [negb].
  do 3 f_equal. by destruct fi as [? ? ? ? ? [] ? ?].
Qed.

Lemma format_of_value_of (f : Format) : Format_of_value (Format_value f) = Ok f.
Proof. by destruct f. Qed.

Lemma parse_tglp_header_written (o : byte_order) (t : Tglp) (maxCharWidth data_size size : Z)
    (w : World) :
  texture_ok t maxCharWidth data_size → 0 ≤ size < 2 ^ 32 →
  order (self w) = Some o →
  _parse_tglp_header (TGLP_HEADER_MAGIC ++ packed (pack_I o size)
                      ++ tglp_fixed o t maxCharWidth data_size) w
  = Ok (on_self (set_tglp
          {| tglp_size := size;
             glyph_width := glyph_width t; glyph_height := glyph_height t;
             glyph_baseline := glyph_baseline t; sheetCount := sheetCount t;
             sheet_size := data_size; sheet_cols := sheet_cols t;
             sheet_rows := sheet_rows t; sheet_width := sheet_width t;
             sheet_height := sheet_height t; sheet_format := sheet_format t;
             sheetOffset := TGLP_DATA_OFFSET; sheets := [] |}) w).
Proof.
  intros (H1 & H2 & H3 & H4 & H5 & H6 & H7 & H8 & H9 & H10) Hs Ho.
  destruct (pack_I_ok o size Hs) as (sz & Hsz & Hlsz & Husz).
  destruct (pack_B_u8 _ H1) as (b1 & Hb1 & Hu1). destruct (pack_B_u8 _ H2) as (b2 & Hb2 & Hu2).
  destruct (pack_B_u8 _ H3) as (b3 & Hb3 & Hu3). destruct (pack_B_u8 _ H4) as (b4 & Hb4 & Hu4).
  destruct (pack_I_ok o _ H5) as (b5 & Hb5 & Hl5 & Hu5).
  destruct (pack_H_ok o _ H6) as (b6 & Hb6 & Hl6 & Hu6).
  destruct (pack_H_ok o _ (format_value_fits (sheet_format t))) as (bf & Hbf & Hlf & Huf).
  destruct (pack_H_ok o _ H7) as (b7 & Hb7 & Hl7 & Hu7).
  destruct (pack_H_ok o _ H8) as (b8 & Hb8 & Hl8 & Hu8).
  destruct (pack_H_ok o _ H9) as (b9 & Hb9 & Hl9 & Hu9).
  destruct (pack_H_ok o _ H10) as (b10 & Hb10 & Hl10 & Hu10).
  destruct (pack_I_ok o TGLP_DATA_OFFSET ltac:(unfold TGLP_DATA_OFFSET; lia))
    as (bo & Hbo & Hlo & Huo).
  unfold tglp_fixed.
  rewrite Hsz, Hb1, Hb2, Hb3, Hb4, Hb5, Hb6, Hbf, Hb7, Hb8, Hb9, Hb10, Hbo.
  cbn [packed]. rewrite <- ?app_assoc.
  unfold _parse_tglp_header, the_order. rewrite Ho. cbn [of_option mbind res_bind].
  rewrite unpack_tglp_header by done. cbn [mbind res_bind].
  rewrite Husz, Hu1, Hu2, Hu3, Hu5, Hu6, Huf, Hu7, Hu8, Hu9, Hu10, Huo.
  rewrite format_of_value_of. cbn [mbind res_bind].
  by rewrite bool_decide_true by done.
Qed.

Lemma head_bytes_length (o : byte_order) (ft : FileType) (version_ : Z) (fi : FontInfo)
    (t : Tglp) (maxCharWidth data_size a b c d e g : Z) :
  0 ≤ version_ < 2 ^ 32 → font_info_ok fi → texture_ok t maxCharWidth data_size →
  0 ≤ a < 2 ^ 32 → 0 ≤ b < 2 ^ 32 → 0 ≤ c < 2 ^ 32 → 0 ≤ d < 2 ^ 32 → 0 ≤ e < 2 ^ 32 →
  0 ≤ g < 2 ^ 32 →
  len (head_bytes o ft version_ fi t maxCharWidth data_size a b c d e g) = 84.
Proof.
  intros Hv Hfi Ht Ha Hb Hc Hd He Hg.
  pose proof (header_fixed_length o ft version_ Hv).
  pose proof (finf_fixed_length o fi Hfi).
  pose proof (tglp_fixed_length o t maxCharWidth data_size Ht).
  destruct (packed_I_length o a Ha) as [_ ?]. destruct (packed_I_length o b Hb) as [_ ?].
  destruct (packed_I_length o c Hc) as [_ ?]. destruct (packed_I_length o d Hd) as [_ ?].
  destruct (packed_I_length o e He) as [_ ?]. destruct (packed_I_length o g Hg) as [_ ?].
  unfold head_bytes, len. rewrite !length_app.
  change (length TGLP_HEADER_MAGIC) with 4%nat. lia.
Qed.

(** [read] on a little-endian file laid out as [save] lays it out, up to
    the decoding of the sheets. *)
Lemma read_written_little (ft : FileType) (version_ : Z) (fi : FontInfo) (t : Tglp)
    (maxCharWidth data_size : Z) (cwdh : CwdhSection) (cmap : CmapSection)
    (l : list (Z * Z)) (n : Z) (mid : list byte) (pos count pad1 pad2 : Z)
    (w0 : World) (fuel : nat) :
  0 ≤ version_ < 2 ^ 32 → version_ ∈ VERSIONS →
  font_info_ok fi → texture_ok t maxCharWidth data_size →
  cwdh_start cwdh = 0 → cwdh_end cwdh = n - 1 → len (cwdh_data cwdh) = n → 1 ≤ n ≤ 65536 →
  Forall kept (cwdh_data cwdh) →
  cmap_type cmap = MAPPING_SCAN → Forall entry_ok l → NoDup l.*1 → len l < 65536 →
  0 ≤ cmap_start cmap < 65536 → 0 ≤ cmap_end cmap < 65536 →
  0 ≤ count → count + 2 < 2 ^ 32 → 0 ≤ pad1 → 0 ≤ pad2 →
  let size1 := 16 + 3 * n + pad1 in
  let pos1 := pos + size1 in
  let size2 := 22 + 4 * len l + pad2 in
  let pos2 := pos1 + size2 in
  pos2 + 8 < 2 ^ 32 → len mid = pos - 84 →
  let data := head_bytes Little ft version_ fi t maxCharWidth data_size
                pos2 (count + 2) 0x3C (pos + 8) (pos1 + 8) (pos - 0x34)
              ++ mid ++ cwdh_section_bytes Little cwdh size1 pad1
              ++ scan_section_bytes Little cmap l size2 pad2 in
  invalid (self w0) = false →
  read (S fuel) data w0
  = _parse_tglp_data data
      (mutate_cmap_sections
         (λ s, s ++ [{| cmap_size := size2; cmap_start := cmap_start cmap;
                        cmap_end := cmap_end cmap; cmap_type := MAPPING_SCAN;
                        cmap_indexOffset := None; cmap_indexTable := None;
                        cmap_entries := Some l |}])
         (mutate_cwdh_sections
            (λ s, s ++ [{| cwdh_start := 0; cwdh_end := n - 1; cwdh_size := size1;
                           cwdh_data := cwdh_data cwdh |}])
            (after_headers Little pos2 version_ ft (count + 2) fi 0x3C (pos + 8) (pos1 + 8)
               (tglp_read_back t (pos - 0x34) data_size) w0))).
Proof.
  intros Hv Hvin Hfi Ht Hstart Hend Hn Hn1 Hkept Htype Hall Hnd Hcount Hcs Hce Hc0 Hc2
    Hpad1 Hpad2 size1 pos1 size2 pos2 Hmax Hmid data Hinv.
  assert (Hn0 : 0 ≤ len l) by (unfold len; lia).
  assert (Hm0 : 0 ≤ len mid) by (unfold len; lia).
  assert (Hs1 : size1 = 16 + 3 * n + pad1) by done.
  assert (Hs2 : size2 = 22 + 4 * len l + pad2) by done.
  assert (Hp1 : pos1 = pos + size1) by done.
  assert (Hp2 : pos2 = pos1 + size2) by done.
  clearbody size1 pos1 size2 pos2.
  set (cwdhB := cwdh_section_bytes Little cwdh size1 pad1) in *.
  set (scanB := scan_section_bytes Little cmap l size2 pad2) in *.
  assert (HlcB : len cwdhB = size1).
  { unfold cwdhB. rewrite cwdh_section_bytes_length; [lia|lia|lia|lia|lia|].
    by apply kept_packable. }
  assert (HlsB : len scanB = size2).
  { unfold scanB. rewrite scan_section_bytes_length; try done; try lia.
    rewrite Htype. unfold MAPPING_SCAN. lia. }
  pose proof (header_fixed_length Little ft version_ Hv) as HlH.
  pose proof (finf_fixed_length Little fi Hfi) as HlF.
  pose proof (tglp_fixed_length Little t maxCharWidth data_size Ht) as HlT.
  destruct (packed_I_length Little pos2 ltac:(lia)) as [_ Hl1].
  destruct (packed_I_length Little (count + 2) ltac:(lia)) as [_ Hl2].
  destruct (packed_I_length Little 0x3C ltac:(lia)) as [_ Hl3].
  destruct (packed_I_length Little (pos + 8) ltac:(lia)) as [_ Hl4].
  destruct (packed_I_length Little (pos1 + 8) ltac:(lia)) as [_ Hl5].
  destruct (packed_I_length Little (pos - 0x34) ltac:(lia)) as [_ Hl6].
  set (HD := header_fixed Little ft version_ ++ packed (pack_I Little pos2)
             ++ packed (pack_I Little (count + 2))).
  set (FD := finf_fixed Little fi ++ packed (pack_I Little 0x3C)
             ++ packed (pack_I Little (pos + 8)) ++ packed (pack_I Little (pos1 + 8))).
  set (TD := TGLP_HEADER_MAGIC ++ packed (pack_I Little (pos - 0x34))
             ++ tglp_fixed Little t maxCharWidth data_size).
  assert (HlHD : len HD = 20) by (unfold HD, len; rewrite !length_app; lia).
  assert (HlFD : len FD = 32) by (unfold FD, len; rewrite !length_app; lia).
  assert (HlTD : len TD = 32).
  { unfold TD, len. rewrite !length_app. change (length TGLP_HEADER_MAGIC) with 4%nat. lia. }
  assert (Hdata : data = HD ++ FD ++ TD ++ mid ++ cwdhB ++ scanB).
  { unfold data, head_bytes, HD, FD, TD. by rewrite <- !app_assoc. }
  assert (Hld : len data = pos2).
  { rewrite Hdata. unfold len in *. rewrite !length_app. lia. }
  assert (HsH : slice data 0 FFNT_HEADER_SIZE = HD).
  { rewrite Hdata. apply (slice_middle [] HD); unfold FFNT_HEADER_SIZE; [done|lia]. }
  assert (HsF : slice data FFNT_HEADER_SIZE (FFNT_HEADER_SIZE + FINF_HEADER_SIZE) = FD).
  { rewrite Hdata. apply slice_middle; unfold FFNT_HEADER_SIZE, FINF_HEADER_SIZE; lia. }
  assert (HsT : slice data (0x3C - 8) (0x3C - 8 + TGLP_HEADER_SIZE) = TD).
  { rewrite Hdata, (app_assoc HD FD). apply slice_middle; unfold TGLP_HEADER_SIZE;
      unfold len in *; rewrite ?length_app; lia. }
  assert (HsC : slice data pos (pos + size1) = cwdhB).
  { rewrite Hdata, (app_assoc TD mid), (app_assoc FD), (app_assoc HD).
    apply slice_middle; unfold len in *; rewrite ?length_app; lia. }
  assert (HsS : slice data pos1 (pos1 + size2) = scanB).
  { rewrite Hdata, (app_assoc mid cwdhB), (app_assoc TD), (app_assoc FD), (app_assoc HD).
    apply slice_app_r; unfold len in *; rewrite ?length_app; lia. }
  clearbody data.
  unfold read. cbv zeta.
  rewrite HsH. unfold HD.
  rewrite parse_header_little; [|lia|lia|lia|done|by destruct w0 as [c []]].
  cbn [mbind res_bind].
  match goal with |- context [invalid (self ?w)] =>
    replace (invalid (self w)) with false by (by destruct w0 as [c []])
  end.
  rewrite HsF. unfold FD.
  rewrite (parse_finf_written Little); [|done|lia|lia|lia|by destruct w0 as [c []]].
  cbn [mbind res_bind].
  match goal with |- context [invalid (self ?w)] =>
    replace (invalid (self w)) with false by (by destruct w0 as [c []])
  end.
  match goal with |- context [tglp_offset (self ?w)] =>
    replace (tglp_offset (self w)) with 0x3C by (by destruct w0 as [c []])
  end.
  rewrite HsT. unfold TD.
  rewrite (parse_tglp_header_written Little); [|done|lia|by destruct w0 as [c []]].
  cbn [mbind res_bind].
  fold (tglp_read_back t (pos - 0x34) data_size).
  fold (after_headers Little (len data) version_ ft (count + 2) fi 0x3C (pos + 8) (pos1 + 8)
          (tglp_read_back t (pos - 0x34) data_size) w0).
  rewrite Hld.
  set (w4 := after_headers Little pos2 version_ ft (count + 2) fi 0x3C (pos + 8) (pos1 + 8)
               (tglp_read_back t (pos - 0x34) data_size) w0).
  assert (Hw4 : invalid (self w4) = false ∧ order (self w4) = Some Little
                ∧ cwdh_offset (self w4) = pos + 8 ∧ cmap_offset (self w4) = pos1 + 8).
  { unfold w4. by destruct w0 as [c []]. }
  destruct Hw4 as (Hi4 & Ho4 & Hcw4 & Hcm4). rewrite Hi4, Hcw4.
  rewrite (read_written_cwdh Little cwdh n size1 pad1 pos data w4 _ fuel);
    [|lia|done|done|lia|done..].
  set (w5 := mutate_cwdh_sections _ w4).
  assert (Hw5 : invalid (self w5) = false ∧ order (self w5) = Some Little
                ∧ cmap_offset (self w5) = pos1 + 8).
  { unfold w5. destruct (self_mutate_cwdh
      (λ s, s ++ [{| cwdh_start := 0; cwdh_end := n - 1; cwdh_size := size1;
                     cwdh_data := cwdh_data cwdh |}]) w4) as (-> & -> & _).
    split; [done|]. split; [done|]. rewrite <- Hcm4. clear.
    by destruct w4 as [c [d o i fs ve ft' se fi' t' cw cm tg [oc|] om]]. }
  destruct Hw5 as (Hi5 & Ho5 & Hcm5). rewrite Hcm5.
  by rewrite (read_written_scan Little cmap l size2 pad2 pos1 data w5 _ fuel);
    [|lia|done|done|lia|done..].
Qed.


(** ** A font saved and read again *)

Lemma parse_tglp_data_no_sheets (data : list byte) (w : World) (tg : Tglp) :
  tglp (self w) = Some tg → sheetCount tg = 0 → sheets tg = [] →
  _parse_tglp_data data w = Ok (on_self (set_tglp tg) w).
Proof.
  intros Ht Hc Hs. unfold _parse_tglp_data. rewrite Ht. cbn [of_option mbind res_bind].
  rewrite Hc. cbn [range seqZ for_each mbind res_bind snd].
  change (seqZ 0 0) with (@nil Z). cbn [for_each mbind res_bind snd].
  do 2 f_equal. destruct tg. cbn in *. by subst.
Qed.

Lemma read_world_fields (o : byte_order) (file_size_ version_ : Z) (ft : FileType)
    (sections_ : Z) (fi : FontInfo) (a b c : Z) (tg tg' : Tglp)
    (f1 : list CwdhSection → list CwdhSection) (f2 : list CmapSection → list CmapSection)
    (w0 : World) :
  let w5 := mutate_cmap_sections f2
              (mutate_cwdh_sections f1
                 (after_headers o file_size_ version_ ft sections_ fi a b c tg w0)) in
  let w := on_self (set_tglp tg') w5 in
  tglp (self w5) = Some tg
  ∧ invalid (self w) = invalid (self w0) ∧ order (self w) = Some o
  ∧ version (self w) = Some version_ ∧ filetype (self w) = Some ft
  ∧ sections (self w) = Some sections_ ∧ font_info (self w) = Some fi
  ∧ tglp (self w) = Some tg'
  ∧ cwdh_sections w = f1 (cwdh_sections w0) ∧ cmap_sections w = f2 (cmap_sections w0).
Proof. by destruct w0 as [c0 [? ? ? ? ? ? ? ? ? ? ? ? [?|] [?|]]]. Qed.

Lemma version_fits (version_ : Z) : version_ ∈ VERSIONS → 0 ≤ version_ < 2 ^ 32.
Proof.
  unfold VERSIONS. intros H. apply elem_of_cons in H as [->|H]; [lia|].
  apply elem_of_cons in H as [->|H]; [lia|]. by apply elem_of_nil in H.
Qed.

(** A font without sheets, with one CWDH section from glyph 0 and one
    Scan section, as [load] builds them, saved in little-endian order and
    read again: [read] accepts the file and finds the version, the file
    type, the font information, the texture information, the widths and
    the entries that were saved, the entries in the order of their code
    points.  (Without sheets the loop over the sheets does nothing, so the
    two parts are the whole of [save].) *)
Theorem little_endian_font_round_trip (ft : FileType) (version_ : Z) (fi : FontInfo)
    (t : Tglp) (maxCharWidth data_size : Z) (cwdh : CwdhSection) (cmap : CmapSection)
    (es : list (Z * Z)) (n : Z) :
  version_ ∈ VERSIONS → font_info_ok fi → texture_ok t maxCharWidth data_size →
  sheetCount t = 0 →
  tglp_data_size (sheet_width t) (sheet_height t) (sheet_format t) = Ok data_size →
  cwdh_start cwdh = 0 → cwdh_end cwdh = n - 1 → len (cwdh_data cwdh) = n → 1 ≤ n ≤ 65536 →
  Forall kept (cwdh_data cwdh) →
  cmap_type cmap = MAPPING_SCAN → cmap_entries cmap = Some es →
  NoDup es.*1 → Forall entry_ok es → len es < 65536 →
  0 ≤ cmap_start cmap < 65536 → 0 ≤ cmap_end cmap < 65536 →
  let size1 := 16 + 3 * n + (TGLP_DATA_OFFSET + 16 + 3 * n) mod 4 in
  let size2 := 22 + 4 * len es + (TGLP_DATA_OFFSET + size1 + 22 + 4 * len es) mod 4 in
  ∃ f0 f,
    save_before_sheets Little ft version_ fi t maxCharWidth = Ok (f0, TGLP_DATA_OFFSET, 2)
    ∧ save_after_sheets Little [cwdh] [cmap] f0 TGLP_DATA_OFFSET 2 = Ok f
    ∧ len (content f) = TGLP_DATA_OFFSET + size1 + size2
    ∧ ∀ (w0 : World) (fuel : nat), invalid (self w0) = false →
        ∃ w, read (S fuel) (content f) w0 = Ok w
          ∧ invalid (self w) = false ∧ order (self w) = Some Little
          ∧ version (self w) = Some version_ ∧ filetype (self w) = Some ft
          ∧ sections (self w) = Some 4 ∧ font_info (self w) = Some fi
          ∧ tglp (self w) = Some (tglp_read_back t (TGLP_DATA_OFFSET - 0x34) data_size)
          ∧ cwdh_sections w
            = cwdh_sections w0 ++ [{| cwdh_start := 0; cwdh_end := n - 1; cwdh_size := size1;
                                      cwdh_data := cwdh_data cwdh |}]
          ∧ cmap_sections w
            = cmap_sections w0
              ++ [{| cmap_size := size2; cmap_start := cmap_start cmap;
                     cmap_end := cmap_end cmap; cmap_type := MAPPING_SCAN;
                     cmap_indexOffset := None; cmap_indexTable := None;
                     cmap_entries := Some (merge_sort by_code es) |}].
Proof.
  intros Hvin Hfi Ht Hsc Hds Hstart Hend Hn Hn1 Hkept Htype Hes Hnd Hall Hcount Hcs Hce
    size1 size2.
  pose proof (version_fits _ Hvin) as Hv.
  pose proof (kept_packable _ Hkept) as Hpack.
  assert (Hn0 : 0 ≤ len es) by (unfold len; lia).
  set (pad1 := (TGLP_DATA_OFFSET + 16 + 3 * n) mod 4) in *.
  set (pad2 := (TGLP_DATA_OFFSET + size1 + 22 + 4 * len es) mod 4) in *.
  assert (Hpad1 : 0 ≤ pad1 < 4) by (apply Z.mod_pos_bound; lia).
  assert (Hpad2 : 0 ≤ pad2 < 4) by (apply Z.mod_pos_bound; lia).
  set (sorted := merge_sort by_code es).
  assert (Hperm : sorted ≡ₚ es) by apply merge_sort_Permutation.
  assert (Hls : len sorted = len es) by (unfold len; by rewrite Hperm).
  assert (Hsall : Forall entry_ok sorted) by (by rewrite Hperm).
  assert (Hsnd : NoDup sorted.*1) by (by rewrite Hperm).
  assert (Hl0 : len (head_bytes Little ft version_ fi t maxCharWidth data_size 0 0 0x3C 0 0 0)
                = 84) by (apply head_bytes_length; (done || lia)).
  eexists _, _. split; [by apply save_before_sheets_written|].
  pose proof (save_after_sheets_written Little ft version_ fi t maxCharWidth data_size
                cwdh cmap es n []
                {| content := head_bytes Little ft version_ fi t maxCharWidth data_size
                                0 0 0x3C 0 0 0;
                   cursor := TGLP_DATA_OFFSET |} TGLP_DATA_OFFSET 2) as Hw.
  cbv zeta in Hw. cbn [content cursor] in Hw. rewrite Hl0 in Hw.
  fold pad1 size1 in Hw. fold pad2 size2 in Hw.
  rewrite Hw; [|done|done|done|by rewrite app_nil_r|done|unfold TGLP_DATA_OFFSET; lia
               |done..|lia|lia|unfold TGLP_DATA_OFFSET, size1, size2 in *; lia].
  clear Hw. split; [reflexivity|]. cbn [content app].
  set (mid := replicate (Z.to_nat (TGLP_DATA_OFFSET - 84)) x00).
  assert (Hlm : len mid = TGLP_DATA_OFFSET - 84).
  { unfold mid, len. rewrite length_replicate. unfold TGLP_DATA_OFFSET. lia. }
  assert (Hz1 : size1 = 16 + 3 * n + pad1) by done.
  assert (Hz2 : size2 = 22 + 4 * len es + pad2) by done.
  assert (Hoff : TGLP_DATA_OFFSET = 0x2000) by done.
  split.
  { assert (Hlh : len (head_bytes Little ft version_ fi t maxCharWidth data_size
                         (TGLP_DATA_OFFSET + size1 + size2) (2 + 2) 0x3C (TGLP_DATA_OFFSET + 8)
                         (TGLP_DATA_OFFSET + size1 + 8) (TGLP_DATA_OFFSET - 0x34)) = 84).
    { apply head_bytes_length; [exact Hv|exact Hfi|exact Ht|..];
        clear - Hz1 Hz2 Hoff Hpad1 Hpad2 Hn1 Hn0 Hcount; lia. }
    assert (H1 : len (cwdh_section_bytes Little cwdh size1 pad1) = size1).
    { rewrite cwdh_section_bytes_length; [| | | | |exact Hpack];
        clear - Hz1 Hpad1 Hn1 Hn Hstart Hend; lia. }
    assert (H2 : len (scan_section_bytes Little cmap sorted size2 pad2) = size2).
    { rewrite scan_section_bytes_length; [| | | | | | |exact Hsall];
        rewrite ?Htype; unfold MAPPING_SCAN;
        clear - Hz2 Hpad2 Hn0 Hcount Hls Hcs Hce; lia. }
    clear - Hlh H1 H2 Hlm. unfold sorted in *. clearbody size1 size2 mid.
    unfold len in *. rewrite !length_app. lia. }
  intros w0 fuel Hinv.
  pose proof (read_written_little ft version_ fi t maxCharWidth data_size cwdh cmap sorted n
                mid TGLP_DATA_OFFSET 2 pad1 pad2 w0 fuel) as Hr.
  cbv zeta in Hr. fold size1 in Hr. rewrite Hls in Hr. fold size2 in Hr.
  fold sorted.
  rewrite Hr; [|done..|lia|lia|lia|lia|unfold TGLP_DATA_OFFSET, size1, size2 in *; lia
               |done|done].
  clear Hr.
  set (tg := tglp_read_back t (TGLP_DATA_OFFSET - 0x34) data_size).
  match goal with |- context [_parse_tglp_data _ (mutate_cmap_sections ?f2 (mutate_cwdh_sections ?f1
      (after_headers ?o ?fs ?v ?ft0 ?sc ?fi0 ?a ?b ?c _ _)))] =>
    destruct (read_world_fields o fs v ft0 sc fi0 a b c tg tg f1 f2 w0)
      as (Htg & Hi & Ho & Hve & Hft & Hse & Hfo & Htg' & Hcw & Hcm)
  end.
  rewrite (parse_tglp_data_no_sheets _ _ tg Htg Hsc eq_refl).
  eexists. split; [reflexivity|].
  rewrite Hi, Hinv. split; [reflexivity|]. repeat (split; [assumption|]). exact Hcm.
Qed.

Lemma little_endian_font_round_trip_witness :
  (0x03000000 ∈ VERSIONS ∧ font_info_ok sample_font_info ∧ texture_ok sample_texture 8 64
   ∧ sheetCount sample_texture = 0
   ∧ tglp_data_size (sheet_width sample_texture) (sheet_height sample_texture)
       (sheet_format sample_texture) = Ok 64
   ∧ cwdh_start (widths_for 3) = 0 ∧ cwdh_end (widths_for 3) = 3 - 1
   ∧ len (cwdh_data (widths_for 3)) = 3 ∧ 1 ≤ 3 ≤ 65536
   ∧ Forall kept (cwdh_data (widths_for 3))
   ∧ cmap_type scan_A = MAPPING_SCAN ∧ cmap_entries scan_A = Some [(0x41, 0)]
   ∧ NoDup [(0x41, 0)].*1 ∧ Forall entry_ok [(0x41, 0)] ∧ len [(0x41, 0)] < 65536
   ∧ 0 ≤ cmap_start scan_A < 65536 ∧ 0 ≤ cmap_end scan_A < 65536)
  ∧ ∃ f0 f,
      save_before_sheets Little ffnt 0x03000000 sample_font_info sample_texture 8
      = Ok (f0, TGLP_DATA_OFFSET, 2)
      ∧ save_after_sheets Little [widths_for 3] [scan_A] f0 TGLP_DATA_OFFSET 2 = Ok f.
Proof.
  assert (Hv : 0x03000000 ∈ VERSIONS) by (by apply (bool_decide_unpack _)).
  assert (Hfi : font_info_ok sample_font_info) by (unfold font_info_ok; cbn; lia).
  assert (Ht : texture_ok sample_texture 8 64) by (unfold texture_ok; cbn; lia).
  assert (Hds : tglp_data_size (sheet_width sample_texture) (sheet_height sample_texture)
                  (sheet_format sample_texture) = Ok 64) by (vm_compute; reflexivity).
  assert (Hk : Forall kept (cwdh_data (widths_for 3))).
  { repeat (apply Forall_cons_2; [unfold kept; cbn; lia|]). apply Forall_nil_2. }
  assert (Hnd : NoDup [(0x41, 0)].*1) by (apply NoDup_singleton).
  assert (Hall : Forall entry_ok [(0x41, 0)]).
  { apply Forall_cons_2; [|apply Forall_nil_2]. unfold entry_ok. cbn. lia. }
  assert (Hs : 0 ≤ cmap_start scan_A < 65536) by (cbn; lia).
  assert (He : 0 ≤ cmap_end scan_A < 65536) by (cbn; lia).
  split.
  { split; [exact Hv|]. split; [exact Hfi|]. split; [exact Ht|]. split; [reflexivity|].
    split; [exact Hds|]. split; [reflexivity|]. split; [reflexivity|]. split; [reflexivity|].
    split; [lia|]. split; [exact Hk|]. split; [reflexivity|]. split; [reflexivity|].
    split; [exact Hnd|]. split; [exact Hall|]. split; [reflexivity|].
    split; [exact Hs|exact He]. }
  destruct (little_endian_font_round_trip ffnt 0x03000000 sample_font_info sample_texture
              8 64 (widths_for 3) scan_A [(0x41, 0)] 3 Hv Hfi Ht eq_refl Hds eq_refl eq_refl
              eq_refl ltac:(lia) Hk eq_refl eq_refl Hnd Hall eq_refl Hs He)
    as (f0 & f & H0 & H1 & _).
  exists f0, f. split; [exact H0|exact H1].
Defined.

Lemma read_rejects_big_header (ft : FileType) (version_ file_size_ sections_ : Z)
    (rest : list byte) (w0 : World) (fuel : nat) :
  0 ≤ version_ < 2 ^ 32 → 0 ≤ file_size_ < 2 ^ 32 → 0 ≤ sections_ < 2 ^ 32 →
  ∃ w, read fuel ((header_fixed Big ft version_ ++ packed (pack_I Big file_size_)
                   ++ packed (pack_I Big sections_)) ++ rest) w0 = Ok w
       ∧ invalid (self w) = true ∧ order (self w) = Some Little.
Proof.
  intros Hv Hf Hs.
  pose proof (header_fixed_length Big ft version_ Hv) as HlH.
  destruct (packed_I_length Big file_size_ Hf) as [_ Hl1].
  destruct (packed_I_length Big sections_ Hs) as [_ Hl2].
  set (HD := header_fixed Big ft version_ ++ packed (pack_I Big file_size_)
             ++ packed (pack_I Big sections_)).
  assert (HlHD : len HD = 20) by (unfold HD, len; rewrite !length_app; lia).
  assert (HsH : slice (HD ++ rest) 0 FFNT_HEADER_SIZE = HD).
  { apply (slice_middle [] HD); unfold FFNT_HEADER_SIZE; [done|lia]. }
  unfold read. cbv zeta. rewrite HsH. unfold HD.
  destruct (parse_header_big ft version_ file_size_ sections_
              (on_self (set_file_size (len (HD ++ rest))) w0) Hv Hf Hs) as (w & Hw & Hi & Ho).
  fold HD in Hw. fold HD. rewrite Hw. cbn [mbind res_bind]. rewrite Hi.
  exists w. done.
Qed.

(** The same font saved in big-endian order.  [save] writes 0xFFFE as the
    byte-order mark of a big-endian file, in big-endian order; [read]
    looks at the mark in big-endian order and takes 0xFFFE for the mark of
    a little-endian file.  It then unpacks the header in little-endian
    order and rejects the file: what [save] writes with ['>'], [read] does
    not read. *)
Theorem big_endian_file_is_rejected (ft : FileType) (version_ : Z) (fi : FontInfo)
    (t : Tglp) (maxCharWidth data_size : Z) (cwdh : CwdhSection) (cmap : CmapSection)
    (es : list (Z * Z)) (n : Z) :
  version_ ∈ VERSIONS → font_info_ok fi → texture_ok t maxCharWidth data_size →
  sheetCount t = 0 →
  tglp_data_size (sheet_width t) (sheet_height t) (sheet_format t) = Ok data_size →
  cwdh_start cwdh = 0 → cwdh_end cwdh = n - 1 → len (cwdh_data cwdh) = n → 1 ≤ n ≤ 65536 →
  Forall packable (cwdh_data cwdh) →
  cmap_type cmap = MAPPING_SCAN → cmap_entries cmap = Some es →
  Forall entry_ok es → len es < 65536 →
  0 ≤ cmap_start cmap < 65536 → 0 ≤ cmap_end cmap < 65536 →
  ∃ f0 f,
    save_before_sheets Big ft version_ fi t maxCharWidth = Ok (f0, TGLP_DATA_OFFSET, 2)
    ∧ save_after_sheets Big [cwdh] [cmap] f0 TGLP_DATA_OFFSET 2 = Ok f
    ∧ ∀ (w0 : World) (fuel : nat),
        ∃ w, read fuel (content f) w0 = Ok w
             ∧ invalid (self w) = true ∧ order (self w) = Some Little.
Proof.
  intros Hvin Hfi Ht Hsc Hds Hstart Hend Hn Hn1 Hpack Htype Hes Hall Hcount Hcs Hce.
  pose proof (version_fits _ Hvin) as Hv.
  assert (Hn0 : 0 ≤ len es) by (unfold len; lia).
  set (pad1 := (TGLP_DATA_OFFSET + 16 + 3 * n) mod 4).
  set (size1 := 16 + 3 * n + pad1).
  set (pad2 := (TGLP_DATA_OFFSET + size1 + 22 + 4 * len es) mod 4).
  set (size2 := 22 + 4 * len es + pad2).
  assert (Hpad1 : 0 ≤ pad1 < 4) by (apply Z.mod_pos_bound; lia).
  assert (Hpad2 : 0 ≤ pad2 < 4) by (apply Z.mod_pos_bound; lia).
  assert (Hz1 : size1 = 16 + 3 * n + pad1) by done.
  assert (Hz2 : size2 = 22 + 4 * len es + pad2) by done.
  assert (Hoff : TGLP_DATA_OFFSET = 0x2000) by done.
  assert (Hl0 : len (head_bytes Big ft version_ fi t maxCharWidth data_size 0 0 0x3C 0 0 0)
                = 84) by (apply head_bytes_length; [exact Hv|exact Hfi|exact Ht|lia..]).
  eexists _, _. split; [by apply save_before_sheets_written|].
  pose proof (save_after_sheets_written Big ft version_ fi t maxCharWidth data_size
                cwdh cmap es n []
                {| content := head_bytes Big ft version_ fi t maxCharWidth data_size
                                0 0 0x3C 0 0 0;
                   cursor := TGLP_DATA_OFFSET |} TGLP_DATA_OFFSET 2) as Hw.
  cbv zeta in Hw. cbn [content cursor] in Hw. rewrite Hl0 in Hw.
  fold pad1 size1 in Hw. fold pad2 size2 in Hw.
  rewrite Hw; [|exact Hv|exact Hfi|exact Ht|by rewrite app_nil_r|reflexivity
               |clear - Hoff; lia
               |exact Hstart|exact Hend|exact Hn|exact Hn1|exact Hpack|exact Htype|exact Hes
               |exact Hall|exact Hcount|exact Hcs|exact Hce|lia|lia
               |clear - Hz1 Hz2 Hoff Hpad1 Hpad2 Hn1 Hn0 Hcount; lia].
  clear Hw. split; [reflexivity|]. cbn [content].
  intros w0 fuel. unfold head_bytes. rewrite <- !app_assoc.
  rewrite (app_assoc (header_fixed Big ft version_)), (app_assoc _ (packed (pack_I Big (2 + 2)))).
  rewrite <- (app_assoc (header_fixed Big ft version_)).
  apply read_rejects_big_header; [exact Hv|..];
    clear - Hz1 Hz2 Hoff Hpad1 Hpad2 Hn1 Hn0 Hcount; lia.
Qed.

Lemma big_endian_file_is_rejected_witness :
  (0x03000000 ∈ VERSIONS ∧ font_info_ok sample_font_info ∧ texture_ok sample_texture 8 64
   ∧ sheetCount sample_texture = 0
   ∧ tglp_data_size (sheet_width sample_texture) (sheet_height sample_texture)
       (sheet_format sample_texture) = Ok 64
   ∧ cwdh_start (widths_for 3) = 0 ∧ cwdh_end (widths_for 3) = 3 - 1
   ∧ len (cwdh_data (widths_for 3)) = 3 ∧ 1 ≤ 3 ≤ 65536
   ∧ Forall packable (cwdh_data (widths_for 3))
   ∧ cmap_type scan_A = MAPPING_SCAN ∧ cmap_entries scan_A = Some [(0x41, 0)]
   ∧ Forall entry_ok [(0x41, 0)] ∧ len [(0x41, 0)] < 65536
   ∧ 0 ≤ cmap_start scan_A < 65536 ∧ 0 ≤ cmap_end scan_A < 65536)
  ∧ ∃ f0 f,
      save_before_sheets Big ffnt 0x03000000 sample_font_info sample_texture 8
      = Ok (f0, TGLP_DATA_OFFSET, 2)
      ∧ save_after_sheets Big [widths_for 3] [scan_A] f0 TGLP_DATA_OFFSET 2 = Ok f.
Proof.
  assert (Hv : 0x03000000 ∈ VERSIONS) by (by apply (bool_decide_unpack _)).
  assert (Hfi : font_info_ok sample_font_info) by (unfold font_info_ok; cbn; lia).
  assert (Ht : texture_ok sample_texture 8 64) by (unfold texture_ok; cbn; lia).
  assert (Hds : tglp_data_size (sheet_width sample_texture) (sheet_height sample_texture)
                  (sheet_format sample_texture) = Ok 64) by (vm_compute; reflexivity).
  assert (Hk : Forall packable (cwdh_data (widths_for 3))).
  { repeat (apply Forall_cons_2; [unfold packable; cbn; lia|]). apply Forall_nil_2. }
  assert (Hall : Forall entry_ok [(0x41, 0)]).
  { apply Forall_cons_2; [|apply Forall_nil_2]. unfold entry_ok. cbn. lia. }
  assert (Hs : 0 ≤ cmap_start scan_A < 65536) by (cbn; lia).
  assert (He : 0 ≤ cmap_end scan_A < 65536) by (cbn; lia).
  split.
  { split; [exact Hv|]. split; [exact Hfi|]. split; [exact Ht|]. split; [reflexivity|].
    split; [exact Hds|]. split; [reflexivity|]. split; [reflexivity|]. split; [reflexivity|].
    split; [lia|]. split; [exact Hk|]. split; [reflexivity|]. split; [reflexivity|].
    split; [exact Hall|]. split; [reflexivity|]. split; [exact Hs|exact He]. }
  destruct (big_endian_file_is_rejected ffnt 0x03000000 sample_font_info sample_texture
              8 64 (widths_for 3) scan_A [(0x41, 0)] 3 Hv Hfi Ht eq_refl Hds eq_refl eq_refl
              eq_refl ltac:(lia) Hk eq_refl eq_refl Hall eq_refl Hs He)
    as (f0 & f & H0 & H1 & _).
  exists f0, f. split; [exact H0|exact H1].
Defined.


(** ** Truncated files and unknown mapping methods *)

Lemma raw_length (n : nat) (bs a rest : list byte) :
  raw n bs = Some (a, rest) → length bs = (n + length rest)%nat.
Proof.
  unfold raw. case_decide as Hn; [|done]. intros [= <- <-].
  rewrite length_drop. lia.
Qed.

Lemma fH_length (o : byte_order) (bs rest : list byte) (v : Z) :
  fH o bs = Some (v, rest) → length bs = (2 + length rest)%nat.
Proof.
  unfold fH, mbind, unpacker_bind. destruct (raw 2 bs) as [[a r]|] eqn:E; [|done].
  intros [= _ <-]. by apply raw_length in E.
Qed.

Lemma fI_length (o : byte_order) (bs rest : list byte) (v : Z) :
  fI o bs = Some (v, rest) → length bs = (4 + length rest)%nat.
Proof.
  unfold fI, mbind, unpacker_bind. destruct (raw 4 bs) as [[a r]|] eqn:E; [|done].
  intros [= _ <-]. by apply raw_length in E.
Qed.

(** The container header unpacks from 20 bytes only. *)
Lemma unpack_ffnt_header_length (o : byte_order) (data : list byte) x :
  unpack (FFNT_HEADER_STRUCT o) data = Ok x → len data = 20.
Proof.
  unfold unpack, FFNT_HEADER_STRUCT.
  unfold mbind at 1, unpacker_bind at 1.
  destruct (raw 4 data) as [[m r1]|] eqn:E1; [|done]. apply raw_length in E1.
  unfold mbind at 1, unpacker_bind at 1.
  destruct (fH o r1) as [[b r2]|] eqn:E2; [|done]. apply fH_length in E2.
  unfold mbind at 1, unpacker_bind at 1.
  destruct (fH o r2) as [[h r3]|] eqn:E3; [|done]. apply fH_length in E3.
  unfold mbind at 1, unpacker_bind at 1.
  destruct (fI o r3) as [[v r4]|] eqn:E4; [|done]. apply fI_length in E4.
  unfold mbind at 1, unpacker_bind at 1.
  destruct (fI o r4) as [[s r5]|] eqn:E5; [|done]. apply fI_length in E5.
  unfold mbind at 1, unpacker_bind at 1.
  destruct (fI o r5) as [[c r6]|] eqn:E6; [|done]. apply fI_length in E6.
  cbn [mret unpacker_ret]. destruct r6; [|done]. intros _. unfold len.
  rewrite E1, E2, E3, E4, E5, E6. reflexivity.
Qed.

Lemma slice_whole {A} (l : list A) (hi : Z) : len l ≤ hi → slice l 0 hi = l.
Proof.
  intros H. unfold slice, slice_bound, len in *.
  rewrite !(bool_decide_false (_ < 0)) by lia.
  rewrite (Z.min_l 0), (Z.min_r hi) by lia.
  change (Z.to_nat 0) with 0%nat. rewrite drop_0. apply firstn_all2. lia.
Qed.

(** A file that is shorter than the container header is never accepted.
    [read] raises [struct.error], when the file has no room for the
    byte-order mark or when the byte order is known and the header does
    not unpack; otherwise, the mark being none of the two and the object
    having no byte order yet, it returns with [invalid] set. *)
Theorem short_file_is_not_accepted (data : list byte) (w0 : World) (fuel : nat) :
  len data < 20 →
  read fuel data w0 = Raise StructError
  ∨ ∃ w, read fuel data w0 = Ok w ∧ invalid (self w) = true
         ∧ 6 ≤ len data ∧ order (self w0) = None.
Proof.
  intros Hlen. unfold read. cbv zeta.
  rewrite slice_whole by (unfold FFNT_HEADER_SIZE; lia).
  set (w1 := on_self (set_file_size (len data)) w0).
  assert (Ho1 : order (self w1) = order (self w0)) by (by destruct w0 as [c []]).
  unfold _parse_header.
  destruct (unpack_from (fH Big) data 4) as [bom| |] eqn:Hbom; cbn [mbind res_bind].
  - assert (H6 : 6 ≤ len data).
    { unfold unpack_from in Hbom. destruct (index_pos data 4) as [j|] eqn:Hj; [|done].
      unfold index_pos in Hj. rewrite (bool_decide_false (4 < 0)) in Hj by lia.
      case_bool_decide; [|done]. injection Hj as <-.
      destruct (fH Big (drop (Z.to_nat 4) data)) as [[v rest]|] eqn:Hf; [|done].
      apply fH_length in Hf. rewrite length_drop in Hf. unfold len in *. lia. }
    set (w2 := if bom =? 65534 then on_self (set_order Little) w1
               else if bom =? 65279 then on_self (set_order Big) w1 else w1).
    destruct (order (self w2)) as [o|] eqn:Ho2; cbv beta iota.
    + left. destruct (unpack (FFNT_HEADER_STRUCT o) data) as [x| |] eqn:Hun.
      * apply unpack_ffnt_header_length in Hun. lia.
      * assert (e = StructError) as ->; [|done].
        unfold unpack in Hun. destruct (FFNT_HEADER_STRUCT o data) as [[? [|]]|]; congruence.
      * unfold unpack in Hun. by destruct (FFNT_HEADER_STRUCT o data) as [[? [|]]|].
    + right. cbn [mbind res_bind]. rewrite invalid_set_invalid. eexists. split; [reflexivity|].
      rewrite invalid_set_invalid. split; [done|]. split; [done|].
      rewrite <- Ho1. unfold w2 in Ho2.
      destruct (bom =? 65534); [by destruct w1 as [c []]|].
      destruct (bom =? 65279); [by destruct w1 as [c []]|done].
  - left. assert (e = StructError) as ->; [|done].
    unfold unpack_from in Hbom. destruct (index_pos data 4); [|congruence].
    destruct (fH Big (drop n data)) as [[? ?]|]; congruence.
  - unfold unpack_from in Hbom. destruct (index_pos data 4); [|done].
    by destruct (fH Big (drop n data)) as [[? ?]|].
Qed.

(** The empty file and a file of six zero bytes. *)
Lemma short_file_is_not_accepted_witness :
  len ([] : list byte) < 20
  ∧ (read 1 [] fresh_world = Raise StructError
     ∨ ∃ w, read 1 [] fresh_world = Ok w ∧ invalid (self w) = true
            ∧ 6 ≤ len ([] : list byte) ∧ order (self fresh_world) = None).
Proof.
  split; [reflexivity|].
  exact (short_file_is_not_accepted [] fresh_world 1 eq_refl).
Defined.

(** With [debug] set, [_parse_cmap_header] prints the name of the mapping
    method, which it looks up in [MAPPING_METHODS]: a method other than
    Direct, Table and Scan raises [KeyError], after the section has been
    appended.  Without [debug] the same header is accepted, and
    [_parse_cmap_data] leaves the section as the header gave it. *)
Theorem unknown_mapping_method (hdr : list byte) (w : World) (o : byte_order)
    (magic : list byte) (size code_begin code_end map_method unknown next : Z) :
  order (self w) = Some o →
  unpack (CMAP_HEADER_STRUCT o) hdr
  = Ok (magic, size, code_begin, code_end, map_method, unknown, next) →
  ¬ known_method map_method →
  _parse_cmap_header hdr w
  = (if debug (self w) then Raise KeyError
     else Ok (next, mutate_cmap_sections
                      (λ l, l ++ [cmap_header_section size code_begin code_end map_method]) w))
  ∧ ∀ data w', _parse_cmap_data (cmap_header_section size code_begin code_end map_method)
                 data w'
               = Ok (cmap_header_section size code_begin code_end map_method).
Proof.
  intros Ho Hhdr Hk. split.
  - unfold _parse_cmap_header, the_order. rewrite Ho. cbn [of_option mbind res_bind].
    rewrite Hhdr. cbn [mbind res_bind].
    destruct (self_mutate_cmap
      (λ l, l ++ [cmap_header_section size code_begin code_end map_method]) w)
      as (_ & _ & Hd).
    unfold cmap_header_section in Hd. rewrite Hd.
    unfold known_method in Hk. rewrite (bool_decide_false _ Hk).
    by destruct (debug (self w)).
  - intros data w'. unfold _parse_cmap_data. cbn [cmap_header_section cmap_type].
    unfold known_method in Hk.
    destruct (map_method =? MAPPING_DIRECT) eqn:H0.
    { exfalso. apply Hk. apply Z.eqb_eq in H0 as ->. by left. }
    destruct (map_method =? MAPPING_TABLE) eqn:H1.
    { exfalso. apply Hk. apply Z.eqb_eq in H1 as ->. right. by left. }
    destruct (map_method =? MAPPING_SCAN) eqn:H2; [|done].
    exfalso. apply Hk. apply Z.eqb_eq in H2 as ->. right. right. by left.
Qed.

(** A header with the mapping method 3. *)
Lemma unknown_mapping_method_witness :
  let hdr := CMAP_HEADER_MAGIC
             ++ bytes_of [0x18; 0; 0; 0; 0x41; 0; 0x41; 0; 3; 0; 0; 0; 0; 0; 0; 0] in
  (order (self little_world) = Some Little
   ∧ unpack (CMAP_HEADER_STRUCT Little) hdr = Ok (CMAP_HEADER_MAGIC, 0x18, 0x41, 0x41, 3, 0, 0)
   ∧ ¬ known_method 3)
  ∧ _parse_cmap_header hdr little_world
    = (if debug (self little_world) then Raise KeyError
       else Ok (0, mutate_cmap_sections
                     (λ l, l ++ [cmap_header_section 0x18 0x41 0x41 3]) little_world)).
Proof.
  intros hdr.
  assert (Hun : unpack (CMAP_HEADER_STRUCT Little) hdr
                = Ok (CMAP_HEADER_MAGIC, 0x18, 0x41, 0x41, 3, 0, 0)) by reflexivity.
  assert (Hk : ¬ known_method 3).
  { unfold known_method. by apply (bool_decide_unpack _). }
  split; [split; [reflexivity|split; [exact Hun|exact Hk]]|].
  exact (proj1 (unknown_mapping_method hdr little_world Little CMAP_HEADER_MAGIC
                  0x18 0x41 0x41 3 0 0 eq_refl Hun Hk)).
Defined.


(** ** The rows of an extracted sheet *)

Lemma channels_slice (ps : list pixel) (k : nat) (p : pixel) :
  ps !! k = Some p →
  slice (mjoin (channels <$> ps)) (4 * Z.of_nat k) (4 * Z.of_nat k + 4) = channels p.
Proof.
  intros Hk. rewrite <- (take_drop_middle ps k p Hk), fmap_app, join_app.
  change (mjoin (channels <$> p :: drop (S k) ps))
    with (channels p ++ mjoin (channels <$> drop (S k) ps)).
  apply slice_middle.
  - rewrite channels_length. pose proof (lookup_lt_Some _ _ _ Hk).
    unfold len. rewrite length_take. lia.
  - by destruct p as [[[r g] b] a].
Qed.

Lemma log2_up_bounds (n : Z) : 1 ≤ n → n ≤ 2 ^ Z.log2_up n.
Proof.
  intros Hn. destruct (decide (n = 1)) as [->|Hne]; [done|].
  apply Z.log2_up_spec. lia.
Qed.

(** [extract] cuts the bitmap of a sheet into rows of [sheet['width']]
    pixels, while [_sheet_to_bitmap] laid it out in rows of that width
    rounded up to a power of two.  The pixel at [(x, y)] of the PNG is the
    pixel [i = x + y * sheet_width] of the bitmap, that is the pixel
    [(i mod width, i / width)] of the decoded image: the pixel at
    [(x, y)] when the width is a power of two, and a skewed image
    otherwise. *)
Theorem extracted_rows_use_the_sheet_width (sheet_width sheet_height : Z) (format_ : Format)
    (sheet_data : list byte) :
  5 ≤ sheet_width < 65536 → 5 ≤ sheet_height < 65536 →
  (8 * len sheet_data) mod format_size format_ = 0 →
  let width := 2 ^ Z.log2_up sheet_width in
  ∃ bmp rows,
    _sheet_to_bitmap sheet_width sheet_height format_ sheet_data = Ok bmp
    ∧ png_rows {| sh_width := sheet_width; sh_height := sheet_height; sh_data := bmp |}
      = Ok rows
    ∧ ∀ x y, 0 ≤ x < sheet_width → 0 ≤ y < sheet_height →
        let i := x + y * sheet_width in
        let slot := offset_of_pixel width (i mod width) (i / width) in
        ∃ p row,
          (if bool_decide (slot * format_size format_ / 8 < len sheet_data)
           then _get_pixel_data format_ sheet_data slot = Ok p
           else p = (0, 0, 0, 0))
          ∧ Py.index rows y = Ok row
          ∧ slice row (4 * x) (4 * x + 4) = channels p
          ∧ (sheet_width = width → slot = offset_of_pixel width x y).
Proof.
  intros Hw Hh Hmod width.
  destruct (sheet_to_bitmap_spec sheet_width sheet_height format_ sheet_data Hw Hh Hmod)
    as (bmp & Hbmp & Hlen & Hpx).
  fold width in Hlen, Hpx.
  set (height := 2 ^ Z.log2_up sheet_height) in *.
  assert (Hww : sheet_width ≤ width) by (apply log2_up_bounds; lia).
  assert (Hhh : sheet_height ≤ height) by (apply log2_up_bounds; lia).
  clearbody width height.
  assert (Hfit : sheet_width * sheet_height ≤ len bmp) by (rewrite Hlen; nia).
  exists bmp. eexists. split; [exact Hbmp|].
  split; [apply png_rows_spec; cbn [sh_width sh_height sh_data]; lia|].
  cbn [sh_width sh_height sh_data].
  intros x y Hx Hy.
  set (i := x + y * sheet_width).
  set (slot := offset_of_pixel width (i mod width) (i / width)).
  assert (Hi : 0 ≤ i < width * height) by (unfold i; nia).
  destruct (row_major width i ltac:(lia) ltac:(lia)) as (Hxm & Hyd & Hsum).
  assert (Hyh : i / width < height).
  { apply Z.div_lt_upper_bound; lia. }
  specialize (Hpx (i mod width) (i / width) Hxm ltac:(lia)).
  cbv zeta in Hpx. fold slot in Hpx. rewrite <- Hsum in Hpx.
  assert (Hp : ∃ p, (if bool_decide (slot * format_size format_ / 8 < len sheet_data)
                     then _get_pixel_data format_ sheet_data slot = Ok p
                     else p = (0, 0, 0, 0))
                    ∧ Py.index bmp i = Ok p).
  { case_bool_decide; [destruct Hpx as (p & H1 & H2); by exists p|by eexists]. }
  destruct Hp as (p & Hdec & Hidx).
  assert (Hl : bmp !! Z.to_nat i = Some p).
  { pose proof (index_in_range bmp i ltac:(lia)) as Hr.
    rewrite bool_decide_true in Hr by lia.
    unfold Py.index, index_pos in Hidx.
    rewrite (bool_decide_false (i < 0)), bool_decide_true in Hidx by lia.
    cbn [mbind option_bind] in Hidx. by destruct (bmp !! Z.to_nat i); inversion Hidx. }
  exists p, (mjoin (channels <$> bmp_row sheet_width bmp y)).
  split; [exact Hdec|]. split; [|split].
  - apply index_nonneg; [lia|]. rewrite list_lookup_fmap.
    rewrite lookup_seqZ_lt by lia. cbn. by rewrite Z2Nat.id by lia.
  - rewrite <- (Z2Nat.id x) by lia. apply channels_slice.
    unfold bmp_row. rewrite lookup_take_lt by lia. rewrite lookup_drop.
    rewrite <- Hl. f_equal. unfold i. nia.
  - intros Heq. unfold slot, i. rewrite Heq.
    rewrite Z.mod_add, Z.div_add by lia.
    rewrite Z.mod_small, Z.div_small by lia. f_equal; lia.
Qed.

(** A sheet of 12 by 8 pixels in format A8, held in 16 x 8 bytes. *)
Lemma extracted_rows_use_the_sheet_width_witness :
  (5 ≤ 12 < 65536 ∧ 5 ≤ 8 < 65536
   ∧ (8 * len (replicate 128 x7f)) mod format_size A8 = 0)
  ∧ ∃ bmp rows,
      _sheet_to_bitmap 12 8 A8 (replicate 128 x7f) = Ok bmp
      ∧ png_rows {| sh_width := 12; sh_height := 8; sh_data := bmp |} = Ok rows.
Proof.
  assert (Hm : (8 * len (replicate 128 x7f)) mod format_size A8 = 0) by reflexivity.
  split; [split; [lia|split; [lia|exact Hm]]|].
  destruct (extracted_rows_use_the_sheet_width 12 8 A8 (replicate 128 x7f)
              ltac:(lia) ltac:(lia) Hm) as (bmp & rows & H1 & H2 & _).
  exists bmp, rows. split; [exact H1|exact H2].
Defined.
